(** * The chttp2 write engine: [writing.c]

    A shallow embedding of [src/core/ext/transport/chttp2/transport/writing.c]:
    [update_list] with its helpers, [grpc_chttp2_begin_write] and
    [grpc_chttp2_end_write], together with the properties of the write path
    that are proved about them.

    Conventions.
    - A [grpc_chttp2_stream *] is a [stream_id]; the transport owns the table
      [streams] from handles to stream structs, and the stream lists hold
      handles, so that two list entries for one stream alias one struct.
    - [int64_t] quantities are integers of [Z]: signed overflow is undefined
      in C, no wrap is modelled for them.  Conversions to unsigned types
      ([uint32_t] casts, [uint64_t] additions) wrap and are written out; the
      [uint32_t] settings are of type [N].
    - The output buffer is the sequence of frames handed to the encoders.
    - The three loops take a number of iterations that is computed from the
      state; that it is enough is proved at the end of the file.

    The first part holds the definitions: the data model, the collaborators
    that [writing.c] calls, the three functions, a driver that interleaves
    passes with credits and caller operations, and what the statements
    observe.  The second part holds the proofs: the properties that the
    specification states, and then further properties of the write path
    that the code shows (the settings, the windows to announce, the size
    and the order of the DATA frames, the references, the completions of
    [grpc_chttp2_end_write], a whole write cycle). *)

From Stdlib Require Import ZArith List Bool Lia Permutation.
From Stdlib Require Import Strings.Byte.
From Stdlib Require Strings.String.
Abbreviation string := String.string.
Import ListNotations.
Open Scope Z_scope.

(** ** Machine arithmetic *)

Module C.

Definition UINT32_MAX : Z := 2 ^ 32 - 1.

Definition to_uint32 (x : Z) : Z := x mod 2 ^ 32.
Definition to_uint64 (x : Z) : Z := x mod 2 ^ 64.
Definition to_int64 (x : Z) : Z := (x + 2 ^ 63) mod 2 ^ 64 - 2 ^ 63.

(** [#define GPR_MIN(a, b) ((a) < (b) ? (a) : (b))] *)
Definition GPR_MIN (a b : Z) : Z := if a <? b then a else b.

End C.

(** ** Data model *)

Definition stream_id := Z.
Definition closure_id := Z.

Inductive grpc_error :=
| GRPC_ERROR_NONE
| GRPC_ERROR_OTHER (msg : string).

Record metadata_batch := { md_elems : list (string * string) }.

(** Modelled from the spec: [grpc_metadata_batch_is_empty] is declared in
    [metadata_batch.h]; a batch is "semantically empty" when it carries no
    element. *)
Definition grpc_metadata_batch_is_empty (b : metadata_batch) : bool :=
  match md_elems b with [] => true | _ :: _ => false end.

Definition GRPC_CHTTP2_NO_ERROR : Z := 0.

(** What the frame encoders are asked to append to the output buffer.
    Modelled from the spec: the encoders ([grpc_chttp2_encode_header],
    [grpc_chttp2_encode_data], [grpc_chttp2_window_update_create],
    [grpc_chttp2_rst_stream_create], [grpc_chttp2_settings_create]) are
    external; each call appends one frame carrying its arguments. *)
Inductive frame :=
| SETTINGS (sent local : list N) (force_mask : Z)
| HEADERS (id : stream_id) (md : metadata_batch) (is_eof : bool)
          (max_frame_size : N)
| DATA (id : stream_id) (payload : list byte) (is_eof : bool)
| WINDOW_UPDATE (id : stream_id) (amount : Z)
| RST_STREAM (id : stream_id) (code : Z).

Record grpc_chttp2_write_cb := {
  call_at_byte : Z;                      (* int64_t *)
  closure : option closure_id            (* grpc_closure * *)
}.

Record grpc_chttp2_stream := {
  refs : Z;                              (* the reference count *)
  sent_initial_metadata : bool;
  sent_trailing_metadata : bool;
  send_initial_metadata : option metadata_batch;
  send_trailing_metadata : option metadata_batch;
  send_initial_metadata_finished : option closure_id;
  send_trailing_metadata_finished : option closure_id;
  fetching_send_message : option Z;
  announce_window : Z;                   (* uint32_t *)
  outgoing_window : Z;                   (* int64_t *)
  flow_controlled_buffer : list byte;
  sending_bytes : Z;                     (* uint64_t *)
  flow_controlled_bytes_written : Z;     (* int64_t *)
  on_write_finished_cbs : list grpc_chttp2_write_cb;
  read_closed : bool;
  write_closed : bool
}.

Record grpc_chttp2_transport := {
  is_client : bool;
  dirtied_local_settings : bool;
  sent_local_settings : bool;
  force_send_settings : Z;               (* uint32_t bit mask *)
  sent_settings : list N;                (* settings[GRPC_SENT_SETTINGS] *)
  local_settings : list N;               (* settings[GRPC_LOCAL_SETTINGS] *)
  peer_header_table_size : N;            (* settings[GRPC_PEER_SETTINGS][..] *)
  acked_max_frame_size : N;              (* settings[GRPC_ACKED_SETTINGS][..] *)
  hpack_max_table_size : N;              (* hpack_compressor *)
  t_outgoing_window : Z;                 (* t->outgoing_window, int64_t *)
  announce_incoming_window : Z;          (* int64_t *)
  outbuf : list frame;
  qbuf : list frame;
  stalled_by_transport : list stream_id;
  writable : list stream_id;
  writing : list stream_id;
  streams : stream_id -> grpc_chttp2_stream;
  write_cb_pool : list grpc_chttp2_write_cb;
  completed : list (closure_id * grpc_error)   (* closures run, in order *)
}.

(** *** Field updates on a stream *)

Module S.

Definition set_refs (s : grpc_chttp2_stream) (v : Z) :=
  {| refs := v;
     sent_initial_metadata := sent_initial_metadata s;
     sent_trailing_metadata := sent_trailing_metadata s;
     send_initial_metadata := send_initial_metadata s;
     send_trailing_metadata := send_trailing_metadata s;
     send_initial_metadata_finished := send_initial_metadata_finished s;
     send_trailing_metadata_finished := send_trailing_metadata_finished s;
     fetching_send_message := fetching_send_message s;
     announce_window := announce_window s;
     outgoing_window := outgoing_window s;
     flow_controlled_buffer := flow_controlled_buffer s;
     sending_bytes := sending_bytes s;
     flow_controlled_bytes_written := flow_controlled_bytes_written s;
     on_write_finished_cbs := on_write_finished_cbs s;
     read_closed := read_closed s;
     write_closed := write_closed s |}.

Definition set_sent_initial_metadata (s : grpc_chttp2_stream) (v : bool) :=
  {| refs := refs s;
     sent_initial_metadata := v;
     sent_trailing_metadata := sent_trailing_metadata s;
     send_initial_metadata := send_initial_metadata s;
     send_trailing_metadata := send_trailing_metadata s;
     send_initial_metadata_finished := send_initial_metadata_finished s;
     send_trailing_metadata_finished := send_trailing_metadata_finished s;
     fetching_send_message := fetching_send_message s;
     announce_window := announce_window s;
     outgoing_window := outgoing_window s;
     flow_controlled_buffer := flow_controlled_buffer s;
     sending_bytes := sending_bytes s;
     flow_controlled_bytes_written := flow_controlled_bytes_written s;
     on_write_finished_cbs := on_write_finished_cbs s;
     read_closed := read_closed s;
     write_closed := write_closed s |}.

Definition set_sent_trailing_metadata (s : grpc_chttp2_stream) (v : bool) :=
  {| refs := refs s;
     sent_initial_metadata := sent_initial_metadata s;
     sent_trailing_metadata := v;
     send_initial_metadata := send_initial_metadata s;
     send_trailing_metadata := send_trailing_metadata s;
     send_initial_metadata_finished := send_initial_metadata_finished s;
     send_trailing_metadata_finished := send_trailing_metadata_finished s;
     fetching_send_message := fetching_send_message s;
     announce_window := announce_window s;
     outgoing_window := outgoing_window s;
     flow_controlled_buffer := flow_controlled_buffer s;
     sending_bytes := sending_bytes s;
     flow_controlled_bytes_written := flow_controlled_bytes_written s;
     on_write_finished_cbs := on_write_finished_cbs s;
     read_closed := read_closed s;
     write_closed := write_closed s |}.

Definition set_send_initial_metadata (s : grpc_chttp2_stream)
    (v : option metadata_batch) :=
  {| refs := refs s;
     sent_initial_metadata := sent_initial_metadata s;
     sent_trailing_metadata := sent_trailing_metadata s;
     send_initial_metadata := v;
     send_trailing_metadata := send_trailing_metadata s;
     send_initial_metadata_finished := send_initial_metadata_finished s;
     send_trailing_metadata_finished := send_trailing_metadata_finished s;
     fetching_send_message := fetching_send_message s;
     announce_window := announce_window s;
     outgoing_window := outgoing_window s;
     flow_controlled_buffer := flow_controlled_buffer s;
     sending_bytes := sending_bytes s;
     flow_controlled_bytes_written := flow_controlled_bytes_written s;
     on_write_finished_cbs := on_write_finished_cbs s;
     read_closed := read_closed s;
     write_closed := write_closed s |}.

Definition set_send_trailing_metadata (s : grpc_chttp2_stream)
    (v : option metadata_batch) :=
  {| refs := refs s;
     sent_initial_metadata := sent_initial_metadata s;
     sent_trailing_metadata := sent_trailing_metadata s;
     send_initial_metadata := send_initial_metadata s;
     send_trailing_metadata := v;
     send_initial_metadata_finished := send_initial_metadata_finished s;
     send_trailing_metadata_finished := send_trailing_metadata_finished s;
     fetching_send_message := fetching_send_message s;
     announce_window := announce_window s;
     outgoing_window := outgoing_window s;
     flow_controlled_buffer := flow_controlled_buffer s;
     sending_bytes := sending_bytes s;
     flow_controlled_bytes_written := flow_controlled_bytes_written s;
     on_write_finished_cbs := on_write_finished_cbs s;
     read_closed := read_closed s;
     write_closed := write_closed s |}.

Definition set_send_initial_metadata_finished (s : grpc_chttp2_stream)
    (v : option closure_id) :=
  {| refs := refs s;
     sent_initial_metadata := sent_initial_metadata s;
     sent_trailing_metadata := sent_trailing_metadata s;
     send_initial_metadata := send_initial_metadata s;
     send_trailing_metadata := send_trailing_metadata s;
     send_initial_metadata_finished := v;
     send_trailing_metadata_finished := send_trailing_metadata_finished s;
     fetching_send_message := fetching_send_message s;
     announce_window := announce_window s;
     outgoing_window := outgoing_window s;
     flow_controlled_buffer := flow_controlled_buffer s;
     sending_bytes := sending_bytes s;
     flow_controlled_bytes_written := flow_controlled_bytes_written s;
     on_write_finished_cbs := on_write_finished_cbs s;
     read_closed := read_closed s;
     write_closed := write_closed s |}.

Definition set_send_trailing_metadata_finished (s : grpc_chttp2_stream)
    (v : option closure_id) :=
  {| refs := refs s;
     sent_initial_metadata := sent_initial_metadata s;
     sent_trailing_metadata := sent_trailing_metadata s;
     send_initial_metadata := send_initial_metadata s;
     send_trailing_metadata := send_trailing_metadata s;
     send_initial_metadata_finished := send_initial_metadata_finished s;
     send_trailing_metadata_finished := v;
     fetching_send_message := fetching_send_message s;
     announce_window := announce_window s;
     outgoing_window := outgoing_window s;
     flow_controlled_buffer := flow_controlled_buffer s;
     sending_bytes := sending_bytes s;
     flow_controlled_bytes_written := flow_controlled_bytes_written s;
     on_write_finished_cbs := on_write_finished_cbs s;
     read_closed := read_closed s;
     write_closed := write_closed s |}.

Definition set_announce_window (s : grpc_chttp2_stream) (v : Z) :=
  {| refs := refs s;
     sent_initial_metadata := sent_initial_metadata s;
     sent_trailing_metadata := sent_trailing_metadata s;
     send_initial_metadata := send_initial_metadata s;
     send_trailing_metadata := send_trailing_metadata s;
     send_initial_metadata_finished := send_initial_metadata_finished s;
     send_trailing_metadata_finished := send_trailing_metadata_finished s;
     fetching_send_message := fetching_send_message s;
     announce_window := v;
     outgoing_window := outgoing_window s;
     flow_controlled_buffer := flow_controlled_buffer s;
     sending_bytes := sending_bytes s;
     flow_controlled_bytes_written := flow_controlled_bytes_written s;
     on_write_finished_cbs := on_write_finished_cbs s;
     read_closed := read_closed s;
     write_closed := write_closed s |}.

Definition set_outgoing_window (s : grpc_chttp2_stream) (v : Z) :=
  {| refs := refs s;
     sent_initial_metadata := sent_initial_metadata s;
     sent_trailing_metadata := sent_trailing_metadata s;
     send_initial_metadata := send_initial_metadata s;
     send_trailing_metadata := send_trailing_metadata s;
     send_initial_metadata_finished := send_initial_metadata_finished s;
     send_trailing_metadata_finished := send_trailing_metadata_finished s;
     fetching_send_message := fetching_send_message s;
     announce_window := announce_window s;
     outgoing_window := v;
     flow_controlled_buffer := flow_controlled_buffer s;
     sending_bytes := sending_bytes s;
     flow_controlled_bytes_written := flow_controlled_bytes_written s;
     on_write_finished_cbs := on_write_finished_cbs s;
     read_closed := read_closed s;
     write_closed := write_closed s |}.

Definition set_flow_controlled_buffer (s : grpc_chttp2_stream)
    (v : list byte) :=
  {| refs := refs s;
     sent_initial_metadata := sent_initial_metadata s;
     sent_trailing_metadata := sent_trailing_metadata s;
     send_initial_metadata := send_initial_metadata s;
     send_trailing_metadata := send_trailing_metadata s;
     send_initial_metadata_finished := send_initial_metadata_finished s;
     send_trailing_metadata_finished := send_trailing_metadata_finished s;
     fetching_send_message := fetching_send_message s;
     announce_window := announce_window s;
     outgoing_window := outgoing_window s;
     flow_controlled_buffer := v;
     sending_bytes := sending_bytes s;
     flow_controlled_bytes_written := flow_controlled_bytes_written s;
     on_write_finished_cbs := on_write_finished_cbs s;
     read_closed := read_closed s;
     write_closed := write_closed s |}.

Definition set_sending_bytes (s : grpc_chttp2_stream) (v : Z) :=
  {| refs := refs s;
     sent_initial_metadata := sent_initial_metadata s;
     sent_trailing_metadata := sent_trailing_metadata s;
     send_initial_metadata := send_initial_metadata s;
     send_trailing_metadata := send_trailing_metadata s;
     send_initial_metadata_finished := send_initial_metadata_finished s;
     send_trailing_metadata_finished := send_trailing_metadata_finished s;
     fetching_send_message := fetching_send_message s;
     announce_window := announce_window s;
     outgoing_window := outgoing_window s;
     flow_controlled_buffer := flow_controlled_buffer s;
     sending_bytes := v;
     flow_controlled_bytes_written := flow_controlled_bytes_written s;
     on_write_finished_cbs := on_write_finished_cbs s;
     read_closed := read_closed s;
     write_closed := write_closed s |}.

Definition set_flow_controlled_bytes_written (s : grpc_chttp2_stream)
    (v : Z) :=
  {| refs := refs s;
     sent_initial_metadata := sent_initial_metadata s;
     sent_trailing_metadata := sent_trailing_metadata s;
     send_initial_metadata := send_initial_metadata s;
     send_trailing_metadata := send_trailing_metadata s;
     send_initial_metadata_finished := send_initial_metadata_finished s;
     send_trailing_metadata_finished := send_trailing_metadata_finished s;
     fetching_send_message := fetching_send_message s;
     announce_window := announce_window s;
     outgoing_window := outgoing_window s;
     flow_controlled_buffer := flow_controlled_buffer s;
     sending_bytes := sending_bytes s;
     flow_controlled_bytes_written := v;
     on_write_finished_cbs := on_write_finished_cbs s;
     read_closed := read_closed s;
     write_closed := write_closed s |}.

Definition set_on_write_finished_cbs (s : grpc_chttp2_stream)
    (v : list grpc_chttp2_write_cb) :=
  {| refs := refs s;
     sent_initial_metadata := sent_initial_metadata s;
     sent_trailing_metadata := sent_trailing_metadata s;
     send_initial_metadata := send_initial_metadata s;
     send_trailing_metadata := send_trailing_metadata s;
     send_initial_metadata_finished := send_initial_metadata_finished s;
     send_trailing_metadata_finished := send_trailing_metadata_finished s;
     fetching_send_message := fetching_send_message s;
     announce_window := announce_window s;
     outgoing_window := outgoing_window s;
     flow_controlled_buffer := flow_controlled_buffer s;
     sending_bytes := sending_bytes s;
     flow_controlled_bytes_written := flow_controlled_bytes_written s;
     on_write_finished_cbs := v;
     read_closed := read_closed s;
     write_closed := write_closed s |}.

Definition set_closed (s : grpc_chttp2_stream) (r w : bool) :=
  {| refs := refs s;
     sent_initial_metadata := sent_initial_metadata s;
     sent_trailing_metadata := sent_trailing_metadata s;
     send_initial_metadata := send_initial_metadata s;
     send_trailing_metadata := send_trailing_metadata s;
     send_initial_metadata_finished := send_initial_metadata_finished s;
     send_trailing_metadata_finished := send_trailing_metadata_finished s;
     fetching_send_message := fetching_send_message s;
     announce_window := announce_window s;
     outgoing_window := outgoing_window s;
     flow_controlled_buffer := flow_controlled_buffer s;
     sending_bytes := sending_bytes s;
     flow_controlled_bytes_written := flow_controlled_bytes_written s;
     on_write_finished_cbs := on_write_finished_cbs s;
     read_closed := r;
     write_closed := w |}.

End S.

(** *** Field updates on the transport *)

Module T.

Definition set_hpack_max_table_size (t : grpc_chttp2_transport)
    (v : N) :=
  {| is_client := is_client t;
     dirtied_local_settings := dirtied_local_settings t;
     sent_local_settings := sent_local_settings t;
     force_send_settings := force_send_settings t;
     sent_settings := sent_settings t;
     local_settings := local_settings t;
     peer_header_table_size := peer_header_table_size t;
     acked_max_frame_size := acked_max_frame_size t;
     hpack_max_table_size := v;
     t_outgoing_window := t_outgoing_window t;
     announce_incoming_window := announce_incoming_window t;
     outbuf := outbuf t;
     qbuf := qbuf t;
     stalled_by_transport := stalled_by_transport t;
     writable := writable t;
     writing := writing t;
     streams := streams t;
     write_cb_pool := write_cb_pool t;
     completed := completed t |}.

Definition set_t_outgoing_window (t : grpc_chttp2_transport)
    (v : Z) :=
  {| is_client := is_client t;
     dirtied_local_settings := dirtied_local_settings t;
     sent_local_settings := sent_local_settings t;
     force_send_settings := force_send_settings t;
     sent_settings := sent_settings t;
     local_settings := local_settings t;
     peer_header_table_size := peer_header_table_size t;
     acked_max_frame_size := acked_max_frame_size t;
     hpack_max_table_size := hpack_max_table_size t;
     t_outgoing_window := v;
     announce_incoming_window := announce_incoming_window t;
     outbuf := outbuf t;
     qbuf := qbuf t;
     stalled_by_transport := stalled_by_transport t;
     writable := writable t;
     writing := writing t;
     streams := streams t;
     write_cb_pool := write_cb_pool t;
     completed := completed t |}.

Definition set_announce_incoming_window (t : grpc_chttp2_transport)
    (v : Z) :=
  {| is_client := is_client t;
     dirtied_local_settings := dirtied_local_settings t;
     sent_local_settings := sent_local_settings t;
     force_send_settings := force_send_settings t;
     sent_settings := sent_settings t;
     local_settings := local_settings t;
     peer_header_table_size := peer_header_table_size t;
     acked_max_frame_size := acked_max_frame_size t;
     hpack_max_table_size := hpack_max_table_size t;
     t_outgoing_window := t_outgoing_window t;
     announce_incoming_window := v;
     outbuf := outbuf t;
     qbuf := qbuf t;
     stalled_by_transport := stalled_by_transport t;
     writable := writable t;
     writing := writing t;
     streams := streams t;
     write_cb_pool := write_cb_pool t;
     completed := completed t |}.

Definition set_outbuf (t : grpc_chttp2_transport)
    (v : list frame) :=
  {| is_client := is_client t;
     dirtied_local_settings := dirtied_local_settings t;
     sent_local_settings := sent_local_settings t;
     force_send_settings := force_send_settings t;
     sent_settings := sent_settings t;
     local_settings := local_settings t;
     peer_header_table_size := peer_header_table_size t;
     acked_max_frame_size := acked_max_frame_size t;
     hpack_max_table_size := hpack_max_table_size t;
     t_outgoing_window := t_outgoing_window t;
     announce_incoming_window := announce_incoming_window t;
     outbuf := v;
     qbuf := qbuf t;
     stalled_by_transport := stalled_by_transport t;
     writable := writable t;
     writing := writing t;
     streams := streams t;
     write_cb_pool := write_cb_pool t;
     completed := completed t |}.

Definition set_qbuf (t : grpc_chttp2_transport)
    (v : list frame) :=
  {| is_client := is_client t;
     dirtied_local_settings := dirtied_local_settings t;
     sent_local_settings := sent_local_settings t;
     force_send_settings := force_send_settings t;
     sent_settings := sent_settings t;
     local_settings := local_settings t;
     peer_header_table_size := peer_header_table_size t;
     acked_max_frame_size := acked_max_frame_size t;
     hpack_max_table_size := hpack_max_table_size t;
     t_outgoing_window := t_outgoing_window t;
     announce_incoming_window := announce_incoming_window t;
     outbuf := outbuf t;
     qbuf := v;
     stalled_by_transport := stalled_by_transport t;
     writable := writable t;
     writing := writing t;
     streams := streams t;
     write_cb_pool := write_cb_pool t;
     completed := completed t |}.

Definition set_stalled_by_transport (t : grpc_chttp2_transport)
    (v : list stream_id) :=
  {| is_client := is_client t;
     dirtied_local_settings := dirtied_local_settings t;
     sent_local_settings := sent_local_settings t;
     force_send_settings := force_send_settings t;
     sent_settings := sent_settings t;
     local_settings := local_settings t;
     peer_header_table_size := peer_header_table_size t;
     acked_max_frame_size := acked_max_frame_size t;
     hpack_max_table_size := hpack_max_table_size t;
     t_outgoing_window := t_outgoing_window t;
     announce_incoming_window := announce_incoming_window t;
     outbuf := outbuf t;
     qbuf := qbuf t;
     stalled_by_transport := v;
     writable := writable t;
     writing := writing t;
     streams := streams t;
     write_cb_pool := write_cb_pool t;
     completed := completed t |}.

Definition set_writable (t : grpc_chttp2_transport)
    (v : list stream_id) :=
  {| is_client := is_client t;
     dirtied_local_settings := dirtied_local_settings t;
     sent_local_settings := sent_local_settings t;
     force_send_settings := force_send_settings t;
     sent_settings := sent_settings t;
     local_settings := local_settings t;
     peer_header_table_size := peer_header_table_size t;
     acked_max_frame_size := acked_max_frame_size t;
     hpack_max_table_size := hpack_max_table_size t;
     t_outgoing_window := t_outgoing_window t;
     announce_incoming_window := announce_incoming_window t;
     outbuf := outbuf t;
     qbuf := qbuf t;
     stalled_by_transport := stalled_by_transport t;
     writable := v;
     writing := writing t;
     streams := streams t;
     write_cb_pool := write_cb_pool t;
     completed := completed t |}.

Definition set_writing (t : grpc_chttp2_transport)
    (v : list stream_id) :=
  {| is_client := is_client t;
     dirtied_local_settings := dirtied_local_settings t;
     sent_local_settings := sent_local_settings t;
     force_send_settings := force_send_settings t;
     sent_settings := sent_settings t;
     local_settings := local_settings t;
     peer_header_table_size := peer_header_table_size t;
     acked_max_frame_size := acked_max_frame_size t;
     hpack_max_table_size := hpack_max_table_size t;
     t_outgoing_window := t_outgoing_window t;
     announce_incoming_window := announce_incoming_window t;
     outbuf := outbuf t;
     qbuf := qbuf t;
     stalled_by_transport := stalled_by_transport t;
     writable := writable t;
     writing := v;
     streams := streams t;
     write_cb_pool := write_cb_pool t;
     completed := completed t |}.

Definition set_streams (t : grpc_chttp2_transport)
    (v : stream_id -> grpc_chttp2_stream) :=
  {| is_client := is_client t;
     dirtied_local_settings := dirtied_local_settings t;
     sent_local_settings := sent_local_settings t;
     force_send_settings := force_send_settings t;
     sent_settings := sent_settings t;
     local_settings := local_settings t;
     peer_header_table_size := peer_header_table_size t;
     acked_max_frame_size := acked_max_frame_size t;
     hpack_max_table_size := hpack_max_table_size t;
     t_outgoing_window := t_outgoing_window t;
     announce_incoming_window := announce_incoming_window t;
     outbuf := outbuf t;
     qbuf := qbuf t;
     stalled_by_transport := stalled_by_transport t;
     writable := writable t;
     writing := writing t;
     streams := v;
     write_cb_pool := write_cb_pool t;
     completed := completed t |}.

Definition set_write_cb_pool (t : grpc_chttp2_transport)
    (v : list grpc_chttp2_write_cb) :=
  {| is_client := is_client t;
     dirtied_local_settings := dirtied_local_settings t;
     sent_local_settings := sent_local_settings t;
     force_send_settings := force_send_settings t;
     sent_settings := sent_settings t;
     local_settings := local_settings t;
     peer_header_table_size := peer_header_table_size t;
     acked_max_frame_size := acked_max_frame_size t;
     hpack_max_table_size := hpack_max_table_size t;
     t_outgoing_window := t_outgoing_window t;
     announce_incoming_window := announce_incoming_window t;
     outbuf := outbuf t;
     qbuf := qbuf t;
     stalled_by_transport := stalled_by_transport t;
     writable := writable t;
     writing := writing t;
     streams := streams t;
     write_cb_pool := v;
     completed := completed t |}.

Definition set_completed (t : grpc_chttp2_transport)
    (v : list (closure_id * grpc_error)) :=
  {| is_client := is_client t;
     dirtied_local_settings := dirtied_local_settings t;
     sent_local_settings := sent_local_settings t;
     force_send_settings := force_send_settings t;
     sent_settings := sent_settings t;
     local_settings := local_settings t;
     peer_header_table_size := peer_header_table_size t;
     acked_max_frame_size := acked_max_frame_size t;
     hpack_max_table_size := hpack_max_table_size t;
     t_outgoing_window := t_outgoing_window t;
     announce_incoming_window := announce_incoming_window t;
     outbuf := outbuf t;
     qbuf := qbuf t;
     stalled_by_transport := stalled_by_transport t;
     writable := writable t;
     writing := writing t;
     streams := streams t;
     write_cb_pool := write_cb_pool t;
     completed := v |}.

Definition set_settings_sent (t : grpc_chttp2_transport) :=
  {| is_client := is_client t;
     dirtied_local_settings := false;
     sent_local_settings := true;
     force_send_settings := 0;
     sent_settings := sent_settings t;
     local_settings := local_settings t;
     peer_header_table_size := peer_header_table_size t;
     acked_max_frame_size := acked_max_frame_size t;
     hpack_max_table_size := hpack_max_table_size t;
     t_outgoing_window := t_outgoing_window t;
     announce_incoming_window := announce_incoming_window t;
     outbuf := outbuf t;
     qbuf := qbuf t;
     stalled_by_transport := stalled_by_transport t;
     writable := writable t;
     writing := writing t;
     streams := streams t;
     write_cb_pool := write_cb_pool t;
     completed := completed t |}.

End T.

(** ** Collaborators of [writing.c]

    The helpers below are declared in [internal.h] and defined in other files
    of the transport; each is modelled from the contract the specification
    gives for it. *)

Definition set_stream (t : grpc_chttp2_transport) (id : stream_id)
    (s : grpc_chttp2_stream) : grpc_chttp2_transport :=
  T.set_streams t (fun i => if i =? id then s else streams t i).

(** [grpc_slice_buffer_add (&t->outbuf, frame)] *)
Definition grpc_slice_buffer_add (out : list frame) (f : frame) : list frame :=
  out ++ [f].

(** Modelled from the spec: [GRPC_CHTTP2_STREAM_REF] and
    [GRPC_CHTTP2_STREAM_UNREF] are macros of [internal.h]; "acquire" and
    "release" of one reference on the stream. *)
Definition GRPC_CHTTP2_STREAM_REF (s : grpc_chttp2_stream) :=
  S.set_refs s (refs s + 1).
Definition GRPC_CHTTP2_STREAM_UNREF (s : grpc_chttp2_stream) :=
  S.set_refs s (refs s - 1).

(** Modelled from the spec: the stream lists live in [stream_lists.c].
    [pop_*] takes the head, [add_*] appends at the tail and "returns false
    if already present"; [leave_all_lists] is the "idempotent removal from
    whichever lists the stream is in". *)
Definition list_mem (id : stream_id) (l : list stream_id) : bool :=
  existsb (Z.eqb id) l.

Definition stream_list_add (l : list stream_id) (id : stream_id)
    : bool * list stream_id :=
  if list_mem id l then (false, l) else (true, l ++ [id]).

Definition stream_list_remove (l : list stream_id) (id : stream_id)
    : list stream_id :=
  filter (fun i => negb (i =? id)) l.

Definition grpc_chttp2_list_pop_writable_stream (t : grpc_chttp2_transport)
    : option (stream_id * grpc_chttp2_transport) :=
  match writable t with
  | [] => None
  | id :: rest => Some (id, T.set_writable t rest)
  end.

Definition grpc_chttp2_list_add_writable_stream (t : grpc_chttp2_transport)
    (id : stream_id) : bool * grpc_chttp2_transport :=
  let r := stream_list_add (writable t) id in
  (fst r, T.set_writable t (snd r)).

Definition grpc_chttp2_list_pop_writing_stream (t : grpc_chttp2_transport)
    : option (stream_id * grpc_chttp2_transport) :=
  match writing t with
  | [] => None
  | id :: rest => Some (id, T.set_writing t rest)
  end.

Definition grpc_chttp2_list_add_writing_stream (t : grpc_chttp2_transport)
    (id : stream_id) : bool * grpc_chttp2_transport :=
  let r := stream_list_add (writing t) id in
  (fst r, T.set_writing t (snd r)).

Definition grpc_chttp2_list_pop_stalled_by_transport
    (t : grpc_chttp2_transport)
    : option (stream_id * grpc_chttp2_transport) :=
  match stalled_by_transport t with
  | [] => None
  | id :: rest => Some (id, T.set_stalled_by_transport t rest)
  end.

Definition grpc_chttp2_list_add_stalled_by_transport
    (t : grpc_chttp2_transport) (id : stream_id) : grpc_chttp2_transport :=
  T.set_stalled_by_transport t
    (snd (stream_list_add (stalled_by_transport t) id)).

Definition grpc_chttp2_leave_writing_lists (t : grpc_chttp2_transport)
    (id : stream_id) : grpc_chttp2_transport :=
  T.set_writing
    (T.set_writable
       (T.set_stalled_by_transport t
          (stream_list_remove (stalled_by_transport t) id))
       (stream_list_remove (writable t) id))
    (stream_list_remove (writing t) id).

(** Modelled from the spec: [grpc_chttp2_become_writable] is defined in
    [chttp2_transport.c]; a stalled stream is "moved, not duplicated" onto
    the writable list. *)
Definition grpc_chttp2_become_writable (t : grpc_chttp2_transport)
    (id : stream_id) : grpc_chttp2_transport :=
  snd (grpc_chttp2_list_add_writable_stream t id).

(** Modelled from the spec: [grpc_chttp2_complete_closure_step] is defined
    in [chttp2_transport.c]; it "fires a caller-supplied continuation at most
    once": a pending closure is run with the outcome and the slot is
    cleared, an empty slot is left alone. *)
Definition grpc_chttp2_complete_closure_step (t : grpc_chttp2_transport)
    (pclosure : option closure_id) (error : grpc_error)
    : grpc_chttp2_transport * option closure_id :=
  match pclosure with
  | None => (t, None)
  | Some c => (T.set_completed t (completed t ++ [(c, error)]), None)
  end.

(** Modelled from the spec: [grpc_chttp2_mark_stream_closed] is defined in
    [chttp2_transport.c]; it closes the requested sides of the stream. *)
Definition grpc_chttp2_mark_stream_closed (s : grpc_chttp2_stream)
    (close_reads close_writes : bool) : grpc_chttp2_stream :=
  S.set_closed s (read_closed s || close_reads)
                 (write_closed s || close_writes).

(** Modelled from the spec: [encode_data (stream_id, buffer, n_bytes,
    is_last, stats)] moves the first [n_bytes] of the buffer into one DATA
    frame appended to the output. *)
Definition grpc_chttp2_encode_data (id : stream_id) (inbuf : list byte)
    (write_bytes : Z) (is_eof : bool) (out : list frame)
    : list byte * list frame :=
  (skipn (Z.to_nat write_bytes) inbuf,
   out ++ [DATA id (firstn (Z.to_nat write_bytes) inbuf) is_eof]).

(** Modelled from the spec: [encode_header (compressor, stream_id, metadata,
    is_trailer, max_frame_size, stats)] appends the header block of one
    metadata batch. *)
Definition grpc_chttp2_encode_header (id : stream_id) (md : metadata_batch)
    (is_eof : bool) (max_frame_size : N) (out : list frame) : list frame :=
  out ++ [HEADERS id md is_eof max_frame_size].

(** ** [update_list] and its helpers (lines 43-74) *)

Definition add_to_write_list (head : list grpc_chttp2_write_cb)
    (cb : grpc_chttp2_write_cb) : list grpc_chttp2_write_cb :=
  cb :: head.

Definition finish_write_cb (t : grpc_chttp2_transport)
    (cb : grpc_chttp2_write_cb) (error : grpc_error)
    : grpc_chttp2_transport :=
  let r := grpc_chttp2_complete_closure_step t (closure cb) error in
  T.set_write_cb_pool (fst r)
    ({| call_at_byte := call_at_byte cb; closure := snd r |}
       :: write_cb_pool (fst r)).

(** The [while (cb)] loop: [cb] walks the chain that was detached from
    [*list], [head] is the chain being rebuilt in [*list]. *)
Fixpoint update_list_loop (written : Z) (error : grpc_error)
    (cb : list grpc_chttp2_write_cb) (t : grpc_chttp2_transport)
    (head : list grpc_chttp2_write_cb)
    : grpc_chttp2_transport * list grpc_chttp2_write_cb :=
  match cb with
  | [] => (t, head)
  | c :: next =>
      if call_at_byte c <=? written
      then update_list_loop written error next (finish_write_cb t c error) head
      else update_list_loop written error next t (add_to_write_list head c)
  end.

Definition update_list (t : grpc_chttp2_transport) (s : grpc_chttp2_stream)
    (send_bytes : Z) (cbs : list grpc_chttp2_write_cb) (error : grpc_error)
    : grpc_chttp2_transport * grpc_chttp2_stream
      * list grpc_chttp2_write_cb :=
  let s' := S.set_flow_controlled_bytes_written s
              (flow_controlled_bytes_written s + send_bytes) in
  let r := update_list_loop (flow_controlled_bytes_written s') error
             cbs t [] in
  (fst r, s', snd r).

(** ** [grpc_chttp2_begin_write] (lines 76-231) *)

(** The state of one iteration of the [while (pop_writable_stream)] loop:
    the transport, the struct [s] points to, and the two locals.  The struct
    is stored back into the table when the iteration ends; nothing reads the
    table in between. *)
Record iteration := {
  it_t : grpc_chttp2_transport;
  it_s : grpc_chttp2_stream;
  it_sent_initial_metadata : bool;
  it_now_writing : bool
}.

Definition buffer_length (s : grpc_chttp2_stream) : Z :=
  Z.of_nat (length (flow_controlled_buffer s)).

Definition is_null {A} (p : option A) : bool :=
  match p with None => true | Some _ => false end.

(** Lines 164-168 and 196-200: the reset that follows a terminal frame. *)
Definition rst_stream_after_last (id : stream_id)
    (t : grpc_chttp2_transport) (s : grpc_chttp2_stream)
    : grpc_chttp2_transport :=
  if negb (is_client t) && negb (read_closed s)
  then T.set_outbuf t
         (grpc_slice_buffer_add (outbuf t)
            (RST_STREAM id GRPC_CHTTP2_NO_ERROR))
  else t.

(** Lines 119-129: send initial metadata if it is available. *)
Definition write_initial_metadata (id : stream_id) (w : iteration)
    : iteration :=
  match send_initial_metadata (it_s w) with
  | Some md =>
      if negb (it_sent_initial_metadata w) then
        {| it_t := T.set_outbuf (it_t w)
                     (grpc_chttp2_encode_header id md false
                        (acked_max_frame_size (it_t w)) (outbuf (it_t w)));
           it_s := S.set_sent_initial_metadata
                     (S.set_send_initial_metadata (it_s w) None) true;
           it_sent_initial_metadata := true;
           it_now_writing := true |}
      else w
  | None => w
  end.

(** Lines 130-137: send any window updates. *)
Definition write_window_update (id : stream_id) (w : iteration)
    : iteration :=
  if 0 <? announce_window (it_s w) then
    let announce := announce_window (it_s w) in
    {| it_t := T.set_outbuf (it_t w)
                 (grpc_slice_buffer_add (outbuf (it_t w))
                    (WINDOW_UPDATE id (announce_window (it_s w))));
       it_s := S.set_announce_window (it_s w)
                 (announce_window (it_s w) - announce);
       it_sent_initial_metadata := it_sent_initial_metadata w;
       it_now_writing := it_now_writing w |}
  else w.

(** Lines 141-144. *)
Definition max_outgoing (t : grpc_chttp2_transport)
    (s : grpc_chttp2_stream) : Z :=
  C.to_uint32
    (C.GPR_MIN (Z.of_N (acked_max_frame_size t))
       (C.GPR_MIN (outgoing_window s) (t_outgoing_window t))).

(** Lines 146-147. *)
Definition data_frame_size (t : grpc_chttp2_transport)
    (s : grpc_chttp2_stream) : Z :=
  C.to_uint32 (C.GPR_MIN (max_outgoing t s) (buffer_length s)).

(** Lines 148-153. *)
Definition is_last_data_frame (t : grpc_chttp2_transport)
    (s : grpc_chttp2_stream) : bool :=
  is_null (fetching_send_message s)
  && (data_frame_size t s =? buffer_length s).

Definition is_last_frame (t : grpc_chttp2_transport)
    (s : grpc_chttp2_stream) : bool :=
  is_last_data_frame t s &&
  match send_trailing_metadata s with
  | Some md => grpc_metadata_batch_is_empty md
  | None => false
  end.

(** Lines 146-175: one DATA frame of [send_bytes] bytes. *)
Definition write_data_frame (id : stream_id) (w : iteration) : iteration :=
  let t := it_t w in
  let s := it_s w in
  let send_bytes := data_frame_size t s in
  let is_last_frame := is_last_frame t s in
  let enc := grpc_chttp2_encode_data id (flow_controlled_buffer s)
               send_bytes is_last_frame (outbuf t) in
  let t := T.set_outbuf t (snd enc) in
  let s := S.set_flow_controlled_buffer s (fst enc) in
  let s := S.set_outgoing_window s (outgoing_window s - send_bytes) in
  let t := T.set_t_outgoing_window t (t_outgoing_window t - send_bytes) in
  let s := if is_last_frame
           then S.set_sent_trailing_metadata
                  (S.set_send_trailing_metadata s None) true
           else s in
  let t := if is_last_frame then rst_stream_after_last id t s else t in
  let s := S.set_sending_bytes s
             (C.to_uint64 (sending_bytes s + send_bytes)) in
  let fork := 0 <? buffer_length s in
  let s := if fork then GRPC_CHTTP2_STREAM_REF s else s in
  let t := if fork
           then snd (grpc_chttp2_list_add_writable_stream t id)
           else t in
  {| it_t := t; it_s := s;
     it_sent_initial_metadata := it_sent_initial_metadata w;
     it_now_writing := true |}.

(** Lines 139-180: send any body bytes, if allowed by flow control. *)
Definition write_body (id : stream_id) (w : iteration) : iteration :=
  if 0 <? buffer_length (it_s w) then
    if 0 <? max_outgoing (it_t w) (it_s w) then write_data_frame id w
    else if t_outgoing_window (it_t w) =? 0 then
      {| it_t := grpc_chttp2_list_add_stalled_by_transport (it_t w) id;
         it_s := it_s w;
         it_sent_initial_metadata := it_sent_initial_metadata w;
         it_now_writing := true |}
    else w
  else w.

(** Lines 181-202: trailing metadata, once the body is out. *)
Definition write_trailing_metadata (id : stream_id) (w : iteration)
    : iteration :=
  let t := it_t w in
  let s := it_s w in
  match send_trailing_metadata s with
  | Some md =>
      if is_null (fetching_send_message s) && (buffer_length s =? 0) then
        let enc := grpc_chttp2_encode_data id (flow_controlled_buffer s)
                     0 true (outbuf t) in
        let t := if grpc_metadata_batch_is_empty md
                 then T.set_outbuf t (snd enc)
                 else T.set_outbuf t
                        (grpc_chttp2_encode_header id md true
                           (acked_max_frame_size t) (outbuf t)) in
        let s := if grpc_metadata_batch_is_empty md
                 then S.set_flow_controlled_buffer s (fst enc)
                 else s in
        let s := S.set_sent_trailing_metadata
                   (S.set_send_trailing_metadata s None) true in
        {| it_t := rst_stream_after_last id t s; it_s := s;
           it_sent_initial_metadata := it_sent_initial_metadata w;
           it_now_writing := true |}
      else w
  | None => w
  end.

(** Lines 111-112: the stream that was popped and the two locals. *)
Definition enter (id : stream_id) (t : grpc_chttp2_transport) : iteration :=
  {| it_t := t; it_s := streams t id;
     it_sent_initial_metadata := sent_initial_metadata (streams t id);
     it_now_writing := false |}.

(** Lines 111-203: everything the iteration may emit. *)
Definition write_frames (id : stream_id) (t : grpc_chttp2_transport)
    : iteration :=
  let w := enter id t in
  let w := write_initial_metadata id w in
  let w := write_window_update id w in
  if it_sent_initial_metadata w
  then write_trailing_metadata id (write_body id w)
  else w.

(** Lines 205-213: where the stream goes next. *)
Definition requeue (id : stream_id) (w : iteration)
    : grpc_chttp2_transport :=
  if it_now_writing w then
    let r := grpc_chttp2_list_add_writing_stream (it_t w) id in
    if fst r then set_stream (snd r) id (it_s w)
    else (* already in writing list: drop ref *)
      set_stream (snd r) id (GRPC_CHTTP2_STREAM_UNREF (it_s w))
  else
    set_stream (grpc_chttp2_leave_writing_lists (it_t w) id) id
      (GRPC_CHTTP2_STREAM_UNREF (it_s w)).

(** The body of the loop, for the stream that was popped. *)
Definition write_stream (id : stream_id) (t : grpc_chttp2_transport)
    : grpc_chttp2_transport :=
  requeue id (write_frames id t).

(** Lines 110-214.  The loop ends because a stream is put back on the
    writable list only after at least one of its buffered bytes was framed;
    [fuel] bounds the number of iterations. *)
Fixpoint write_streams (fuel : nat) (t : grpc_chttp2_transport)
    : grpc_chttp2_transport :=
  match fuel with
  | O => t
  | Datatypes.S fuel' =>
      match grpc_chttp2_list_pop_writable_stream t with
      | None => t
      | Some (id, t') => write_streams fuel' (write_stream id t')
      end
  end.

(** Buffered bytes of the streams of a list. *)
Fixpoint buffered (t : grpc_chttp2_transport) (l : list stream_id) : nat :=
  match l with
  | [] => O
  | id :: rest =>
      (length (flow_controlled_buffer (streams t id)) + buffered t rest)%nat
  end.

(** Enough iterations for the loop to run until the writable list is empty
    (see [write_streams_drains]). *)
Definition write_fuel (t : grpc_chttp2_transport) : nat :=
  length (writable t) + buffered t (writable t).

(** Lines 82-91. *)
Definition write_settings (t : grpc_chttp2_transport)
    : grpc_chttp2_transport :=
  if dirtied_local_settings t && negb (sent_local_settings t) then
    T.set_settings_sent
      (T.set_outbuf t
         (grpc_slice_buffer_add (outbuf t)
            (SETTINGS (sent_settings t) (local_settings t)
               (force_send_settings t))))
  else t.

(** Lines 93-95: [grpc_slice_buffer_move_into (&t->qbuf, &t->outbuf)]. *)
Definition flush_qbuf (t : grpc_chttp2_transport) : grpc_chttp2_transport :=
  T.set_qbuf (T.set_outbuf t (outbuf t ++ qbuf t)) [].

(** Lines 97-99. *)
Definition set_max_table_size (t : grpc_chttp2_transport)
    : grpc_chttp2_transport :=
  T.set_hpack_max_table_size t (peer_header_table_size t).

(** Lines 101-106. *)
Fixpoint unstall (fuel : nat) (t : grpc_chttp2_transport)
    : grpc_chttp2_transport :=
  match fuel with
  | O => t
  | Datatypes.S fuel' =>
      match grpc_chttp2_list_pop_stalled_by_transport t with
      | None => t
      | Some (id, t') => unstall fuel' (grpc_chttp2_become_writable t' id)
      end
  end.

Definition unstall_streams (t : grpc_chttp2_transport)
    : grpc_chttp2_transport :=
  if 0 <? t_outgoing_window t
  then unstall (length (stalled_by_transport t)) t
  else t.

(** Lines 216-226. *)
Definition write_transport_window_update (t : grpc_chttp2_transport)
    : grpc_chttp2_transport :=
  if 0 <? announce_incoming_window t then
    let announced :=
      C.to_uint32 (C.GPR_MIN (announce_incoming_window t) C.UINT32_MAX) in
    let t := T.set_announce_incoming_window t
               (announce_incoming_window t - announced) in
    T.set_outbuf t
      (grpc_slice_buffer_add (outbuf t) (WINDOW_UPDATE 0 announced))
  else t.

(** What precedes the loop over the writable streams. *)
Definition begin_write_prologue (t : grpc_chttp2_transport)
    : grpc_chttp2_transport :=
  unstall_streams (set_max_table_size (flush_qbuf (write_settings t))).

(** The transport as [grpc_chttp2_begin_write] leaves it. *)
Definition begin_write_state (t : grpc_chttp2_transport)
    : grpc_chttp2_transport :=
  let t := begin_write_prologue t in
  let t := write_streams (write_fuel t) t in
  write_transport_window_update t.

(** [return t->outbuf.count > 0] *)
Definition grpc_chttp2_begin_write (t : grpc_chttp2_transport)
    : bool * grpc_chttp2_transport :=
  let t := begin_write_state t in
  (negb (is_null (hd_error (outbuf t))), t).

(** ** [grpc_chttp2_end_write] (lines 233-262) *)

(** One iteration of the [while (pop_writing_stream)] loop. *)
Definition finish_stream (id : stream_id) (error : grpc_error)
    (t : grpc_chttp2_transport) : grpc_chttp2_transport :=
  let s := streams t id in
  let r := if sent_initial_metadata s
           then grpc_chttp2_complete_closure_step t
                  (send_initial_metadata_finished s) error
           else (t, send_initial_metadata_finished s) in
  let t := fst r in
  let s := S.set_send_initial_metadata_finished s (snd r) in
  let u := if negb (sending_bytes s =? 0)
           then update_list t s (C.to_int64 (sending_bytes s))
                  (on_write_finished_cbs s) error
           else (t, s, on_write_finished_cbs s) in
  let t := fst (fst u) in
  let s := if negb (sending_bytes s =? 0)
           then S.set_sending_bytes
                  (S.set_on_write_finished_cbs (snd (fst u)) (snd u)) 0
           else s in
  let r := if sent_trailing_metadata s
           then grpc_chttp2_complete_closure_step t
                  (send_trailing_metadata_finished s) error
           else (t, send_trailing_metadata_finished s) in
  let closing := sent_trailing_metadata s in
  let t := fst r in
  let s := S.set_send_trailing_metadata_finished s (snd r) in
  let s := if closing
           then grpc_chttp2_mark_stream_closed s (negb (is_client t)) true
           else s in
  set_stream (grpc_chttp2_leave_writing_lists t id) id
    (GRPC_CHTTP2_STREAM_UNREF s).

Fixpoint finish_streams (fuel : nat) (error : grpc_error)
    (t : grpc_chttp2_transport) : grpc_chttp2_transport :=
  match fuel with
  | O => t
  | Datatypes.S fuel' =>
      match grpc_chttp2_list_pop_writing_stream t with
      | None => t
      | Some (id, t') => finish_streams fuel' error (finish_stream id error t')
      end
  end.

(** Each iteration takes at least the popped entry off the writing list, so
    its length bounds the number of iterations. *)
Definition grpc_chttp2_end_write (t : grpc_chttp2_transport)
    (error : grpc_error) : grpc_chttp2_transport :=
  let t := finish_streams (length (writing t)) error t in
  T.set_outbuf t [].

(** ** Concrete states *)

Definition idle_stream : grpc_chttp2_stream :=
  {| refs := 1;
     sent_initial_metadata := false;
     sent_trailing_metadata := false;
     send_initial_metadata := None;
     send_trailing_metadata := None;
     send_initial_metadata_finished := None;
     send_trailing_metadata_finished := None;
     fetching_send_message := None;
     announce_window := 0;
     outgoing_window := 65535;
     flow_controlled_buffer := [];
     sending_bytes := 0;
     flow_controlled_bytes_written := 0;
     on_write_finished_cbs := [];
     read_closed := false;
     write_closed := false |}.

Definition fresh_transport (client : bool) : grpc_chttp2_transport :=
  {| is_client := client;
     dirtied_local_settings := false;
     sent_local_settings := true;
     force_send_settings := 0;
     sent_settings := [];
     local_settings := [];
     peer_header_table_size := 4096;
     acked_max_frame_size := 16384;
     hpack_max_table_size := 4096;
     t_outgoing_window := 65535;
     announce_incoming_window := 0;
     outbuf := [];
     qbuf := [];
     stalled_by_transport := [];
     writable := [];
     writing := [];
     streams := fun _ => idle_stream;
     write_cb_pool := [];
     completed := [] |}.

(** A stream that the caller just made writable. *)
Definition with_writable (t : grpc_chttp2_transport) (id : stream_id)
    (s : grpc_chttp2_stream) : grpc_chttp2_transport :=
  T.set_writable (set_stream t id s) (writable t ++ [id]).

(** ** The driver

    One write opportunity is [BeginWrite], the I/O of the driver, then
    [EndWrite]; between them the peer credits windows and the caller queues
    work.  Modelled from the spec: the events other than [BeginWrite] and
    [EndWrite] belong to the read path and to the stream-operation path
    ([chttp2_transport.c], [parsing.c]); they are given the effect the data
    model states: a credit adds to a window, metadata is "set once by the
    caller", a message is appended to the buffer, and the stream is marked
    writable with a reference for its list entry. *)

Inductive event :=
| BeginWrite
| EndWrite (error : grpc_error)
| CreditStream (id : stream_id) (n : Z)
| CreditTransport (n : Z)
| SendInitialMetadata (id : stream_id) (md : metadata_batch)
| SendMessage (id : stream_id) (body : list byte)
| SendTrailingMetadata (id : stream_id) (md : metadata_batch).

Definition mark_writable (t : grpc_chttp2_transport) (id : stream_id)
    (s : grpc_chttp2_stream) : grpc_chttp2_transport :=
  let r := grpc_chttp2_list_add_writable_stream t id in
  set_stream (snd r) id (if fst r then GRPC_CHTTP2_STREAM_REF s else s).

(** The connection: the transport and the frames already handed to the
    network. *)
Definition connection := (grpc_chttp2_transport * list frame)%type.

Definition step (e : event) (c : connection) : connection :=
  let t := fst c in
  let wire := snd c in
  match e with
  | BeginWrite => (begin_write_state t, wire)
  | EndWrite error => (grpc_chttp2_end_write t error, wire ++ outbuf t)
  | CreditStream id n =>
      (set_stream t id
         (S.set_outgoing_window (streams t id)
            (outgoing_window (streams t id) + n)), wire)
  | CreditTransport n =>
      (T.set_t_outgoing_window t (t_outgoing_window t + n), wire)
  | SendInitialMetadata id md =>
      let s := streams t id in
      if is_null (send_initial_metadata s)
         && negb (sent_initial_metadata s)
      then (mark_writable t id (S.set_send_initial_metadata s (Some md)),
            wire)
      else c
  | SendMessage id body =>
      let s := streams t id in
      (mark_writable t id
         (S.set_flow_controlled_buffer s (flow_controlled_buffer s ++ body)),
       wire)
  | SendTrailingMetadata id md =>
      let s := streams t id in
      if is_null (send_trailing_metadata s)
         && negb (sent_trailing_metadata s)
      then (mark_writable t id (S.set_send_trailing_metadata s (Some md)),
            wire)
      else c
  end.

Definition run (events : list event) (c : connection) : connection :=
  fold_left (fun c e => step e c) events c.

(** Credits that add to a window. *)
Definition credit_ok (e : event) : Prop :=
  match e with
  | CreditStream _ n => 0 <= n
  | CreditTransport n => 0 <= n
  | _ => True
  end.

(** ** Observations used in the statements *)

(** The callbacks a drain fires, the log entries they leave, and the
    records as they go back to the pool. *)
Definition due (written : Z) (cb : grpc_chttp2_write_cb) : bool :=
  call_at_byte cb <=? written.

Definition not_due (written : Z) (cb : grpc_chttp2_write_cb) : bool :=
  negb (due written cb).

Definition run_closure (error : grpc_error) (cb : grpc_chttp2_write_cb)
    : list (closure_id * grpc_error) :=
  match closure cb with
  | Some c => [(c, error)]
  | None => []
  end.

Definition pooled (cb : grpc_chttp2_write_cb) : grpc_chttp2_write_cb :=
  {| call_at_byte := call_at_byte cb; closure := None |}.

(** Successive drains of one callback list, one per write pass that sent
    [fst p] bytes and ended with outcome [snd p]. *)
Definition drain_state :=
  (grpc_chttp2_transport * grpc_chttp2_stream
   * list grpc_chttp2_write_cb)%type.

Definition drain (p : Z * grpc_error) (d : drain_state) : drain_state :=
  update_list (fst (fst d)) (snd (fst d)) (fst p) (snd d) (snd p).

Definition drains (passes : list (Z * grpc_error)) (d : drain_state)
    : drain_state :=
  fold_left (fun d p => drain p d) passes d.

(** The cumulative totals after each of the passes. *)
Fixpoint totals (written : Z) (passes : list (Z * grpc_error)) : list Z :=
  match passes with
  | [] => []
  | p :: rest => (written + fst p) :: totals (written + fst p) rest
  end.

(** Frames by kind. *)
Definition frame_stream (f : frame) : stream_id :=
  match f with
  | SETTINGS _ _ _ => 0
  | HEADERS id _ _ _ => id
  | DATA id _ _ => id
  | WINDOW_UPDATE id _ => id
  | RST_STREAM id _ => id
  end.

Definition is_initial_headers (id : stream_id) (f : frame) : bool :=
  match f with
  | HEADERS i _ false _ => i =? id
  | _ => false
  end.

Definition is_data (id : stream_id) (f : frame) : bool :=
  match f with
  | DATA i _ _ => i =? id
  | _ => false
  end.

(** The frame that ends the stream: a DATA frame marked last, or the
    trailing-metadata header block. *)
Definition is_terminal (id : stream_id) (f : frame) : bool :=
  match f with
  | DATA i _ true => i =? id
  | HEADERS i _ true _ => i =? id
  | _ => false
  end.

Definition is_body_or_trailer (id : stream_id) (f : frame) : bool :=
  is_data id f || is_terminal id f.

Definition is_rst_stream (id : stream_id) (f : frame) : bool :=
  match f with
  | RST_STREAM i _ => i =? id
  | _ => false
  end.

Definition is_window_update (f : frame) : bool :=
  match f with
  | WINDOW_UPDATE _ _ => true
  | _ => false
  end.

(** Flow-controlled payload. *)
Fixpoint sumZ (l : list Z) : Z :=
  match l with
  | [] => 0
  | x :: rest => x + sumZ rest
  end.

Definition payload_bytes (f : frame) : Z :=
  match f with
  | DATA _ p _ => Z.of_nat (length p)
  | _ => 0
  end.

Definition data_bytes (l : list frame) : Z := sumZ (map payload_bytes l).

Definition stream_data_bytes (id : stream_id) (l : list frame) : Z :=
  data_bytes (filter (fun f => frame_stream f =? id) l).

Definition terminal_frames (id : stream_id) (l : list frame) : nat :=
  length (filter (is_terminal id) l).

(** Both levels of send window can be spent. *)
Definition windows_nonneg (t : grpc_chttp2_transport) : Prop :=
  0 <= t_outgoing_window t /\
  forall id, 0 <= outgoing_window (streams t id).

(** What each part of an iteration appends to the output buffer. *)
Definition rst_frames (id : stream_id) (t : grpc_chttp2_transport)
    (s : grpc_chttp2_stream) : list frame :=
  if negb (is_client t) && negb (read_closed s)
  then [RST_STREAM id GRPC_CHTTP2_NO_ERROR]
  else [].

Definition initial_metadata_frames (id : stream_id) (w : iteration)
    : list frame :=
  match send_initial_metadata (it_s w) with
  | Some md =>
      if negb (it_sent_initial_metadata w)
      then [HEADERS id md false (acked_max_frame_size (it_t w))]
      else []
  | None => []
  end.

Definition window_update_frames (id : stream_id) (w : iteration)
    : list frame :=
  if 0 <? announce_window (it_s w)
  then [WINDOW_UPDATE id (announce_window (it_s w))]
  else [].

Definition body_frames (id : stream_id) (w : iteration) : list frame :=
  let t := it_t w in
  let s := it_s w in
  if (0 <? buffer_length s) && (0 <? max_outgoing t s) then
    DATA id (firstn (Z.to_nat (data_frame_size t s))
               (flow_controlled_buffer s)) (is_last_frame t s)
    :: (if is_last_frame t s then rst_frames id t s else [])
  else [].

Definition trailing_metadata_frames (id : stream_id) (w : iteration)
    : list frame :=
  let t := it_t w in
  let s := it_s w in
  match send_trailing_metadata s with
  | Some md =>
      if is_null (fetching_send_message s) && (buffer_length s =? 0)
      then (if grpc_metadata_batch_is_empty md
            then DATA id [] true
            else HEADERS id md true (acked_max_frame_size t))
           :: rst_frames id t s
      else []
  | None => []
  end.

Definition stream_frames (id : stream_id) (t : grpc_chttp2_transport)
    : list frame :=
  let w0 := enter id t in
  let w1 := write_initial_metadata id w0 in
  let w2 := write_window_update id w1 in
  initial_metadata_frames id w0 ++ window_update_frames id w1
  ++ (if it_sent_initial_metadata w2
      then body_frames id w2
           ++ trailing_metadata_frames id (write_body id w2)
      else []).

(** What the prologue and the epilogue of a pass append. *)
Definition settings_frames (t : grpc_chttp2_transport) : list frame :=
  if dirtied_local_settings t && negb (sent_local_settings t)
  then [SETTINGS (sent_settings t) (local_settings t) (force_send_settings t)]
  else [].

Definition transport_window_update_frames (t : grpc_chttp2_transport)
    : list frame :=
  if 0 <? announce_incoming_window t
  then [WINDOW_UPDATE 0
          (C.to_uint32 (C.GPR_MIN (announce_incoming_window t) C.UINT32_MAX))]
  else [].

(** Every frame produced so far on a connection: handed to the network,
    in the output buffer, or queued for the next pass. *)
Definition framed (c : connection) : list frame :=
  snd c ++ outbuf (fst c) ++ qbuf (fst c).

(** The credits of a run. *)
Definition transport_credit (e : event) : Z :=
  match e with
  | CreditTransport n => n
  | _ => 0
  end.

Definition stream_credit (id : stream_id) (e : event) : Z :=
  match e with
  | CreditStream i n => if i =? id then n else 0
  | _ => 0
  end.

(** Trailing metadata is pending only while it has not been sent. *)
Definition pending_ok (s : grpc_chttp2_stream) : Prop :=
  sent_trailing_metadata s = true -> send_trailing_metadata s = None.

(** The value of [sent_trailing_metadata] after each event of a run, and
    the number of times a sequence of values goes from false to true. *)
Fixpoint flag_history (id : stream_id) (events : list event)
    (c : connection) : list bool :=
  match events with
  | [] => []
  | e :: rest =>
      sent_trailing_metadata (streams (fst (step e c)) id)
      :: flag_history id rest (step e c)
  end.

Fixpoint rises (l : list bool) : nat :=
  match l with
  | a :: (b :: _) as rest => (if negb a && b then 1 else 0) + rises rest
  | _ => 0
  end%nat.

(** One if the flag went from false to true, zero otherwise. *)
Definition risen (before after : bool) : nat :=
  if negb before && after then 1%nat else 0%nat.

(** Whether a terminal frame of the stream is directly followed by its
    reset. *)
Fixpoint rst_after_terminal (id : stream_id) (l : list frame) : bool :=
  match l with
  | [] => true
  | f :: rest =>
      (if is_terminal id f
       then match rest with
            | RST_STREAM i code :: _ =>
                (i =? id) && (code =? GRPC_CHTTP2_NO_ERROR)
            | _ => false
            end
       else true)
      && rst_after_terminal id rest
  end.

(** Whether every DATA or trailing-metadata frame of the stream comes
    after its initial-metadata frame; [seen] tells that the initial metadata
    went out before the first frame of the list. *)
Fixpoint headers_first (id : stream_id) (seen : bool) (l : list frame)
    : bool :=
  match l with
  | [] => true
  | f :: rest =>
      (if is_body_or_trailer id f then seen else true)
      && headers_first id (seen || is_initial_headers id f) rest
  end.

(** The stream has body to send, its initial metadata is out or goes out
    now, and nothing fits a transport window that is zero. *)
Definition stalls_on_transport (id : stream_id) (t : grpc_chttp2_transport)
    : bool :=
  let s := streams t id in
  (sent_initial_metadata s || negb (is_null (send_initial_metadata s)))
  && (0 <? buffer_length s)
  && negb (0 <? max_outgoing t s)
  && (t_outgoing_window t =? 0).

Definition not_window_update (f : frame) : bool := negb (is_window_update f).

(** ** Relations and invariants used in the proofs *)

(** Two transports that differ in the output buffer at most. *)
Definition same_but_outbuf (t t' : grpc_chttp2_transport) : Prop :=
  T.set_outbuf t' [] = T.set_outbuf t [].

(** The transport without its stalled and writable lists. *)
Definition erase_lists (t : grpc_chttp2_transport) : grpc_chttp2_transport :=
  T.set_writable (T.set_stalled_by_transport t []) [].

(** Two streams that differ in the reference count at most. *)
Definition same_but_refs (s s' : grpc_chttp2_stream) : Prop :=
  S.set_refs s' 0 = S.set_refs s 0.

(** What the parts other than the body leave alone in the stream. *)
Definition same_flow (s s' : grpc_chttp2_stream) : Prop :=
  outgoing_window s' = outgoing_window s /\
  flow_controlled_buffer s' = flow_controlled_buffer s /\
  sending_bytes s' = sending_bytes s /\
  refs s' = refs s /\
  read_closed s' = read_closed s /\
  fetching_send_message s' = fetching_send_message s.

(** What [grpc_chttp2_end_write] leaves alone in a stream. *)
Definition same_send_state (s s' : grpc_chttp2_stream) : Prop :=
  sent_initial_metadata s' = sent_initial_metadata s /\
  sent_trailing_metadata s' = sent_trailing_metadata s /\
  send_initial_metadata s' = send_initial_metadata s /\
  send_trailing_metadata s' = send_trailing_metadata s /\
  outgoing_window s' = outgoing_window s /\
  flow_controlled_buffer s' = flow_controlled_buffer s /\
  announce_window s' = announce_window s /\
  fetching_send_message s' = fetching_send_message s.

(** The parts before the body do not touch the trailing metadata. *)
Definition same_trailing (s s' : grpc_chttp2_stream) : Prop :=
  sent_trailing_metadata s' = sent_trailing_metadata s /\
  send_trailing_metadata s' = send_trailing_metadata s.

(** The first emission site: the last DATA frame. *)
Definition body_ends_stream (w : iteration) : bool :=
  (0 <? buffer_length (it_s w))
  && (0 <? max_outgoing (it_t w) (it_s w))
  && is_last_frame (it_t w) (it_s w).

(** The second emission site: the separate trailing-metadata frame. *)
Definition trailer_ends_stream (w : iteration) : bool :=
  negb (is_null (send_trailing_metadata (it_s w)))
  && is_null (fetching_send_message (it_s w))
  && (buffer_length (it_s w) =? 0).

(** From [t0] to [t] the flag of the stream did not go down, and the output
    buffer gained a terminal frame exactly if the flag went up. *)
Definition terminal_ok (id : stream_id) (t0 t : grpc_chttp2_transport) : Prop :=
  pending_ok (streams t id) /\
  (sent_trailing_metadata (streams t0 id) = true ->
   sent_trailing_metadata (streams t id) = true) /\
  terminal_frames id (outbuf t)
  = (terminal_frames id (outbuf t0)
     + risen (sent_trailing_metadata (streams t0 id))
         (sent_trailing_metadata (streams t id)))%nat.

(** The frames [fs] of the loop so far keep every reset right behind its
    terminal frame, or hold no reset of the stream at all. *)
Definition rst_inv (id : stream_id) (t0 t : grpc_chttp2_transport)
    (fs : list frame) : Prop :=
  is_client t = is_client t0 /\
  read_closed (streams t id) = read_closed (streams t0 id) /\
  (is_client t0 = false -> read_closed (streams t0 id) = false ->
   rst_after_terminal id fs = true) /\
  (is_client t0 = true \/ read_closed (streams t0 id) = true ->
   Forall (fun f => is_rst_stream id f = false) fs).

(** The frames [fs] of the loop so far respect the order, and the flag of
    the stream tells whether its initial metadata is out. *)
Definition order_ok (id : stream_id) (sent0 : bool)
    (t : grpc_chttp2_transport) (fs : list frame) : Prop :=
  headers_first id sent0 fs = true /\
  sent_initial_metadata (streams t id)
  = sent0 || existsb (is_initial_headers id) fs /\
  (existsb (is_body_or_trailer id) fs = true ->
   sent_initial_metadata (streams t id) = true).

(** The frames produced so far on a connection respect the order, [sent0]
    telling whether the initial metadata was out before the first of them;
    a flag that is set has its frame among them, or was set before. *)
Definition run_order_ok (id : stream_id) (sent0 : bool) (c : connection)
    : Prop :=
  headers_first id sent0 (framed c) = true /\
  (sent_initial_metadata (streams (fst c) id) = true ->
   sent0 || existsb (is_initial_headers id) (framed c) = true).

(** The initial metadata of the stream is out or about to go out. *)
Definition initial_metadata_ready (s : grpc_chttp2_stream) : bool :=
  sent_initial_metadata s || negb (is_null (send_initial_metadata s)).

(** What the loop maintains for a stream with buffered bytes while the
    transport window is zero. *)
Definition stalled_inv (id : stream_id) (len : Z)
    (t : grpc_chttp2_transport) (fs : list frame) : Prop :=
  t_outgoing_window t = 0 /\
  windows_nonneg t /\
  buffer_length (streams t id) = len /\
  initial_metadata_ready (streams t id) = true /\
  (In id (writable t) \/
   In id (stalled_by_transport t) /\ In id (writing t)) /\
  Forall (fun f => is_data id f = false) fs.

(** A stream that can still send is stalled on a transport window of
    zero. *)
Definition stalled_if_sendable (id : stream_id)
    (t : grpc_chttp2_transport) : Prop :=
  sent_initial_metadata (streams t id) = true ->
  0 < buffer_length (streams t id) ->
  0 < outgoing_window (streams t id) ->
  In id (stalled_by_transport t) /\ t_outgoing_window t = 0.

(** What the loop maintains for a stream that was writable. *)
Definition fork_inv (id : stream_id) (t : grpc_chttp2_transport)
    (fs : list frame) : Prop :=
  windows_nonneg t /\
  (0 < acked_max_frame_size t < 2 ^ 32)%N /\
  (In id (writable t) \/ stalled_if_sendable id t).

(** ** Scenarios *)

(** Scenario 1 of the specification: stream 1 is writable with its initial
    metadata queued, [body] buffered and [trailing] as its trailing
    metadata, both windows at 1000. *)
Definition scenario1 (client : bool) (md : metadata_batch)
    (body : list byte) (trailing : option metadata_batch)
    : grpc_chttp2_transport :=
  with_writable (T.set_t_outgoing_window (fresh_transport client) 1000) 1
    (S.set_send_trailing_metadata
       (S.set_flow_controlled_buffer
          (S.set_outgoing_window
             (S.set_send_initial_metadata idle_stream (Some md)) 1000)
          body)
       trailing).

(** A stream with ten buffered bytes behind a transport window of four. *)
Definition small_window_connection : connection :=
  (with_writable (T.set_t_outgoing_window (fresh_transport true) 4) 1
     (S.set_flow_controlled_buffer
        (S.set_send_initial_metadata idle_stream
           (Some {| md_elems := [] |}))
        (repeat x61 10)), []).

(** The same with empty trailing metadata queued; the terminal frame goes
    out in the second pass of [two_pass_events]. *)
Definition two_pass_connection : connection :=
  (with_writable (T.set_t_outgoing_window (fresh_transport true) 4) 1
     (S.set_send_trailing_metadata
        (S.set_flow_controlled_buffer
           (S.set_send_initial_metadata idle_stream
              (Some {| md_elems := [] |}))
           (repeat x61 10))
        (Some {| md_elems := [] |})), []).

Definition two_pass_events : list event :=
  [BeginWrite; EndWrite GRPC_ERROR_NONE; CreditTransport 10;
   SendMessage 1 []; BeginWrite; EndWrite GRPC_ERROR_NONE; BeginWrite].

(** Two streams open on a fresh client connection; the first then fills the
    connection window with one message, and the second gets a message of
    five bytes. *)
Definition exhausted_window_events : list event :=
  [SendInitialMetadata 1 {| md_elems := [] |};
   SendInitialMetadata 2 {| md_elems := [] |};
   BeginWrite; EndWrite GRPC_ERROR_NONE;
   SendMessage 1 (repeat x61 (Z.to_nat 65535));
   BeginWrite; EndWrite GRPC_ERROR_NONE;
   SendMessage 2 (repeat x61 5)].

(** A stream that only has a window update to announce. *)
Definition window_update_only : grpc_chttp2_transport :=
  with_writable (fresh_transport true) 1
    (S.set_announce_window idle_stream 5).

(** Stream [s] with five more buffered bytes, writable behind a transport
    window of zero. *)
Definition zero_window (s : grpc_chttp2_stream) : grpc_chttp2_transport :=
  with_writable (T.set_t_outgoing_window (fresh_transport true) 0) 1
    (S.set_flow_controlled_buffer s (repeat x61 5)).

(** A body of 20000 bytes behind wide windows. *)
Definition large_body : grpc_chttp2_transport :=
  with_writable (fresh_transport true) 1
    (S.set_flow_controlled_buffer
       (S.set_send_initial_metadata idle_stream (Some {| md_elems := [] |}))
       (repeat x61 (Z.to_nat 20000))).

(** A body of ten bytes behind a stream window of four. *)
Definition small_stream_window : grpc_chttp2_transport :=
  with_writable (fresh_transport true) 1
    (S.set_outgoing_window
       (S.set_flow_controlled_buffer
          (S.set_send_initial_metadata idle_stream
             (Some {| md_elems := [] |}))
          (repeat x61 10))
       4).

(** ** Observations of a write cycle *)

(** The transport without what the loop over the writable streams works
    on: the output buffer, the transport window, the three stream lists and
    the stream table. *)
Definition erase_pass (t : grpc_chttp2_transport) : grpc_chttp2_transport :=
  T.set_streams
    (T.set_writing
       (T.set_writable
          (T.set_stalled_by_transport
             (T.set_t_outgoing_window (T.set_outbuf t []) 0) []) []) [])
    (fun _ => idle_stream).

(** The stream without what an iteration of that loop works on. *)
Definition erase_sending (s : grpc_chttp2_stream) : grpc_chttp2_stream :=
  S.set_sending_bytes
    (S.set_flow_controlled_buffer
       (S.set_outgoing_window
          (S.set_announce_window
             (S.set_send_trailing_metadata
                (S.set_send_initial_metadata
                   (S.set_sent_trailing_metadata
                      (S.set_sent_initial_metadata (S.set_refs s 0) false)
                      false) None) None) 0) 0) []) 0.

Definition is_settings (f : frame) : bool :=
  match f with
  | SETTINGS _ _ _ => true
  | _ => false
  end.

(** The payload that a sequence of frames carries for a stream, in the
    order of the frames. *)
Definition frame_payload (id : stream_id) (f : frame) : list byte :=
  match f with
  | DATA i p _ => if i =? id then p else []
  | _ => []
  end.

Definition stream_payload (id : stream_id) (l : list frame) : list byte :=
  flat_map (frame_payload id) l.

(** The window that a sequence of frames announces for a stream. *)
Definition window_update_amount (id : stream_id) (f : frame) : Z :=
  match f with
  | WINDOW_UPDATE i n => if i =? id then n else 0
  | _ => 0
  end.

Definition announced (id : stream_id) (l : list frame) : Z :=
  sumZ (map (window_update_amount id) l).

(** A DATA frame that carries payload within the frame size [max], or an
    empty one that ends the stream. *)
Definition data_frame_fits (max : Z) (f : frame) : bool :=
  match f with
  | DATA _ p e =>
      if Z.of_nat (length p) =? 0 then e else Z.of_nat (length p) <=? max
  | _ => true
  end.

(** A WINDOW_UPDATE frame with an increment. *)
Definition window_update_positive (f : frame) : bool :=
  match f with
  | WINDOW_UPDATE _ n => 0 <? n
  | _ => true
  end.

Definition is_headers (id : stream_id) (f : frame) : bool :=
  match f with
  | HEADERS i _ _ _ => i =? id
  | _ => false
  end.

(** Whether no DATA and no HEADERS frame of the stream comes after its
    terminal frame; [ended] tells that the terminal frame went out before
    the first frame of the list. *)
Fixpoint nothing_after_terminal (id : stream_id) (ended : bool)
    (l : list frame) : bool :=
  match l with
  | [] => true
  | f :: rest =>
      (if ended then negb (is_data id f || is_headers id f) else true)
      && nothing_after_terminal id (ended || is_terminal id f) rest
  end.

(** Nothing is left to send for the stream: no byte, no message on its
    way into the buffer, no metadata. *)
Definition all_sent (s : grpc_chttp2_stream) : Prop :=
  flow_controlled_buffer s = [] /\
  fetching_send_message s = None /\
  send_trailing_metadata s = None /\
  sent_initial_metadata s = true.

(** Frames that are neither DATA nor HEADERS of the stream. *)
Definition quiet_for (id : stream_id) (f : frame) : Prop :=
  is_data id f = false /\ is_headers id f = false /\
  is_terminal id f = false.

(** The state of an iteration once the stream has nothing left to send. *)
Definition all_sent_it (w : iteration) : Prop :=
  it_sent_initial_metadata w = true /\ all_sent (it_s w).


(** The completion that a closure slot gives, if it holds a closure. *)
Definition closure_run (error : grpc_error) (slot : option closure_id)
    : list (closure_id * grpc_error) :=
  match slot with
  | Some c => [(c, error)]
  | None => []
  end.

(** What [grpc_chttp2_end_write] completes for a stream of the writing
    list, in the order it does: the initial metadata, the write callbacks
    that the bytes of this write reach, the trailing metadata. *)
Definition stream_completions (error : grpc_error) (s : grpc_chttp2_stream)
    : list (closure_id * grpc_error) :=
  (if sent_initial_metadata s
   then closure_run error (send_initial_metadata_finished s) else [])
  ++ (if sending_bytes s =? 0 then []
      else flat_map (run_closure error)
             (filter (due (flow_controlled_bytes_written s
                           + C.to_int64 (sending_bytes s)))
                (on_write_finished_cbs s)))
  ++ (if sent_trailing_metadata s
      then closure_run error (send_trailing_metadata_finished s) else []).

(** The stream [s] as [grpc_chttp2_end_write] leaves it, [s'], when it
    finds it on the writing list. *)
Definition finished_as (client : bool) (s s' : grpc_chttp2_stream) : Prop :=
  refs s' = refs s - 1 /\
  sending_bytes s' = 0 /\
  flow_controlled_bytes_written s'
  = flow_controlled_bytes_written s + C.to_int64 (sending_bytes s) /\
  on_write_finished_cbs s'
  = (if sending_bytes s =? 0 then on_write_finished_cbs s
     else rev (filter (not_due (flow_controlled_bytes_written s'))
                 (on_write_finished_cbs s))) /\
  send_initial_metadata_finished s'
  = (if sent_initial_metadata s then None
     else send_initial_metadata_finished s) /\
  send_trailing_metadata_finished s'
  = (if sent_trailing_metadata s then None
     else send_trailing_metadata_finished s) /\
  read_closed s' = read_closed s || (sent_trailing_metadata s && negb client) /\
  write_closed s' = write_closed s || sent_trailing_metadata s /\
  same_send_state s s'.

(** The bytes that the caller hands to a stream during a run. *)
Definition event_body (id : stream_id) (e : event) : list byte :=
  match e with
  | SendMessage i body => if i =? id then body else []
  | _ => []
  end.

Definition sent_bodies (id : stream_id) (events : list event) : list byte :=
  flat_map (event_body id) events.

(** The initial-metadata frames of a stream among a sequence of frames. *)
Definition initial_headers_frames (id : stream_id) (l : list frame) : nat :=
  length (filter (is_initial_headers id) l).

(** * Properties *)

(** ** Arithmetic of the frame size *)

Lemma to_uint32_range x : 0 <= C.to_uint32 x < 2 ^ 32.
Proof. unfold C.to_uint32. apply Z.mod_pos_bound. lia. Qed.

Lemma to_uint32_small x : 0 <= x < 2 ^ 32 -> C.to_uint32 x = x.
Proof. intros H. unfold C.to_uint32. apply Z.mod_small. exact H. Qed.

Lemma to_uint32_le x : 0 <= x -> C.to_uint32 x <= x.
Proof. intros H. unfold C.to_uint32. apply Z.mod_le; lia. Qed.

Lemma GPR_MIN_spec a b : C.GPR_MIN a b = Z.min a b.
Proof. unfold C.GPR_MIN. destruct (Z.ltb_spec a b); lia. Qed.

Lemma buffer_length_nonneg s : 0 <= buffer_length s.
Proof. unfold buffer_length. lia. Qed.

Lemma max_outgoing_range t s : 0 <= max_outgoing t s < 2 ^ 32.
Proof. apply to_uint32_range. Qed.

(** With non-negative windows the frame fits both of them. *)
Lemma max_outgoing_le_windows t s :
  0 <= outgoing_window s -> 0 <= t_outgoing_window t ->
  max_outgoing t s <= outgoing_window s /\
  max_outgoing t s <= t_outgoing_window t.
Proof.
  intros Hs Ht. unfold max_outgoing.
  rewrite !GPR_MIN_spec.
  pose proof (to_uint32_le
    (Z.min (Z.of_N (acked_max_frame_size t))
       (Z.min (outgoing_window s) (t_outgoing_window t)))) as H.
  lia.
Qed.

Lemma data_frame_size_bounds t s :
  0 <= data_frame_size t s <= buffer_length s /\
  data_frame_size t s <= max_outgoing t s.
Proof.
  unfold data_frame_size. rewrite GPR_MIN_spec.
  pose proof (max_outgoing_range t s) as Hm.
  pose proof (buffer_length_nonneg s) as Hb.
  rewrite to_uint32_small by lia. lia.
Qed.

Lemma data_frame_size_pos t s :
  0 < max_outgoing t s -> 0 < buffer_length s -> 0 < data_frame_size t s.
Proof.
  intros Hm Hb. unfold data_frame_size. rewrite GPR_MIN_spec.
  pose proof (max_outgoing_range t s) as Hr.
  rewrite to_uint32_small by lia. lia.
Qed.

(** ** Draining the callback list *)

Lemma update_list_loop_spec written error cbs :
  forall t head,
    let r := update_list_loop written error cbs t head in
    snd r = rev (filter (not_due written) cbs) ++ head /\
    completed (fst r)
      = completed t ++ flat_map (run_closure error) (filter (due written) cbs)
    /\ write_cb_pool (fst r)
      = rev (map pooled (filter (due written) cbs)) ++ write_cb_pool t.
Proof.
  induction cbs as [|c next IH]; intros t head; cbn.
  - rewrite app_nil_r. auto.
  - unfold not_due, due.
    destruct (call_at_byte c <=? written) eqn:Hc; cbn.
    + destruct (IH (finish_write_cb t c error) head) as (Hk & Hl & Hp).
      split; [exact Hk|]. split.
      * rewrite Hl. unfold finish_write_cb, run_closure.
        destruct (closure c); cbn; rewrite <- ?app_assoc; reflexivity.
      * rewrite Hp. unfold finish_write_cb, pooled.
        destruct (closure c); cbn; rewrite <- app_assoc; reflexivity.
    + destruct (IH t (add_to_write_list head c)) as (Hk & Hl & Hp).
      split; [|auto]. rewrite Hk. unfold add_to_write_list.
      rewrite <- app_assoc. reflexivity.
Qed.

Lemma finish_write_cb_frame t c error :
  let t' := finish_write_cb t c error in
  outbuf t' = outbuf t /\ streams t' = streams t /\
  writing t' = writing t /\ writable t' = writable t /\
  stalled_by_transport t' = stalled_by_transport t /\
  t_outgoing_window t' = t_outgoing_window t /\
  qbuf t' = qbuf t /\ is_client t' = is_client t.
Proof.
  unfold finish_write_cb. destruct (closure c); cbn; repeat split.
Qed.

Lemma update_list_loop_frame written error cbs :
  forall t head,
    let t' := fst (update_list_loop written error cbs t head) in
    outbuf t' = outbuf t /\ streams t' = streams t /\
    writing t' = writing t /\ writable t' = writable t /\
    stalled_by_transport t' = stalled_by_transport t /\
    t_outgoing_window t' = t_outgoing_window t /\
    qbuf t' = qbuf t /\ is_client t' = is_client t.
Proof.
  induction cbs as [|c next IH]; intros t head; cbn.
  - repeat split.
  - destruct (call_at_byte c <=? written).
    + destruct (IH (finish_write_cb t c error) head)
        as (H1 & H2 & H3 & H4 & H5 & H6 & H7 & H8).
      destruct (finish_write_cb_frame t c error)
        as (F1 & F2 & F3 & F4 & F5 & F6 & F7 & F8).
      repeat split; congruence.
    + apply IH.
Qed.

Lemma filter_split_perm {A} (f : A -> bool) (l : list A) :
  Permutation l (filter f l ++ filter (fun x => negb (f x)) l).
Proof.
  induction l as [|a l IH]; cbn; [constructor|].
  destruct (f a); cbn.
  - constructor. exact IH.
  - apply Permutation_cons_app. exact IH.
Qed.

Lemma update_list_spec t s send_bytes cbs error :
  let total := flow_controlled_bytes_written s + send_bytes in
  let d := update_list t s send_bytes cbs error in
  flow_controlled_bytes_written (snd (fst d)) = total /\
  completed (fst (fst d))
    = completed t ++ flat_map (run_closure error) (filter (due total) cbs) /\
  write_cb_pool (fst (fst d))
    = rev (map pooled (filter (due total) cbs)) ++ write_cb_pool t /\
  snd d = rev (filter (not_due total) cbs).
Proof.
  intros total d. subst d. unfold update_list. cbn [fst snd].
  change (flow_controlled_bytes_written
            (S.set_flow_controlled_bytes_written s
               (flow_controlled_bytes_written s + send_bytes)))
    with total.
  destruct (update_list_loop_spec total error cbs t []) as (Hk & Hl & Hp).
  rewrite app_nil_r in Hk. auto.
Qed.

Lemma in_kept written cb cbs :
  In cb cbs -> due written cb = false ->
  In cb (rev (filter (not_due written) cbs)).
Proof.
  intros Hin Hd. rewrite <- in_rev. apply filter_In. split; [exact Hin|].
  unfold not_due. rewrite Hd. reflexivity.
Qed.

Lemma not_in_kept written cb cbs :
  due written cb = true -> ~ In cb (rev (filter (not_due written) cbs)).
Proof.
  intros Hd Hin. rewrite <- in_rev in Hin. apply filter_In in Hin.
  destruct Hin as [_ Hn]. unfold not_due in Hn. rewrite Hd in Hn.
  discriminate.
Qed.

(** A callback whose threshold no pass reaches stays in the list. *)
Lemma drains_keep cb later :
  forall d,
    In cb (snd d) ->
    Forall (fun w => w < call_at_byte cb)
      (totals (flow_controlled_bytes_written (snd (fst d))) later) ->
    In cb (snd (drains later d)).
Proof.
  induction later as [|p later IH]; intros d Hin Hall; cbn; [exact Hin|].
  cbn in Hall. inversion Hall as [|w ws Hw Hrest]; subst.
  destruct (update_list_spec (fst (fst d)) (snd (fst d)) (fst p) (snd d)
              (snd p)) as (Hf & _ & _ & Hk).
  apply IH.
  - unfold drain. rewrite Hk. apply in_kept; [exact Hin|].
    unfold due. apply Z.leb_gt. exact Hw.
  - unfold drain. rewrite Hf. exact Hrest.
Qed.

(** C4: a drain fires exactly the callbacks whose threshold the new
    cumulative total has reached, each once and with the outcome of the
    pass, and returns their records to the pool; it keeps every other
    callback, which then stays through the drains that do not reach its
    threshold and fires in the first drain that does. *)
Theorem update_list_fires_reached
    (t : grpc_chttp2_transport) (s : grpc_chttp2_stream) (send_bytes : Z)
    (cbs : list grpc_chttp2_write_cb) (error : grpc_error)
    (cb : grpc_chttp2_write_cb)
    (later : list (Z * grpc_error)) (p : Z * grpc_error) :
  let total := flow_controlled_bytes_written s + send_bytes in
  let d1 := update_list t s send_bytes cbs error in
  let d2 := drains later d1 in
  let total' := flow_controlled_bytes_written (snd (fst d2)) + fst p in
  let d3 := drain p d2 in
  In cb cbs ->
  (flow_controlled_bytes_written (snd (fst d1)) = total /\
   completed (fst (fst d1))
     = completed t ++ flat_map (run_closure error) (filter (due total) cbs) /\
   write_cb_pool (fst (fst d1))
     = rev (map pooled (filter (due total) cbs)) ++ write_cb_pool t /\
   snd d1 = rev (filter (not_due total) cbs) /\
   Permutation cbs (filter (due total) cbs ++ snd d1)) /\
  (due total cb = false ->
   Forall (fun w => w < call_at_byte cb) (totals total later) ->
   call_at_byte cb <= total' ->
   In cb (snd d1) /\ In cb (snd d2) /\
   In cb (filter (due total') (snd d2)) /\
   completed (fst (fst d3))
     = completed (fst (fst d2))
       ++ flat_map (run_closure (snd p)) (filter (due total') (snd d2)) /\
   write_cb_pool (fst (fst d3))
     = rev (map pooled (filter (due total') (snd d2)))
       ++ write_cb_pool (fst (fst d2)) /\
   ~ In cb (snd d3)).
Proof.
  intros total d1 d2 total' d3 Hin.
  destruct (update_list_spec t s send_bytes cbs error)
    as (Hf & Hl & Hp & Hk).
  fold total in Hf, Hl, Hp, Hk. fold d1 in Hf, Hl, Hp, Hk.
  split.
  - repeat split; try assumption.
    rewrite Hk.
    eapply Permutation_trans; [apply (filter_split_perm (due total))|].
    apply Permutation_app_head. apply Permutation_rev.
  - intros Hnd Hall Hreach.
    assert (H1 : In cb (snd d1)) by (rewrite Hk; apply in_kept; assumption).
    assert (H2 : In cb (snd d2)).
    { apply drains_keep; [exact H1|]. rewrite Hf. exact Hall. }
    destruct (update_list_spec (fst (fst d2)) (snd (fst d2)) (fst p)
                (snd d2) (snd p)) as (_ & Hl3 & Hp3 & Hk3).
    fold total' in Hl3, Hp3, Hk3.
    assert (Hdue : due total' cb = true) by (apply Z.leb_le; exact Hreach).
    repeat split; try assumption.
    + apply filter_In. split; assumption.
    + unfold d3, drain. rewrite Hk3. apply not_in_kept. exact Hdue.
Qed.

(** Scenario 3 of the specification: a callback at byte 5 and one at byte
    20, a pass that confirms 10 bytes, then one that confirms 15 more. *)
Lemma update_list_fires_reached_witness :
  let cb5 := {| call_at_byte := 5; closure := Some 1 |} in
  let cb20 := {| call_at_byte := 20; closure := Some 2 |} in
  let t := fresh_transport true in
  let d1 := update_list t idle_stream 10 [cb5; cb20] GRPC_ERROR_NONE in
  let d3 := drain (15, GRPC_ERROR_NONE) d1 in
  completed (fst (fst d1)) = [(1, GRPC_ERROR_NONE)] /\
  snd d1 = [cb20] /\
  completed (fst (fst d3)) = [(1, GRPC_ERROR_NONE); (2, GRPC_ERROR_NONE)] /\
  ~ In cb20 (snd d3).
Proof.
  intros cb5 cb20 t d1 d3.
  destruct (update_list_fires_reached t idle_stream 10 [cb5; cb20]
              GRPC_ERROR_NONE cb20 [] (15, GRPC_ERROR_NONE))
    as [(_ & Hl & _ & Hk & _) Hlater].
  { right. left. reflexivity. }
  destruct Hlater as (_ & _ & _ & Hl3 & _ & Hout).
  { reflexivity. }
  { constructor. }
  { vm_compute. discriminate. }
  split; [exact Hl|]. split; [exact Hk|]. split; [exact Hl3|exact Hout].
Defined.

(** ** The parts of an iteration *)

Arguments buffer_length : simpl never.
Arguments max_outgoing : simpl never.
Arguments data_frame_size : simpl never.
Arguments is_last_frame : simpl never.
Arguments grpc_metadata_batch_is_empty : simpl never.

Lemma set_outbuf_same t : T.set_outbuf t (outbuf t) = t.
Proof. destruct t; reflexivity. Qed.

Lemma streams_set_stream_same t id s : streams (set_stream t id s) id = s.
Proof. cbn. rewrite Z.eqb_refl. reflexivity. Qed.

Lemma streams_set_stream_other t id s i :
  i <> id -> streams (set_stream t id s) i = streams t i.
Proof. intros H. cbn. apply Z.eqb_neq in H. rewrite H. reflexivity. Qed.

(** An invariant of the four parts is an invariant of [write_frames]. *)
Lemma write_frames_ind (P : iteration -> Prop) id t :
  P (enter id t) ->
  (forall w, P w -> P (write_initial_metadata id w)) ->
  (forall w, P w -> P (write_window_update id w)) ->
  (forall w, it_sent_initial_metadata w = true -> P w ->
             P (write_body id w)) ->
  (forall w, it_sent_initial_metadata w = true -> P w ->
             P (write_trailing_metadata id w)) ->
  P (write_frames id t).
Proof.
  intros H0 H1 H2 H3 H4. unfold write_frames.
  destruct (it_sent_initial_metadata
              (write_window_update id
                 (write_initial_metadata id (enter id t)))) eqn:E.
  - apply H4.
    + unfold write_body.
      repeat match goal with
             | |- context [if ?c then _ else _] => destruct c
             end; cbn; exact E.
    + apply H3; [exact E|]. apply H2. apply H1. exact H0.
  - apply H2. apply H1. exact H0.
Qed.

(** An invariant of the iterations is an invariant of the loop. *)
Lemma write_streams_ind (P : grpc_chttp2_transport -> Prop) :
  (forall t id t',
      grpc_chttp2_list_pop_writable_stream t = Some (id, t') ->
      P t -> P (write_stream id t')) ->
  forall fuel t, P t -> P (write_streams fuel t).
Proof.
  intros Hstep. induction fuel as [|fuel IH]; intros t Ht; cbn; [exact Ht|].
  destruct (grpc_chttp2_list_pop_writable_stream t) as [[id t']|] eqn:E;
    [|exact Ht].
  apply IH. eapply Hstep; eassumption.
Qed.

Lemma pop_writable_inv t id t' :
  grpc_chttp2_list_pop_writable_stream t = Some (id, t') ->
  exists rest, writable t = id :: rest /\ t' = T.set_writable t rest.
Proof.
  unfold grpc_chttp2_list_pop_writable_stream.
  destruct (writable t) as [|i rest] eqn:E; [discriminate|].
  intros H. inversion H; subst. exists rest. auto.
Qed.

Lemma same_but_outbuf_fields t t' :
  same_but_outbuf t t' ->
  is_client t' = is_client t /\
  acked_max_frame_size t' = acked_max_frame_size t /\
  t_outgoing_window t' = t_outgoing_window t /\
  qbuf t' = qbuf t /\
  stalled_by_transport t' = stalled_by_transport t /\
  writable t' = writable t /\
  writing t' = writing t /\
  streams t' = streams t /\
  completed t' = completed t /\
  announce_incoming_window t' = announce_incoming_window t.
Proof.
  unfold same_but_outbuf. intros H.
  repeat split;
    match goal with
    | |- ?p t' = ?p t =>
        change (p (T.set_outbuf t' []) = p (T.set_outbuf t []));
        rewrite H; reflexivity
    end.
Qed.

Ltac split_ands :=
  repeat match goal with |- _ /\ _ => split end.

Lemma rst_stream_after_last_effect id t s :
  outbuf (rst_stream_after_last id t s) = outbuf t ++ rst_frames id t s /\
  same_but_outbuf t (rst_stream_after_last id t s).
Proof.
  unfold rst_stream_after_last, rst_frames, same_but_outbuf,
    grpc_slice_buffer_add.
  destruct (negb (is_client t) && negb (read_closed s)); cbn.
  - auto.
  - rewrite app_nil_r. auto.
Qed.

Lemma rst_stream_after_last_eq id t s :
  rst_stream_after_last id t s
  = T.set_outbuf t (outbuf t ++ rst_frames id t s).
Proof.
  unfold rst_stream_after_last, rst_frames, grpc_slice_buffer_add.
  destruct (negb (is_client t) && negb (read_closed s)); [reflexivity|].
  rewrite app_nil_r, set_outbuf_same. reflexivity.
Qed.

Lemma write_initial_metadata_effect id w :
  let w' := write_initial_metadata id w in
  outbuf (it_t w') = outbuf (it_t w) ++ initial_metadata_frames id w /\
  same_but_outbuf (it_t w) (it_t w').
Proof.
  unfold write_initial_metadata, initial_metadata_frames, same_but_outbuf,
    grpc_chttp2_encode_header.
  destruct (send_initial_metadata (it_s w)) as [md|];
    [destruct (it_sent_initial_metadata w)|]; cbn;
    rewrite ?app_nil_r; auto.
Qed.

Lemma write_window_update_effect id w :
  let w' := write_window_update id w in
  outbuf (it_t w') = outbuf (it_t w) ++ window_update_frames id w /\
  same_but_outbuf (it_t w) (it_t w').
Proof.
  unfold write_window_update, window_update_frames, same_but_outbuf,
    grpc_slice_buffer_add.
  destruct (0 <? announce_window (it_s w)); cbn;
    rewrite ?app_nil_r; auto.
Qed.

Lemma write_trailing_metadata_effect id w :
  let w' := write_trailing_metadata id w in
  outbuf (it_t w') = outbuf (it_t w) ++ trailing_metadata_frames id w /\
  same_but_outbuf (it_t w) (it_t w').
Proof.
  unfold write_trailing_metadata, trailing_metadata_frames, same_but_outbuf,
    grpc_chttp2_encode_header, grpc_chttp2_encode_data.
  destruct (send_trailing_metadata (it_s w)) as [md|];
    [destruct (is_null (fetching_send_message (it_s w))
               && (buffer_length (it_s w) =? 0));
     [destruct (grpc_metadata_batch_is_empty md)|]|]; cbn;
    rewrite ?app_nil_r; auto.
  all: unfold rst_stream_after_last, rst_frames, grpc_slice_buffer_add; cbn.
  all: destruct (negb (is_client (it_t w)) && negb (read_closed (it_s w)));
    cbn; rewrite <- ?app_assoc; auto.
Qed.

(** *** Payload accounting *)

Lemma sumZ_app l1 l2 : sumZ (l1 ++ l2) = sumZ l1 + sumZ l2.
Proof. induction l1 as [|a l1 IH]; cbn; lia. Qed.

Lemma data_bytes_app l1 l2 :
  data_bytes (l1 ++ l2) = data_bytes l1 + data_bytes l2.
Proof. unfold data_bytes. rewrite map_app. apply sumZ_app. Qed.

Lemma stream_data_bytes_app id l1 l2 :
  stream_data_bytes id (l1 ++ l2)
  = stream_data_bytes id l1 + stream_data_bytes id l2.
Proof. unfold stream_data_bytes. rewrite filter_app. apply data_bytes_app. Qed.

Lemma data_bytes_nonneg l : 0 <= data_bytes l.
Proof.
  unfold data_bytes. induction l as [|f l IH]; cbn; [lia|].
  destruct f; cbn; lia.
Qed.

(** Frames of one stream count for that stream and for no other. *)
Lemma stream_data_bytes_own id l :
  Forall (fun f => frame_stream f = id) l ->
  stream_data_bytes id l = data_bytes l.
Proof.
  unfold stream_data_bytes. induction 1 as [|f l Hf _ IH]; cbn; [reflexivity|].
  apply Z.eqb_eq in Hf. rewrite Hf. unfold data_bytes in *. cbn.
  rewrite IH. reflexivity.
Qed.

Lemma stream_data_bytes_other id i l :
  i <> id -> Forall (fun f => frame_stream f = id) l ->
  stream_data_bytes i l = 0.
Proof.
  intros Hne. unfold stream_data_bytes.
  induction 1 as [|f l Hf _ IH]; cbn; [reflexivity|].
  assert (E : (frame_stream f =? i) = false) by (apply Z.eqb_neq; lia).
  rewrite E. exact IH.
Qed.

Lemma data_bytes_rst id t s : data_bytes (rst_frames id t s) = 0.
Proof.
  unfold rst_frames.
  destruct (negb (is_client t) && negb (read_closed s)); reflexivity.
Qed.

Lemma data_bytes_initial_metadata id w :
  data_bytes (initial_metadata_frames id w) = 0.
Proof.
  unfold initial_metadata_frames.
  destruct (send_initial_metadata (it_s w));
    [destruct (negb (it_sent_initial_metadata w))|]; reflexivity.
Qed.

Lemma data_bytes_window_update id w :
  data_bytes (window_update_frames id w) = 0.
Proof.
  unfold window_update_frames.
  destruct (0 <? announce_window (it_s w)); reflexivity.
Qed.

Lemma data_bytes_trailing_metadata id w :
  data_bytes (trailing_metadata_frames id w) = 0.
Proof.
  unfold trailing_metadata_frames.
  destruct (send_trailing_metadata (it_s w)) as [md|]; [|reflexivity].
  destruct (is_null (fetching_send_message (it_s w))
            && (buffer_length (it_s w) =? 0)); [|reflexivity].
  pose proof (data_bytes_rst id (it_t w) (it_s w)) as H.
  destruct (grpc_metadata_batch_is_empty md);
    unfold data_bytes in *; cbn; rewrite H; reflexivity.
Qed.

Lemma firstn_frame_length t s :
  Z.of_nat (length (firstn (Z.to_nat (data_frame_size t s))
                      (flow_controlled_buffer s)))
  = data_frame_size t s.
Proof.
  pose proof (data_frame_size_bounds t s) as [[H0 H1] _].
  unfold buffer_length in H1. rewrite length_firstn. lia.
Qed.

Lemma skipn_frame_length t s :
  Z.of_nat (length (skipn (Z.to_nat (data_frame_size t s))
                      (flow_controlled_buffer s)))
  = buffer_length s - data_frame_size t s.
Proof.
  pose proof (data_frame_size_bounds t s) as [[H0 H1] _].
  unfold buffer_length in *. rewrite length_skipn. lia.
Qed.

Lemma data_bytes_body id w :
  data_bytes (body_frames id w)
  = if (0 <? buffer_length (it_s w))
       && (0 <? max_outgoing (it_t w) (it_s w))
    then data_frame_size (it_t w) (it_s w) else 0.
Proof.
  unfold body_frames.
  destruct ((0 <? buffer_length (it_s w))
            && (0 <? max_outgoing (it_t w) (it_s w))); [|reflexivity].
  pose proof (data_bytes_rst id (it_t w) (it_s w)) as H.
  pose proof (firstn_frame_length (it_t w) (it_s w)) as Hl.
  destruct (is_last_frame (it_t w) (it_s w));
    unfold data_bytes in *; cbn [map sumZ payload_bytes];
    rewrite Hl; try rewrite H; cbn; lia.
Qed.

(** The body part: what it appends, and what it debits. *)
Lemma write_body_effect id w :
  let w' := write_body id w in
  let n := data_bytes (body_frames id w) in
  outbuf (it_t w') = outbuf (it_t w) ++ body_frames id w /\
  t_outgoing_window (it_t w') = t_outgoing_window (it_t w) - n /\
  outgoing_window (it_s w') = outgoing_window (it_s w) - n /\
  buffer_length (it_s w') = buffer_length (it_s w) - n /\
  is_client (it_t w') = is_client (it_t w) /\
  acked_max_frame_size (it_t w') = acked_max_frame_size (it_t w) /\
  qbuf (it_t w') = qbuf (it_t w) /\
  streams (it_t w') = streams (it_t w) /\
  writing (it_t w') = writing (it_t w) /\
  completed (it_t w') = completed (it_t w) /\
  announce_incoming_window (it_t w') = announce_incoming_window (it_t w).
Proof.
  intros w' n. subst w' n. rewrite data_bytes_body.
  unfold write_body, body_frames.
  destruct (0 <? buffer_length (it_s w)) eqn:Hb; cbn [andb];
    [destruct (0 <? max_outgoing (it_t w) (it_s w)) eqn:Hm|].
  - unfold write_data_frame, grpc_chttp2_encode_data. cbn [fst snd].
    pose proof (skipn_frame_length (it_t w) (it_s w)) as Hs.
    rewrite ?rst_stream_after_last_eq.
    destruct (is_last_frame (it_t w) (it_s w));
      match goal with
      | |- context [if ?c then _ else _] => destruct c
      end; cbn; unfold buffer_length in *; cbn; rewrite <- ?app_assoc;
      split_ands; try reflexivity; try lia.
  - destruct (t_outgoing_window (it_t w) =? 0); cbn;
      rewrite ?app_nil_r; split_ands; try reflexivity; try lia.
  - rewrite app_nil_r. split_ands; try reflexivity; lia.
Qed.

Lemma same_flow_refl s : same_flow s s.
Proof. unfold same_flow. auto 10. Qed.

Lemma same_flow_trans s1 s2 s3 :
  same_flow s1 s2 -> same_flow s2 s3 -> same_flow s1 s3.
Proof. unfold same_flow. intuition congruence. Qed.

Lemma write_initial_metadata_flow id w :
  same_flow (it_s w) (it_s (write_initial_metadata id w)).
Proof.
  unfold write_initial_metadata, same_flow.
  destruct (send_initial_metadata (it_s w));
    [destruct (negb (it_sent_initial_metadata w))|]; cbn; auto 10.
Qed.

Lemma write_window_update_flow id w :
  same_flow (it_s w) (it_s (write_window_update id w)).
Proof.
  unfold write_window_update, same_flow.
  destruct (0 <? announce_window (it_s w)); cbn; auto 10.
Qed.

Lemma write_trailing_metadata_flow id w :
  same_flow (it_s w) (it_s (write_trailing_metadata id w)).
Proof.
  unfold write_trailing_metadata, same_flow, grpc_chttp2_encode_data.
  destruct (send_trailing_metadata (it_s w)) as [md|];
    [destruct (is_null (fetching_send_message (it_s w))
               && (buffer_length (it_s w) =? 0));
     [destruct (grpc_metadata_batch_is_empty md)|]|]; cbn; auto 10.
Qed.

Lemma same_flow_buffer_length s s' :
  same_flow s s' -> buffer_length s' = buffer_length s.
Proof. intros (_ & H & _). unfold buffer_length. rewrite H. reflexivity. Qed.

(** Every frame of an iteration carries the id of its stream. *)
Lemma stream_frames_own id t :
  Forall (fun f => frame_stream f = id) (stream_frames id t).
Proof.
  unfold stream_frames.
  apply Forall_app. split; [|apply Forall_app; split].
  - unfold initial_metadata_frames.
    destruct (send_initial_metadata _);
      [destruct (negb _)|]; repeat constructor.
  - unfold window_update_frames.
    destruct (0 <? _); repeat constructor.
  - destruct (it_sent_initial_metadata _); [|constructor].
    apply Forall_app. split.
    + unfold body_frames, rst_frames.
      destruct (_ && _); [|constructor].
      destruct (is_last_frame _ _); [destruct (_ && _)|];
        repeat constructor.
    + unfold trailing_metadata_frames, rst_frames.
      destruct (send_trailing_metadata _) as [md|]; [|constructor].
      destruct (_ && _); [|constructor].
      destruct (grpc_metadata_batch_is_empty md); destruct (_ && _);
        repeat constructor.
Qed.

Lemma write_frames_outbuf id t :
  outbuf (it_t (write_frames id t)) = outbuf t ++ stream_frames id t.
Proof.
  unfold write_frames, stream_frames.
  set (w0 := enter id t).
  set (w1 := write_initial_metadata id w0).
  set (w2 := write_window_update id w1).
  destruct (write_initial_metadata_effect id w0) as [H1 _].
  destruct (write_window_update_effect id w1) as [H2 _].
  fold w1 in H1. fold w2 in H2.
  destruct (it_sent_initial_metadata w2).
  - destruct (write_body_effect id w2) as [H3 _].
    destruct (write_trailing_metadata_effect id (write_body id w2))
      as [H4 _].
    rewrite H4, H3, H2, H1. cbn. rewrite <- !app_assoc. reflexivity.
  - rewrite H2, H1. cbn. rewrite app_nil_r, <- app_assoc. reflexivity.
Qed.

(** The debits of an iteration are the payload it framed. *)
Lemma write_frames_account id t :
  let w := write_frames id t in
  let n := data_bytes (stream_frames id t) in
  t_outgoing_window (it_t w) = t_outgoing_window t - n /\
  outgoing_window (it_s w) = outgoing_window (streams t id) - n /\
  buffer_length (it_s w) = buffer_length (streams t id) - n /\
  streams (it_t w) = streams t /\
  is_client (it_t w) = is_client t /\
  acked_max_frame_size (it_t w) = acked_max_frame_size t /\
  qbuf (it_t w) = qbuf t /\
  writing (it_t w) = writing t /\
  completed (it_t w) = completed t /\
  announce_incoming_window (it_t w) = announce_incoming_window t.
Proof.
  unfold write_frames, stream_frames.
  set (w0 := enter id t).
  set (w1 := write_initial_metadata id w0).
  set (w2 := write_window_update id w1).
  destruct (write_initial_metadata_effect id w0) as [_ H1].
  destruct (write_window_update_effect id w1) as [_ H2].
  fold w1 in H1. fold w2 in H2.
  apply same_but_outbuf_fields in H1, H2.
  destruct H1 as (A1 & A2 & A3 & A4 & A5 & A6 & A7 & A8 & A9 & A10).
  destruct H2 as (B1 & B2 & B3 & B4 & B5 & B6 & B7 & B8 & B9 & B10).
  pose proof (write_initial_metadata_flow id w0) as F1.
  pose proof (write_window_update_flow id w1) as F2.
  fold w1 in F1. fold w2 in F2.
  pose proof (same_flow_trans _ _ _ F1 F2) as F.
  pose proof (same_flow_buffer_length _ _ F) as Fb.
  destruct F as (Fw & _).
  rewrite !data_bytes_app, data_bytes_initial_metadata,
    data_bytes_window_update.
  change (it_t w0) with t in *. change (it_s w0) with (streams t id) in *.
  destruct (it_sent_initial_metadata w2).
  - destruct (write_body_effect id w2)
      as (_ & C1 & C2 & C3 & C4 & C5 & C6 & C7 & C8 & C9 & C10).
    destruct (write_trailing_metadata_effect id (write_body id w2))
      as [_ H4].
    apply same_but_outbuf_fields in H4.
    destruct H4 as (D1 & D2 & D3 & D4 & D5 & D6 & D7 & D8 & D9 & D10).
    pose proof (write_trailing_metadata_flow id (write_body id w2)) as F4.
    pose proof (same_flow_buffer_length _ _ F4) as F4b.
    destruct F4 as (F4w & _).
    rewrite data_bytes_app, data_bytes_trailing_metadata.
    split_ands; try congruence; try lia.
  - cbn [data_bytes map sumZ].
    split_ands; try congruence; try lia.
Qed.

(** *** Where the stream goes next *)

Lemma same_but_refs_fields s s' :
  same_but_refs s s' ->
  sent_initial_metadata s' = sent_initial_metadata s /\
  sent_trailing_metadata s' = sent_trailing_metadata s /\
  send_initial_metadata s' = send_initial_metadata s /\
  send_trailing_metadata s' = send_trailing_metadata s /\
  outgoing_window s' = outgoing_window s /\
  flow_controlled_buffer s' = flow_controlled_buffer s /\
  sending_bytes s' = sending_bytes s /\
  read_closed s' = read_closed s /\
  fetching_send_message s' = fetching_send_message s /\
  announce_window s' = announce_window s.
Proof.
  unfold same_but_refs. intros H.
  repeat split;
    match goal with
    | |- ?p s' = ?p s =>
        change (p (S.set_refs s' 0) = p (S.set_refs s 0));
        rewrite H; reflexivity
    end.
Qed.

Lemma requeue_effect id w :
  let t' := requeue id w in
  same_but_refs (it_s w) (streams t' id) /\
  (forall i, i <> id -> streams t' i = streams (it_t w) i) /\
  outbuf t' = outbuf (it_t w) /\
  t_outgoing_window t' = t_outgoing_window (it_t w) /\
  is_client t' = is_client (it_t w) /\
  acked_max_frame_size t' = acked_max_frame_size (it_t w) /\
  qbuf t' = qbuf (it_t w) /\
  completed t' = completed (it_t w) /\
  announce_incoming_window t' = announce_incoming_window (it_t w).
Proof.
  unfold requeue, grpc_chttp2_list_add_writing_stream, stream_list_add,
    grpc_chttp2_leave_writing_lists, same_but_refs.
  destruct (it_now_writing w);
    [destruct (list_mem id (writing (it_t w)))|];
    cbn; rewrite Z.eqb_refl;
    (split; [reflexivity|]);
    (split; [intros i Hi; apply Z.eqb_neq in Hi; rewrite Hi; reflexivity|]);
    auto 10.
Qed.

(** One iteration: the frames it appends and the windows it debits. *)
Lemma write_stream_account id t :
  let t' := write_stream id t in
  let n := data_bytes (stream_frames id t) in
  outbuf t' = outbuf t ++ stream_frames id t /\
  t_outgoing_window t' = t_outgoing_window t - n /\
  outgoing_window (streams t' id) = outgoing_window (streams t id) - n /\
  buffer_length (streams t' id) = buffer_length (streams t id) - n /\
  (forall i, i <> id -> streams t' i = streams t i) /\
  is_client t' = is_client t /\
  acked_max_frame_size t' = acked_max_frame_size t /\
  qbuf t' = qbuf t /\
  completed t' = completed t /\
  announce_incoming_window t' = announce_incoming_window t.
Proof.
  unfold write_stream.
  destruct (requeue_effect id (write_frames id t))
    as (R1 & R2 & R3 & R4 & R5 & R6 & R7 & R8 & R9).
  destruct (write_frames_account id t)
    as (A1 & A2 & A3 & A4 & A5 & A6 & A7 & A8 & A9 & A10).
  apply same_but_refs_fields in R1.
  destruct R1 as (_ & _ & _ & _ & Rw & Rb & _).
  cbn zeta. rewrite R3, write_frames_outbuf.
  split_ands; try congruence.
  - unfold buffer_length in *. rewrite Rb. exact A3.
  - intros i Hi. rewrite R2 by exact Hi. rewrite A4. reflexivity.
Qed.

(** *** Windows stay non-negative *)

Lemma stream_frames_fit id t :
  0 <= outgoing_window (streams t id) -> 0 <= t_outgoing_window t ->
  data_bytes (stream_frames id t) <= outgoing_window (streams t id) /\
  data_bytes (stream_frames id t) <= t_outgoing_window t.
Proof.
  intros Hs Ht. unfold stream_frames.
  set (w0 := enter id t).
  set (w1 := write_initial_metadata id w0).
  set (w2 := write_window_update id w1).
  destruct (write_initial_metadata_effect id w0) as [_ H1].
  destruct (write_window_update_effect id w1) as [_ H2].
  fold w1 in H1. fold w2 in H2.
  apply same_but_outbuf_fields in H1, H2.
  destruct H1 as (_ & _ & A3 & _). destruct H2 as (_ & _ & B3 & _).
  pose proof (write_initial_metadata_flow id w0) as F1.
  pose proof (write_window_update_flow id w1) as F2.
  fold w1 in F1. fold w2 in F2.
  destruct (same_flow_trans _ _ _ F1 F2) as (Fw & _).
  change (it_t w0) with t in *. change (it_s w0) with (streams t id) in *.
  rewrite !data_bytes_app, data_bytes_initial_metadata,
    data_bytes_window_update.
  destruct (it_sent_initial_metadata w2).
  - rewrite data_bytes_app, data_bytes_trailing_metadata, data_bytes_body.
    destruct ((0 <? buffer_length (it_s w2))
              && (0 <? max_outgoing (it_t w2) (it_s w2))); [|lia].
    pose proof (data_frame_size_bounds (it_t w2) (it_s w2)) as [_ Hd].
    destruct (max_outgoing_le_windows (it_t w2) (it_s w2)); lia.
  - cbn. lia.
Qed.

Lemma write_stream_nonneg id t :
  windows_nonneg t -> windows_nonneg (write_stream id t).
Proof.
  intros [Ht Hs].
  destruct (write_stream_account id t) as (_ & A & B & _ & C & _).
  destruct (stream_frames_fit id t (Hs id) Ht) as [F1 F2].
  split; [lia|]. intros i.
  destruct (Z.eq_dec i id) as [->|Hne]; [lia|].
  rewrite C by exact Hne. apply Hs.
Qed.

Lemma pop_writable_nonneg t id t' :
  grpc_chttp2_list_pop_writable_stream t = Some (id, t') ->
  windows_nonneg t -> windows_nonneg t'.
Proof.
  intros Hpop H. apply pop_writable_inv in Hpop.
  destruct Hpop as (rest & _ & ->). exact H.
Qed.

Lemma write_streams_nonneg fuel t :
  windows_nonneg t -> windows_nonneg (write_streams fuel t).
Proof.
  apply (write_streams_ind windows_nonneg).
  intros t0 id t' Hpop H. apply write_stream_nonneg.
  eapply pop_writable_nonneg; eassumption.
Qed.

(** *** The loop: frames against windows and buffers *)

Lemma write_streams_account fuel :
  forall t, exists fs,
    let t' := write_streams fuel t in
    outbuf t' = outbuf t ++ fs /\
    t_outgoing_window t' = t_outgoing_window t - data_bytes fs /\
    (forall i, outgoing_window (streams t' i)
               = outgoing_window (streams t i) - stream_data_bytes i fs) /\
    (forall i, buffer_length (streams t' i)
               = buffer_length (streams t i) - stream_data_bytes i fs) /\
    is_client t' = is_client t /\
    acked_max_frame_size t' = acked_max_frame_size t /\
    qbuf t' = qbuf t /\
    completed t' = completed t /\
    announce_incoming_window t' = announce_incoming_window t.
Proof.
  induction fuel as [|fuel IH]; intros t; cbn.
  - exists []. rewrite app_nil_r. cbn.
    split_ands; try reflexivity; try lia; intros; lia.
  - destruct (grpc_chttp2_list_pop_writable_stream t) as [[id t1]|] eqn:E.
    + apply pop_writable_inv in E. destruct E as (rest & _ & E).
      destruct (IH (write_stream id t1))
        as (fs & O & W & SW & B & K1 & K2 & K3 & K4 & K5).
      destruct (write_stream_account id t1)
        as (O1 & W1 & SW1 & B1 & F1 & L1 & L2 & L3 & L4 & L5).
      pose proof (stream_frames_own id t1) as Hown.
      exists (stream_frames id t1 ++ fs).
      rewrite O, O1, W, W1, data_bytes_app, K1, K2, K3, K4, K5,
        L1, L2, L3, L4, L5.
      subst t1. cbn.
      split_ands; try reflexivity; try lia; try (rewrite app_assoc; reflexivity).
      * intros i. rewrite SW, stream_data_bytes_app.
        destruct (Z.eq_dec i id) as [->|Hne].
        -- rewrite SW1, (stream_data_bytes_own id _ Hown). cbn. lia.
        -- rewrite F1 by exact Hne.
           rewrite (stream_data_bytes_other id i _ Hne Hown). cbn. lia.
      * intros i. rewrite B, stream_data_bytes_app.
        destruct (Z.eq_dec i id) as [->|Hne].
        -- rewrite B1, (stream_data_bytes_own id _ Hown). cbn. lia.
        -- rewrite F1 by exact Hne.
           rewrite (stream_data_bytes_other id i _ Hne Hown). cbn. lia.
    + exists []. rewrite app_nil_r. cbn.
      split_ands; try reflexivity; try lia; intros; lia.
Qed.

(** *** The whole pass *)

Lemma erase_lists_fields t t' :
  erase_lists t' = erase_lists t ->
  outbuf t' = outbuf t /\ qbuf t' = qbuf t /\
  t_outgoing_window t' = t_outgoing_window t /\
  streams t' = streams t /\ is_client t' = is_client t /\
  acked_max_frame_size t' = acked_max_frame_size t /\
  completed t' = completed t /\ writing t' = writing t /\
  announce_incoming_window t' = announce_incoming_window t.
Proof.
  intros H.
  repeat split;
    match goal with
    | |- ?p t' = ?p t =>
        change (p (erase_lists t') = p (erase_lists t));
        rewrite H; reflexivity
    end.
Qed.

Lemma unstall_erase fuel : forall t, erase_lists (unstall fuel t) = erase_lists t.
Proof.
  induction fuel as [|fuel IH]; intros t; cbn; [reflexivity|].
  unfold grpc_chttp2_list_pop_stalled_by_transport.
  destruct (stalled_by_transport t) as [|id rest]; [reflexivity|].
  rewrite IH. reflexivity.
Qed.

Lemma begin_write_prologue_effect t :
  let t' := begin_write_prologue t in
  outbuf t' = outbuf t ++ settings_frames t ++ qbuf t /\
  qbuf t' = [] /\
  t_outgoing_window t' = t_outgoing_window t /\
  streams t' = streams t /\ is_client t' = is_client t /\
  acked_max_frame_size t' = acked_max_frame_size t /\
  completed t' = completed t /\ writing t' = writing t /\
  announce_incoming_window t' = announce_incoming_window t.
Proof.
  unfold begin_write_prologue, unstall_streams.
  set (t1 := set_max_table_size (flush_qbuf (write_settings t))).
  assert (H1 : outbuf t1 = outbuf t ++ settings_frames t ++ qbuf t /\
               qbuf t1 = [] /\
               t_outgoing_window t1 = t_outgoing_window t /\
               streams t1 = streams t /\ is_client t1 = is_client t /\
               acked_max_frame_size t1 = acked_max_frame_size t /\
               completed t1 = completed t /\ writing t1 = writing t /\
               announce_incoming_window t1 = announce_incoming_window t).
  { subst t1. unfold set_max_table_size, flush_qbuf, write_settings,
      settings_frames, grpc_slice_buffer_add.
    destruct (dirtied_local_settings t && negb (sent_local_settings t));
      cbn; rewrite <- ?app_assoc; auto 10. }
  cbn zeta.
  destruct (0 <? t_outgoing_window t1); [|exact H1].
  destruct (erase_lists_fields _ _
              (unstall_erase (length (stalled_by_transport t1)) t1))
    as (E1 & E2 & E3 & E4 & E5 & E6 & E7 & E8 & E9).
  rewrite E1, E2, E3, E4, E5, E6, E7, E8, E9. exact H1.
Qed.

Lemma write_transport_window_update_effect t :
  let t' := write_transport_window_update t in
  outbuf t' = outbuf t ++ transport_window_update_frames t /\
  qbuf t' = qbuf t /\
  t_outgoing_window t' = t_outgoing_window t /\
  streams t' = streams t /\ is_client t' = is_client t /\
  acked_max_frame_size t' = acked_max_frame_size t /\
  completed t' = completed t /\ writing t' = writing t /\
  writable t' = writable t /\
  stalled_by_transport t' = stalled_by_transport t.
Proof.
  unfold write_transport_window_update, transport_window_update_frames,
    grpc_slice_buffer_add.
  destruct (0 <? announce_incoming_window t); cbn;
    rewrite ?app_nil_r; auto 10.
Qed.

(** One pass: the frames of the streams, between what the prologue and the
    epilogue append, are what the windows and the buffers lose. *)
Lemma begin_write_account t :
  exists fs,
    let t' := begin_write_state t in
    outbuf t' = outbuf t ++ settings_frames t ++ qbuf t ++ fs
                ++ transport_window_update_frames t /\
    qbuf t' = [] /\
    t_outgoing_window t' = t_outgoing_window t - data_bytes fs /\
    (forall i, outgoing_window (streams t' i)
               = outgoing_window (streams t i) - stream_data_bytes i fs) /\
    (forall i, buffer_length (streams t' i)
               = buffer_length (streams t i) - stream_data_bytes i fs) /\
    is_client t' = is_client t /\
    acked_max_frame_size t' = acked_max_frame_size t.
Proof.
  unfold begin_write_state.
  set (t1 := begin_write_prologue t).
  destruct (begin_write_prologue_effect t)
    as (P1 & P2 & P3 & P4 & P5 & P6 & P7 & P8 & P9).
  fold t1 in P1, P2, P3, P4, P5, P6, P7, P8, P9.
  destruct (write_streams_account (write_fuel t1) t1)
    as (fs & O & W & SW & B & K1 & K2 & K3 & K4 & K5).
  set (t2 := write_streams (write_fuel t1) t1) in *.
  destruct (write_transport_window_update_effect t2)
    as (U1 & U2 & U3 & U4 & U5 & U6 & _).
  exists fs. cbn zeta.
  rewrite U1, U2, U3, U4, U5, U6, O, W, K1, K2, K3, P1, P2, P3, P5, P6.
  unfold transport_window_update_frames. rewrite K5, P9.
  split_ands; try reflexivity.
  - rewrite <- !app_assoc. reflexivity.
  - intros i. rewrite SW, P4. reflexivity.
  - intros i. rewrite B. unfold buffer_length. rewrite P4. reflexivity.
Qed.

Lemma begin_write_nonneg t :
  windows_nonneg t -> windows_nonneg (begin_write_state t).
Proof.
  intros H. unfold begin_write_state.
  destruct (begin_write_prologue_effect t) as (_ & _ & P3 & P4 & _).
  match goal with
  | |- windows_nonneg (write_transport_window_update ?t2) =>
      destruct (write_transport_window_update_effect t2)
        as (_ & _ & U3 & U4 & _);
      assert (H2 : windows_nonneg t2)
  end.
  { apply write_streams_nonneg. unfold windows_nonneg.
    rewrite P3, P4. exact H. }
  unfold windows_nonneg. cbn zeta in U3, U4. rewrite U3, U4. exact H2.
Qed.

(** ** [grpc_chttp2_end_write] leaves the send state alone *)

Lemma same_send_state_refl s : same_send_state s s.
Proof. unfold same_send_state. auto 10. Qed.

Lemma same_send_state_trans s1 s2 s3 :
  same_send_state s1 s2 -> same_send_state s2 s3 -> same_send_state s1 s3.
Proof. unfold same_send_state. intuition congruence. Qed.

Lemma complete_closure_step_frame t pc error :
  let t' := fst (grpc_chttp2_complete_closure_step t pc error) in
  outbuf t' = outbuf t /\ streams t' = streams t /\
  writing t' = writing t /\ writable t' = writable t /\
  stalled_by_transport t' = stalled_by_transport t /\
  t_outgoing_window t' = t_outgoing_window t /\
  qbuf t' = qbuf t /\ is_client t' = is_client t.
Proof. destruct pc; cbn; auto 10. Qed.

Lemma finish_stream_effect id error t :
  let t' := finish_stream id error t in
  same_send_state (streams t id) (streams t' id) /\
  refs (streams t' id) = refs (streams t id) - 1 /\
  (forall i, i <> id -> streams t' i = streams t i) /\
  outbuf t' = outbuf t /\ qbuf t' = qbuf t /\
  t_outgoing_window t' = t_outgoing_window t /\
  is_client t' = is_client t /\
  writing t' = stream_list_remove (writing t) id /\
  writable t' = stream_list_remove (writable t) id /\
  stalled_by_transport t' = stream_list_remove (stalled_by_transport t) id.
Proof.
  unfold finish_stream.
  set (s := streams t id).
  set (r1 := if sent_initial_metadata s
             then grpc_chttp2_complete_closure_step t
                    (send_initial_metadata_finished s) error
             else (t, send_initial_metadata_finished s)).
  assert (F1 : outbuf (fst r1) = outbuf t /\ streams (fst r1) = streams t /\
               writing (fst r1) = writing t /\
               writable (fst r1) = writable t /\
               stalled_by_transport (fst r1) = stalled_by_transport t /\
               t_outgoing_window (fst r1) = t_outgoing_window t /\
               qbuf (fst r1) = qbuf t /\ is_client (fst r1) = is_client t).
  { subst r1. destruct (sent_initial_metadata s);
      [apply complete_closure_step_frame|cbn; auto 10]. }
  set (t1 := fst r1) in *.
  set (s1 := S.set_send_initial_metadata_finished s (snd r1)).
  set (u := if negb (sending_bytes s1 =? 0)
            then update_list t1 s1 (C.to_int64 (sending_bytes s1))
                   (on_write_finished_cbs s1) error
            else (t1, s1, on_write_finished_cbs s1)).
  set (s2 := if negb (sending_bytes s1 =? 0)
             then S.set_sending_bytes
                    (S.set_on_write_finished_cbs (snd (fst u)) (snd u)) 0
             else s1).
  assert (F2 : outbuf (fst (fst u)) = outbuf t1 /\
               streams (fst (fst u)) = streams t1 /\
               writing (fst (fst u)) = writing t1 /\
               writable (fst (fst u)) = writable t1 /\
               stalled_by_transport (fst (fst u)) = stalled_by_transport t1 /\
               t_outgoing_window (fst (fst u)) = t_outgoing_window t1 /\
               qbuf (fst (fst u)) = qbuf t1 /\
               is_client (fst (fst u)) = is_client t1).
  { subst u. destruct (negb (sending_bytes s1 =? 0)); [|cbn; auto 10].
    unfold update_list. cbn [fst snd]. apply update_list_loop_frame. }
  assert (G2 : same_send_state s s2 /\ refs s2 = refs s).
  { subst s2 u s1. destruct (negb (_ =? 0)); cbn; unfold same_send_state;
      cbn; auto 10. }
  set (t2 := fst (fst u)) in *.
  set (r3 := if sent_trailing_metadata s2
             then grpc_chttp2_complete_closure_step t2
                    (send_trailing_metadata_finished s2) error
             else (t2, send_trailing_metadata_finished s2)).
  assert (F3 : outbuf (fst r3) = outbuf t2 /\ streams (fst r3) = streams t2 /\
               writing (fst r3) = writing t2 /\
               writable (fst r3) = writable t2 /\
               stalled_by_transport (fst r3) = stalled_by_transport t2 /\
               t_outgoing_window (fst r3) = t_outgoing_window t2 /\
               qbuf (fst r3) = qbuf t2 /\ is_client (fst r3) = is_client t2).
  { subst r3. destruct (sent_trailing_metadata s2);
      [apply complete_closure_step_frame|cbn; auto 10]. }
  set (t3 := fst r3) in *.
  set (s3 := S.set_send_trailing_metadata_finished s2 (snd r3)).
  set (s4 := if sent_trailing_metadata s2
             then grpc_chttp2_mark_stream_closed s3 (negb (is_client t3)) true
             else s3).
  assert (G4 : same_send_state s2 s4 /\ refs s4 = refs s2).
  { subst s4 s3. destruct (sent_trailing_metadata s2); cbn;
      unfold same_send_state; cbn; auto 10. }
  destruct F1 as (A1 & A2 & A3 & A4 & A5 & A6 & A7 & A8).
  destruct F2 as (B1 & B2 & B3 & B4 & B5 & B6 & B7 & B8).
  destruct F3 as (C1 & C2 & C3 & C4 & C5 & C6 & C7 & C8).
  destruct G2 as [G2 R2]. destruct G4 as [G4 R4].
  cbn zeta. cbn. rewrite Z.eqb_refl.
  split; [|split; [|split]].
  - unfold same_send_state in *. cbn. intuition congruence.
  - cbn. lia.
  - intros i Hi. apply Z.eqb_neq in Hi. rewrite Hi. congruence.
  - split_ands; congruence.
Qed.

Arguments finish_stream : simpl never.
Arguments write_stream : simpl never.
Arguments begin_write_state : simpl never.
Arguments grpc_chttp2_end_write : simpl never.
Arguments mark_writable : simpl never.

Lemma pop_writing_inv t id t' :
  grpc_chttp2_list_pop_writing_stream t = Some (id, t') ->
  exists rest, writing t = id :: rest /\ t' = T.set_writing t rest.
Proof.
  unfold grpc_chttp2_list_pop_writing_stream.
  destruct (writing t) as [|i rest] eqn:E; [discriminate|].
  intros H. inversion H; subst. exists rest. auto.
Qed.

Lemma finish_streams_effect fuel error :
  forall t,
    let t' := finish_streams fuel error t in
    (forall i, same_send_state (streams t i) (streams t' i)) /\
    outbuf t' = outbuf t /\ qbuf t' = qbuf t /\
    t_outgoing_window t' = t_outgoing_window t /\
    is_client t' = is_client t.
Proof.
  induction fuel as [|fuel IH]; intros t; cbn.
  - split; [intros; apply same_send_state_refl|auto].
  - destruct (grpc_chttp2_list_pop_writing_stream t) as [[id t1]|] eqn:E.
    + apply pop_writing_inv in E. destruct E as (rest & _ & ->).
      destruct (IH (finish_stream id error (T.set_writing t rest)))
        as (I1 & I2 & I3 & I4 & I5).
      destruct (finish_stream_effect id error (T.set_writing t rest))
        as (F1 & _ & F3 & F4 & F5 & F6 & F7 & _).
      cbn in F1, F3, F4, F5, F6, F7.
      split; [|split_ands; congruence].
      intros i. eapply same_send_state_trans; [|apply I1].
      destruct (Z.eq_dec i id) as [->|Hne]; [exact F1|].
      rewrite F3 by exact Hne. apply same_send_state_refl.
    + split; [intros; apply same_send_state_refl|auto].
Qed.

Lemma end_write_effect t error :
  let t' := grpc_chttp2_end_write t error in
  (forall i, same_send_state (streams t i) (streams t' i)) /\
  outbuf t' = [] /\ qbuf t' = qbuf t /\
  t_outgoing_window t' = t_outgoing_window t /\
  is_client t' = is_client t.
Proof.
  unfold grpc_chttp2_end_write.
  destruct (finish_streams_effect (length (writing t)) error t)
    as (I1 & I2 & I3 & I4 & I5).
  cbn. auto.
Qed.

(** ** Flow-control windows over a run *)

Lemma data_bytes_settings t : data_bytes (settings_frames t) = 0.
Proof. unfold settings_frames. destruct (_ && _); reflexivity. Qed.

Lemma data_bytes_transport_window_update t :
  data_bytes (transport_window_update_frames t) = 0.
Proof.
  unfold transport_window_update_frames. destruct (0 <? _); reflexivity.
Qed.

Lemma stream_data_bytes_settings id t :
  stream_data_bytes id (settings_frames t) = 0.
Proof.
  unfold settings_frames, stream_data_bytes.
  destruct (_ && _); cbn [filter frame_stream]; [destruct (0 =? id)|];
    reflexivity.
Qed.

Lemma stream_data_bytes_transport_window_update id t :
  stream_data_bytes id (transport_window_update_frames t) = 0.
Proof.
  unfold transport_window_update_frames, stream_data_bytes.
  destruct (0 <? _); cbn [filter frame_stream]; [destruct (0 =? id)|];
    reflexivity.
Qed.

Lemma mark_writable_effect t id s :
  let t' := mark_writable t id s in
  same_but_refs s (streams t' id) /\
  (forall i, i <> id -> streams t' i = streams t i) /\
  outbuf t' = outbuf t /\ qbuf t' = qbuf t /\
  t_outgoing_window t' = t_outgoing_window t /\
  is_client t' = is_client t.
Proof.
  unfold mark_writable, grpc_chttp2_list_add_writable_stream,
    stream_list_add, same_but_refs.
  destruct (list_mem id (writable t)); cbn; rewrite Z.eqb_refl;
    (split; [reflexivity|]);
    (split; [intros i Hi; apply Z.eqb_neq in Hi; rewrite Hi; reflexivity|]);
    auto.
Qed.

(** Queueing work for a stream touches no window and no frame. *)
Lemma mark_writable_ledger t wire i s :
  outgoing_window s = outgoing_window (streams t i) ->
  let c := (t, wire) in
  let c' := (mark_writable t i s, wire) in
  t_outgoing_window (fst c') + data_bytes (framed c')
  = t_outgoing_window (fst c) + data_bytes (framed c) + 0 /\
  (forall id,
      outgoing_window (streams (fst c') id) + stream_data_bytes id (framed c')
      = outgoing_window (streams (fst c) id) + stream_data_bytes id (framed c)
        + 0) /\
  (windows_nonneg (fst c) -> windows_nonneg (fst c')).
Proof.
  intros Hs c c'. subst c c'. unfold framed. cbn [fst snd].
  destruct (mark_writable_effect t i s) as (M1 & M2 & M3 & M4 & M5 & _).
  apply same_but_refs_fields in M1.
  destruct M1 as (_ & _ & _ & _ & Mw & _).
  cbn zeta in M2, M3, M4, M5, Mw. rewrite M3, M4, M5.
  assert (Hsw : forall id,
             outgoing_window (streams (mark_writable t i s) id)
             = outgoing_window (streams t id)).
  { intros id. destruct (Z.eq_dec id i) as [->|Hne];
      [rewrite Mw; exact Hs|rewrite M2 by exact Hne; reflexivity]. }
  split; [lia|split].
  - intros id. rewrite Hsw. lia.
  - intros [Ht Hw]. split; [lia|]. intros id. rewrite Hsw. apply Hw.
Qed.

(** What one event does to the two ledgers. *)
Lemma step_ledger e c :
  let c' := step e c in
  t_outgoing_window (fst c') + data_bytes (framed c')
  = t_outgoing_window (fst c) + data_bytes (framed c) + transport_credit e /\
  (forall id,
      outgoing_window (streams (fst c') id) + stream_data_bytes id (framed c')
      = outgoing_window (streams (fst c) id) + stream_data_bytes id (framed c)
        + stream_credit id e) /\
  (credit_ok e -> windows_nonneg (fst c) -> windows_nonneg (fst c')).
Proof.
  destruct c as [t wire]. unfold framed.
  destruct e as [|error|i n|n|i md|i body|i md]; cbn [step fst snd].
  - (* BeginWrite *)
    destruct (begin_write_account t) as (fs & O & Q & W & SW & _).
    cbn zeta in O, Q, W, SW. rewrite O, Q, W.
    split; [|split].
    + rewrite !data_bytes_app, data_bytes_settings,
        data_bytes_transport_window_update. cbn. lia.
    + intros id. rewrite SW, !stream_data_bytes_app,
        stream_data_bytes_settings,
        stream_data_bytes_transport_window_update. cbn. lia.
    + intros _. apply begin_write_nonneg.
  - (* EndWrite *)
    destruct (end_write_effect t error) as (I1 & I2 & I3 & I4 & _).
    cbn zeta in I1, I2, I3, I4. rewrite I2, I3, I4.
    split; [|split].
    + rewrite !data_bytes_app. cbn. lia.
    + intros id. destruct (I1 id) as (_ & _ & _ & _ & Hw & _).
      rewrite Hw, !stream_data_bytes_app. cbn. lia.
    + intros _ [Ht Hs]. split; [lia|].
      intros id. destruct (I1 id) as (_ & _ & _ & _ & Hw & _).
      rewrite Hw. apply Hs.
  - (* CreditStream *)
    cbn. split; [lia|split].
    + intros id. destruct (id =? i) eqn:E.
      * apply Z.eqb_eq in E. subst id. rewrite Z.eqb_refl. cbn. lia.
      * rewrite Z.eqb_sym, E. lia.
    + intros Hn [Ht Hs]. split; [exact Ht|]. intros id. cbn.
      destruct (id =? i) eqn:E; [|apply Hs].
      apply Z.eqb_eq in E. subst id. cbn. specialize (Hs i). lia.
  - (* CreditTransport *)
    cbn. split; [lia|split].
    + intros id. lia.
    + intros Hn [Ht Hs]. split; [cbn; lia|exact Hs].
  - (* SendInitialMetadata *)
    destruct (is_null (send_initial_metadata (streams t i))
              && negb (sent_initial_metadata (streams t i))).
    + destruct (mark_writable_ledger t wire i
                  (S.set_send_initial_metadata (streams t i) (Some md))
                  eq_refl) as (L1 & L2 & L3).
      split; [exact L1|split]; [exact L2|intros _; exact L3].
    + cbn [fst snd transport_credit stream_credit].
      split; [lia|split]; [intros; lia|auto].
  - (* SendMessage *)
    destruct (mark_writable_ledger t wire i
                (S.set_flow_controlled_buffer (streams t i)
                   (flow_controlled_buffer (streams t i) ++ body))
                eq_refl) as (L1 & L2 & L3).
    split; [exact L1|split]; [exact L2|intros _; exact L3].
  - (* SendTrailingMetadata *)
    destruct (is_null (send_trailing_metadata (streams t i))
              && negb (sent_trailing_metadata (streams t i))).
    + destruct (mark_writable_ledger t wire i
                  (S.set_send_trailing_metadata (streams t i) (Some md))
                  eq_refl) as (L1 & L2 & L3).
      split; [exact L1|split]; [exact L2|intros _; exact L3].
    + cbn [fst snd transport_credit stream_credit].
      split; [lia|split]; [intros; lia|auto].
Qed.

(** C1: along any run of passes, credits and caller operations that starts
    with non-negative windows and only receives non-negative credits, the
    transport window and every stream window stay non-negative, and each is
    the initial window plus the credits minus the DATA payload framed
    meanwhile (for a stream window: the payload framed for that stream). *)
Theorem windows_debited_never_negative
    (events : list event) (c : connection) :
  windows_nonneg (fst c) ->
  Forall credit_ok events ->
  let c' := run events c in
  windows_nonneg (fst c') /\
  t_outgoing_window (fst c') + data_bytes (framed c')
  = t_outgoing_window (fst c) + data_bytes (framed c)
    + sumZ (map transport_credit events) /\
  forall id,
    outgoing_window (streams (fst c') id) + stream_data_bytes id (framed c')
    = outgoing_window (streams (fst c) id) + stream_data_bytes id (framed c)
      + sumZ (map (stream_credit id) events).
Proof.
  revert c. induction events as [|e events IH]; intros c Hc Hall; cbn.
  - split; [exact Hc|]. split; [lia|intros; lia].
  - inversion Hall as [|e' es He Hes]; subst.
    destruct (step_ledger e c) as (L1 & L2 & L3).
    destruct (IH (step e c) (L3 He Hc) Hes) as (I1 & I2 & I3).
    split; [exact I1|]. split.
    + unfold run in I2. rewrite I2, L1. lia.
    + intros id. unfold run in I3. rewrite I3, L2. lia.
Qed.

Lemma windows_debited_never_negative_witness :
  let c' := run [BeginWrite; CreditTransport 3; CreditStream 1 3;
                 EndWrite GRPC_ERROR_NONE; SendMessage 1 []; BeginWrite]
              small_window_connection in
  windows_nonneg (fst c') /\
  t_outgoing_window (fst c') = 0 /\
  outgoing_window (streams (fst c') 1) = 65531.
Proof.
  intros c'.
  destruct (windows_debited_never_negative
              [BeginWrite; CreditTransport 3; CreditStream 1 3;
               EndWrite GRPC_ERROR_NONE; SendMessage 1 []; BeginWrite]
              small_window_connection) as (H & _).
  - split; [vm_compute; discriminate|].
    intros id. cbn. destruct (id =? 1); vm_compute; discriminate.
  - repeat constructor; vm_compute; discriminate.
  - split; [exact H|]. split; vm_compute; reflexivity.
Defined.

(** ** The terminal frame *)

Lemma terminal_frames_app id l1 l2 :
  terminal_frames id (l1 ++ l2)
  = (terminal_frames id l1 + terminal_frames id l2)%nat.
Proof. unfold terminal_frames. rewrite filter_app. apply length_app. Qed.

Lemma terminal_frames_other id j l :
  j <> id -> Forall (fun f => frame_stream f = j) l ->
  terminal_frames id l = 0%nat.
Proof.
  intros Hne. unfold terminal_frames.
  induction 1 as [|f l Hf _ IH]; cbn; [reflexivity|].
  assert (E : is_terminal id f = false).
  { destruct f as [| i md [|] mfs | i p [|] | |]; cbn in *; try reflexivity;
      apply Z.eqb_neq; lia. }
  rewrite E. exact IH.
Qed.

Lemma terminal_frames_rst id t s : terminal_frames id (rst_frames id t s) = 0%nat.
Proof. unfold rst_frames. destruct (_ && _); reflexivity. Qed.

Lemma terminal_frames_settings id t :
  terminal_frames id (settings_frames t) = 0%nat.
Proof. unfold settings_frames. destruct (_ && _); reflexivity. Qed.

Lemma terminal_frames_transport_window_update id t :
  terminal_frames id (transport_window_update_frames t) = 0%nat.
Proof.
  unfold transport_window_update_frames. destruct (0 <? _); reflexivity.
Qed.

Lemma terminal_frames_initial_metadata id w :
  terminal_frames id (initial_metadata_frames id w) = 0%nat.
Proof.
  unfold initial_metadata_frames.
  destruct (send_initial_metadata _); [destruct (negb _)|]; reflexivity.
Qed.

Lemma terminal_frames_window_update id w :
  terminal_frames id (window_update_frames id w) = 0%nat.
Proof. unfold window_update_frames. destruct (0 <? _); reflexivity. Qed.

Lemma write_initial_metadata_trailing id w :
  same_trailing (it_s w) (it_s (write_initial_metadata id w)).
Proof.
  unfold write_initial_metadata, same_trailing.
  destruct (send_initial_metadata (it_s w));
    [destruct (negb (it_sent_initial_metadata w))|]; cbn; auto.
Qed.

Lemma write_window_update_trailing id w :
  same_trailing (it_s w) (it_s (write_window_update id w)).
Proof.
  unfold write_window_update, same_trailing.
  destruct (0 <? announce_window (it_s w)); cbn; auto.
Qed.

Lemma is_last_frame_pending t s :
  is_last_frame t s = true -> send_trailing_metadata s <> None.
Proof.
  unfold is_last_frame. destruct (send_trailing_metadata s); [discriminate|].
  rewrite andb_false_r. discriminate.
Qed.

Lemma write_body_trailing id w :
  let w' := write_body id w in
  terminal_frames id (body_frames id w)
  = (if body_ends_stream w then 1 else 0)%nat /\
  sent_trailing_metadata (it_s w')
  = sent_trailing_metadata (it_s w) || body_ends_stream w /\
  send_trailing_metadata (it_s w')
  = (if body_ends_stream w then None else send_trailing_metadata (it_s w)).
Proof.
  unfold write_body, body_frames, body_ends_stream.
  destruct (0 <? buffer_length (it_s w)); cbn [andb];
    [destruct (0 <? max_outgoing (it_t w) (it_s w)); cbn [andb]|].
  - unfold write_data_frame, grpc_chttp2_encode_data, terminal_frames.
    cbn [fst snd].
    pose proof (terminal_frames_rst id (it_t w) (it_s w)) as Hr.
    unfold terminal_frames in Hr.
    destruct (is_last_frame (it_t w) (it_s w));
      match goal with
      | |- context [if ?c then _ else _] => destruct c
      end; cbn; rewrite ?Z.eqb_refl, ?orb_true_r, ?orb_false_r; cbn;
      rewrite ?Hr; auto.
  - destruct (t_outgoing_window (it_t w) =? 0); cbn;
      rewrite orb_false_r; auto.
  - cbn. rewrite orb_false_r. auto.
Qed.

Lemma write_trailing_metadata_trailing id w :
  let w' := write_trailing_metadata id w in
  terminal_frames id (trailing_metadata_frames id w)
  = (if trailer_ends_stream w then 1 else 0)%nat /\
  sent_trailing_metadata (it_s w')
  = sent_trailing_metadata (it_s w) || trailer_ends_stream w /\
  send_trailing_metadata (it_s w')
  = (if trailer_ends_stream w then None
     else send_trailing_metadata (it_s w)).
Proof.
  unfold write_trailing_metadata, trailing_metadata_frames,
    trailer_ends_stream, grpc_chttp2_encode_data, terminal_frames.
  pose proof (terminal_frames_rst id (it_t w) (it_s w)) as Hr.
  unfold terminal_frames in Hr.
  destruct (send_trailing_metadata (it_s w)) as [md|] eqn:E; cbn [is_null negb andb];
    [destruct (is_null (fetching_send_message (it_s w))
               && (buffer_length (it_s w) =? 0));
     [destruct (grpc_metadata_batch_is_empty md)|]|];
    cbn; rewrite ?Z.eqb_refl, ?orb_true_r, ?orb_false_r; cbn;
    rewrite ?Hr; auto.
Qed.

Lemma trailer_ends_stream_pending w :
  trailer_ends_stream w = true -> send_trailing_metadata (it_s w) <> None.
Proof.
  unfold trailer_ends_stream.
  destruct (send_trailing_metadata (it_s w)); [discriminate|].
  cbn. discriminate.
Qed.

Lemma body_ends_stream_pending w :
  body_ends_stream w = true -> send_trailing_metadata (it_s w) <> None.
Proof.
  unfold body_ends_stream. intros H.
  apply andb_prop in H. destruct H as [_ H].
  eapply is_last_frame_pending. exact H.
Qed.

(** An iteration emits a terminal frame exactly when it sets the flag, and
    it sets the flag only if it was not set. *)
Lemma write_frames_terminal id t :
  let w := write_frames id t in
  let s := streams t id in
  pending_ok s ->
  pending_ok (it_s w) /\
  (sent_trailing_metadata s = true ->
   sent_trailing_metadata (it_s w) = true) /\
  terminal_frames id (stream_frames id t)
  = (if negb (sent_trailing_metadata s) && sent_trailing_metadata (it_s w)
     then 1 else 0)%nat.
Proof.
  unfold write_frames, stream_frames, pending_ok.
  set (w0 := enter id t).
  set (w1 := write_initial_metadata id w0).
  set (w2 := write_window_update id w1).
  destruct (write_initial_metadata_trailing id w0) as [A1 A2].
  destruct (write_window_update_trailing id w1) as [B1 B2].
  fold w1 in A1, A2, B1, B2. fold w2 in B1, B2.
  change (it_s w0) with (streams t id) in *.
  rewrite !terminal_frames_app, terminal_frames_initial_metadata,
    terminal_frames_window_update.
  cbn zeta. intros Hp.
  destruct (it_sent_initial_metadata w2).
  - destruct (write_body_trailing id w2) as (C1 & C2 & C3).
    destruct (write_trailing_metadata_trailing id (write_body id w2))
      as (D1 & D2 & D3).
    cbn zeta in C1, C2, C3, D1, D2, D3.
    rewrite terminal_frames_app, C1, D1, D2, D3, C2, C3, B1, B2, A1, A2.
    pose proof (body_ends_stream_pending w2) as Hb.
    pose proof (trailer_ends_stream_pending (write_body id w2)) as Ht.
    rewrite C3, B2, A2 in Ht. rewrite B2, A2 in Hb.
    destruct (sent_trailing_metadata (streams t id)) eqn:Es;
      destruct (body_ends_stream w2) eqn:Eb;
      destruct (trailer_ends_stream (write_body id w2)) eqn:Et;
      cbn; split_ands; try reflexivity; try (intros; reflexivity);
      try (intros; discriminate); try tauto;
      try (exfalso; apply Hb; auto; fail);
      try (exfalso; apply Ht; auto; fail).
  - rewrite B1, B2, A1, A2. cbn.
    destruct (sent_trailing_metadata (streams t id)); cbn; auto.
Qed.

Lemma terminal_ok_refl id t : pending_ok (streams t id) -> terminal_ok id t t.
Proof.
  intros H. unfold terminal_ok, risen. split; [exact H|]. split; [auto|].
  destruct (sent_trailing_metadata (streams t id)); cbn; lia.
Qed.

Lemma terminal_ok_trans id t0 t1 t2 :
  terminal_ok id t0 t1 -> terminal_ok id t1 t2 -> terminal_ok id t0 t2.
Proof.
  unfold terminal_ok, risen. intros (A1 & A2 & A3) (B1 & B2 & B3).
  split; [exact B1|]. split; [auto|].
  rewrite B3, A3.
  destruct (sent_trailing_metadata (streams t0 id));
    destruct (sent_trailing_metadata (streams t1 id));
    destruct (sent_trailing_metadata (streams t2 id)); cbn; try lia;
    try (specialize (A2 eq_refl); discriminate);
    try (specialize (B2 eq_refl); discriminate).
Qed.

Lemma write_stream_terminal j id t :
  pending_ok (streams t id) -> terminal_ok id t (write_stream j t).
Proof.
  intros Hp. unfold terminal_ok.
  destruct (write_stream_account j t) as (O & _ & _ & _ & F & _).
  cbn zeta in O, F. rewrite O, terminal_frames_app.
  destruct (Z.eq_dec j id) as [->|Hne].
  - destruct (write_frames_terminal id t Hp) as (T1 & T2 & T3).
    destruct (requeue_effect id (write_frames id t)) as (R1 & _).
    apply same_but_refs_fields in R1.
    destruct R1 as (_ & R2 & _ & R4 & _).
    unfold write_stream. cbn zeta in R2, R4.
    unfold pending_ok. rewrite R2, R4, T3. unfold risen. auto.
  - rewrite F by lia.
    rewrite (terminal_frames_other id j _ Hne (stream_frames_own j t)).
    unfold risen. split; [exact Hp|]. split; [auto|].
    destruct (sent_trailing_metadata (streams t id)); cbn; lia.
Qed.

Lemma write_streams_terminal id fuel t :
  pending_ok (streams t id) -> terminal_ok id t (write_streams fuel t).
Proof.
  intros Hp.
  apply (write_streams_ind (terminal_ok id t)).
  - intros t1 j t2 Hpop H1.
    apply pop_writable_inv in Hpop. destruct Hpop as (rest & _ & ->).
    eapply terminal_ok_trans; [exact H1|].
    apply (write_stream_terminal j id (T.set_writable t1 rest)).
    destruct H1 as (H & _). exact H.
  - apply terminal_ok_refl. exact Hp.
Qed.

(** Over a pass, counting the queued frames with the output buffer. *)
Lemma begin_write_terminal id t :
  pending_ok (streams t id) ->
  let t' := begin_write_state t in
  pending_ok (streams t' id) /\
  (sent_trailing_metadata (streams t id) = true ->
   sent_trailing_metadata (streams t' id) = true) /\
  terminal_frames id (outbuf t' ++ qbuf t')
  = (terminal_frames id (outbuf t ++ qbuf t)
     + risen (sent_trailing_metadata (streams t id))
         (sent_trailing_metadata (streams t' id)))%nat.
Proof.
  intros Hp. unfold begin_write_state.
  set (t1 := begin_write_prologue t).
  destruct (begin_write_prologue_effect t) as (P1 & P2 & _ & P4 & _).
  fold t1 in P1, P2, P4.
  assert (Hp1 : pending_ok (streams t1 id)) by (rewrite P4; exact Hp).
  destruct (write_streams_terminal id (write_fuel t1) t1 Hp1)
    as (L1 & L2 & L3).
  destruct (write_streams_account (write_fuel t1) t1)
    as (fs & _ & _ & _ & _ & _ & _ & K3 & _).
  set (t2 := write_streams (write_fuel t1) t1) in *.
  destruct (write_transport_window_update_effect t2)
    as (U1 & U2 & _ & U4 & _).
  cbn zeta in *. rewrite U1, U2, U4, K3, P2, app_nil_r.
  rewrite terminal_frames_app, L3, P1, P4, !terminal_frames_app,
    terminal_frames_settings.
  replace (terminal_frames id (transport_window_update_frames t2))
    with 0%nat by (symmetry; apply terminal_frames_transport_window_update).
  rewrite P4 in L2. split; [exact L1|]. split; [exact L2|]. lia.
Qed.

Lemma risen_same b : risen b b = 0%nat.
Proof. destruct b; reflexivity. Qed.

Lemma risen_le b b' : (risen b b' <= 1)%nat.
Proof. unfold risen. destruct (negb b && b'); lia. Qed.

(** An event that leaves the frames and the trailing state of the stream
    alone. *)
Lemma quiet_step_terminal id (c c' : connection) :
  framed c' = framed c ->
  sent_trailing_metadata (streams (fst c') id)
  = sent_trailing_metadata (streams (fst c) id) ->
  pending_ok (streams (fst c') id) ->
  pending_ok (streams (fst c') id) /\
  (sent_trailing_metadata (streams (fst c) id) = true ->
   sent_trailing_metadata (streams (fst c') id) = true) /\
  terminal_frames id (framed c')
  = (terminal_frames id (framed c)
     + risen (sent_trailing_metadata (streams (fst c) id))
         (sent_trailing_metadata (streams (fst c') id)))%nat.
Proof.
  intros Hf Hs Hp. rewrite Hf, Hs, risen_same.
  split; [exact Hp|]. split; [auto|lia].
Qed.

Lemma mark_writable_terminal id t wire i s :
  (i = id -> sent_trailing_metadata s
             = sent_trailing_metadata (streams t id) /\ pending_ok s) ->
  pending_ok (streams t id) ->
  let c := (t, wire) in
  let c' := (mark_writable t i s, wire) in
  pending_ok (streams (fst c') id) /\
  (sent_trailing_metadata (streams (fst c) id) = true ->
   sent_trailing_metadata (streams (fst c') id) = true) /\
  terminal_frames id (framed c')
  = (terminal_frames id (framed c)
     + risen (sent_trailing_metadata (streams (fst c) id))
         (sent_trailing_metadata (streams (fst c') id)))%nat.
Proof.
  intros Hs Hp c c'. subst c c'.
  destruct (mark_writable_effect t i s) as (M1 & M2 & M3 & M4 & _).
  apply same_but_refs_fields in M1.
  destruct M1 as (_ & M1 & _ & M1' & _). cbn zeta in M1, M1', M2, M3, M4.
  apply quiet_step_terminal; cbn [fst snd].
  - unfold framed. cbn [fst snd]. rewrite M3, M4. reflexivity.
  - destruct (Z.eq_dec i id) as [->|Hne].
    + rewrite M1. apply Hs. reflexivity.
    + rewrite M2 by lia. reflexivity.
  - destruct (Z.eq_dec i id) as [->|Hne].
    + unfold pending_ok. rewrite M1, M1'. apply Hs. reflexivity.
    + rewrite M2 by lia. exact Hp.
Qed.

Lemma step_terminal id e c :
  pending_ok (streams (fst c) id) ->
  let c' := step e c in
  pending_ok (streams (fst c') id) /\
  (sent_trailing_metadata (streams (fst c) id) = true ->
   sent_trailing_metadata (streams (fst c') id) = true) /\
  terminal_frames id (framed c')
  = (terminal_frames id (framed c)
     + risen (sent_trailing_metadata (streams (fst c) id))
         (sent_trailing_metadata (streams (fst c') id)))%nat.
Proof.
  destruct c as [t wire]. cbn [fst]. intros Hp.
  destruct e as [|error|i n|n|i md|i body|i md]; cbn [step fst snd].
  - (* BeginWrite *)
    destruct (begin_write_terminal id t Hp) as (B1 & B2 & B3).
    split; [exact B1|]. split; [exact B2|].
    unfold framed. cbn [fst snd].
    rewrite terminal_frames_app, B3, !terminal_frames_app. lia.
  - (* EndWrite *)
    destruct (end_write_effect t error) as (I1 & I2 & I3 & _).
    destruct (I1 id) as (_ & E1 & _ & E2 & _).
    cbn zeta in I2, I3.
    apply (quiet_step_terminal id (t, wire)
             (grpc_chttp2_end_write t error, wire ++ outbuf t));
      cbn [fst snd].
    + unfold framed. cbn [fst snd]. rewrite I2, I3, <- app_assoc.
      reflexivity.
    + exact E1.
    + unfold pending_ok. rewrite E1, E2. exact Hp.
  - (* CreditStream *)
    apply (quiet_step_terminal id (t, wire)
             (set_stream t i
                (S.set_outgoing_window (streams t i)
                   (outgoing_window (streams t i) + n)), wire));
      cbn [fst snd].
    + reflexivity.
    + cbn. destruct (id =? i) eqn:E; [|reflexivity].
      apply Z.eqb_eq in E. subst i. reflexivity.
    + unfold pending_ok. cbn. destruct (id =? i) eqn:E; [|exact Hp].
      apply Z.eqb_eq in E. subst i. exact Hp.
  - (* CreditTransport *)
    apply (quiet_step_terminal id (t, wire)
             (T.set_t_outgoing_window t (t_outgoing_window t + n), wire));
      cbn [fst snd]; [reflexivity|reflexivity|exact Hp].
  - (* SendInitialMetadata *)
    destruct (is_null (send_initial_metadata (streams t i))
              && negb (sent_initial_metadata (streams t i))).
    + apply (mark_writable_terminal id t wire i); [|exact Hp].
      intros ->. split; [reflexivity|exact Hp].
    + apply (quiet_step_terminal id (t, wire) (t, wire)); cbn [fst snd];
        auto.
  - (* SendMessage *)
    apply (mark_writable_terminal id t wire i); [|exact Hp].
    intros ->. split; [reflexivity|exact Hp].
  - (* SendTrailingMetadata *)
    destruct (is_null (send_trailing_metadata (streams t i))
              && negb (sent_trailing_metadata (streams t i))) eqn:G.
    + apply (mark_writable_terminal id t wire i); [|exact Hp].
      intros ->. split; [reflexivity|].
      apply andb_prop in G. destruct G as [_ G].
      unfold pending_ok. cbn. intros Hs. rewrite Hs in G. discriminate.
    + apply (quiet_step_terminal id (t, wire) (t, wire)); cbn [fst snd];
        auto.
Qed.

(** C3: over any run, [sent_trailing_metadata] of a stream goes from false
    to true at most once, whatever the number of passes; the frames produced
    contain one terminal frame for the stream if the flag went up during the
    run and none otherwise, so that no emission site fires once the flag is
    set and the two sites never both fire. *)
Theorem trailing_metadata_sent_once
    (events : list event) (c : connection) (id : stream_id) :
  pending_ok (streams (fst c) id) ->
  let sent0 := sent_trailing_metadata (streams (fst c) id) in
  let c' := run events c in
  let sent' := sent_trailing_metadata (streams (fst c') id) in
  (rises (sent0 :: flag_history id events c) <= 1)%nat /\
  rises (sent0 :: flag_history id events c) = risen sent0 sent' /\
  (sent0 = true -> sent' = true) /\
  terminal_frames id (framed c')
  = (terminal_frames id (framed c) + risen sent0 sent')%nat /\
  pending_ok (streams (fst c') id).
Proof.
  intros Hp sent0 c' sent'. subst sent0 c' sent'.
  assert (H : rises (sent_trailing_metadata (streams (fst c) id)
                     :: flag_history id events c)
              = risen (sent_trailing_metadata (streams (fst c) id))
                  (sent_trailing_metadata (streams (fst (run events c)) id))
              /\ (sent_trailing_metadata (streams (fst c) id) = true ->
                  sent_trailing_metadata (streams (fst (run events c)) id)
                  = true)
              /\ terminal_frames id (framed (run events c))
                 = (terminal_frames id (framed c)
                    + risen (sent_trailing_metadata (streams (fst c) id))
                        (sent_trailing_metadata
                           (streams (fst (run events c)) id)))%nat
              /\ pending_ok (streams (fst (run events c)) id)).
  { revert c Hp. induction events as [|e events IH]; intros c Hp.
    - cbn. rewrite risen_same. auto.
    - destruct (step_terminal id e c Hp) as (S1 & S2 & S3).
      destruct (IH (step e c) S1) as (I1 & I2 & I3 & I4).
      cbn [run fold_left flag_history] in *.
      change (fold_left (fun c0 e0 => step e0 c0) events (step e c))
        with (run events (step e c)) in *.
      split; [|split; [|split]].
      + change (rises (?a :: ?b :: ?l))
          with ((if negb a && b then 1 else 0) + rises (b :: l))%nat.
        rewrite I1. unfold risen.
        destruct (sent_trailing_metadata (streams (fst c) id));
          destruct (sent_trailing_metadata (streams (fst (step e c)) id));
          destruct (sent_trailing_metadata
                      (streams (fst (run events (step e c))) id));
          cbn; try reflexivity;
          try (specialize (S2 eq_refl); discriminate);
          try (specialize (I2 eq_refl); discriminate).
      + auto.
      + rewrite I3, S3. unfold risen.
        destruct (sent_trailing_metadata (streams (fst c) id));
          destruct (sent_trailing_metadata (streams (fst (step e c)) id));
          destruct (sent_trailing_metadata
                      (streams (fst (run events (step e c))) id));
          cbn; try lia;
          try (specialize (S2 eq_refl); discriminate);
          try (specialize (I2 eq_refl); discriminate).
      + exact I4. }
  destruct H as (H1 & H2 & H3 & H4).
  split; [rewrite H1; apply risen_le|]. auto.
Qed.

Lemma trailing_metadata_sent_once_witness :
  flag_history 1 two_pass_events two_pass_connection
  = [false; false; false; false; true; true; true] /\
  terminal_frames 1 (framed (run two_pass_events two_pass_connection))
  = 1%nat.
Proof.
  destruct (trailing_metadata_sent_once two_pass_events two_pass_connection 1)
    as (_ & _ & _ & H & _).
  - intros E. vm_compute in E. discriminate.
  - split; [vm_compute; reflexivity|].
    rewrite H. vm_compute. reflexivity.
Defined.

(** ** Scenario 1: one stream, 100 buffered bytes, wide windows *)

(** C5, as stated: with no trailing metadata queued the DATA frame is not
    marked last and [sent_trailing_metadata] stays false. *)
Lemma scenario1_data_frame_not_last :
  let t' := begin_write_state
              (scenario1 true {| md_elems := [] |} (repeat x61 100) None) in
  outbuf t'
  = [HEADERS 1 {| md_elems := [] |} false 16384;
     DATA 1 (repeat x61 100) false] /\
  sent_trailing_metadata (streams t' 1) = false /\
  ~ (exists md mfs payload,
        outbuf t' = [HEADERS 1 md false mfs; DATA 1 payload true] /\
        sent_trailing_metadata (streams t' 1) = true).
Proof.
  cbn zeta. split; [vm_compute; reflexivity|].
  split; [vm_compute; reflexivity|].
  intros (md & mfs & payload & _ & H). vm_compute in H. discriminate.
Qed.

(** C5, amended: with an empty trailing-metadata batch queued, the pass
    emits the HEADERS frame and then one DATA frame that carries the 100
    bytes and is marked last, followed on a server by the reset of a stream
    whose read side is open, and [sent_trailing_metadata] becomes true. *)
Theorem scenario1_headers_then_last_data
    (client : bool) (md trailing : metadata_batch) (body : list byte) :
  length body = 100%nat ->
  grpc_metadata_batch_is_empty trailing = true ->
  let t' := begin_write_state (scenario1 client md body (Some trailing)) in
  outbuf t'
  = HEADERS 1 md false 16384 :: DATA 1 body true
    :: (if client then [] else [RST_STREAM 1 GRPC_CHTTP2_NO_ERROR]) /\
  sent_trailing_metadata (streams t' 1) = true /\
  fst (grpc_chttp2_begin_write (scenario1 client md body (Some trailing)))
  = true.
Proof.
  intros Hlen Hempty.
  destruct trailing as [[|e elems]]; [|discriminate Hempty].
  do 100 (destruct body as [|? body]; [discriminate Hlen|]).
  destruct body; [|discriminate Hlen].
  destruct client; vm_compute; auto.
Qed.

Lemma scenario1_headers_then_last_data_witness :
  let t' := begin_write_state
              (scenario1 true {| md_elems := [] |} (repeat x61 100)
                 (Some {| md_elems := [] |})) in
  outbuf t'
  = [HEADERS 1 {| md_elems := [] |} false 16384;
     DATA 1 (repeat x61 100) true] /\
  sent_trailing_metadata (streams t' 1) = true.
Proof.
  destruct (scenario1_headers_then_last_data true {| md_elems := [] |}
              {| md_elems := [] |} (repeat x61 100))
    as (H1 & H2 & _).
  - reflexivity.
  - reflexivity.
  - split; [exact H1|exact H2].
Defined.

(** ** A pass that reports nothing to write and still queues a stream *)

(** C10: the state reached by [exhausted_window_events] has a zero transport
    window and stream 2 writable with five buffered bytes; there
    [grpc_chttp2_begin_write] returns false with an empty output buffer,
    yet it has put stream 2 on the writing list (and on the stalled list)
    without dropping the reference, which only [grpc_chttp2_end_write]
    releases. *)
Theorem begin_write_false_but_stream_writing :
  let t := fst (run exhausted_window_events (fresh_transport true, [])) in
  let r := grpc_chttp2_begin_write t in
  let t'' := grpc_chttp2_end_write (snd r) GRPC_ERROR_NONE in
  (t_outgoing_window t = 0 /\
   length (flow_controlled_buffer (streams t 2)) = 5%nat /\
   0 < outgoing_window (streams t 2) /\
   writable t = [2] /\ writing t = [] /\ outbuf t = []) /\
  (fst r = false /\ outbuf (snd r) = [] /\
   writing (snd r) = [2] /\ stalled_by_transport (snd r) = [2] /\
   length (flow_controlled_buffer (streams (snd r) 2)) = 5%nat /\
   refs (streams (snd r) 2) = refs (streams t 2)) /\
  (writing t'' = [] /\
   refs (streams t'' 2) = refs (streams t 2) - 1).
Proof.
  cbn zeta. vm_compute. repeat split; reflexivity.
Qed.

(** ** Frames of the loop, iteration by iteration *)

(** A property of the transport and of the frames appended so far that
    every iteration maintains holds when the loop ends. *)
Lemma write_streams_frames_ind
    (Q : grpc_chttp2_transport -> list frame -> Prop)
    (t0 : grpc_chttp2_transport) :
  (forall t fs id rest,
      Q t fs -> writable t = id :: rest ->
      Q (T.set_writable t rest) fs) ->
  (forall t fs id,
      Q t fs -> Q (write_stream id t) (fs ++ stream_frames id t)) ->
  forall fuel t fs,
    outbuf t = outbuf t0 ++ fs -> Q t fs ->
    exists fs',
      outbuf (write_streams fuel t) = outbuf t0 ++ fs' /\
      Q (write_streams fuel t) fs'.
Proof.
  intros Hpop Hstep.
  induction fuel as [|fuel IH]; intros t fs O HQ; cbn; [eauto|].
  destruct (grpc_chttp2_list_pop_writable_stream t) as [[id t1]|] eqn:E;
    [|eauto].
  apply pop_writable_inv in E. destruct E as (rest & Hw & ->).
  apply (IH _ (fs ++ stream_frames id (T.set_writable t rest))).
  - destruct (write_stream_account id (T.set_writable t rest)) as (O1 & _).
    cbn zeta in O1. rewrite O1. cbn. rewrite O, app_assoc. reflexivity.
  - apply Hstep. eapply Hpop; eassumption.
Qed.

(** ** The reset after the terminal frame *)

Lemma rst_after_terminal_sound id l :
  rst_after_terminal id l = true ->
  forall pre f post,
    l = pre ++ f :: post -> is_terminal id f = true ->
    exists post', post = RST_STREAM id GRPC_CHTTP2_NO_ERROR :: post'.
Proof.
  intros H pre. revert l H.
  induction pre as [|g pre IH]; intros l H f post E Hf; subst l; cbn in H.
  - rewrite Hf in H. apply andb_prop in H. destruct H as [H _].
    destruct post as [|[| | | |i code] post']; try discriminate.
    apply andb_prop in H. destruct H as [Hi Hc].
    apply Z.eqb_eq in Hi, Hc. subst. eauto.
  - apply andb_prop in H. destruct H as [_ H].
    eapply IH; [exact H|reflexivity|exact Hf].
Qed.

Lemma rst_after_terminal_skip id pre l :
  Forall (fun f => is_terminal id f = false) pre ->
  rst_after_terminal id (pre ++ l) = rst_after_terminal id l.
Proof.
  induction 1 as [|f pre Hf _ IH]; cbn; [reflexivity|].
  rewrite Hf. exact IH.
Qed.

Lemma rst_frames_ext id t s t' s' :
  is_client t' = is_client t -> read_closed s' = read_closed s ->
  rst_frames id t' s' = rst_frames id t s.
Proof. unfold rst_frames. intros -> ->. reflexivity. Qed.

Lemma write_body_flow id w :
  read_closed (it_s (write_body id w)) = read_closed (it_s w) /\
  fetching_send_message (it_s (write_body id w))
  = fetching_send_message (it_s w) /\
  it_sent_initial_metadata (write_body id w) = it_sent_initial_metadata w.
Proof.
  unfold write_body.
  destruct (0 <? buffer_length (it_s w));
    [destruct (0 <? max_outgoing (it_t w) (it_s w));
     [|destruct (t_outgoing_window (it_t w) =? 0)]|]; cbn; auto.
  unfold write_data_frame, grpc_chttp2_encode_data. cbn [fst snd].
  destruct (is_last_frame (it_t w) (it_s w));
    match goal with
    | |- context [if ?c then _ else _] => destruct c
    end; cbn; auto.
Qed.

(** The frames of an iteration: frames that are neither terminal nor a
    reset, then at most one DATA frame, followed by the reset if it is the
    last, then at most one trailing-metadata frame followed by the reset. *)
Lemma stream_frames_shape id t :
  let rst := rst_frames id t (streams t id) in
  exists pre body trailer,
    stream_frames id t = pre ++ body ++ trailer /\
    Forall (fun f => is_terminal id f = false /\ is_rst_stream id f = false
                     /\ is_data id f = false) pre /\
    (body = [] \/
     (exists p, body = [DATA id p false]) \/
     (exists p, body = DATA id p true :: rst)) /\
    (trailer = [] \/
     (exists x, is_terminal id x = true /\ is_rst_stream id x = false /\
                trailer = x :: rst)).
Proof.
  intros rst. unfold stream_frames.
  set (w0 := enter id t).
  set (w1 := write_initial_metadata id w0).
  set (w2 := write_window_update id w1).
  destruct (write_initial_metadata_effect id w0) as [_ H1].
  destruct (write_window_update_effect id w1) as [_ H2].
  fold w1 in H1. fold w2 in H2.
  apply same_but_outbuf_fields in H1, H2.
  destruct H1 as (A1 & _). destruct H2 as (B1 & _).
  pose proof (write_initial_metadata_flow id w0) as F1.
  pose proof (write_window_update_flow id w1) as F2.
  fold w1 in F1. fold w2 in F2.
  destruct (same_flow_trans _ _ _ F1 F2) as (_ & _ & _ & _ & Fr & _).
  change (it_t w0) with t in *. change (it_s w0) with (streams t id) in *.
  exists (initial_metadata_frames id w0 ++ window_update_frames id w1).
  destruct (it_sent_initial_metadata w2).
  - exists (body_frames id w2),
      (trailing_metadata_frames id (write_body id w2)).
    split; [rewrite <- app_assoc; reflexivity|].
    split; [|split].
    + apply Forall_app. split.
      * unfold initial_metadata_frames.
        destruct (send_initial_metadata _); [destruct (negb _)|];
          repeat constructor.
      * unfold window_update_frames. destruct (0 <? _); repeat constructor.
    + unfold body_frames.
      destruct (_ && _); [|left; reflexivity]. right.
      rewrite (rst_frames_ext id t (streams t id) (it_t w2) (it_s w2))
        by congruence.
      destruct (is_last_frame (it_t w2) (it_s w2)); eauto.
    + unfold trailing_metadata_frames.
      destruct (write_body_effect id w2) as (_ & _ & _ & _ & C5 & _).
      destruct (write_body_flow id w2) as (C6 & _).
      rewrite (rst_frames_ext id t (streams t id)
                 (it_t (write_body id w2)) (it_s (write_body id w2)))
        by congruence.
      destruct (send_trailing_metadata _) as [md|]; [|left; reflexivity].
      destruct (_ && _); [|left; reflexivity]. right.
      destruct (grpc_metadata_batch_is_empty md);
        eexists; (split; [|split; [|reflexivity]]); cbn;
        rewrite ?Z.eqb_refl; reflexivity.
  - exists [], []. rewrite !app_nil_r.
    split; [reflexivity|]. split; [|auto].
    apply Forall_app. split.
    + unfold initial_metadata_frames.
      destruct (send_initial_metadata _); [destruct (negb _)|];
        repeat constructor.
    + unfold window_update_frames. destruct (0 <? _); repeat constructor.
Qed.

(** In the frames of one iteration. *)
Lemma stream_frames_rst id t :
  (is_client t = false -> read_closed (streams t id) = false ->
   rst_after_terminal id (stream_frames id t) = true) /\
  (is_client t = true \/ read_closed (streams t id) = true ->
   Forall (fun f => is_rst_stream id f = false) (stream_frames id t)).
Proof.
  destruct (stream_frames_shape id t)
    as (pre & body & trailer & E & Hpre & Hbody & Htrailer).
  cbn zeta in Hbody, Htrailer. rewrite E.
  assert (Hpre1 : Forall (fun f => is_terminal id f = false) pre).
  { eapply Forall_impl; [|exact Hpre]. cbn. tauto. }
  assert (Hpre2 : Forall (fun f => is_rst_stream id f = false) pre).
  { eapply Forall_impl; [|exact Hpre]. cbn. tauto. }
  split.
  - intros Hc Hr.
    rewrite rst_after_terminal_skip by exact Hpre1.
    unfold rst_frames in Hbody, Htrailer. rewrite Hc, Hr in Hbody, Htrailer.
    cbn [negb andb] in Hbody, Htrailer.
    assert (Ht : rst_after_terminal id trailer = true).
    { destruct Htrailer as [->|(x & Hx & _ & ->)]; [reflexivity|].
      cbn. rewrite Hx, Z.eqb_refl. reflexivity. }
    destruct Hbody as [->|[(p & ->)|(p & ->)]]; cbn;
      rewrite ?Z.eqb_refl; cbn; exact Ht.
  - intros Hcr.
    assert (Hrst : rst_frames id t (streams t id) = []).
    { unfold rst_frames. destruct Hcr as [-> | ->]; cbn;
        rewrite ?andb_false_r; reflexivity. }
    rewrite Hrst in Hbody, Htrailer.
    apply Forall_app. split; [exact Hpre2|]. apply Forall_app. split.
    + destruct Hbody as [->|[(p & ->)|(p & ->)]]; repeat constructor.
    + destruct Htrailer as [->|(x & _ & Hx & ->)]; repeat constructor.
      exact Hx.
Qed.

(** A checked list never ends on a terminal frame without its reset, so
    what follows is checked on its own. *)
Lemma rst_after_terminal_app id l1 l2 :
  rst_after_terminal id l1 = true ->
  rst_after_terminal id (l1 ++ l2) = rst_after_terminal id l2.
Proof.
  induction l1 as [|f l1 IH]; cbn; [reflexivity|].
  intros H. apply andb_prop in H. destruct H as [H1 H2].
  rewrite (IH H2).
  destruct (is_terminal id f); [|reflexivity].
  destruct l1 as [|g l1]; [discriminate H1|].
  cbn [app]. rewrite H1. reflexivity.
Qed.

Lemma stream_frames_other_rst id j t :
  j <> id ->
  rst_after_terminal id (stream_frames j t) = true /\
  Forall (fun f => is_rst_stream id f = false) (stream_frames j t).
Proof.
  intros Hne. pose proof (stream_frames_own j t) as Hown.
  split.
  - rewrite <- (app_nil_r (stream_frames j t)).
    rewrite rst_after_terminal_skip; [reflexivity|].
    eapply Forall_impl; [|exact Hown].
    intros f Hf.
    destruct f as [| i md [|] mfs | i p [|] | |]; cbn in *; try reflexivity;
      apply Z.eqb_neq; lia.
  - eapply Forall_impl; [|exact Hown].
    intros f Hf. destruct f; cbn in *; try reflexivity.
    apply Z.eqb_neq. lia.
Qed.

Lemma write_stream_read_closed j id t :
  read_closed (streams (write_stream j t) id) = read_closed (streams t id).
Proof.
  destruct (Z.eq_dec j id) as [->|Hne].
  - destruct (requeue_effect id (write_frames id t)) as (R1 & _).
    apply same_but_refs_fields in R1.
    destruct R1 as (_ & _ & _ & _ & _ & _ & _ & R8 & _).
    unfold write_stream. cbn zeta in R8. rewrite R8.
    unfold write_frames.
    set (w0 := enter id t).
    set (w1 := write_initial_metadata id w0).
    set (w2 := write_window_update id w1).
    pose proof (write_initial_metadata_flow id w0) as F1.
    pose proof (write_window_update_flow id w1) as F2.
    fold w1 in F1. fold w2 in F2.
    destruct (same_flow_trans _ _ _ F1 F2) as (_ & _ & _ & _ & Fr & _).
    change (it_s w0) with (streams t id) in Fr.
    destruct (it_sent_initial_metadata w2); [|exact Fr].
    destruct (write_body_flow id w2) as (C1 & _).
    destruct (write_trailing_metadata_flow id (write_body id w2))
      as (_ & _ & _ & _ & D1 & _).
    congruence.
  - destruct (write_stream_account j t) as (_ & _ & _ & _ & F & _).
    cbn zeta in F. rewrite F by lia. reflexivity.
Qed.

Lemma write_stream_rst_inv id t0 t fs j :
  rst_inv id t0 t fs ->
  rst_inv id t0 (write_stream j t) (fs ++ stream_frames j t).
Proof.
  intros (I1 & I2 & I3 & I4).
  destruct (write_stream_account j t) as (_ & _ & _ & _ & _ & A6 & _).
  cbn zeta in A6.
  unfold rst_inv. rewrite A6, write_stream_read_closed.
  split; [exact I1|]. split; [exact I2|].
  destruct (Z.eq_dec j id) as [->|Hne].
  - destruct (stream_frames_rst id t) as (S1 & S2).
    rewrite I1, I2 in S1, S2. split.
    + intros Hc Hr. rewrite rst_after_terminal_app by auto. auto.
    + intros Hcr. apply Forall_app. auto.
  - destruct (stream_frames_other_rst id j t Hne) as (S1 & S2). split.
    + intros Hc Hr. rewrite rst_after_terminal_app by auto. exact S1.
    + intros Hcr. apply Forall_app. auto.
Qed.

(** C9: among the frames that the loop of a pass appends, on a server and
    for a stream whose read side is open, every terminal frame of the
    stream is immediately followed by RST_STREAM with NO_ERROR for that
    stream; on a client, or for a stream whose read side is closed, the
    loop appends no RST_STREAM for the stream at all. *)
Theorem rst_stream_follows_terminal_frame
    (t : grpc_chttp2_transport) (id : stream_id) :
  exists fs,
    outbuf (begin_write_state t)
    = outbuf t ++ settings_frames t ++ qbuf t ++ fs
      ++ transport_window_update_frames t /\
    (is_client t = false -> read_closed (streams t id) = false ->
     forall pre f post,
       fs = pre ++ f :: post -> is_terminal id f = true ->
       exists post', post = RST_STREAM id GRPC_CHTTP2_NO_ERROR :: post') /\
    (is_client t = true \/ read_closed (streams t id) = true ->
     Forall (fun f => is_rst_stream id f = false) fs).
Proof.
  unfold begin_write_state.
  set (t1 := begin_write_prologue t).
  destruct (begin_write_prologue_effect t)
    as (P1 & _ & _ & P4 & P5 & _ & _ & _ & P9).
  fold t1 in P1, P4, P5, P9.
  destruct (write_streams_frames_ind (rst_inv id t1) t1
              (fun t0 fs0 j rest H _ => H)
              (fun t0 fs0 j H => write_stream_rst_inv id t1 t0 fs0 j H)
              (write_fuel t1) t1 [])
    as (fs & O & _ & _ & I3 & I4).
  { rewrite app_nil_r. reflexivity. }
  { unfold rst_inv. split; [reflexivity|]. split; [reflexivity|].
    split; [reflexivity|constructor]. }
  destruct (write_streams_account (write_fuel t1) t1)
    as (fs0 & _ & _ & _ & _ & _ & _ & _ & _ & K5).
  set (t2 := write_streams (write_fuel t1) t1) in *.
  destruct (write_transport_window_update_effect t2) as (U1 & _).
  cbn zeta in *. rewrite P4, P5 in I3, I4.
  exists fs. rewrite U1, O, P1.
  split.
  { unfold transport_window_update_frames. rewrite K5, P9.
    rewrite <- !app_assoc. reflexivity. }
  split.
  - intros Hc Hr. apply rst_after_terminal_sound. auto.
  - exact I4.
Qed.

(** A server stream that ends with its last DATA frame. *)
Lemma rst_stream_follows_terminal_frame_witness :
  let t := scenario1 false {| md_elems := [] |} [x61; x62]
             (Some {| md_elems := [] |}) in
  outbuf (begin_write_state t)
  = [HEADERS 1 {| md_elems := [] |} false 16384; DATA 1 [x61; x62] true;
     RST_STREAM 1 GRPC_CHTTP2_NO_ERROR] /\
  exists fs,
    outbuf (begin_write_state t) = fs /\
    (forall pre f post,
        fs = pre ++ f :: post -> is_terminal 1 f = true ->
        exists post', post = RST_STREAM 1 GRPC_CHTTP2_NO_ERROR :: post').
Proof.
  intros t. split; [vm_compute; reflexivity|].
  destruct (rst_stream_follows_terminal_frame t 1) as (fs & O & H & _).
  exists fs. split.
  { rewrite O.
    replace (transport_window_update_frames t) with (@nil frame)
      by reflexivity.
    rewrite app_nil_r. reflexivity. }
  apply H; reflexivity.
Defined.

(** ** Initial metadata first *)

Lemma headers_first_seen id l : headers_first id true l = true.
Proof.
  induction l as [|f l IH]; cbn; [reflexivity|].
  rewrite IH. destruct (is_body_or_trailer id f); reflexivity.
Qed.

Lemma headers_first_app id l1 :
  forall seen l2,
    headers_first id seen (l1 ++ l2)
    = headers_first id seen l1
      && headers_first id (seen || existsb (is_initial_headers id) l1) l2.
Proof.
  induction l1 as [|f l1 IH]; intros seen l2; cbn.
  - rewrite orb_false_r. reflexivity.
  - rewrite IH, orb_assoc, andb_assoc. reflexivity.
Qed.

Lemma headers_first_sound id l :
  forall seen,
    headers_first id seen l = true ->
    forall pre f post,
      l = pre ++ f :: post -> is_body_or_trailer id f = true ->
      seen = true \/
      exists g, In g pre /\ is_initial_headers id g = true.
Proof.
  induction l as [|a l IH]; intros seen H pre f post E Hf.
  - destruct pre; discriminate.
  - cbn in H. apply andb_prop in H. destruct H as [H1 H2].
    destruct pre as [|b pre]; cbn in E; inversion E; subst.
    + rewrite Hf in H1. left. exact H1.
    + destruct (IH _ H2 pre f post eq_refl Hf) as [Hs|(g & Hg & Hi)].
      * apply orb_prop in Hs. destruct Hs as [Hs|Hs]; [left; exact Hs|].
        right. exists b. split; [left; reflexivity|exact Hs].
      * right. exists g. split; [right; exact Hg|exact Hi].
Qed.

(** Frames of another stream are neither here nor there. *)
Lemma headers_first_other id j l seen :
  j <> id -> Forall (fun f => frame_stream f = j) l ->
  headers_first id seen l = true /\
  existsb (is_initial_headers id) l = false /\
  existsb (is_body_or_trailer id) l = false.
Proof.
  intros Hne H. revert seen.
  induction H as [|f l Hf _ IH]; intros seen; cbn; [auto|].
  assert (E1 : is_body_or_trailer id f = false).
  { unfold is_body_or_trailer.
    destruct f as [| i md [|] mfs | i p [|] | |]; cbn in *;
      try reflexivity; rewrite ?orb_false_r, ?orb_diag;
      apply Z.eqb_neq; lia. }
  assert (E2 : is_initial_headers id f = false).
  { destruct f as [| i md [|] mfs | | |]; cbn in *; try reflexivity.
    apply Z.eqb_neq; lia. }
  rewrite E1, E2, orb_false_r. cbn.
  destruct (IH seen) as (I1 & I2 & I3). auto.
Qed.

Lemma write_initial_metadata_sent id w :
  let w' := write_initial_metadata id w in
  let fs := initial_metadata_frames id w in
  it_sent_initial_metadata w'
  = it_sent_initial_metadata w || existsb (is_initial_headers id) fs /\
  sent_initial_metadata (it_s w')
  = sent_initial_metadata (it_s w) || existsb (is_initial_headers id) fs /\
  (fs = [] \/
   exists md mfs, fs = [HEADERS id md false mfs]).
Proof.
  unfold write_initial_metadata, initial_metadata_frames.
  destruct (send_initial_metadata (it_s w)) as [md|];
    [destruct (it_sent_initial_metadata w) eqn:E|]; cbn;
    rewrite ?E, ?Z.eqb_refl, ?orb_false_r, ?orb_true_r; eauto 6.
Qed.

Lemma write_window_update_sent id w :
  let w' := write_window_update id w in
  it_sent_initial_metadata w' = it_sent_initial_metadata w /\
  sent_initial_metadata (it_s w') = sent_initial_metadata (it_s w) /\
  existsb (is_body_or_trailer id) (window_update_frames id w) = false /\
  existsb (is_initial_headers id) (window_update_frames id w) = false /\
  forall seen, headers_first id seen (window_update_frames id w) = true.
Proof.
  unfold write_window_update, window_update_frames.
  destruct (0 <? announce_window (it_s w)); cbn; auto.
Qed.

Lemma write_body_sent id w :
  sent_initial_metadata (it_s (write_body id w))
  = sent_initial_metadata (it_s w) /\
  existsb (is_initial_headers id) (body_frames id w) = false.
Proof.
  unfold write_body, body_frames.
  destruct (0 <? buffer_length (it_s w)); cbn [andb];
    [destruct (0 <? max_outgoing (it_t w) (it_s w));
     [|destruct (t_outgoing_window (it_t w) =? 0)]|]; cbn; auto.
  unfold write_data_frame, grpc_chttp2_encode_data, rst_frames.
  cbn [fst snd].
  destruct (is_last_frame (it_t w) (it_s w));
    match goal with
    | |- context [if ?c then _ else _] => destruct c
    end; cbn; split; try reflexivity;
    destruct (negb (is_client (it_t w)) && negb (read_closed (it_s w)));
    reflexivity.
Qed.

Lemma write_trailing_metadata_sent id w :
  let w' := write_trailing_metadata id w in
  it_sent_initial_metadata w' = it_sent_initial_metadata w /\
  sent_initial_metadata (it_s w') = sent_initial_metadata (it_s w) /\
  existsb (is_initial_headers id) (trailing_metadata_frames id w) = false.
Proof.
  unfold write_trailing_metadata, trailing_metadata_frames,
    grpc_chttp2_encode_data, rst_frames.
  destruct (send_trailing_metadata (it_s w)) as [md|];
    [destruct (is_null (fetching_send_message (it_s w))
               && (buffer_length (it_s w) =? 0));
     [destruct (grpc_metadata_batch_is_empty md)|]|]; cbn; auto;
    destruct (negb (is_client (it_t w)) && negb (read_closed (it_s w)));
    auto.
Qed.

(** The frames of an iteration respect the order, and the flag of the
    stream is up afterwards exactly if it was up or the iteration emitted
    the initial metadata. *)
Lemma stream_frames_headers_first id t seen :
  (sent_initial_metadata (streams t id) = true -> seen = true) ->
  let fs := stream_frames id t in
  let t' := write_stream id t in
  headers_first id seen fs = true /\
  sent_initial_metadata (streams t' id)
  = sent_initial_metadata (streams t id)
    || existsb (is_initial_headers id) fs /\
  (existsb (is_body_or_trailer id) fs = true ->
   sent_initial_metadata (streams t' id) = true).
Proof.
  intros Hseen fs t'. subst fs t'.
  destruct (requeue_effect id (write_frames id t)) as (R1 & _).
  apply same_but_refs_fields in R1. destruct R1 as (R1 & _).
  unfold write_stream. rewrite R1. clear R1.
  unfold write_frames, stream_frames.
  set (w0 := enter id t).
  set (w1 := write_initial_metadata id w0).
  set (w2 := write_window_update id w1).
  destruct (write_initial_metadata_sent id w0) as (A1 & A2 & A3).
  destruct (write_window_update_sent id w1) as (B1 & B2 & B3 & B4 & B5).
  fold w1 in A1, A2, B1, B2, B3, B4, B5. fold w2 in B1, B2.
  change (it_sent_initial_metadata w0)
    with (sent_initial_metadata (streams t id)) in *.
  change (it_s w0) with (streams t id) in *.
  cbn zeta in *.
  rewrite !headers_first_app, !existsb_app, B4, B5.
  rewrite B1, A1.
  destruct (sent_initial_metadata (streams t id)) eqn:Es.
  - (* sent in an earlier pass *)
    rewrite (Hseen eq_refl), !headers_first_seen. cbn [orb andb].
    destruct (write_body_sent id w2) as (C1 & C2).
    destruct (write_trailing_metadata_sent id (write_body id w2))
      as (_ & D2 & D3).
    cbn zeta in D2. rewrite D2, C1, B2, A2.
    split; [reflexivity|]. split; [reflexivity|auto].
  - cbn [orb].
    destruct A3 as [E|(md & mfs & E)]; rewrite E in *; cbn in A1, A2 |- *.
    + (* nothing queued: neither body nor trailer *)
      rewrite B3, B2, A2, orb_false_r. cbn.
      destruct seen; cbn; split; auto; split; auto; discriminate.
    + (* emitted now, ahead of the rest *)
      rewrite Z.eqb_refl in *. cbn.
      destruct (write_body_sent id w2) as (C1 & C2).
      destruct (write_trailing_metadata_sent id (write_body id w2))
        as (_ & D2 & D3).
      cbn zeta in D2. rewrite D2, C1, B2, A2.
      rewrite orb_true_r, headers_first_seen.
      split; [reflexivity|]. split; [reflexivity|auto].
Qed.

Lemma write_stream_order_ok id sent0 t fs j :
  order_ok id sent0 t fs ->
  order_ok id sent0 (write_stream j t) (fs ++ stream_frames j t).
Proof.
  unfold order_ok. intros (Q1 & Q2 & Q3).
  rewrite headers_first_app, !existsb_app, Q1. cbn [andb].
  destruct (Z.eq_dec j id) as [->|Hne].
  - destruct (stream_frames_headers_first id t
                (sent0 || existsb (is_initial_headers id) fs))
      as (H1 & H2 & H3).
    { intros E. rewrite <- Q2. exact E. }
    cbn zeta in H2, H3. rewrite H1, H2, Q2, orb_assoc.
    split; [reflexivity|]. split; [reflexivity|].
    intros Hbt. apply orb_prop in Hbt. destruct Hbt as [Hbt|Hbt].
    + rewrite <- Q2, (Q3 Hbt). reflexivity.
    + rewrite <- Q2, <- H2. apply H3. exact Hbt.
  - destruct (headers_first_other id j (stream_frames j t)
                (sent0 || existsb (is_initial_headers id) fs) Hne
                (stream_frames_own j t)) as (H1 & H2 & H3).
    destruct (write_stream_account j t) as (_ & _ & _ & _ & F & _).
    cbn zeta in F. rewrite F by lia.
    rewrite H1, H2, H3, !orb_false_r. auto.
Qed.

Lemma write_streams_order_ok id fuel t :
  exists fs,
    outbuf (write_streams fuel t) = outbuf t ++ fs /\
    order_ok id (sent_initial_metadata (streams t id))
      (write_streams fuel t) fs.
Proof.
  apply (write_streams_frames_ind
           (order_ok id (sent_initial_metadata (streams t id))) t)
    with (fs := []).
  - intros t1 fs j rest H _. exact H.
  - intros t1 fs j H. apply write_stream_order_ok. exact H.
  - rewrite app_nil_r. reflexivity.
  - unfold order_ok. cbn. rewrite orb_false_r.
    split; [reflexivity|]. split; [reflexivity|discriminate].
Qed.

Lemma begin_write_order_ok id t :
  exists fs,
    outbuf (begin_write_state t)
    = outbuf t ++ settings_frames t ++ qbuf t ++ fs
      ++ transport_window_update_frames t /\
    qbuf (begin_write_state t) = [] /\
    order_ok id (sent_initial_metadata (streams t id))
      (begin_write_state t) fs.
Proof.
  unfold begin_write_state.
  set (t1 := begin_write_prologue t).
  destruct (begin_write_prologue_effect t)
    as (P1 & P2 & _ & P4 & _ & _ & _ & _ & P9).
  fold t1 in P1, P2, P4, P9.
  destruct (write_streams_order_ok id (write_fuel t1) t1)
    as (fs & O & Q1 & Q2 & Q3).
  destruct (write_streams_account (write_fuel t1) t1)
    as (fs0 & _ & _ & _ & _ & _ & _ & K3 & _ & K5).
  set (t2 := write_streams (write_fuel t1) t1) in *.
  destruct (write_transport_window_update_effect t2)
    as (U1 & U2 & _ & U4 & _).
  cbn zeta in *. rewrite P4 in Q1, Q2.
  exists fs. unfold order_ok. rewrite U1, U2, U4, O, P1, K3, P2.
  split.
  { unfold transport_window_update_frames. rewrite K5, P9.
    rewrite <- !app_assoc. reflexivity. }
  split; [reflexivity|]. split; [exact Q1|]. split; [exact Q2|exact Q3].
Qed.

(** C2: among the frames that the loop of a pass appends, every DATA frame
    and every trailing-metadata frame of a stream comes after the
    initial-metadata frame of that stream, unless the initial metadata was
    sent before the pass; such frames are emitted only for a stream whose
    [sent_initial_metadata] is true, and the flag is true after the pass
    only if it was before or the pass emitted the initial metadata. *)
Theorem initial_metadata_before_body_and_trailer
    (t : grpc_chttp2_transport) (id : stream_id) :
  exists fs,
    outbuf (begin_write_state t)
    = outbuf t ++ settings_frames t ++ qbuf t ++ fs
      ++ transport_window_update_frames t /\
    (forall pre f post,
        fs = pre ++ f :: post -> is_body_or_trailer id f = true ->
        sent_initial_metadata (streams t id) = true \/
        exists g, In g pre /\ is_initial_headers id g = true) /\
    (forall f,
        In f fs -> is_body_or_trailer id f = true ->
        sent_initial_metadata (streams (begin_write_state t) id) = true) /\
    (sent_initial_metadata (streams (begin_write_state t) id) = true ->
     sent_initial_metadata (streams t id) = true \/
     exists g, In g fs /\ is_initial_headers id g = true).
Proof.
  destruct (begin_write_order_ok id t) as (fs & O & _ & Q1 & Q2 & Q3).
  exists fs. split; [exact O|].
  split; [|split].
  - intros pre f post E Hf.
    destruct (headers_first_sound id fs _ Q1 pre f post E Hf); auto.
  - intros f Hin Hf. apply Q3. apply existsb_exists. eauto.
  - intros Hs. rewrite Q2 in Hs. apply orb_prop in Hs.
    destruct Hs as [Hs|Hs]; [left; exact Hs|right].
    apply existsb_exists in Hs. exact Hs.
Qed.

Lemma initial_metadata_before_body_and_trailer_witness :
  let t := scenario1 true {| md_elems := [] |} [x61; x62] None in
  exists fs,
    outbuf (begin_write_state t) = fs /\
    forall pre f post,
      fs = pre ++ f :: post -> is_body_or_trailer 1 f = true ->
      exists g, In g pre /\ is_initial_headers 1 g = true.
Proof.
  intros t.
  destruct (initial_metadata_before_body_and_trailer t 1)
    as (fs & O & H & _).
  exists fs. split.
  { rewrite O.
    replace (transport_window_update_frames t) with (@nil frame)
      by reflexivity.
    rewrite app_nil_r. reflexivity. }
  intros pre f post E Hf.
  destruct (H pre f post E Hf) as [Hs|Hg]; [discriminate Hs|exact Hg].
Defined.

(** *** The order over a run *)

Lemma headers_first_mono id l :
  forall a b,
    (a = true -> b = true) ->
    headers_first id a l = true -> headers_first id b l = true.
Proof.
  induction l as [|f l IH]; intros a b Hab; cbn; [auto|].
  intros H. apply andb_prop in H. destruct H as [H1 H2].
  apply andb_true_intro. split.
  - destruct (is_body_or_trailer id f); [auto|reflexivity].
  - apply (IH (a || is_initial_headers id f)); [|exact H2].
    intros H. apply orb_prop in H.
    destruct H as [H|H];
      [rewrite (Hab H)|rewrite H, orb_true_r]; reflexivity.
Qed.

Lemma settings_frames_quiet id t seen :
  headers_first id seen (settings_frames t) = true /\
  existsb (is_initial_headers id) (settings_frames t) = false.
Proof.
  unfold settings_frames.
  destruct (dirtied_local_settings t && negb (sent_local_settings t));
    cbn; auto.
Qed.

Lemma transport_window_update_frames_quiet id t seen :
  headers_first id seen (transport_window_update_frames t) = true /\
  existsb (is_initial_headers id) (transport_window_update_frames t) = false.
Proof.
  unfold transport_window_update_frames.
  destruct (0 <? announce_incoming_window t); cbn; auto.
Qed.

(** A pass puts its frames behind those already produced: the settings go
    between the output buffer and the queued frames, the frames of the
    streams and the transport window update at the end. *)
Lemma order_insert id sent0 flag (A B S F W : list frame) :
  headers_first id sent0 (A ++ B) = true ->
  (flag = true ->
   sent0 || existsb (is_initial_headers id) (A ++ B) = true) ->
  (forall seen, headers_first id seen S = true) ->
  existsb (is_initial_headers id) S = false ->
  (forall seen, headers_first id seen W = true) ->
  existsb (is_initial_headers id) W = false ->
  headers_first id flag F = true ->
  headers_first id sent0 (A ++ S ++ B ++ F ++ W) = true /\
  (flag || existsb (is_initial_headers id) F = true ->
   sent0 || existsb (is_initial_headers id) (A ++ S ++ B ++ F ++ W) = true).
Proof.
  intros H Hflag HS ES HW EW HF.
  rewrite headers_first_app in H. apply andb_prop in H.
  destruct H as [HA HB]. rewrite existsb_app in Hflag.
  split.
  - rewrite !headers_first_app, HA, HS, HW, ES, orb_false_r, HB.
    rewrite !andb_true_r. cbn [andb].
    apply (headers_first_mono id F flag); [|exact HF].
    intros Hf. rewrite <- orb_assoc. apply Hflag. exact Hf.
  - rewrite !existsb_app, ES, EW, orb_false_r. cbn [orb].
    intros Hf. apply orb_prop in Hf. destruct Hf as [Hf|Hf].
    + apply Hflag in Hf. apply orb_prop in Hf.
      destruct Hf as [Hf|Hf]; [rewrite Hf; reflexivity|].
      apply orb_prop in Hf.
      destruct Hf as [Hf|Hf]; rewrite Hf, ?orb_true_r; reflexivity.
    + rewrite Hf, !orb_true_r. reflexivity.
Qed.

Lemma quiet_step_order id sent0 (c c' : connection) :
  framed c' = framed c ->
  sent_initial_metadata (streams (fst c') id)
  = sent_initial_metadata (streams (fst c) id) ->
  run_order_ok id sent0 c -> run_order_ok id sent0 c'.
Proof.
  unfold run_order_ok. intros Hf Hs. rewrite Hf, Hs. auto.
Qed.

Lemma mark_writable_order id sent0 t wire i s :
  sent_initial_metadata s = sent_initial_metadata (streams t i) ->
  run_order_ok id sent0 (t, wire) ->
  run_order_ok id sent0 (mark_writable t i s, wire).
Proof.
  intros Hs. 
  destruct (mark_writable_effect t i s) as (M1 & M2 & M3 & M4 & _).
  apply same_but_refs_fields in M1.
  destruct M1 as (M1 & _). cbn zeta in M1, M2, M3, M4.
  apply quiet_step_order; cbn [fst snd].
  - unfold framed. cbn [fst snd]. rewrite M3, M4. reflexivity.
  - destruct (Z.eq_dec i id) as [->|Hne].
    + rewrite M1. exact Hs.
    + rewrite M2 by lia. reflexivity.
Qed.

Lemma step_order_ok id sent0 e c :
  run_order_ok id sent0 c -> run_order_ok id sent0 (step e c).
Proof.
  destruct c as [t wire]. intros H.
  destruct e as [|error|i n|n|i md|i body|i md]; cbn [step fst snd].
  - (* BeginWrite *)
    destruct H as [H1 H2].
    destruct (begin_write_order_ok id t) as (fs & O & Q & F1 & F2 & _).
    unfold run_order_ok, framed in *. cbn [fst snd] in *.
    rewrite O, Q, F2, app_nil_r.
    rewrite app_assoc in H1, H2.
    replace (wire ++ outbuf t ++ settings_frames t ++ qbuf t ++ fs
             ++ transport_window_update_frames t)
      with ((wire ++ outbuf t) ++ settings_frames t ++ qbuf t ++ fs
            ++ transport_window_update_frames t)
      by (rewrite <- !app_assoc; reflexivity).
    apply (order_insert id sent0 (sent_initial_metadata (streams t id)));
      auto.
    + intros seen. apply settings_frames_quiet.
    + apply (settings_frames_quiet id t false).
    + intros seen. apply transport_window_update_frames_quiet.
    + apply (transport_window_update_frames_quiet id t false).
  - (* EndWrite *)
    destruct (end_write_effect t error) as (I1 & I2 & I3 & _).
    destruct (I1 id) as (E1 & _). cbn zeta in I2, I3.
    apply (quiet_step_order id sent0 (t, wire)); cbn [fst snd];
      [|exact E1|exact H].
    unfold framed. cbn [fst snd]. rewrite I2, I3, <- app_assoc.
    reflexivity.
  - (* CreditStream *)
    apply (quiet_step_order id sent0 (t, wire)); cbn [fst snd];
      [reflexivity| |exact H].
    cbn. destruct (id =? i) eqn:E; [|reflexivity].
    apply Z.eqb_eq in E. subst i. reflexivity.
  - (* CreditTransport *)
    apply (quiet_step_order id sent0 (t, wire)); cbn [fst snd];
      [reflexivity|reflexivity|exact H].
  - (* SendInitialMetadata *)
    destruct (is_null (send_initial_metadata (streams t i))
              && negb (sent_initial_metadata (streams t i)));
      [|exact H].
    apply mark_writable_order; [reflexivity|exact H].
  - (* SendMessage *)
    apply mark_writable_order; [reflexivity|exact H].
  - (* SendTrailingMetadata *)
    destruct (is_null (send_trailing_metadata (streams t i))
              && negb (sent_trailing_metadata (streams t i)));
      [|exact H].
    apply mark_writable_order; [reflexivity|exact H].
Qed.

Lemma run_order_ok_run id sent0 events :
  forall c, run_order_ok id sent0 c -> run_order_ok id sent0 (run events c).
Proof.
  unfold run.
  induction events as [|e events IH]; intros c H; cbn; [exact H|].
  apply IH. apply step_order_ok. exact H.
Qed.

(** X24: over any run of passes, completions, credits and send requests,
    a DATA or trailing-metadata frame of a stream, wherever it stands among
    the frames produced, has the initial-metadata frame of the stream
    before it, unless the initial metadata was sent before the run. *)
Lemma initial_metadata_first_over_run events c id :
  headers_first id (sent_initial_metadata (streams (fst c) id)) (framed c)
  = true ->
  forall pre f post,
    framed (run events c) = pre ++ f :: post ->
    is_body_or_trailer id f = true ->
    sent_initial_metadata (streams (fst c) id) = true \/
    exists g, In g pre /\ is_initial_headers id g = true.
Proof.
  intros H pre f post E Hf.
  assert (R : run_order_ok id (sent_initial_metadata (streams (fst c) id))
                (run events c)).
  { apply run_order_ok_run. split; [exact H|].
    intros Hs. rewrite Hs. reflexivity. }
  destruct R as [R _].
  exact (headers_first_sound id _ _ R pre f post E Hf).
Qed.

Lemma initial_metadata_first_over_run_witness :
  let c := (scenario1 true {| md_elems := [] |} [x61; x62] None, []) in
  headers_first 1 false (framed c) = true /\
  exists g,
    In g [HEADERS 1 {| md_elems := [] |} false 16384] /\
    is_initial_headers 1 g = true.
Proof.
  intros c. split; [reflexivity|].
  destruct (initial_metadata_first_over_run [BeginWrite] c 1 eq_refl
              [HEADERS 1 {| md_elems := [] |} false 16384]
              (DATA 1 [x61; x62] false) []) as [Hs|Hg].
  - vm_compute. reflexivity.
  - reflexivity.
  - discriminate Hs.
  - exact Hg.
Defined.

(** ** Where a stream goes after its iteration *)

Lemma write_initial_metadata_now_writing id w :
  it_now_writing (write_initial_metadata id w)
  = it_now_writing w
    || existsb not_window_update (initial_metadata_frames id w) /\
  existsb (is_initial_headers id) (initial_metadata_frames id w)
  = negb (it_sent_initial_metadata w)
    && negb (is_null (send_initial_metadata (it_s w))) /\
  existsb (is_data id) (initial_metadata_frames id w) = false.
Proof.
  unfold write_initial_metadata, initial_metadata_frames.
  destruct (send_initial_metadata (it_s w)) as [md|];
    [destruct (it_sent_initial_metadata w) eqn:E|]; cbn;
    rewrite ?E, ?Z.eqb_refl, ?orb_false_r, ?orb_true_r, ?andb_false_r; auto.
Qed.

Lemma write_window_update_now_writing id w :
  it_now_writing (write_window_update id w) = it_now_writing w /\
  existsb not_window_update (window_update_frames id w) = false /\
  existsb (is_data id) (window_update_frames id w) = false.
Proof.
  unfold write_window_update, window_update_frames.
  destruct (0 <? announce_window (it_s w)); cbn; auto.
Qed.

Lemma write_body_now_writing id w :
  let w' := write_body id w in
  let sent := (0 <? buffer_length (it_s w))
              && (0 <? max_outgoing (it_t w) (it_s w)) in
  it_now_writing w'
  = it_now_writing w
    || existsb not_window_update (body_frames id w)
    || ((0 <? buffer_length (it_s w))
        && negb (0 <? max_outgoing (it_t w) (it_s w))
        && (t_outgoing_window (it_t w) =? 0)) /\
  existsb (is_data id) (body_frames id w) = sent /\
  refs (it_s w')
  = refs (it_s w)
    + (if sent && (0 <? buffer_length (it_s w')) then 1 else 0).
Proof.
  unfold write_body, body_frames.
  destruct (0 <? buffer_length (it_s w)) eqn:Hb; cbn [andb negb];
    [destruct (0 <? max_outgoing (it_t w) (it_s w)) eqn:Hm; cbn [andb negb];
     [|destruct (t_outgoing_window (it_t w) =? 0) eqn:Ht]|];
    cbn; rewrite ?Hb, ?Hm, ?Ht, ?orb_false_r, ?orb_true_r; cbn;
    split_ands; try reflexivity; try lia.
  all: unfold write_data_frame, grpc_chttp2_encode_data; cbn [fst snd].
  all: rewrite ?Z.eqb_refl.
  all: destruct (is_last_frame (it_t w) (it_s w));
    match goal with
    | |- context [if 0 <? ?c then _ else _] => destruct (0 <? c) eqn:Hf
    end; unfold buffer_length in *; cbn in Hf |- *; rewrite ?Hf;
    try reflexivity; try lia.
Qed.

Lemma write_trailing_metadata_now_writing id w :
  it_now_writing (write_trailing_metadata id w)
  = it_now_writing w
    || existsb not_window_update (trailing_metadata_frames id w) /\
  (existsb (is_data id) (trailing_metadata_frames id w) = true ->
   buffer_length (it_s w) = 0).
Proof.
  unfold write_trailing_metadata, trailing_metadata_frames,
    grpc_chttp2_encode_data, rst_frames.
  destruct (send_trailing_metadata (it_s w)) as [md|];
    [destruct (is_null (fetching_send_message (it_s w))) eqn:Ef;
     [destruct (buffer_length (it_s w) =? 0) eqn:Eb|]|]; cbn;
    rewrite ?orb_false_r; try (split; [reflexivity|discriminate]).
  apply Z.eqb_eq in Eb.
  destruct (grpc_metadata_batch_is_empty md); cbn;
    rewrite orb_true_r; auto.
Qed.

Lemma max_outgoing_ext t s t' s' :
  acked_max_frame_size t' = acked_max_frame_size t ->
  t_outgoing_window t' = t_outgoing_window t ->
  outgoing_window s' = outgoing_window s ->
  max_outgoing t' s' = max_outgoing t s.
Proof. unfold max_outgoing. intros -> -> ->. reflexivity. Qed.

(** The iteration asks for the writing list exactly when it emitted a frame
    other than a window update or re-stalled the stream; it takes a
    reference exactly when it framed body bytes and bytes remain. *)
Lemma write_frames_now_writing id t :
  let w := write_frames id t in
  let fs := stream_frames id t in
  it_now_writing w
  = existsb not_window_update fs || stalls_on_transport id t /\
  refs (it_s w)
  = refs (streams t id)
    + (if existsb (is_data id) fs && (0 <? buffer_length (it_s w))
       then 1 else 0).
Proof.
  unfold write_frames, stream_frames, stalls_on_transport.
  set (w0 := enter id t).
  set (w1 := write_initial_metadata id w0).
  set (w2 := write_window_update id w1).
  destruct (write_initial_metadata_now_writing id w0) as (A1 & A2 & A3).
  destruct (write_initial_metadata_sent id w0) as (A4 & _ & _).
  destruct (write_window_update_now_writing id w1) as (B1 & B2 & B3).
  destruct (write_window_update_sent id w1) as (B4 & _).
  destruct (write_initial_metadata_effect id w0) as [_ H1].
  destruct (write_window_update_effect id w1) as [_ H2].
  fold w1 in A1, A4, B1, B2, B3, B4, H1, H2. fold w2 in B1, B4, H2.
  apply same_but_outbuf_fields in H1, H2.
  destruct H1 as (_ & M1 & W1 & _). destruct H2 as (_ & M2 & W2 & _).
  pose proof (write_initial_metadata_flow id w0) as F1.
  pose proof (write_window_update_flow id w1) as F2.
  fold w1 in F1. fold w2 in F2.
  pose proof (same_flow_trans _ _ _ F1 F2) as F.
  pose proof (same_flow_buffer_length _ _ F) as Fb.
  destruct F as (Fw & _ & _ & Fr & _).
  change (it_t w0) with t in *. change (it_s w0) with (streams t id) in *.
  change (it_sent_initial_metadata w0)
    with (sent_initial_metadata (streams t id)) in *.
  change (it_now_writing w0) with false in A1. cbn zeta in *.
  rewrite !existsb_app, B2, B3, A3. cbn [orb].
  rewrite A2 in A4. rewrite A4 in B4.
  destruct (it_sent_initial_metadata w2) eqn:Es.
  - destruct (write_body_now_writing id w2) as (C1 & C2 & C3).
    destruct (write_trailing_metadata_now_writing id (write_body id w2))
      as (D1 & D2).
    pose proof (write_trailing_metadata_flow id (write_body id w2)) as F4.
    pose proof (same_flow_buffer_length _ _ F4) as F4b.
    destruct F4 as (_ & _ & _ & F4r & _).
    cbn zeta in C1, C2, C3.
    rewrite (max_outgoing_ext t (streams t id) (it_t w2) (it_s w2))
      in C1, C2, C3 by congruence.
    rewrite Fb, W2, W1 in C1. rewrite Fb in C2, C3.
    rewrite !existsb_app, D1, C1, B1, A1, F4r, C3, Fr, F4b, C2.
    assert (Hq : (sent_initial_metadata (streams t id)
                  || negb (is_null (send_initial_metadata (streams t id))))
                 = true).
    { destruct (sent_initial_metadata (streams t id));
        destruct (is_null (send_initial_metadata (streams t id)));
        cbn in B4 |- *; congruence. }
    rewrite Hq. cbn [andb].
    split.
    + repeat match goal with
             | |- context [existsb ?f ?l] =>
                 generalize (existsb f l); intro
             | |- context [0 <? ?x] => generalize (0 <? x); intro
             | |- context [?x =? 0] => generalize (x =? 0); intro
             end.
      repeat match goal with b : bool |- _ => destruct b end; reflexivity.
    + destruct (existsb (is_data id)
                  (trailing_metadata_frames id (write_body id w2))) eqn:Ed.
      * rewrite (D2 eq_refl). cbn. rewrite !andb_false_r. reflexivity.
      * rewrite orb_false_r. reflexivity.
  - rewrite B1, A1, Fr. cbn. rewrite orb_false_r.
    assert (Hq : sent_initial_metadata (streams t id) = false /\
                 is_null (send_initial_metadata (streams t id)) = true).
    { destruct (sent_initial_metadata (streams t id));
        destruct (is_null (send_initial_metadata (streams t id)));
        cbn in B4; auto; discriminate. }
    destruct Hq as [Hq1 Hq2].
    assert (HI : initial_metadata_frames id w0 = []).
    { unfold initial_metadata_frames.
      change (it_s w0) with (streams t id).
      destruct (send_initial_metadata (streams t id));
        [discriminate Hq2|reflexivity]. }
    rewrite HI, Hq1, Hq2. cbn. split; [reflexivity|lia].
Qed.

Lemma list_mem_In id l : list_mem id l = true <-> In id l.
Proof.
  unfold list_mem. rewrite existsb_exists. split.
  - intros (x & Hx & E). apply Z.eqb_eq in E. subst. exact Hx.
  - intros H. exists id. split; [exact H|apply Z.eqb_refl].
Qed.

Lemma stream_list_remove_In l id i :
  In i (stream_list_remove l id) <-> In i l /\ i <> id.
Proof.
  unfold stream_list_remove. rewrite filter_In.
  split; intros [H1 H2]; split; try exact H1.
  - intros ->. rewrite Z.eqb_refl in H2. discriminate.
  - apply Z.eqb_neq in H2. rewrite H2. reflexivity.
Qed.

Lemma existsb_data_not_window_update id l :
  existsb (is_data id) l = true -> existsb not_window_update l = true.
Proof.
  rewrite !existsb_exists. intros (f & Hin & Hf). exists f.
  split; [exact Hin|]. destruct f; try discriminate. reflexivity.
Qed.

(** Lines 205-213 against what the iteration emitted. *)
Lemma write_stream_requeue (id : stream_id) (t : grpc_chttp2_transport) :
  let t' := write_stream id t in
  exists fs,
    outbuf t' = outbuf t ++ fs /\
    let moved := existsb not_window_update fs || stalls_on_transport id t in
    let forked :=
      existsb (is_data id) fs && (0 <? buffer_length (streams t' id)) in
    (moved = true ->
     In id (writing t') /\
     if list_mem id (writing t)
     then writing t' = writing t /\
          refs (streams t' id)
          = refs (streams t id) + (if forked then 1 else 0) - 1
     else writing t' = writing t ++ [id] /\
          refs (streams t' id)
          = refs (streams t id) + (if forked then 1 else 0)) /\
    (moved = false ->
     ~ In id (writing t') /\ ~ In id (writable t') /\
     ~ In id (stalled_by_transport t') /\
     refs (streams t' id) = refs (streams t id) - 1).
Proof.
  intros t'. exists (stream_frames id t).
  destruct (write_stream_account id t) as (O & _).
  split; [exact O|]. subst t'.
  destruct (write_frames_now_writing id t) as (N1 & N2).
  destruct (write_frames_account id t)
    as (_ & _ & _ & _ & _ & _ & _ & A8 & _).
  cbn zeta in N1, N2, A8 |- *.
  assert (Hb : buffer_length (streams (write_stream id t) id)
               = buffer_length (it_s (write_frames id t))).
  { destruct (requeue_effect id (write_frames id t)) as (R1 & _).
    apply same_but_refs_fields in R1.
    destruct R1 as (_ & _ & _ & _ & _ & R6 & _).
    unfold buffer_length, write_stream. cbn zeta in R6. rewrite R6.
    reflexivity. }
  rewrite Hb. rewrite <- N1.
  unfold write_stream, requeue, grpc_chttp2_list_add_writing_stream,
    stream_list_add, grpc_chttp2_leave_writing_lists.
  rewrite A8.
  split; intros Hm; rewrite Hm.
  - destruct (list_mem id (writing t)) eqn:Em; cbn; rewrite Z.eqb_refl.
    + apply list_mem_In in Em. split; [exact Em|].
      split; [reflexivity|]. cbn. rewrite N2. lia.
    + split; [apply in_or_app; right; left; reflexivity|].
      split; [reflexivity|]. rewrite N2. reflexivity.
  - cbn. rewrite Z.eqb_refl. cbn.
    assert (Hd : existsb (is_data id) (stream_frames id t) = false).
    { destruct (existsb (is_data id) (stream_frames id t)) eqn:Ed;
        [|reflexivity].
      apply existsb_data_not_window_update in Ed.
      rewrite N1, Ed in Hm. discriminate. }
    rewrite Hd in N2. cbn in N2.
    split_ands; try (intros Hin; apply stream_list_remove_In in Hin;
                     destruct Hin as [_ Hin]; apply Hin; reflexivity).
    rewrite N2. lia.
Qed.

(** C7, amended: the stream that was popped is moved onto the writing list
    (an entry that is already there stays and one reference is dropped)
    exactly when the iteration emitted a frame other than a window update
    (initial metadata, DATA or trailing metadata) or re-stalled the stream
    on a zero transport window; otherwise its reference is released and it
    is on none of the three lists.  A fork adds one reference. *)
Theorem requeue_by_emission (id : stream_id) (t : grpc_chttp2_transport) :
  let t' := write_stream id t in
  exists fs,
    outbuf t' = outbuf t ++ fs /\
    let moved := existsb not_window_update fs || stalls_on_transport id t in
    let forked :=
      existsb (is_data id) fs && (0 <? buffer_length (streams t' id)) in
    (moved = true ->
     In id (writing t') /\
     if list_mem id (writing t)
     then writing t' = writing t /\
          refs (streams t' id)
          = refs (streams t id) + (if forked then 1 else 0) - 1
     else writing t' = writing t ++ [id] /\
          refs (streams t' id)
          = refs (streams t id) + (if forked then 1 else 0)) /\
    (moved = false ->
     ~ In id (writing t') /\ ~ In id (writable t') /\
     ~ In id (stalled_by_transport t') /\
     refs (streams t' id) = refs (streams t id) - 1).
Proof. exact (write_stream_requeue id t). Qed.

(** C7, as stated: the pass emits the window update of the stream and does
    not move the stream onto the writing list. *)
Lemma window_update_alone_not_writing :
  let t' := begin_write_state window_update_only in
  outbuf t' = [WINDOW_UPDATE 1 5] /\
  ~ In 1 (writing t') /\
  refs (streams t' 1) = refs (streams window_update_only 1) - 1.
Proof.
  cbn zeta. split; [vm_compute; reflexivity|].
  split; [|vm_compute; reflexivity].
  vm_compute. intros [].
Qed.

Lemma requeue_by_emission_witness :
  let t := scenario1 true {| md_elems := [] |} [x61; x62] None in
  In 1 (writing (write_stream 1 t)) /\
  ~ In 1 (writing (write_stream 1 window_update_only)).
Proof.
  intros t. split.
  - destruct (requeue_by_emission 1 t) as (fs & O & H & _).
    assert (E : fs = [HEADERS 1 {| md_elems := [] |} false 16384;
                      DATA 1 [x61; x62] false]).
    { apply (app_inv_head (outbuf t)). rewrite <- O.
      vm_compute. reflexivity. }
    subst fs. apply H. reflexivity.
  - destruct (requeue_by_emission 1 window_update_only) as (fs & O & _ & H).
    assert (E : fs = [WINDOW_UPDATE 1 5]).
    { apply (app_inv_head (outbuf window_update_only)). rewrite <- O.
      vm_compute. reflexivity. }
    subst fs. apply H. reflexivity.
Defined.

(** ** The stream lists through an iteration *)

Lemma stream_list_add_In l id i :
  In i (snd (stream_list_add l id)) <-> In i l \/ i = id.
Proof.
  unfold stream_list_add. destruct (list_mem id l) eqn:E; cbn.
  - apply list_mem_In in E. split; [auto|]. intros [H| ->]; assumption.
  - rewrite in_app_iff. cbn. intuition congruence.
Qed.

Lemma stream_list_add_length l id :
  (length (snd (stream_list_add l id)) <= length l + 1)%nat.
Proof.
  unfold stream_list_add. destruct (list_mem id l); cbn; [lia|].
  rewrite length_app. cbn. lia.
Qed.

Lemma stream_list_remove_length l id :
  (length (stream_list_remove l id) <= length l)%nat.
Proof. unfold stream_list_remove. apply filter_length_le. Qed.

Lemma write_body_lists id w :
  let w' := write_body id w in
  (writable (it_t w') = writable (it_t w) \/
   0 < data_bytes (body_frames id w) /\
   writable (it_t w') = snd (stream_list_add (writable (it_t w)) id)) /\
  (stalled_by_transport (it_t w') = stalled_by_transport (it_t w) \/
   (0 <? max_outgoing (it_t w) (it_s w)) = false /\
   t_outgoing_window (it_t w) = 0 /\
   stalled_by_transport (it_t w')
   = snd (stream_list_add (stalled_by_transport (it_t w)) id)).
Proof.
  cbn zeta. rewrite data_bytes_body.
  unfold write_body.
  destruct (0 <? buffer_length (it_s w)) eqn:Hb; cbn [andb];
    [destruct (0 <? max_outgoing (it_t w) (it_s w)) eqn:Hm;
     [|destruct (t_outgoing_window (it_t w) =? 0) eqn:Ht]|];
    cbn; auto.
  - unfold write_data_frame, grpc_chttp2_encode_data. cbn [fst snd].
    rewrite ?rst_stream_after_last_eq.
    apply Z.ltb_lt in Hb, Hm.
    pose proof (data_frame_size_pos _ _ Hm Hb) as Hp.
    destruct (is_last_frame (it_t w) (it_s w));
      match goal with
      | |- context [if ?c then _ else _] => destruct c
      end; cbn; auto.
  - apply Z.eqb_eq in Ht. auto.
Qed.

(** What an iteration does to the three lists. *)
Lemma write_stream_lists j t :
  let t' := write_stream j t in
  (forall i, i <> j ->
     (In i (writable t') <-> In i (writable t)) /\
     (In i (stalled_by_transport t') <-> In i (stalled_by_transport t)) /\
     (In i (writing t') <-> In i (writing t))) /\
  (length (writable t')
   <= length (writable t)
      + (if (0 <? data_bytes (stream_frames j t))%Z then 1 else 0))%nat /\
  (forall i, In i (writable t') -> In i (writable t) \/ i = j).
Proof.
  cbn zeta.
  assert (H : exists lw ls n,
             writable (it_t (write_frames j t)) = lw /\
             stalled_by_transport (it_t (write_frames j t)) = ls /\
             writing (it_t (write_frames j t)) = writing t /\
             data_bytes (stream_frames j t) = n /\
             (lw = writable t \/
              0 < n /\ lw = snd (stream_list_add (writable t) j)) /\
             (ls = stalled_by_transport t \/
              ls = snd (stream_list_add (stalled_by_transport t) j))).
  { destruct (write_frames_account j t)
      as (_ & _ & _ & _ & _ & _ & _ & A8 & _).
    unfold write_frames, stream_frames in *.
    set (w0 := enter j t) in *.
    set (w1 := write_initial_metadata j w0) in *.
    set (w2 := write_window_update j w1) in *.
    destruct (write_initial_metadata_effect j w0) as [_ H1].
    destruct (write_window_update_effect j w1) as [_ H2].
    fold w1 in H1. fold w2 in H2.
    apply same_but_outbuf_fields in H1, H2.
    destruct H1 as (_ & _ & _ & _ & S1 & L1 & _).
    destruct H2 as (_ & _ & _ & _ & S2 & L2 & _).
    change (it_t w0) with t in *.
    rewrite !data_bytes_app, data_bytes_initial_metadata,
      data_bytes_window_update.
    destruct (it_sent_initial_metadata w2).
    - destruct (write_trailing_metadata_effect j (write_body j w2))
        as [_ H4].
      apply same_but_outbuf_fields in H4.
      destruct H4 as (_ & _ & _ & _ & S4 & L4 & _).
      destruct (write_body_lists j w2) as (B1 & B2).
      cbn zeta in B1, B2.
      rewrite data_bytes_app, data_bytes_trailing_metadata.
      do 3 eexists. split; [reflexivity|]. split; [reflexivity|].
      split; [exact A8|]. split; [reflexivity|].
      rewrite L4, S4. split.
      + destruct B1 as [B1|[Bn B1]]; rewrite B1, L2, L1;
          [left; reflexivity|right; split; [lia|reflexivity]].
      + destruct B2 as [B2|(_ & _ & B2)]; rewrite B2, S2, S1; auto.
    - do 3 eexists. split; [reflexivity|]. split; [reflexivity|].
      split; [exact A8|]. split; [reflexivity|].
      rewrite L2, L1, S2, S1. auto. }
  destruct H as (lw & ls & n & Hw & Hs & Hg & Hn & Hlw & Hls).
  rewrite Hn.
  unfold write_stream, requeue, grpc_chttp2_list_add_writing_stream,
    grpc_chttp2_leave_writing_lists.
  destruct (it_now_writing (write_frames j t)).
  - assert (E : forall s0,
               let r := set_stream
                          (T.set_writing (it_t (write_frames j t))
                             (snd (stream_list_add
                                     (writing (it_t (write_frames j t))) j)))
                          j s0 in
               writable r = lw /\ stalled_by_transport r = ls /\
               writing r = snd (stream_list_add (writing t) j)).
    { intros s0. cbn. rewrite Hw, Hs, Hg. auto. }
    assert (G : forall r,
               writable r = lw -> stalled_by_transport r = ls ->
               writing r = snd (stream_list_add (writing t) j) ->
               (forall i, i <> j ->
                  (In i (writable r) <-> In i (writable t)) /\
                  (In i (stalled_by_transport r)
                   <-> In i (stalled_by_transport t)) /\
                  (In i (writing r) <-> In i (writing t))) /\
               (length (writable r)
                <= length (writable t) + (if (0 <? n)%Z then 1 else 0))%nat /\
               (forall i, In i (writable r) -> In i (writable t) \/ i = j)).
    { intros r -> -> ->. split; [|split].
      - intros i Hi. split; [|split].
        + destruct Hlw as [->|[_ ->]]; [tauto|].
          rewrite stream_list_add_In. tauto.
        + destruct Hls as [->| ->]; [tauto|].
          rewrite stream_list_add_In. tauto.
        + rewrite stream_list_add_In. tauto.
      - destruct Hlw as [->|[Hp ->]]; [lia|].
        apply Z.ltb_lt in Hp. rewrite Hp. apply stream_list_add_length.
      - intros i. destruct Hlw as [->|[_ ->]]; [tauto|].
        rewrite stream_list_add_In. tauto. }
    cbn [fst snd].
    destruct (fst (stream_list_add (writing (it_t (write_frames j t))) j));
      [destruct (E (it_s (write_frames j t))) as (E1 & E2 & E3)
      |destruct (E (GRPC_CHTTP2_STREAM_UNREF (it_s (write_frames j t))))
         as (E1 & E2 & E3)];
      apply G; assumption.
  - cbn. rewrite Hw, Hs, Hg. split; [|split].
    + intros i Hi. rewrite !stream_list_remove_In. split; [|split].
      * destruct Hlw as [->|[_ ->]]; [tauto|].
        rewrite stream_list_add_In. tauto.
      * destruct Hls as [->| ->]; [tauto|].
        rewrite stream_list_add_In. tauto.
      * tauto.
    + pose proof (stream_list_remove_length lw j) as Hl.
      destruct Hlw as [->|[Hp ->]]; [lia|].
      apply Z.ltb_lt in Hp. rewrite Hp.
      pose proof (stream_list_add_length (writable t) j). lia.
    + intros i Hin. apply stream_list_remove_In in Hin.
      destruct Hin as [Hin _].
      destruct Hlw as [->|[_ ->]]; [tauto|].
      apply stream_list_add_In in Hin. exact Hin.
Qed.

(** ** The loop runs until the writable list is empty *)

Lemma buffered_step j t l :
  let t' := write_stream j t in
  let n := data_bytes (stream_frames j t) in
  (buffered t' l <= buffered t l)%nat /\
  (In j l -> (buffered t' l + Z.to_nat n <= buffered t l)%nat).
Proof.
  cbn zeta.
  destruct (write_stream_account j t) as (_ & _ & _ & B & F & _).
  cbn zeta in B, F. unfold buffer_length in B.
  pose proof (data_bytes_nonneg (stream_frames j t)) as Hn.
  induction l as [|i l [IH1 IH2]]; cbn; [split; [lia|tauto]|].
  destruct (Z.eq_dec i j) as [->|Hne].
  - split; [lia|]. intros _. lia.
  - rewrite F by exact Hne. split; [lia|].
    intros [E|Hin]; [congruence|]. specialize (IH2 Hin). lia.
Qed.

Lemma buffered_ext t t' l :
  streams t' = streams t -> buffered t' l = buffered t l.
Proof.
  intros E. induction l as [|i l IH]; cbn; [reflexivity|].
  rewrite E, IH. reflexivity.
Qed.

Lemma write_streams_drains fuel :
  forall t l,
    incl (writable t) l ->
    (length (writable t) + buffered t l <= fuel)%nat ->
    writable (write_streams fuel t) = [].
Proof.
  induction fuel as [|fuel IH]; intros t l Hincl Hfuel; cbn.
  - destruct (writable t); [reflexivity|cbn in Hfuel; lia].
  - destruct (grpc_chttp2_list_pop_writable_stream t) as [[j t1]|] eqn:E.
    + apply pop_writable_inv in E. destruct E as (rest & Hw & ->).
      rewrite Hw in Hincl, Hfuel. cbn in Hfuel.
      set (t1 := T.set_writable t rest).
      destruct (write_stream_lists j t1) as (_ & L2 & L3).
      destruct (buffered_step j t1 l) as (B1 & B2).
      cbn zeta in L2, L3, B1, B2.
      assert (Hj : In j l) by (apply Hincl; left; reflexivity).
      specialize (B2 Hj).
      change (writable t1) with rest in L2, L3.
      rewrite (buffered_ext t t1 l eq_refl) in B1, B2.
      apply (IH _ l).
      * intros i Hi. destruct (L3 i Hi) as [H| ->]; [|exact Hj].
        apply Hincl. right. exact H.
      * destruct (0 <? data_bytes (stream_frames j t1)) eqn:Ep.
        -- apply Z.ltb_lt in Ep. lia.
        -- lia.
    + unfold grpc_chttp2_list_pop_writable_stream in E.
      destruct (writable t); [reflexivity|discriminate].
Qed.

(** When [grpc_chttp2_begin_write] returns, no stream is writable. *)
Lemma begin_write_drains t : writable (begin_write_state t) = [].
Proof.
  unfold begin_write_state.
  set (t1 := begin_write_prologue t).
  destruct (write_transport_window_update_effect
              (write_streams (write_fuel t1) t1))
    as (_ & _ & _ & _ & _ & _ & _ & _ & U9 & _).
  cbn zeta in U9 |- *. rewrite U9.
  apply (write_streams_drains _ _ (writable t1)).
  - apply incl_refl.
  - unfold write_fuel. lia.
Qed.

(** ** A stream behind a transport window of zero *)

Lemma write_streams_pass_ind
    (Q : grpc_chttp2_transport -> list frame -> Prop)
    (t0 : grpc_chttp2_transport) :
  (forall t fs id rest,
      Q t fs -> writable t = id :: rest ->
      Q (write_stream id (T.set_writable t rest))
        (fs ++ stream_frames id (T.set_writable t rest))) ->
  forall fuel t fs,
    outbuf t = outbuf t0 ++ fs -> Q t fs ->
    exists fs',
      outbuf (write_streams fuel t) = outbuf t0 ++ fs' /\
      Q (write_streams fuel t) fs'.
Proof.
  intros Hstep.
  induction fuel as [|fuel IH]; intros t fs O HQ; cbn; [eauto|].
  destruct (grpc_chttp2_list_pop_writable_stream t) as [[id t1]|] eqn:E;
    [|eauto].
  apply pop_writable_inv in E. destruct E as (rest & Hw & ->).
  apply (IH _ (fs ++ stream_frames id (T.set_writable t rest))).
  - destruct (write_stream_account id (T.set_writable t rest)) as (O1 & _).
    cbn zeta in O1. rewrite O1. cbn. rewrite O, app_assoc. reflexivity.
  - eapply Hstep; eassumption.
Qed.

Lemma write_stream_sent_initial id t :
  sent_initial_metadata (streams (write_stream id t) id)
  = sent_initial_metadata (streams t id)
    || negb (is_null (send_initial_metadata (streams t id))).
Proof.
  destruct (stream_frames_headers_first id t true (fun _ => eq_refl))
    as (_ & H & _).
  cbn zeta in H. rewrite H. unfold stream_frames.
  set (w0 := enter id t).
  set (w1 := write_initial_metadata id w0).
  set (w2 := write_window_update id w1).
  destruct (write_initial_metadata_now_writing id w0) as (_ & A2 & _).
  destruct (write_window_update_sent id w1) as (_ & _ & _ & B4 & _).
  fold w1 in B4.
  rewrite !existsb_app, A2, B4.
  change (it_sent_initial_metadata w0)
    with (sent_initial_metadata (streams t id)).
  change (it_s w0) with (streams t id).
  assert (E : existsb (is_initial_headers id)
                (if it_sent_initial_metadata w2
                 then body_frames id w2
                      ++ trailing_metadata_frames id (write_body id w2)
                 else []) = false).
  { destruct (it_sent_initial_metadata w2); [|reflexivity].
    destruct (write_body_sent id w2) as (_ & C2).
    destruct (write_trailing_metadata_sent id (write_body id w2))
      as (_ & _ & D3).
    rewrite existsb_app, C2, D3. reflexivity. }
  rewrite E.
  destruct (sent_initial_metadata (streams t id));
    destruct (is_null (send_initial_metadata (streams t id))); reflexivity.
Qed.

(** A re-stalled stream is on the stalled list and on the writing list. *)
Lemma write_stream_stalls id t :
  stalls_on_transport id t = true ->
  In id (stalled_by_transport (write_stream id t)) /\
  In id (writing (write_stream id t)).
Proof.
  intros Hst. split.
  - assert (Hw : In id (stalled_by_transport (it_t (write_frames id t))) /\
                 it_now_writing (write_frames id t) = true).
    { destruct (write_frames_now_writing id t) as (N1 & _).
      cbn zeta in N1. rewrite Hst, orb_true_r in N1.
      split; [|exact N1].
      unfold stalls_on_transport in Hst.
      apply andb_prop in Hst. destruct Hst as [Hst Htw].
      apply andb_prop in Hst. destruct Hst as [Hst Hmo].
      apply andb_prop in Hst. destruct Hst as [Hq Hbl].
      apply negb_true_iff in Hmo.
      unfold write_frames.
      set (w0 := enter id t).
      set (w1 := write_initial_metadata id w0).
      set (w2 := write_window_update id w1).
      destruct (write_initial_metadata_now_writing id w0) as (_ & A2 & _).
      destruct (write_initial_metadata_sent id w0) as (A4 & _ & _).
      destruct (write_window_update_sent id w1) as (B4 & _).
      destruct (write_initial_metadata_effect id w0) as [_ H1].
      destruct (write_window_update_effect id w1) as [_ H2].
      fold w1 in A4, B4, H1, H2. fold w2 in B4, H2.
      apply same_but_outbuf_fields in H1, H2.
      destruct H1 as (_ & M1 & W1 & _). destruct H2 as (_ & M2 & W2 & _).
      pose proof (write_initial_metadata_flow id w0) as F1.
      pose proof (write_window_update_flow id w1) as F2.
      fold w1 in F1. fold w2 in F2.
      pose proof (same_flow_trans _ _ _ F1 F2) as F.
      pose proof (same_flow_buffer_length _ _ F) as Fb.
      destruct F as (Fw & _).
      change (it_t w0) with t in *. change (it_s w0) with (streams t id) in *.
      change (it_sent_initial_metadata w0)
        with (sent_initial_metadata (streams t id)) in *.
      cbn zeta in A4. rewrite A2 in A4. rewrite A4 in B4.
      assert (Es : it_sent_initial_metadata w2 = true).
      { rewrite B4.
        destruct (sent_initial_metadata (streams t id));
          destruct (is_null (send_initial_metadata (streams t id)));
          cbn in Hq |- *; congruence. }
      rewrite Es.
      destruct (write_trailing_metadata_effect id (write_body id w2))
        as [_ H4].
      apply same_but_outbuf_fields in H4.
      destruct H4 as (_ & _ & _ & _ & S4 & _).
      rewrite S4.
      unfold write_body.
      rewrite Fb, Hbl.
      rewrite (max_outgoing_ext t (streams t id) (it_t w2) (it_s w2))
        by congruence.
      rewrite Hmo, W2, W1, Htw. cbn.
      apply stream_list_add_In. right. reflexivity. }
    destruct Hw as [Hin Hnw].
    unfold write_stream, requeue, grpc_chttp2_list_add_writing_stream.
    rewrite Hnw. cbn [fst snd].
    destruct (fst (stream_list_add (writing (it_t (write_frames id t))) id));
      exact Hin.
  - destruct (write_stream_requeue id t) as (fs & _ & H & _).
    cbn zeta in H. rewrite Hst, orb_true_r in H.
    apply H. reflexivity.
Qed.

Lemma stream_frames_other_no_data id j t :
  j <> id -> Forall (fun f => is_data id f = false) (stream_frames j t).
Proof.
  intros Hne. eapply Forall_impl; [|apply stream_frames_own].
  intros f Hf. destruct f; cbn in *; try reflexivity.
  apply Z.eqb_neq. lia.
Qed.

(** No payload framed while bytes are buffered: no DATA frame at all. *)
Lemma stream_frames_no_data id t :
  data_bytes (stream_frames id t) = 0 ->
  0 < buffer_length (streams t id) ->
  Forall (fun f => is_data id f = false) (stream_frames id t).
Proof.
  intros Hn Hb.
  destruct (write_frames_account id t) as (_ & _ & A3 & _).
  cbn zeta in A3. rewrite Hn in A3.
  revert Hn A3. unfold write_frames, stream_frames.
  set (w0 := enter id t).
  set (w1 := write_initial_metadata id w0).
  set (w2 := write_window_update id w1).
  destruct (write_initial_metadata_now_writing id w0) as (_ & _ & A3').
  destruct (write_window_update_now_writing id w1) as (_ & _ & B3).
  fold w1 in B3.
  rewrite !data_bytes_app, data_bytes_initial_metadata,
    data_bytes_window_update.
  intros Hn A3.
  assert (E : existsb (is_data id)
                (initial_metadata_frames id w0
                 ++ window_update_frames id w1
                 ++ (if it_sent_initial_metadata w2
                     then body_frames id w2
                          ++ trailing_metadata_frames id (write_body id w2)
                     else [])) = false).
  { rewrite !existsb_app, A3', B3. cbn [orb].
    destruct (it_sent_initial_metadata w2); [|reflexivity].
    destruct (write_body_now_writing id w2) as (_ & C2 & _).
    destruct (write_trailing_metadata_now_writing id (write_body id w2))
      as (_ & D2).
    pose proof (write_trailing_metadata_flow id (write_body id w2)) as F4.
    apply same_flow_buffer_length in F4.
    rewrite data_bytes_app, data_bytes_trailing_metadata,
      data_bytes_body in Hn.
    rewrite existsb_app, C2.
    destruct ((0 <? buffer_length (it_s w2))
              && (0 <? max_outgoing (it_t w2) (it_s w2))) eqn:Ec.
    - apply andb_prop in Ec. destruct Ec as [E1 E2].
      apply Z.ltb_lt in E1, E2.
      pose proof (data_frame_size_pos _ _ E2 E1). lia.
    - cbn [orb].
      destruct (existsb (is_data id)
                  (trailing_metadata_frames id (write_body id w2)))
        eqn:Ed; [|reflexivity].
      specialize (D2 eq_refl). lia. }
  apply Forall_forall. intros f Hin.
  destruct (is_data id f) eqn:Ef; [|reflexivity].
  assert (existsb (is_data id)
            (initial_metadata_frames id w0
             ++ window_update_frames id w1
             ++ (if it_sent_initial_metadata w2
                 then body_frames id w2
                      ++ trailing_metadata_frames id (write_body id w2)
                 else [])) = true)
    by (apply existsb_exists; eauto).
  congruence.
Qed.

Lemma write_stream_stalled_inv id len t fs j rest :
  0 < len ->
  stalled_inv id len t fs -> writable t = j :: rest ->
  stalled_inv id len (write_stream j (T.set_writable t rest))
    (fs ++ stream_frames j (T.set_writable t rest)).
Proof.
  intros Hlen (I1 & I2 & I3 & I4 & I5 & I6) Hw.
  set (t1 := T.set_writable t rest).
  assert (N1 : windows_nonneg t1) by exact I2.
  destruct (write_stream_account j t1) as (_ & A2 & _ & A4 & A5 & _).
  cbn zeta in A2, A4, A5.
  destruct N1 as [Nt Ns].
  destruct (stream_frames_fit j t1 (Ns j) Nt) as [_ F2].
  pose proof (data_bytes_nonneg (stream_frames j t1)) as Hn.
  change (t_outgoing_window t1) with (t_outgoing_window t) in *.
  assert (Hz : data_bytes (stream_frames j t1) = 0) by lia.
  unfold stalled_inv. split; [lia|].
  split; [apply write_stream_nonneg; exact I2|].
  destruct (Z.eq_dec j id) as [->|Hne].
  - (* the stream itself *)
    assert (Hst : stalls_on_transport id t1 = true).
    { unfold stalls_on_transport.
      change (streams t1 id) with (streams t id).
      change (t_outgoing_window t1) with (t_outgoing_window t).
      unfold initial_metadata_ready in I4. rewrite I4, I3, I1.
      destruct (max_outgoing_le_windows t1 (streams t id)) as [_ Hm];
        [apply Ns|exact Nt|].
      pose proof (max_outgoing_range t1 (streams t id)) as Hr.
      change (t_outgoing_window t1) with (t_outgoing_window t) in Hm.
      assert (Hmo : (0 <? max_outgoing t1 (streams t id)) = false)
        by (apply Z.ltb_ge; lia).
      rewrite Hmo. cbn.
      assert (Hl : (0 <? len) = true) by (apply Z.ltb_lt; exact Hlen).
      rewrite Hl. reflexivity. }
    destruct (write_stream_stalls id t1 Hst) as [S1 S2].
    split; [rewrite A4, Hz; change (streams t1 id) with (streams t id); lia|].
    split.
    { unfold initial_metadata_ready. rewrite write_stream_sent_initial.
      change (streams t1 id) with (streams t id).
      unfold initial_metadata_ready in I4. rewrite I4. reflexivity. }
    split; [right; split; assumption|].
    apply Forall_app. split; [exact I6|].
    apply stream_frames_no_data; [exact Hz|].
    change (streams t1 id) with (streams t id). lia.
  - (* another stream *)
    destruct (write_stream_lists j t1) as (L1 & _).
    destruct (L1 id) as (Lw & Ls & Lg); [lia|].
    rewrite A5 by lia. change (streams t1 id) with (streams t id).
    split; [exact I3|]. split; [exact I4|].
    split.
    + destruct I5 as [I5|[I5 I5']].
      * left. apply Lw. change (writable t1) with rest.
        rewrite Hw in I5. destruct I5 as [E|I5]; [congruence|exact I5].
      * right. split; [apply Ls|apply Lg]; assumption.
    + apply Forall_app. split; [exact I6|].
      apply stream_frames_other_no_data. exact Hne.
Qed.

(** C6, amended: a stream with buffered bytes whose initial metadata is sent
    or queued, writable at a pass that starts with a transport window of
    zero (no window being negative): the pass emits no DATA frame for it
    and leaves its buffer as it was, and the stream ends the pass on the
    stalled-by-transport list and on the writing list, no longer writable. *)
Theorem zero_transport_window_stalls
    (t : grpc_chttp2_transport) (id : stream_id) :
  t_outgoing_window t = 0 ->
  windows_nonneg t ->
  In id (writable t) ->
  0 < buffer_length (streams t id) ->
  initial_metadata_ready (streams t id) = true ->
  let t' := begin_write_state t in
  exists fs,
    outbuf t'
    = outbuf t ++ settings_frames t ++ qbuf t ++ fs
      ++ transport_window_update_frames t /\
    Forall (fun f => is_data id f = false) fs /\
    buffer_length (streams t' id) = buffer_length (streams t id) /\
    In id (stalled_by_transport t') /\
    In id (writing t') /\
    ~ In id (writable t').
Proof.
  intros Htw Hnn Hin Hlen Hready t'. subst t'.
  pose proof (begin_write_drains t) as Hdr.
  unfold begin_write_state in *.
  set (t1 := begin_write_prologue t) in *.
  destruct (begin_write_prologue_effect t)
    as (P1 & _ & P3 & P4 & _ & _ & _ & _ & P9).
  fold t1 in P1, P3, P4, P9.
  assert (Hw1 : writable t1 = writable t).
  { subst t1. unfold begin_write_prologue, unstall_streams.
    set (t0 := set_max_table_size (flush_qbuf (write_settings t))).
    assert (E : t_outgoing_window t0 = 0 /\ writable t0 = writable t).
    { subst t0. unfold set_max_table_size, flush_qbuf, write_settings.
      destruct (_ && _); cbn; auto. }
    destruct E as [E1 E2]. rewrite E1.
    change (0 <? 0) with false. cbn iota. exact E2. }
  destruct (write_streams_pass_ind
              (stalled_inv id (buffer_length (streams t id))) t1
              (fun t0 fs0 j rest =>
                 write_stream_stalled_inv id _ t0 fs0 j rest Hlen)
              (write_fuel t1) t1 [])
    as (fs & O & I1 & I2 & I3 & I4 & I5 & I6).
  { rewrite app_nil_r. reflexivity. }
  { unfold stalled_inv, windows_nonneg.
    rewrite P3, P4, Hw1. split_ands; auto; apply Hnn. }
  destruct (write_streams_account (write_fuel t1) t1)
    as (fs0 & _ & _ & _ & _ & _ & _ & _ & _ & K5).
  set (t2 := write_streams (write_fuel t1) t1) in *.
  destruct (write_transport_window_update_effect t2)
    as (U1 & _ & _ & U4 & _ & _ & _ & U8 & U9 & U10).
  cbn zeta in *. rewrite U9 in Hdr.
  exists fs. rewrite U1, U4, U8, U9, U10, O, P1.
  split.
  { unfold transport_window_update_frames. rewrite K5, P9.
    rewrite <- !app_assoc. reflexivity. }
  split; [exact I6|]. split; [exact I3|].
  rewrite Hdr in I5 |- *.
  destruct I5 as [[]|[I5 I5']]. auto.
Qed.

(** C6, as stated: the stalled stream ends the pass on the writing list
    too; and without initial metadata it ends the pass on no list. *)
Lemma zero_window_stream_ends_on_writing_list :
  let t' := begin_write_state
              (zero_window (S.set_sent_initial_metadata idle_stream true)) in
  let u' := begin_write_state (zero_window idle_stream) in
  (outbuf t' = [] /\ stalled_by_transport t' = [1] /\ In 1 (writing t')) /\
  (outbuf u' = [] /\ stalled_by_transport u' = [] /\ writing u' = []).
Proof.
  cbn zeta. vm_compute. repeat split; auto.
Qed.

Lemma zero_transport_window_stalls_witness :
  let t := zero_window (S.set_sent_initial_metadata idle_stream true) in
  In 1 (stalled_by_transport (begin_write_state t)) /\
  In 1 (writing (begin_write_state t)).
Proof.
  intros t.
  destruct (zero_transport_window_stalls t 1)
    as (fs & _ & _ & _ & H1 & H2 & _).
  - reflexivity.
  - split; [vm_compute; discriminate|].
    intros id. cbn. destruct (id =? 1); vm_compute; discriminate.
  - left. reflexivity.
  - reflexivity.
  - reflexivity.
  - split; assumption.
Defined.

(** ** The fork *)

Lemma write_body_forks id w :
  0 < data_bytes (body_frames id w) ->
  0 < buffer_length (it_s (write_body id w)) ->
  In id (writable (it_t (write_body id w))) /\
  it_now_writing (write_body id w) = true.
Proof.
  rewrite data_bytes_body. unfold write_body.
  destruct (0 <? buffer_length (it_s w)) eqn:Hb; cbn [andb]; [|lia].
  destruct (0 <? max_outgoing (it_t w) (it_s w)) eqn:Hm; [|lia].
  intros _. unfold write_data_frame, grpc_chttp2_encode_data.
  cbn [fst snd]. rewrite ?rst_stream_after_last_eq.
  destruct (is_last_frame (it_t w) (it_s w));
    match goal with
    | |- context [if 0 <? ?c then _ else _] => destruct (0 <? c) eqn:Hf
    end; unfold buffer_length in *; cbn in Hf |- *; intros Hlen;
    try (apply Z.ltb_ge in Hf; lia);
    (split; [|reflexivity]);
    apply (stream_list_add_In (writable (it_t w)) id id); auto.
Qed.

Lemma write_stream_forks id t :
  0 < data_bytes (stream_frames id t) ->
  0 < buffer_length (streams (write_stream id t) id) ->
  In id (writable (write_stream id t)).
Proof.
  intros Hn Hb.
  assert (Hb' : 0 < buffer_length (it_s (write_frames id t))).
  { destruct (requeue_effect id (write_frames id t)) as (R1 & _).
    apply same_but_refs_fields in R1.
    destruct R1 as (_ & _ & _ & _ & _ & R6 & _).
    unfold buffer_length, write_stream in *. cbn zeta in R6.
    rewrite R6 in Hb. exact Hb. }
  assert (H : In id (writable (it_t (write_frames id t))) /\
              it_now_writing (write_frames id t) = true).
  { revert Hn Hb'. unfold write_frames, stream_frames.
    set (w0 := enter id t).
    set (w1 := write_initial_metadata id w0).
    set (w2 := write_window_update id w1).
    rewrite !data_bytes_app, data_bytes_initial_metadata,
      data_bytes_window_update.
    destruct (it_sent_initial_metadata w2); [|cbn; lia].
    rewrite data_bytes_app, data_bytes_trailing_metadata.
    intros Hn Hb'.
    pose proof (write_trailing_metadata_flow id (write_body id w2)) as F4.
    apply same_flow_buffer_length in F4.
    destruct (write_body_forks id w2) as [H1 H2]; [lia|lia|].
    destruct (write_trailing_metadata_effect id (write_body id w2))
      as [_ H4].
    apply same_but_outbuf_fields in H4.
    destruct H4 as (_ & _ & _ & _ & _ & L4 & _).
    destruct (write_trailing_metadata_now_writing id (write_body id w2))
      as (D1 & _).
    rewrite L4, D1, H2. auto. }
  destruct H as [Hin Hnw].
  unfold write_stream, requeue, grpc_chttp2_list_add_writing_stream.
  rewrite Hnw. cbn [fst snd].
  destruct (fst (stream_list_add (writing (it_t (write_frames id t))) id));
    exact Hin.
Qed.

(** After its iteration a stream that still has bytes, a positive window of
    its own and its initial metadata out is writable again or stalled on a
    transport window of zero. *)
Lemma write_stream_fork_or_stall id t :
  windows_nonneg t ->
  (0 < acked_max_frame_size t < 2 ^ 32)%N ->
  let t' := write_stream id t in
  sent_initial_metadata (streams t' id) = true ->
  0 < buffer_length (streams t' id) ->
  0 < outgoing_window (streams t' id) ->
  In id (writable t') \/
  In id (stalled_by_transport t') /\ t_outgoing_window t' = 0.
Proof.
  intros [Nt Ns] Hmfs t' Hsent Hb Hw. subst t'.
  destruct (write_stream_account id t) as (_ & A2 & A3 & A4 & _).
  cbn zeta in A2, A3, A4.
  pose proof (data_bytes_nonneg (stream_frames id t)) as Hn.
  destruct (Z.eq_dec (data_bytes (stream_frames id t)) 0) as [Hz|Hz].
  - right.
    assert (Hst : stalls_on_transport id t = true).
    { rewrite write_stream_sent_initial in Hsent.
      unfold stalls_on_transport. rewrite Hsent.
      assert (Hl : (0 <? buffer_length (streams t id)) = true)
        by (apply Z.ltb_lt; lia).
      rewrite Hl. cbn [andb].
      assert (Hmo : (0 <? max_outgoing t (streams t id)) = false).
      { destruct (0 <? max_outgoing t (streams t id)) eqn:E; [|reflexivity].
        exfalso.
        (* a positive frame size would have framed payload *)
        revert Hz. unfold stream_frames.
        set (w0 := enter id t).
        set (w1 := write_initial_metadata id w0).
        set (w2 := write_window_update id w1).
        destruct (write_initial_metadata_now_writing id w0) as (_ & A2' & _).
        destruct (write_initial_metadata_sent id w0) as (A4' & _ & _).
        destruct (write_window_update_sent id w1) as (B4 & _).
        destruct (write_initial_metadata_effect id w0) as [_ H1].
        destruct (write_window_update_effect id w1) as [_ H2].
        fold w1 in A4', B4, H1, H2. fold w2 in B4, H2.
        apply same_but_outbuf_fields in H1, H2.
        destruct H1 as (_ & M1 & W1 & _). destruct H2 as (_ & M2 & W2 & _).
        pose proof (write_initial_metadata_flow id w0) as F1.
        pose proof (write_window_update_flow id w1) as F2.
        fold w1 in F1. fold w2 in F2.
        pose proof (same_flow_trans _ _ _ F1 F2) as F.
        pose proof (same_flow_buffer_length _ _ F) as Fb.
        destruct F as (Fw & _).
        change (it_t w0) with t in *.
        change (it_s w0) with (streams t id) in *.
        change (it_sent_initial_metadata w0)
          with (sent_initial_metadata (streams t id)) in *.
        cbn zeta in A4'. rewrite A2' in A4'. rewrite A4' in B4.
        assert (Es : it_sent_initial_metadata w2 = true).
        { rewrite B4.
          destruct (sent_initial_metadata (streams t id));
            destruct (is_null (send_initial_metadata (streams t id)));
            cbn in Hsent |- *; congruence. }
        rewrite Es, !data_bytes_app, data_bytes_initial_metadata,
          data_bytes_window_update, data_bytes_trailing_metadata,
          data_bytes_body.
        rewrite (max_outgoing_ext t (streams t id) (it_t w2) (it_s w2))
          by congruence.
        rewrite Fb, Hl, E. cbn [andb].
        apply Z.ltb_lt in E.
        assert (Hp : 0 < data_frame_size (it_t w2) (it_s w2)).
        { apply data_frame_size_pos.
          - rewrite (max_outgoing_ext t (streams t id)) by congruence.
            exact E.
          - rewrite Fb. lia. }
        lia. }
      rewrite Hmo. cbn [negb andb].
      apply Z.eqb_eq.
      (* nothing fits although the stream window and the frame size are
         positive: the transport window is zero *)
      apply Z.ltb_ge in Hmo. pose proof (max_outgoing_range t (streams t id)).
      unfold max_outgoing in *. rewrite !GPR_MIN_spec in *.
      assert (Hs : 0 < outgoing_window (streams t id)) by lia.
      rewrite to_uint32_small in * by lia. lia. }
    destruct (write_stream_stalls id t Hst) as [S1 _].
    split; [exact S1|].
    rewrite A2, Hz.
    unfold stalls_on_transport in Hst.
    apply andb_prop in Hst. destruct Hst as [_ Htw].
    apply Z.eqb_eq in Htw. lia.
  - left. apply write_stream_forks; [lia|exact Hb].
Qed.

Lemma write_stream_fork_inv id t fs j rest :
  fork_inv id t fs -> writable t = j :: rest ->
  fork_inv id (write_stream j (T.set_writable t rest))
    (fs ++ stream_frames j (T.set_writable t rest)).
Proof.
  intros (I1 & I2 & I3) Hw.
  set (t1 := T.set_writable t rest).
  assert (N1 : windows_nonneg t1) by exact I1.
  destruct (write_stream_account j t1)
    as (_ & A2 & _ & _ & A5 & _ & A7 & _).
  cbn zeta in A2, A5, A7.
  unfold fork_inv. split; [apply write_stream_nonneg; exact I1|].
  split; [rewrite A7; exact I2|].
  destruct (Z.eq_dec j id) as [->|Hne].
  - destruct (In_dec Z.eq_dec id (writable (write_stream id t1)))
      as [Hin|Hnin]; [left; exact Hin|right].
    intros Hs Hb Hwd.
    destruct (write_stream_fork_or_stall id t1 N1 I2 Hs Hb Hwd)
      as [H|H]; [contradiction|exact H].
  - destruct (write_stream_lists j t1) as (L1 & _).
    destruct (L1 id) as (Lw & Ls & _); [lia|].
    destruct I3 as [I3|I3].
    + left. apply Lw. change (writable t1) with rest.
      rewrite Hw in I3. destruct I3 as [E|I3]; [congruence|exact I3].
    + right. unfold stalled_if_sendable in *.
      rewrite A5 by lia. change (streams t1 id) with (streams t id).
      intros Hs Hb Hwd. destruct (I3 Hs Hb Hwd) as [S1 S2].
      split; [apply Ls; exact S1|].
      destruct N1 as [Nt Ns].
      destruct (stream_frames_fit j t1 (Ns j) Nt) as [_ F2].
      pose proof (data_bytes_nonneg (stream_frames j t1)) as Hn.
      change (t_outgoing_window t1) with (t_outgoing_window t) in *.
      lia.
Qed.

Lemma unstall_keeps_writable fuel :
  forall t i, In i (writable t) -> In i (writable (unstall fuel t)).
Proof.
  induction fuel as [|fuel IH]; intros t i Hin; cbn; [exact Hin|].
  unfold grpc_chttp2_list_pop_stalled_by_transport.
  destruct (stalled_by_transport t) as [|j rest]; [exact Hin|].
  apply IH. unfold grpc_chttp2_become_writable,
    grpc_chttp2_list_add_writable_stream. cbn.
  apply stream_list_add_In. left. exact Hin.
Qed.

Lemma begin_write_prologue_keeps_writable t i :
  In i (writable t) -> In i (writable (begin_write_prologue t)).
Proof.
  intros Hin. unfold begin_write_prologue, unstall_streams.
  set (t0 := set_max_table_size (flush_qbuf (write_settings t))).
  assert (E : writable t0 = writable t).
  { subst t0. unfold set_max_table_size, flush_qbuf, write_settings.
    destruct (_ && _); reflexivity. }
  destruct (0 <? t_outgoing_window t0).
  - apply unstall_keeps_writable. rewrite E. exact Hin.
  - rewrite E. exact Hin.
Qed.

(** C8, amended: after one call the buffer of every stream has shrunk by
    exactly the DATA payload the pass framed for it, and no stream is left
    on the writable list: a forked reference is consumed by a later
    iteration of the same pass.  A stream that was writable, and that the
    pass leaves with buffered bytes, its initial metadata sent and a
    positive window of its own, is then on the stalled-by-transport list,
    the transport window being zero. *)
Theorem fork_consumed_within_pass
    (t : grpc_chttp2_transport) (id : stream_id) :
  let t' := begin_write_state t in
  exists fs,
    outbuf t'
    = outbuf t ++ settings_frames t ++ qbuf t ++ fs
      ++ transport_window_update_frames t /\
    buffer_length (streams t' id)
    = buffer_length (streams t id) - stream_data_bytes id fs /\
    writable t' = [] /\
    (windows_nonneg t ->
     (0 < acked_max_frame_size t < 2 ^ 32)%N ->
     In id (writable t) ->
     sent_initial_metadata (streams t' id) = true ->
     0 < buffer_length (streams t' id) ->
     0 < outgoing_window (streams t' id) ->
     In id (stalled_by_transport t') /\ t_outgoing_window t' = 0).
Proof.
  intros t'. subst t'.
  destruct (begin_write_account t) as (fs & O & _ & _ & _ & B & _).
  cbn zeta in O, B.
  exists fs. split; [exact O|]. split; [apply B|].
  pose proof (begin_write_drains t) as Hdr.
  split; [exact Hdr|].
  intros Hnn Hmfs Hin.
  unfold begin_write_state in *.
  set (t1 := begin_write_prologue t) in *.
  destruct (begin_write_prologue_effect t)
    as (_ & _ & P3 & P4 & _ & P6 & _).
  fold t1 in P3, P4, P6.
  destruct (write_streams_pass_ind (fork_inv id) t1
              (write_stream_fork_inv id) (write_fuel t1) t1 [])
    as (fs1 & _ & I1 & I2 & I3).
  { rewrite app_nil_r. reflexivity. }
  { unfold fork_inv, windows_nonneg. rewrite P3, P4, P6.
    split; [exact Hnn|]. split; [exact Hmfs|].
    left. apply begin_write_prologue_keeps_writable. exact Hin. }
  set (t2 := write_streams (write_fuel t1) t1) in *.
  destruct (write_transport_window_update_effect t2)
    as (_ & _ & U3 & U4 & _ & _ & _ & _ & U9 & U10).
  cbn zeta in *. rewrite U9 in Hdr. rewrite U3, U4, U10.
  rewrite Hdr in I3. destruct I3 as [[]|I3]. exact I3.
Qed.

(** C8, as stated: the body that exceeds one frame is framed in two DATA
    frames by the same pass and the stream is then neither writable nor
    stalled; the body that exceeds the stream window keeps six bytes and
    the stream is neither writable nor stalled either. *)
Lemma forked_stream_not_queued_after_pass :
  let t' := begin_write_state large_body in
  let u' := begin_write_state small_stream_window in
  (16384 < buffer_length (streams large_body 1) /\
   map payload_bytes (outbuf t') = [0; 16384; 3616] /\
   buffer_length (streams t' 1) = 0 /\
   ~ In 1 (writable t') /\ ~ In 1 (stalled_by_transport t')) /\
  (4 < buffer_length (streams small_stream_window 1) /\
   map payload_bytes (outbuf u') = [0; 4] /\
   buffer_length (streams u' 1) = 6 /\
   ~ In 1 (writable u') /\ ~ In 1 (stalled_by_transport u')).
Proof.
  cbn zeta. vm_compute. repeat split; auto; discriminate.
Qed.

Lemma fork_consumed_within_pass_witness :
  let t := fst small_window_connection in
  buffer_length (streams (begin_write_state t) 1) = 6 /\
  In 1 (stalled_by_transport (begin_write_state t)).
Proof.
  intros t.
  destruct (fork_consumed_within_pass t 1) as (fs & O & B & _ & H).
  split; [vm_compute; reflexivity|].
  apply H.
  - split; [vm_compute; discriminate|].
    intros id. cbn. destruct (id =? 1); vm_compute; discriminate.
  - split; reflexivity.
  - left. reflexivity.
  - vm_compute. reflexivity.
  - vm_compute. reflexivity.
  - vm_compute. reflexivity.
Defined.

(** ** The fuel of the three loops is enough *)

Lemma write_streams_done fuel t :
  writable t = [] -> write_streams fuel t = t.
Proof.
  intros H. destruct fuel as [|fuel]; cbn; [reflexivity|].
  unfold grpc_chttp2_list_pop_writable_stream. rewrite H. reflexivity.
Qed.

(** More iterations than [write_fuel] allows would change nothing. *)
Lemma write_streams_more fuel extra :
  forall t,
    writable (write_streams fuel t) = [] ->
    write_streams (fuel + extra) t = write_streams fuel t.
Proof.
  induction fuel as [|fuel IH]; intros t H; cbn in *.
  - apply write_streams_done. exact H.
  - destruct (grpc_chttp2_list_pop_writable_stream t) as [[id t1]|] eqn:E;
      [|reflexivity].
    apply IH. exact H.
Qed.

Lemma begin_write_fuel_enough t extra :
  let t1 := begin_write_prologue t in
  write_streams (write_fuel t1 + extra) t1 = write_streams (write_fuel t1) t1.
Proof.
  cbn zeta. apply write_streams_more.
  apply (write_streams_drains _ _ (writable (begin_write_prologue t))).
  - apply incl_refl.
  - unfold write_fuel. lia.
Qed.

Lemma unstall_drains fuel :
  forall t,
    (length (stalled_by_transport t) <= fuel)%nat ->
    stalled_by_transport (unstall fuel t) = [].
Proof.
  induction fuel as [|fuel IH]; intros t H; cbn.
  - destruct (stalled_by_transport t); [reflexivity|cbn in H; lia].
  - unfold grpc_chttp2_list_pop_stalled_by_transport.
    destruct (stalled_by_transport t) as [|id rest] eqn:E; [exact E|].
    apply IH. cbn in H |- *. lia.
Qed.

Lemma finish_streams_drains fuel error :
  forall t,
    (length (writing t) <= fuel)%nat ->
    writing (finish_streams fuel error t) = [].
Proof.
  induction fuel as [|fuel IH]; intros t H; cbn.
  - destruct (writing t); [reflexivity|cbn in H; lia].
  - destruct (grpc_chttp2_list_pop_writing_stream t) as [[id t1]|] eqn:E.
    + apply pop_writing_inv in E. destruct E as (rest & Hw & ->).
      apply IH.
      destruct (finish_stream_effect id error (T.set_writing t rest))
        as (_ & _ & _ & _ & _ & _ & _ & F8 & _).
      cbn zeta in F8. rewrite F8.
      change (writing (T.set_writing t rest)) with rest.
      pose proof (stream_list_remove_length rest id).
      rewrite Hw in H. cbn in H. lia.
    + unfold grpc_chttp2_list_pop_writing_stream in E.
      destruct (writing t); [reflexivity|discriminate].
Qed.

(** When [grpc_chttp2_end_write] returns, no stream is on the writing list
    and the output buffer is empty. *)
Lemma end_write_drains t error :
  writing (grpc_chttp2_end_write t error) = [] /\
  outbuf (grpc_chttp2_end_write t error) = [].
Proof.
  unfold grpc_chttp2_end_write. cbn. split; [|reflexivity].
  apply finish_streams_drains. lia.
Qed.

(** * Further properties of the write path *)

(** ** Two drains of one callback list *)

Lemma filter_filter {A} (f g : A -> bool) (l : list A) :
  filter f (filter g l) = filter (fun x => g x && f x) l.
Proof.
  induction l as [|a l IH]; cbn; [reflexivity|].
  destruct (g a); cbn; [destruct (f a)|]; rewrite IH; reflexivity.
Qed.

Lemma not_due_mono w1 w2 cb :
  w1 <= w2 -> not_due w2 cb = true -> not_due w1 cb = true.
Proof.
  unfold not_due, due. intros H.
  destruct (Z.leb_spec (call_at_byte cb) w2);
    destruct (Z.leb_spec (call_at_byte cb) w1); cbn; auto; lia.
Qed.

(** X1: two drains in a row, the second after [n2] more bytes: the callbacks
    that stay are those that neither total reaches, back in the order of
    the list; the second drain walks the list that the first one rebuilt by
    prepending, so that it fires in the reverse order. *)
Theorem update_list_twice
    (t : grpc_chttp2_transport) (s : grpc_chttp2_stream) (n1 n2 : Z)
    (cbs : list grpc_chttp2_write_cb) (e1 e2 : grpc_error) :
  let d1 := update_list t s n1 cbs e1 in
  let d2 := update_list (fst (fst d1)) (snd (fst d1)) n2 (snd d1) e2 in
  let total1 := flow_controlled_bytes_written s + n1 in
  let total2 := total1 + n2 in
  flow_controlled_bytes_written (snd (fst d2)) = total2 /\
  snd d2 = filter (fun cb => not_due total1 cb && not_due total2 cb) cbs /\
  completed (fst (fst d2))
  = completed t
    ++ flat_map (run_closure e1) (filter (due total1) cbs)
    ++ flat_map (run_closure e2)
         (rev (filter (fun cb => not_due total1 cb && due total2 cb) cbs)) /\
  (0 <= n2 -> snd d2 = filter (not_due total2) cbs).
Proof.
  intros d1 d2 total1 total2.
  destruct (update_list_spec t s n1 cbs e1) as (F1 & L1 & _ & K1).
  fold total1 in F1, L1, K1. fold d1 in F1, L1, K1.
  destruct (update_list_spec (fst (fst d1)) (snd (fst d1)) n2 (snd d1) e2)
    as (F2 & L2 & _ & K2).
  fold d2 in F2, L2, K2. rewrite F1 in F2, L2, K2. fold total2 in F2, L2, K2.
  assert (K : snd d2
              = filter (fun cb => not_due total1 cb && not_due total2 cb)
                  cbs).
  { rewrite K2, K1, filter_rev, rev_involutive, filter_filter.
    reflexivity. }
  split; [exact F2|]. split; [exact K|]. split.
  - rewrite L2, L1, K1, filter_rev, filter_filter, <- app_assoc.
    reflexivity.
  - intros Hn. rewrite K. apply filter_ext. intros cb.
    destruct (not_due total2 cb) eqn:E; [|apply andb_false_r].
    rewrite (not_due_mono total1 total2 cb) by (subst total2; lia || exact E).
    reflexivity.
Qed.

Lemma update_list_twice_witness :
  let cb5 := {| call_at_byte := 5; closure := Some 1 |} in
  let cb20 := {| call_at_byte := 20; closure := Some 2 |} in
  let cb30 := {| call_at_byte := 30; closure := Some 3 |} in
  let cb90 := {| call_at_byte := 90; closure := Some 4 |} in
  let t := fresh_transport true in
  let d1 := update_list t idle_stream 10 [cb5; cb20; cb30; cb90]
              GRPC_ERROR_NONE in
  let d2 := update_list (fst (fst d1)) (snd (fst d1)) 25 (snd d1)
              GRPC_ERROR_NONE in
  snd d2 = [cb90] /\
  completed (fst (fst d2))
  = [(1, GRPC_ERROR_NONE); (3, GRPC_ERROR_NONE); (2, GRPC_ERROR_NONE)].
Proof.
  intros cb5 cb20 cb30 cb90 t d1 d2.
  destruct (update_list_twice t idle_stream 10 25 [cb5; cb20; cb30; cb90]
              GRPC_ERROR_NONE GRPC_ERROR_NONE) as (_ & _ & L & K).
  split; [apply K; lia|exact L].
Defined.

(** ** What a pass leaves alone *)

Lemma erase_pass_fields t t' :
  erase_pass t' = erase_pass t ->
  is_client t' = is_client t /\
  dirtied_local_settings t' = dirtied_local_settings t /\
  sent_local_settings t' = sent_local_settings t /\
  force_send_settings t' = force_send_settings t /\
  sent_settings t' = sent_settings t /\
  local_settings t' = local_settings t /\
  peer_header_table_size t' = peer_header_table_size t /\
  acked_max_frame_size t' = acked_max_frame_size t /\
  hpack_max_table_size t' = hpack_max_table_size t /\
  announce_incoming_window t' = announce_incoming_window t /\
  qbuf t' = qbuf t /\
  write_cb_pool t' = write_cb_pool t /\
  completed t' = completed t.
Proof.
  intros H.
  repeat split;
    match goal with
    | |- ?p t' = ?p t =>
        change (p (erase_pass t') = p (erase_pass t));
        rewrite H; reflexivity
    end.
Qed.

Lemma erase_sending_fields s s' :
  erase_sending s' = erase_sending s ->
  send_initial_metadata_finished s' = send_initial_metadata_finished s /\
  send_trailing_metadata_finished s' = send_trailing_metadata_finished s /\
  fetching_send_message s' = fetching_send_message s /\
  flow_controlled_bytes_written s' = flow_controlled_bytes_written s /\
  on_write_finished_cbs s' = on_write_finished_cbs s /\
  read_closed s' = read_closed s /\
  write_closed s' = write_closed s.
Proof.
  intros H.
  repeat split;
    match goal with
    | |- ?p s' = ?p s =>
        change (p (erase_sending s') = p (erase_sending s));
        rewrite H; reflexivity
    end.
Qed.

Lemma same_but_outbuf_erase t t' :
  same_but_outbuf t t' -> erase_pass t' = erase_pass t.
Proof. unfold same_but_outbuf, erase_pass. intros H. rewrite H. reflexivity. Qed.

Lemma write_initial_metadata_erase id w :
  let w' := write_initial_metadata id w in
  erase_pass (it_t w') = erase_pass (it_t w) /\
  erase_sending (it_s w') = erase_sending (it_s w).
Proof.
  unfold write_initial_metadata.
  destruct (send_initial_metadata (it_s w));
    [destruct (negb (it_sent_initial_metadata w))|]; split; reflexivity.
Qed.

Lemma write_window_update_erase id w :
  let w' := write_window_update id w in
  erase_pass (it_t w') = erase_pass (it_t w) /\
  erase_sending (it_s w') = erase_sending (it_s w).
Proof.
  unfold write_window_update.
  destruct (0 <? announce_window (it_s w)); split; reflexivity.
Qed.

Lemma write_body_erase id w :
  let w' := write_body id w in
  erase_pass (it_t w') = erase_pass (it_t w) /\
  erase_sending (it_s w') = erase_sending (it_s w).
Proof.
  unfold write_body.
  destruct (0 <? buffer_length (it_s w)); [|split; reflexivity].
  destruct (0 <? max_outgoing (it_t w) (it_s w)).
  - unfold write_data_frame. cbn [it_t it_s].
    rewrite ?rst_stream_after_last_eq.
    destruct (is_last_frame (it_t w) (it_s w));
      match goal with
      | |- context [if ?c then _ else _] => destruct c
      end; split; reflexivity.
  - destruct (t_outgoing_window (it_t w) =? 0); split; reflexivity.
Qed.

Lemma write_trailing_metadata_erase id w :
  let w' := write_trailing_metadata id w in
  erase_pass (it_t w') = erase_pass (it_t w) /\
  erase_sending (it_s w') = erase_sending (it_s w).
Proof.
  unfold write_trailing_metadata.
  destruct (send_trailing_metadata (it_s w)) as [md|]; [|split; reflexivity].
  destruct (is_null (fetching_send_message (it_s w))
            && (buffer_length (it_s w) =? 0)); [|split; reflexivity].
  cbn [it_t it_s]. rewrite rst_stream_after_last_eq.
  destruct (grpc_metadata_batch_is_empty md); split; reflexivity.
Qed.

Lemma write_frames_erase id t :
  erase_pass (it_t (write_frames id t)) = erase_pass t /\
  erase_sending (it_s (write_frames id t)) = erase_sending (streams t id).
Proof.
  apply (write_frames_ind
           (fun w => erase_pass (it_t w) = erase_pass t /\
                     erase_sending (it_s w) = erase_sending (streams t id))).
  - split; reflexivity.
  - intros w [H1 H2].
    destruct (write_initial_metadata_erase id w) as [E1 E2].
    cbn zeta in E1, E2. rewrite E1, E2. auto.
  - intros w [H1 H2].
    destruct (write_window_update_erase id w) as [E1 E2].
    cbn zeta in E1, E2. rewrite E1, E2. auto.
  - intros w _ [H1 H2].
    destruct (write_body_erase id w) as [E1 E2].
    cbn zeta in E1, E2. rewrite E1, E2. auto.
  - intros w _ [H1 H2].
    destruct (write_trailing_metadata_erase id w) as [E1 E2].
    cbn zeta in E1, E2. rewrite E1, E2. auto.
Qed.

Lemma requeue_erase id w :
  erase_pass (requeue id w) = erase_pass (it_t w) /\
  erase_sending (streams (requeue id w) id) = erase_sending (it_s w).
Proof.
  unfold requeue, grpc_chttp2_list_add_writing_stream, stream_list_add.
  destruct (it_now_writing w);
    [destruct (list_mem id (writing (it_t w)))|];
    cbn; rewrite Z.eqb_refl; split; reflexivity.
Qed.

Lemma write_stream_erase id t :
  erase_pass (write_stream id t) = erase_pass t /\
  forall i, erase_sending (streams (write_stream id t) i)
            = erase_sending (streams t i).
Proof.
  unfold write_stream.
  destruct (requeue_erase id (write_frames id t)) as [R1 R2].
  destruct (write_frames_erase id t) as [F1 F2].
  split; [congruence|].
  intros i. destruct (Z.eq_dec i id) as [->|Hne]; [congruence|].
  destruct (requeue_effect id (write_frames id t)) as (_ & R & _).
  destruct (write_frames_account id t) as (_ & _ & _ & A & _).
  rewrite R by exact Hne. rewrite A. reflexivity.
Qed.

Lemma write_streams_erase fuel :
  forall t,
    erase_pass (write_streams fuel t) = erase_pass t /\
    forall i, erase_sending (streams (write_streams fuel t) i)
              = erase_sending (streams t i).
Proof.
  induction fuel as [|fuel IH]; intros t; cbn; [auto|].
  destruct (grpc_chttp2_list_pop_writable_stream t) as [[id t1]|] eqn:E;
    [|auto].
  apply pop_writable_inv in E. destruct E as (rest & _ & ->).
  destruct (IH (write_stream id (T.set_writable t rest))) as [I1 I2].
  destruct (write_stream_erase id (T.set_writable t rest)) as [W1 W2].
  split.
  - rewrite I1, W1. reflexivity.
  - intros i. rewrite I2, W2. reflexivity.
Qed.

Lemma unstall_erase_pass fuel :
  forall t,
    erase_pass (unstall fuel t) = erase_pass t /\
    streams (unstall fuel t) = streams t.
Proof.
  induction fuel as [|fuel IH]; intros t; cbn; [auto|].
  unfold grpc_chttp2_list_pop_stalled_by_transport.
  destruct (stalled_by_transport t) as [|id rest]; [auto|].
  destruct (IH (grpc_chttp2_become_writable
                  (T.set_stalled_by_transport t rest) id)) as [I1 I2].
  split; (etransitivity; [eassumption|reflexivity]).
Qed.

(** The prologue: the settings flags and the table size of the
    compressor. *)
Lemma begin_write_prologue_settings t :
  let t' := begin_write_prologue t in
  let pending := dirtied_local_settings t && negb (sent_local_settings t) in
  dirtied_local_settings t'
  = (if pending then false else dirtied_local_settings t) /\
  sent_local_settings t'
  = (if pending then true else sent_local_settings t) /\
  force_send_settings t'
  = (if pending then 0 else force_send_settings t) /\
  hpack_max_table_size t' = peer_header_table_size t /\
  sent_settings t' = sent_settings t /\
  local_settings t' = local_settings t /\
  peer_header_table_size t' = peer_header_table_size t /\
  write_cb_pool t' = write_cb_pool t.
Proof.
  unfold begin_write_prologue, unstall_streams.
  set (t1 := set_max_table_size (flush_qbuf (write_settings t))).
  assert (H1 : dirtied_local_settings t1
               = (if dirtied_local_settings t
                     && negb (sent_local_settings t)
                  then false else dirtied_local_settings t) /\
               sent_local_settings t1
               = (if dirtied_local_settings t
                     && negb (sent_local_settings t)
                  then true else sent_local_settings t) /\
               force_send_settings t1
               = (if dirtied_local_settings t
                     && negb (sent_local_settings t)
                  then 0 else force_send_settings t) /\
               hpack_max_table_size t1 = peer_header_table_size t /\
               sent_settings t1 = sent_settings t /\
               local_settings t1 = local_settings t /\
               peer_header_table_size t1 = peer_header_table_size t /\
               write_cb_pool t1 = write_cb_pool t).
  { subst t1. unfold set_max_table_size, flush_qbuf, write_settings.
    destruct (dirtied_local_settings t && negb (sent_local_settings t));
      cbn; auto 10. }
  cbn zeta.
  destruct (0 <? t_outgoing_window t1); [|exact H1].
  destruct (unstall_erase_pass (length (stalled_by_transport t1)) t1)
    as [E _].
  apply erase_pass_fields in E.
  destruct E as (_ & E2 & E3 & E4 & E5 & E6 & E7 & _ & E9 & _ & _ & E12 & _).
  rewrite E2, E3, E4, E5, E6, E7, E9, E12. exact H1.
Qed.

Lemma write_transport_window_update_erase t :
  let t' := write_transport_window_update t in
  dirtied_local_settings t' = dirtied_local_settings t /\
  sent_local_settings t' = sent_local_settings t /\
  force_send_settings t' = force_send_settings t /\
  hpack_max_table_size t' = hpack_max_table_size t /\
  sent_settings t' = sent_settings t /\
  local_settings t' = local_settings t /\
  peer_header_table_size t' = peer_header_table_size t /\
  write_cb_pool t' = write_cb_pool t.
Proof.
  unfold write_transport_window_update.
  destruct (0 <? announce_incoming_window t); cbn; auto 10.
Qed.

Lemma begin_write_settings t :
  let t' := begin_write_state t in
  let pending := dirtied_local_settings t && negb (sent_local_settings t) in
  dirtied_local_settings t'
  = (if pending then false else dirtied_local_settings t) /\
  sent_local_settings t'
  = (if pending then true else sent_local_settings t) /\
  force_send_settings t'
  = (if pending then 0 else force_send_settings t) /\
  hpack_max_table_size t' = peer_header_table_size t /\
  sent_settings t' = sent_settings t /\
  local_settings t' = local_settings t /\
  peer_header_table_size t' = peer_header_table_size t /\
  write_cb_pool t' = write_cb_pool t.
Proof.
  unfold begin_write_state.
  set (t1 := begin_write_prologue t).
  pose proof (begin_write_prologue_settings t) as P. fold t1 in P.
  destruct (write_streams_erase (write_fuel t1) t1) as [E _].
  set (t2 := write_streams (write_fuel t1) t1) in *.
  apply erase_pass_fields in E.
  destruct E as (_ & E2 & E3 & E4 & E5 & E6 & E7 & _ & E9 & _ & _ & E12 & _).
  destruct (write_transport_window_update_erase t2)
    as (U1 & U2 & U3 & U4 & U5 & U6 & U7 & U8).
  cbn zeta in *.
  rewrite U1, U2, U3, U4, U5, U6, U7, U8, E2, E3, E4, E5, E6, E7, E9, E12.
  exact P.
Qed.

Lemma stream_frames_no_settings id t :
  Forall (fun f => is_settings f = false) (stream_frames id t).
Proof.
  unfold stream_frames.
  apply Forall_app. split; [|apply Forall_app; split].
  - unfold initial_metadata_frames.
    destruct (send_initial_metadata _);
      [destruct (negb _)|]; repeat constructor.
  - unfold window_update_frames.
    destruct (0 <? _); repeat constructor.
  - destruct (it_sent_initial_metadata _); [|constructor].
    apply Forall_app. split.
    + unfold body_frames, rst_frames.
      destruct (_ && _); [|constructor].
      destruct (is_last_frame _ _); [destruct (_ && _)|];
        repeat constructor.
    + unfold trailing_metadata_frames, rst_frames.
      destruct (send_trailing_metadata _) as [md|]; [|constructor].
      destruct (_ && _); [|constructor].
      destruct (grpc_metadata_batch_is_empty md); destruct (_ && _);
        repeat constructor.
Qed.

Lemma write_streams_no_settings fuel t :
  exists fs,
    outbuf (write_streams fuel t) = outbuf t ++ fs /\
    Forall (fun f => is_settings f = false) fs.
Proof.
  apply (write_streams_frames_ind
           (fun _ fs => Forall (fun f => is_settings f = false) fs) t)
    with (fs := []).
  - intros t1 fs j rest H _. exact H.
  - intros t1 fs j H. apply Forall_app. split; [exact H|].
    apply stream_frames_no_settings.
  - rewrite app_nil_r. reflexivity.
  - constructor.
Qed.

(** X2: a pass frames the local settings exactly when they are dirty and no
    SETTINGS frame is outstanding, behind what the output buffer holds and
    before the queued frames, and it frames no other SETTINGS.  It then
    clears the dirty flag and the force mask and records the frame as sent;
    dirty settings behind an outstanding frame are held back, not dropped.
    The pass that directly follows has no settings to send, and every pass
    aligns the table size of the compressor with the peer setting. *)
Theorem settings_sent_once (t : grpc_chttp2_transport) :
  let t' := begin_write_state t in
  let pending := dirtied_local_settings t && negb (sent_local_settings t) in
  (exists fs,
      outbuf t' = outbuf t ++ settings_frames t ++ qbuf t ++ fs /\
      Forall (fun f => is_settings f = false) fs) /\
  length (settings_frames t) = (if pending then 1 else 0)%nat /\
  sent_local_settings t'
  = sent_local_settings t || dirtied_local_settings t /\
  dirtied_local_settings t'
  = dirtied_local_settings t && sent_local_settings t /\
  force_send_settings t' = (if pending then 0 else force_send_settings t) /\
  settings_frames t' = [] /\
  hpack_max_table_size t' = peer_header_table_size t.
Proof.
  intros t' pending.
  destruct (begin_write_settings t) as (S1 & S2 & S3 & S4 & _).
  fold t' in S1, S2, S3, S4. fold pending in S1, S2, S3.
  split.
  { subst t'. unfold begin_write_state.
    set (t1 := begin_write_prologue t).
    destruct (begin_write_prologue_effect t) as (P1 & _).
    fold t1 in P1.
    destruct (write_streams_no_settings (write_fuel t1) t1)
      as (fs & O & F).
    set (t2 := write_streams (write_fuel t1) t1) in *.
    destruct (write_transport_window_update_effect t2) as (U1 & _).
    cbn zeta in U1.
    exists (fs ++ transport_window_update_frames t2).
    rewrite U1, O, P1, <- !app_assoc. split; [reflexivity|].
    apply Forall_app. split; [exact F|].
    unfold transport_window_update_frames.
    destruct (0 <? announce_incoming_window t2); repeat constructor. }
  split.
  { unfold settings_frames. fold pending. destruct pending; reflexivity. }
  unfold settings_frames. rewrite S1, S2, S3, S4.
  subst pending.
  destruct (dirtied_local_settings t), (sent_local_settings t);
    cbn; auto.
Qed.

Lemma begin_write_completes_nothing_lemma (t : grpc_chttp2_transport) :
  let t' := begin_write_state t in
  completed t' = completed t /\
  write_cb_pool t' = write_cb_pool t /\
  forall i,
    send_initial_metadata_finished (streams t' i)
    = send_initial_metadata_finished (streams t i) /\
    send_trailing_metadata_finished (streams t' i)
    = send_trailing_metadata_finished (streams t i) /\
    on_write_finished_cbs (streams t' i)
    = on_write_finished_cbs (streams t i) /\
    flow_controlled_bytes_written (streams t' i)
    = flow_controlled_bytes_written (streams t i) /\
    read_closed (streams t' i) = read_closed (streams t i) /\
    write_closed (streams t' i) = write_closed (streams t i).
Proof.
  intros t'.
  destruct (begin_write_settings t) as (_ & _ & _ & _ & _ & _ & _ & S8).
  destruct (begin_write_account t) as (fs & _).
  subst t'. unfold begin_write_state in *.
  set (t1 := begin_write_prologue t) in *.
  destruct (begin_write_prologue_effect t)
    as (_ & _ & _ & P4 & _ & _ & P7 & _).
  fold t1 in P4, P7.
  destruct (write_streams_erase (write_fuel t1) t1) as [E1 E2].
  set (t2 := write_streams (write_fuel t1) t1) in *.
  apply erase_pass_fields in E1.
  destruct E1 as (_ & _ & _ & _ & _ & _ & _ & _ & _ & _ & _ & _ & E13).
  destruct (write_transport_window_update_effect t2)
    as (_ & _ & _ & U4 & _ & _ & U7 & _).
  cbn zeta in *.
  split; [congruence|]. split; [exact S8|].
  intros i. specialize (E2 i). apply erase_sending_fields in E2.
  destruct E2 as (A1 & A2 & _ & A4 & A5 & A6 & A7).
  rewrite U4, <- P4. auto 10.
Qed.

(** X3: a pass completes no operation: it runs no closure, recycles no
    callback record, and leaves in every stream the completion slots, the
    callback list, the count of bytes written and the closed flags as they
    were. *)
Theorem begin_write_completes_nothing (t : grpc_chttp2_transport) :
  let t' := begin_write_state t in
  completed t' = completed t /\
  write_cb_pool t' = write_cb_pool t /\
  forall i,
    send_initial_metadata_finished (streams t' i)
    = send_initial_metadata_finished (streams t i) /\
    send_trailing_metadata_finished (streams t' i)
    = send_trailing_metadata_finished (streams t i) /\
    on_write_finished_cbs (streams t' i)
    = on_write_finished_cbs (streams t i) /\
    flow_controlled_bytes_written (streams t' i)
    = flow_controlled_bytes_written (streams t i) /\
    read_closed (streams t' i) = read_closed (streams t i) /\
    write_closed (streams t' i) = write_closed (streams t i).
Proof. exact (begin_write_completes_nothing_lemma t). Qed.

(** X4: the window that the transport announces at the end of a pass: one
    WINDOW_UPDATE frame for stream 0, the last frame of the pass, for the
    whole amount when it fits 32 bits and for [UINT32_MAX] otherwise; what
    does not fit stays to be announced by the next pass.  Nothing is
    announced when there is nothing to announce. *)
Theorem transport_window_update_bounded (t : grpc_chttp2_transport) :
  let t' := begin_write_state t in
  let a := Z.min (announce_incoming_window t) C.UINT32_MAX in
  (0 < announce_incoming_window t ->
   (exists fs, outbuf t' = fs ++ [WINDOW_UPDATE 0 a]) /\
   0 < a <= C.UINT32_MAX /\
   announce_incoming_window t' = announce_incoming_window t - a /\
   0 <= announce_incoming_window t') /\
  (announce_incoming_window t <= 0 ->
   transport_window_update_frames t = [] /\
   announce_incoming_window t' = announce_incoming_window t).
Proof.
  intros t' a.
  subst t'. unfold begin_write_state.
  set (t1 := begin_write_prologue t).
  destruct (begin_write_prologue_effect t)
    as (_ & _ & _ & _ & _ & _ & _ & _ & P9).
  fold t1 in P9.
  destruct (write_streams_account (write_fuel t1) t1)
    as (fs & _ & _ & _ & _ & _ & _ & _ & _ & K5).
  set (t2 := write_streams (write_fuel t1) t1) in *.
  cbn zeta in K5.
  assert (E : announce_incoming_window t2 = announce_incoming_window t)
    by congruence.
  unfold write_transport_window_update, transport_window_update_frames,
    grpc_slice_buffer_add.
  rewrite E.
  assert (HU : C.UINT32_MAX = 4294967295) by reflexivity.
  split.
  - intros Hpos.
    destruct (Z.ltb_spec 0 (announce_incoming_window t)); [|lia].
    rewrite GPR_MIN_spec. fold a.
    rewrite to_uint32_small by (change (2 ^ 32) with 4294967296; lia).
    cbn. split; [eexists; reflexivity|]. lia.
  - intros Hneg.
    destruct (Z.ltb_spec 0 (announce_incoming_window t)); [lia|].
    split; [reflexivity|exact E].
Qed.

Lemma transport_window_update_bounded_witness :
  let t := T.set_announce_incoming_window (fresh_transport true)
             5000000000 in
  (exists fs,
      outbuf (begin_write_state t) = fs ++ [WINDOW_UPDATE 0 4294967295]) /\
  announce_incoming_window (begin_write_state t) = 705032705 /\
  announce_incoming_window
    (begin_write_state (fresh_transport true)) = 0.
Proof.
  intros t.
  destruct (transport_window_update_bounded t) as [H _].
  destruct H as (O & _ & A & _); [cbn; lia|].
  destruct (transport_window_update_bounded (fresh_transport true))
    as [_ H0].
  destruct H0 as (_ & A0); [cbn; lia|].
  split; [exact O|]. split; [exact A|exact A0].
Defined.

(** ** A pass, from the prologue to the epilogue *)

(** An invariant of the iterations and of the epilogue, true after the
    prologue with no frame of the loop, holds after the pass with the
    frames of the loop. *)
Lemma begin_write_ind
    (Q : grpc_chttp2_transport -> list frame -> Prop)
    (t : grpc_chttp2_transport) :
  (forall t1 fs id rest,
      Q t1 fs -> writable t1 = id :: rest ->
      Q (write_stream id (T.set_writable t1 rest))
        (fs ++ stream_frames id (T.set_writable t1 rest))) ->
  (forall t2 fs, Q t2 fs -> Q (write_transport_window_update t2) fs) ->
  Q (begin_write_prologue t) [] ->
  exists fs,
    outbuf (begin_write_state t)
    = outbuf t ++ settings_frames t ++ qbuf t ++ fs
      ++ transport_window_update_frames t /\
    Q (begin_write_state t) fs.
Proof.
  intros Hstep Hend H0. unfold begin_write_state.
  set (t1 := begin_write_prologue t) in *.
  destruct (begin_write_prologue_effect t)
    as (P1 & _ & _ & _ & _ & _ & _ & _ & P9).
  fold t1 in P1, P9.
  destruct (write_streams_pass_ind Q t1 Hstep (write_fuel t1) t1 [])
    as (fs & O & HQ); [rewrite app_nil_r; reflexivity|exact H0|].
  destruct (write_streams_account (write_fuel t1) t1)
    as (fs0 & _ & _ & _ & _ & _ & _ & _ & _ & K5).
  set (t2 := write_streams (write_fuel t1) t1) in *.
  destruct (write_transport_window_update_effect t2) as (U1 & _).
  cbn zeta in *.
  exists fs. split; [|apply Hend; exact HQ].
  rewrite U1, O, P1. unfold transport_window_update_frames.
  rewrite K5, P9, <- !app_assoc. reflexivity.
Qed.

(** ** The payload of a stream, in order *)

Lemma stream_payload_app id l1 l2 :
  stream_payload id (l1 ++ l2) = stream_payload id l1 ++ stream_payload id l2.
Proof. unfold stream_payload. apply flat_map_app. Qed.

Lemma stream_payload_other id j l :
  j <> id -> Forall (fun f => frame_stream f = j) l ->
  stream_payload id l = [].
Proof.
  intros Hne H. induction H as [|f l Hf _ IH]; [reflexivity|].
  unfold stream_payload in *. cbn. rewrite IH, app_nil_r.
  destruct f; cbn in *; try reflexivity.
  subst. apply Z.eqb_neq in Hne. rewrite Hne. reflexivity.
Qed.

Lemma stream_payload_quiet id l :
  Forall (fun f => is_data id f = false) l -> stream_payload id l = [].
Proof.
  intros H. induction H as [|f l Hf _ IH]; [reflexivity|].
  unfold stream_payload in *. cbn. rewrite IH, app_nil_r.
  destruct f; cbn in *; try reflexivity. rewrite Hf. reflexivity.
Qed.

Lemma stream_payload_rst id t s : stream_payload id (rst_frames id t s) = [].
Proof.
  unfold rst_frames. destruct (_ && _); reflexivity.
Qed.

Lemma stream_payload_initial_metadata id w :
  stream_payload id (initial_metadata_frames id w) = [].
Proof.
  unfold initial_metadata_frames.
  destruct (send_initial_metadata _); [destruct (negb _)|]; reflexivity.
Qed.

Lemma stream_payload_window_update id w :
  stream_payload id (window_update_frames id w) = [].
Proof.
  unfold window_update_frames. destruct (0 <? _); reflexivity.
Qed.

Lemma stream_payload_trailing_metadata id w :
  stream_payload id (trailing_metadata_frames id w) = [].
Proof.
  unfold trailing_metadata_frames.
  destruct (send_trailing_metadata _) as [md|]; [|reflexivity].
  destruct (_ && _); [|reflexivity].
  pose proof (stream_payload_rst id (it_t w) (it_s w)) as H.
  unfold stream_payload in *.
  destruct (grpc_metadata_batch_is_empty md); cbn; rewrite H;
    rewrite ?Z.eqb_refl; reflexivity.
Qed.

(** The body part hands the head of the buffer to the encoder and keeps
    the rest; it adds what it framed to [sending_bytes]. *)
Lemma write_body_stream id w :
  let w' := write_body id w in
  let n := data_bytes (body_frames id w) in
  stream_payload id (body_frames id w) ++ flow_controlled_buffer (it_s w')
  = flow_controlled_buffer (it_s w) /\
  sending_bytes (it_s w')
  = (if 0 <? n then C.to_uint64 (sending_bytes (it_s w) + n)
     else sending_bytes (it_s w)) /\
  announce_window (it_s w') = announce_window (it_s w) /\
  sent_initial_metadata (it_s w') = sent_initial_metadata (it_s w) /\
  send_initial_metadata (it_s w') = send_initial_metadata (it_s w).
Proof.
  intros w' n. subst w' n. rewrite data_bytes_body.
  unfold write_body, body_frames.
  destruct (0 <? buffer_length (it_s w)) eqn:Hb; cbn [andb];
    [destruct (0 <? max_outgoing (it_t w) (it_s w)) eqn:Hm|].
  - apply Z.ltb_lt in Hb, Hm.
    pose proof (data_frame_size_pos _ _ Hm Hb) as Hpos.
    apply Z.ltb_lt in Hpos. rewrite Hpos.
    pose proof (stream_payload_rst id (it_t w) (it_s w)) as Hr.
    unfold write_data_frame, grpc_chttp2_encode_data. cbn [fst snd].
    unfold stream_payload in *.
    destruct (is_last_frame (it_t w) (it_s w));
      match goal with
      | |- context [if ?c then _ else _] => destruct c
      end; cbn; rewrite ?Hr, ?Z.eqb_refl, ?app_nil_r, ?firstn_skipn;
      auto.
  - destruct (t_outgoing_window (it_t w) =? 0); cbn; auto.
  - cbn. auto.
Qed.

Lemma announced_app id l1 l2 :
  announced id (l1 ++ l2) = announced id l1 + announced id l2.
Proof. unfold announced. rewrite map_app. apply sumZ_app. Qed.

Lemma announced_other id j l :
  j <> id -> Forall (fun f => frame_stream f = j) l -> announced id l = 0.
Proof.
  intros Hne H. induction H as [|f l Hf _ IH]; [reflexivity|].
  unfold announced in *. cbn. rewrite IH.
  destruct f; cbn in *; try reflexivity.
  subst. apply Z.eqb_neq in Hne. rewrite Hne. reflexivity.
Qed.

Lemma announced_rst id t s : announced id (rst_frames id t s) = 0.
Proof. unfold rst_frames. destruct (_ && _); reflexivity. Qed.

Lemma announced_initial_metadata id w :
  announced id (initial_metadata_frames id w) = 0.
Proof.
  unfold initial_metadata_frames.
  destruct (send_initial_metadata _); [destruct (negb _)|]; reflexivity.
Qed.

Lemma announced_body id w : announced id (body_frames id w) = 0.
Proof.
  unfold body_frames. destruct (_ && _); [|reflexivity].
  pose proof (announced_rst id (it_t w) (it_s w)) as H.
  unfold announced in *.
  destruct (is_last_frame _ _); cbn; rewrite ?H; reflexivity.
Qed.

Lemma announced_trailing_metadata id w :
  announced id (trailing_metadata_frames id w) = 0.
Proof.
  unfold trailing_metadata_frames.
  destruct (send_trailing_metadata _) as [md|]; [|reflexivity].
  destruct (_ && _); [|reflexivity].
  pose proof (announced_rst id (it_t w) (it_s w)) as H.
  unfold announced in *.
  destruct (grpc_metadata_batch_is_empty md); cbn; rewrite H; reflexivity.
Qed.

Lemma write_initial_metadata_announce id w :
  announce_window (it_s (write_initial_metadata id w))
  = announce_window (it_s w).
Proof.
  unfold write_initial_metadata.
  destruct (send_initial_metadata (it_s w));
    [destruct (negb (it_sent_initial_metadata w))|]; reflexivity.
Qed.

Lemma write_window_update_announce id w :
  let w' := write_window_update id w in
  announce_window (it_s w')
  = announce_window (it_s w) - announced id (window_update_frames id w) /\
  announce_window (it_s w')
  = (if 0 <? announce_window (it_s w) then 0 else announce_window (it_s w)).
Proof.
  unfold write_window_update, window_update_frames, announced.
  destruct (0 <? announce_window (it_s w)); cbn; rewrite ?Z.eqb_refl;
    split; lia.
Qed.

Lemma write_trailing_metadata_announce id w :
  announce_window (it_s (write_trailing_metadata id w))
  = announce_window (it_s w).
Proof.
  unfold write_trailing_metadata.
  destruct (send_trailing_metadata (it_s w)) as [md|]; [|reflexivity].
  destruct (_ && _); [|reflexivity].
  destruct (grpc_metadata_batch_is_empty md); reflexivity.
Qed.

(** One iteration, for the stream it works on: the payload it framed is
    the head of the buffer, [sending_bytes] grows by it, and the window to
    announce goes out whole. *)
Lemma write_stream_sending id t :
  let s := streams t id in
  let s' := streams (write_stream id t) id in
  let fs := stream_frames id t in
  let n := data_bytes fs in
  stream_payload id fs ++ flow_controlled_buffer s'
  = flow_controlled_buffer s /\
  sending_bytes s'
  = (if 0 <? n then C.to_uint64 (sending_bytes s + n)
     else sending_bytes s) /\
  announce_window s' = announce_window s - announced id fs /\
  announce_window s'
  = (if 0 <? announce_window s then 0 else announce_window s).
Proof.
  cbn zeta. unfold write_stream.
  destruct (requeue_effect id (write_frames id t)) as (R1 & _).
  apply same_but_refs_fields in R1.
  destruct R1 as (_ & _ & _ & _ & _ & Rb & Rs & _ & _ & Ra).
  rewrite Rb, Rs, Ra. clear Rb Rs Ra.
  unfold write_frames, stream_frames.
  set (w0 := enter id t).
  set (w1 := write_initial_metadata id w0).
  set (w2 := write_window_update id w1).
  pose proof (write_initial_metadata_flow id w0) as F1.
  pose proof (write_window_update_flow id w1) as F2.
  fold w1 in F1. fold w2 in F2.
  destruct (same_flow_trans _ _ _ F1 F2) as (_ & Fb & Fs & _).
  pose proof (write_initial_metadata_announce id w0) as A1.
  destruct (write_window_update_announce id w1) as [A2 A3].
  fold w1 in A1, A2, A3. fold w2 in A2, A3. rewrite A1 in A2, A3.
  change (it_s w0) with (streams t id) in *.
  rewrite !stream_payload_app, !data_bytes_app, !announced_app,
    stream_payload_initial_metadata, stream_payload_window_update,
    data_bytes_initial_metadata, data_bytes_window_update,
    announced_initial_metadata.
  destruct (it_sent_initial_metadata w2).
  - destruct (write_body_stream id w2) as (B1 & B2 & B3 & _).
    cbn zeta in B1, B2, B3.
    destruct (write_trailing_metadata_flow id (write_body id w2))
      as (_ & Tb & Ts & _).
    pose proof (write_trailing_metadata_announce id (write_body id w2))
      as Ta.
    rewrite stream_payload_app, data_bytes_app, announced_app,
      stream_payload_trailing_metadata, data_bytes_trailing_metadata,
      announced_body, announced_trailing_metadata.
    rewrite Tb, Ts, Ta, B2, B3, Fs, !Z.add_0_r, !app_nil_r. cbn [app].
    rewrite <- Fb. rewrite Z.add_0_l.
    split; [exact B1|]. split; [reflexivity|]. split; lia.
  - cbn. rewrite Fb, Fs. split; [reflexivity|]. split; [reflexivity|].
    split; lia.
Qed.

Lemma pass_streams_prologue t : streams (begin_write_prologue t) = streams t.
Proof.
  destruct (begin_write_prologue_effect t) as (_ & _ & _ & P4 & _).
  exact P4.
Qed.

Lemma pass_streams_epilogue t :
  streams (write_transport_window_update t) = streams t.
Proof.
  destruct (write_transport_window_update_effect t) as (_ & _ & _ & U4 & _).
  exact U4.
Qed.

Lemma begin_write_payload (t : grpc_chttp2_transport) :
  exists fs,
    outbuf (begin_write_state t)
    = outbuf t ++ settings_frames t ++ qbuf t ++ fs
      ++ transport_window_update_frames t /\
    forall id,
      stream_payload id fs
      ++ flow_controlled_buffer (streams (begin_write_state t) id)
      = flow_controlled_buffer (streams t id).
Proof.
  apply (begin_write_ind
           (fun t1 fs =>
              forall id,
                stream_payload id fs ++ flow_controlled_buffer (streams t1 id)
                = flow_controlled_buffer (streams t id))).
  - intros t1 fs j rest H _ id.
    rewrite stream_payload_app, <- app_assoc.
    destruct (Z.eq_dec id j) as [->|Hne].
    + destruct (write_stream_sending j (T.set_writable t1 rest)) as (B & _).
      cbn zeta in B. rewrite B. apply H.
    + destruct (write_stream_account j (T.set_writable t1 rest))
        as (_ & _ & _ & _ & A & _).
      rewrite A by exact Hne.
      rewrite (stream_payload_other id j _ (not_eq_sym Hne)
                 (stream_frames_own j _)).
      apply H.
  - intros t2 fs H id. rewrite pass_streams_epilogue. apply H.
  - intros id. rewrite pass_streams_prologue. reflexivity.
Qed.

(** X5: a pass frames the bytes of a stream in the order of its buffer: the
    payloads of the DATA frames of the stream, one after the other, and
    then what the buffer still holds, are the buffer as the pass found
    it. *)
Theorem payload_framed_in_order (t : grpc_chttp2_transport) :
  exists fs,
    outbuf (begin_write_state t)
    = outbuf t ++ settings_frames t ++ qbuf t ++ fs
      ++ transport_window_update_frames t /\
    forall id,
      stream_payload id fs
      ++ flow_controlled_buffer (streams (begin_write_state t) id)
      = flow_controlled_buffer (streams t id).
Proof. exact (begin_write_payload t). Qed.

(** ** The window a stream announces *)

Lemma window_update_positive_stream_frames id t :
  Forall (fun f => window_update_positive f = true) (stream_frames id t).
Proof.
  unfold stream_frames.
  apply Forall_app. split; [|apply Forall_app; split].
  - unfold initial_metadata_frames.
    destruct (send_initial_metadata _);
      [destruct (negb _)|]; repeat constructor.
  - unfold window_update_frames.
    destruct (0 <? _) eqn:E; repeat constructor. exact E.
  - destruct (it_sent_initial_metadata _); [|constructor].
    apply Forall_app. split.
    + unfold body_frames, rst_frames.
      destruct (_ && _); [|constructor].
      destruct (is_last_frame _ _); [destruct (_ && _)|];
        repeat constructor.
    + unfold trailing_metadata_frames, rst_frames.
      destruct (send_trailing_metadata _) as [md|]; [|constructor].
      destruct (_ && _); [|constructor].
      destruct (grpc_metadata_batch_is_empty md); destruct (_ && _);
        repeat constructor.
Qed.

(** X6: the window that a pass announces for a stream is the window the stream
    had to announce: the increments of its WINDOW_UPDATE frames add up to
    what [announce_window] loses, no frame has a zero increment, and a
    stream that was writable has nothing left to announce. *)
Theorem stream_window_update_conserved (t : grpc_chttp2_transport) :
  exists fs,
    outbuf (begin_write_state t)
    = outbuf t ++ settings_frames t ++ qbuf t ++ fs
      ++ transport_window_update_frames t /\
    Forall (fun f => window_update_positive f = true) fs /\
    (forall id,
        announce_window (streams (begin_write_state t) id)
        = announce_window (streams t id) - announced id fs) /\
    (forall id,
        In id (writable t) -> 0 <= announce_window (streams t id) ->
        announce_window (streams (begin_write_state t) id) = 0 /\
        announced id fs = announce_window (streams t id)).
Proof.
  destruct (begin_write_ind
           (fun t1 fs =>
              Forall (fun f => window_update_positive f = true) fs /\
              forall id,
                announce_window (streams t1 id)
                = announce_window (streams t id) - announced id fs /\
                (In id (writable t) ->
                 (In id (writable t1) /\
                  announce_window (streams t1 id)
                  = announce_window (streams t id)) \/
                 announce_window (streams t1 id)
                 = Z.min (announce_window (streams t id)) 0)) t)
    as (fs & O & F & H).
  - intros t1 fs j rest [F H] Hw. split.
    { apply Forall_app. split; [exact F|].
      apply window_update_positive_stream_frames. }
    intros id. destruct (H id) as [H1 H2].
    rewrite announced_app.
    destruct (Z.eq_dec id j) as [->|Hne].
    + destruct (write_stream_sending j (T.set_writable t1 rest))
        as (_ & _ & A1 & A2).
      cbn zeta in A1, A2.
      change (streams (T.set_writable t1 rest) j) with (streams t1 j) in *.
      split; [lia|]. intros Hin. right.
      rewrite A2.
      destruct (Z.ltb_spec 0 (announce_window (streams t1 j)));
        destruct (H2 Hin) as [[_ E]|E]; lia.
    + destruct (write_stream_account j (T.set_writable t1 rest))
        as (_ & _ & _ & _ & A & _).
      rewrite A by exact Hne.
      rewrite (announced_other id j _ (not_eq_sym Hne)
                 (stream_frames_own j _)).
      change (streams (T.set_writable t1 rest) id) with (streams t1 id).
      split; [lia|]. intros Hin.
      destruct (H2 Hin) as [[Hi E]|E]; [left|right; exact E].
      split; [|exact E].
      destruct (write_stream_lists j (T.set_writable t1 rest))
        as (L & _).
      apply (L id Hne). cbn. rewrite Hw in Hi.
      destruct Hi as [Hi|Hi]; [congruence|exact Hi].
  - intros t2 fs [F H]. split; [exact F|]. intros id.
    rewrite pass_streams_epilogue.
    destruct (write_transport_window_update_effect t2)
      as (_ & _ & _ & _ & _ & _ & _ & _ & U9 & _).
    cbn zeta in U9. rewrite U9. apply H.
  - split; [constructor|]. intros id. rewrite pass_streams_prologue.
    split; [cbn; lia|]. intros Hin. left.
    split; [|reflexivity].
    apply begin_write_prologue_keeps_writable. exact Hin.
  - exists fs. split; [exact O|]. split; [exact F|]. split.
    + intros id. apply H.
    + intros id Hin Hpos. destruct (H id) as [H1 H2].
      destruct (H2 Hin) as [[Hi _]|E].
      * rewrite begin_write_drains in Hi. destruct Hi.
      * lia.
Qed.

Lemma stream_window_update_conserved_witness :
  exists fs,
    outbuf (begin_write_state window_update_only) = fs /\
    announce_window (streams (begin_write_state window_update_only) 1) = 0 /\
    announced 1 fs = 5.
Proof.
  destruct (stream_window_update_conserved window_update_only)
    as (fs & O & _ & _ & H).
  destruct (H 1) as [H1 H2]; [left; reflexivity|cbn; lia|].
  exists fs. split.
  { rewrite O. rewrite app_nil_r. reflexivity. }
  split; [exact H1|exact H2].
Defined.

(** ** The size of a DATA frame *)

Lemma max_outgoing_le_frame_size t s :
  0 <= outgoing_window s -> 0 <= t_outgoing_window t ->
  max_outgoing t s <= Z.of_N (acked_max_frame_size t).
Proof.
  intros Hs Ht. unfold max_outgoing.
  rewrite !GPR_MIN_spec.
  pose proof (to_uint32_le
    (Z.min (Z.of_N (acked_max_frame_size t))
       (Z.min (outgoing_window s) (t_outgoing_window t)))) as H.
  lia.
Qed.

Lemma data_frame_fits_rst max id t s :
  Forall (fun f => data_frame_fits max f = true) (rst_frames id t s).
Proof. unfold rst_frames. destruct (_ && _); repeat constructor. Qed.

Lemma stream_frames_fit_frame_size id t :
  0 <= outgoing_window (streams t id) -> 0 <= t_outgoing_window t ->
  Forall (fun f => data_frame_fits (Z.of_N (acked_max_frame_size t)) f = true)
    (stream_frames id t).
Proof.
  intros Hs Ht. unfold stream_frames.
  set (w0 := enter id t).
  set (w1 := write_initial_metadata id w0).
  set (w2 := write_window_update id w1).
  destruct (write_initial_metadata_effect id w0) as [_ H1].
  destruct (write_window_update_effect id w1) as [_ H2].
  fold w1 in H1. fold w2 in H2.
  apply same_but_outbuf_fields in H1, H2.
  destruct H1 as (_ & A2 & A3 & _). destruct H2 as (_ & B2 & B3 & _).
  pose proof (write_initial_metadata_flow id w0) as F1.
  pose proof (write_window_update_flow id w1) as F2.
  fold w1 in F1. fold w2 in F2.
  destruct (same_flow_trans _ _ _ F1 F2) as (Fw & _).
  change (it_t w0) with t in *. change (it_s w0) with (streams t id) in *.
  apply Forall_app. split; [|apply Forall_app; split].
  - unfold initial_metadata_frames.
    destruct (send_initial_metadata _);
      [destruct (negb _)|]; repeat constructor.
  - unfold window_update_frames.
    destruct (0 <? _); repeat constructor.
  - destruct (it_sent_initial_metadata w2); [|constructor].
    apply Forall_app. split.
    + unfold body_frames.
      destruct ((0 <? buffer_length (it_s w2))
                && (0 <? max_outgoing (it_t w2) (it_s w2))) eqn:E;
        [|constructor].
      apply andb_prop in E. destruct E as [Eb Em].
      apply Z.ltb_lt in Eb, Em.
      constructor.
      * unfold data_frame_fits. rewrite firstn_frame_length.
        pose proof (data_frame_size_pos _ _ Em Eb) as Hp.
        pose proof (data_frame_size_bounds (it_t w2) (it_s w2)) as [_ Hd].
        pose proof (max_outgoing_le_frame_size (it_t w2) (it_s w2)) as Hm.
        destruct (Z.eqb_spec (data_frame_size (it_t w2) (it_s w2)) 0);
          [lia|].
        apply Z.leb_le. rewrite <- A2, <- B2. lia.
      * destruct (is_last_frame _ _); [|constructor].
        apply data_frame_fits_rst.
    + unfold trailing_metadata_frames.
      destruct (send_trailing_metadata _) as [md|]; [|constructor].
      destruct (_ && _); [|constructor].
      constructor; [|apply data_frame_fits_rst].
      destruct (grpc_metadata_batch_is_empty md); reflexivity.
Qed.

(** X7: with windows that are not negative, no DATA frame of a pass is larger
    than the frame size the peer acknowledged, and a DATA frame without
    payload always ends its stream. *)
Theorem data_frames_fit_frame_size (t : grpc_chttp2_transport) :
  windows_nonneg t ->
  exists fs,
    outbuf (begin_write_state t)
    = outbuf t ++ settings_frames t ++ qbuf t ++ fs
      ++ transport_window_update_frames t /\
    Forall
      (fun f => data_frame_fits (Z.of_N (acked_max_frame_size t)) f = true)
      fs.
Proof.
  intros Hn.
  destruct (begin_write_ind
           (fun t1 fs =>
              windows_nonneg t1 /\
              acked_max_frame_size t1 = acked_max_frame_size t /\
              Forall
                (fun f =>
                   data_frame_fits (Z.of_N (acked_max_frame_size t)) f
                   = true) fs) t)
    as (fs & O & _ & _ & F).
  - intros t1 fs j rest (N & M & F) _.
    assert (N' : windows_nonneg (T.set_writable t1 rest)) by exact N.
    destruct (write_stream_account j (T.set_writable t1 rest))
      as (_ & _ & _ & _ & _ & _ & A & _).
    split; [apply write_stream_nonneg; exact N'|].
    split; [rewrite A; exact M|].
    apply Forall_app. split; [exact F|].
    rewrite <- M. destruct N' as [Nt Ns].
    apply (stream_frames_fit_frame_size j (T.set_writable t1 rest));
      [apply Ns|exact Nt].
  - intros t2 fs (N & M & F).
    destruct (write_transport_window_update_effect t2)
      as (_ & _ & U3 & U4 & _ & U6 & _).
    cbn zeta in U3, U4, U6.
    split; [|split; [congruence|exact F]].
    unfold windows_nonneg. rewrite U3, U4. exact N.
  - destruct (begin_write_prologue_effect t)
      as (_ & _ & P3 & P4 & _ & P6 & _).
    split; [|split; [exact P6|constructor]].
    unfold windows_nonneg. rewrite P3, P4. exact Hn.
  - exists fs. auto.
Qed.

Lemma data_frames_fit_frame_size_witness :
  exists fs,
    outbuf (begin_write_state large_body) = fs /\
    Forall (fun f => data_frame_fits 16384 f = true) fs.
Proof.
  destruct (data_frames_fit_frame_size large_body) as (fs & O & F).
  { split; [cbn; lia|]. intros id. cbn. destruct (id =? 1); cbn; lia. }
  exists fs. split; [|exact F].
  rewrite O. rewrite app_nil_r. reflexivity.
Defined.

(** ** Streams parked behind the transport window *)

Lemma write_frames_stalled j t :
  let w := write_frames j t in
  stalled_by_transport (it_t w) = stalled_by_transport t \/
  t_outgoing_window (it_t w) = 0 /\
  stalled_by_transport (it_t w)
  = snd (stream_list_add (stalled_by_transport t) j).
Proof.
  cbn zeta. unfold write_frames.
  set (w0 := enter j t).
  set (w1 := write_initial_metadata j w0).
  set (w2 := write_window_update j w1).
  destruct (write_initial_metadata_effect j w0) as [_ H1].
  destruct (write_window_update_effect j w1) as [_ H2].
  fold w1 in H1. fold w2 in H2.
  apply same_but_outbuf_fields in H1, H2.
  destruct H1 as (_ & _ & W1 & _ & S1 & _).
  destruct H2 as (_ & _ & W2 & _ & S2 & _).
  change (it_t w0) with t in *.
  destruct (it_sent_initial_metadata w2).
  - destruct (write_trailing_metadata_effect j (write_body j w2))
      as [_ H4].
    apply same_but_outbuf_fields in H4.
    destruct H4 as (_ & _ & W4 & _ & S4 & _).
    destruct (write_body_lists j w2) as (_ & B2).
    destruct (write_body_effect j w2) as (_ & B3 & _).
    cbn zeta in B2, B3. rewrite data_bytes_body in B3.
    rewrite S4, W4.
    destruct B2 as [B2|(Bm & Bw & B2)].
    + left. congruence.
    + right. rewrite Bm, andb_false_r in B3.
      split; [lia|congruence].
  - left. congruence.
Qed.

Lemma requeue_stalled j w i :
  In i (stalled_by_transport (requeue j w)) ->
  In i (stalled_by_transport (it_t w)).
Proof.
  unfold requeue, grpc_chttp2_list_add_writing_stream,
    grpc_chttp2_leave_writing_lists.
  destruct (it_now_writing w).
  - cbn [fst snd].
    destruct (fst (stream_list_add (writing (it_t w)) j)); cbn; auto.
  - cbn. intros H. apply stream_list_remove_In in H. tauto.
Qed.

Lemma write_stream_stalled j t :
  windows_nonneg t ->
  stalled_by_transport t = [] \/ t_outgoing_window t = 0 ->
  stalled_by_transport (write_stream j t) = [] \/
  t_outgoing_window (write_stream j t) = 0.
Proof.
  intros [Nt Ns] H.
  destruct (write_stream_account j t) as (_ & A & _).
  destruct (stream_frames_fit j t (Ns j) Nt) as [_ F].
  pose proof (data_bytes_nonneg (stream_frames j t)) as Hd.
  cbn zeta in A.
  destruct H as [H|H]; [|right; lia].
  destruct (requeue_effect j (write_frames j t)) as (_ & _ & _ & R4 & _).
  destruct (write_frames_stalled j t) as [E|[E _]].
  - left. unfold write_stream.
    destruct (stalled_by_transport (requeue j (write_frames j t)))
      as [|i l] eqn:El; [reflexivity|].
    assert (Hin : In i (stalled_by_transport (it_t (write_frames j t)))).
    { apply (requeue_stalled j). rewrite El. left. reflexivity. }
    rewrite E, H in Hin. destruct Hin.
  - right. unfold write_stream. rewrite R4. exact E.
Qed.

(** X8: with windows that are not negative, a pass leaves streams on the
    stalled-by-transport list only when it leaves the transport window
    empty. *)
Theorem stalled_only_behind_empty_window
    (t : grpc_chttp2_transport) (id : stream_id) :
  windows_nonneg t ->
  In id (stalled_by_transport (begin_write_state t)) ->
  t_outgoing_window (begin_write_state t) = 0.
Proof.
  intros Hn Hin.
  destruct (begin_write_ind
           (fun t1 _ =>
              windows_nonneg t1 /\
              (stalled_by_transport t1 = [] \/ t_outgoing_window t1 = 0)) t)
    as (fs & _ & _ & [H|H]).
  - intros t1 fs j rest (N & H) _.
    assert (N' : windows_nonneg (T.set_writable t1 rest)) by exact N.
    split; [apply write_stream_nonneg; exact N'|].
    apply write_stream_stalled; assumption.
  - intros t2 fs (N & H).
    destruct (write_transport_window_update_effect t2)
      as (_ & _ & U3 & U4 & _ & _ & _ & _ & _ & U10).
    cbn zeta in U3, U4, U10.
    unfold windows_nonneg. rewrite U3, U4, U10. auto.
  - destruct (begin_write_prologue_effect t) as (_ & _ & P3 & P4 & _).
    split; [unfold windows_nonneg; rewrite P3, P4; exact Hn|].
    unfold begin_write_prologue, unstall_streams in *.
    set (t0 := set_max_table_size (flush_qbuf (write_settings t))) in *.
    destruct (Z.ltb_spec 0 (t_outgoing_window t0)).
    + left. apply unstall_drains. lia.
    + right. destruct Hn as [Hn _]. lia.
  - rewrite H in Hin. destruct Hin.
  - exact H.
Qed.

Lemma stalled_only_behind_empty_window_witness :
  In 1 (stalled_by_transport (begin_write_state (zero_window
          (S.set_sent_initial_metadata idle_stream true)))) /\
  t_outgoing_window (begin_write_state (zero_window
          (S.set_sent_initial_metadata idle_stream true))) = 0.
Proof.
  assert (H : In 1 (stalled_by_transport (begin_write_state (zero_window
          (S.set_sent_initial_metadata idle_stream true))))).
  { vm_compute. left. reflexivity. }
  split; [exact H|].
  apply (stalled_only_behind_empty_window _ 1); [|exact H].
  split; [cbn; lia|]. intros id. cbn. destruct (id =? 1); cbn; lia.
Defined.

(** ** Streams that a pass does not work on *)

Lemma unstall_lists fuel :
  forall t i,
    In i (writable (unstall fuel t)) ->
    In i (writable t) \/ In i (stalled_by_transport t).
Proof.
  induction fuel as [|fuel IH]; intros t i Hin; cbn in Hin; [auto|].
  unfold grpc_chttp2_list_pop_stalled_by_transport in Hin.
  destruct (stalled_by_transport t) as [|j rest] eqn:E; [auto|].
  apply IH in Hin.
  unfold grpc_chttp2_become_writable, grpc_chttp2_list_add_writable_stream
    in Hin.
  cbn in Hin. rewrite stream_list_add_In in Hin.
  destruct Hin as [[Hin|Hin]|Hin]; [auto| |].
  - right. left. symmetry. exact Hin.
  - right. right. exact Hin.
Qed.

Lemma begin_write_prologue_lists t :
  let t' := begin_write_prologue t in
  (t_outgoing_window t <= 0 ->
   writable t' = writable t /\
   stalled_by_transport t' = stalled_by_transport t) /\
  (0 < t_outgoing_window t ->
   stalled_by_transport t' = [] /\
   forall i, In i (writable t') ->
             In i (writable t) \/ In i (stalled_by_transport t)).
Proof.
  unfold begin_write_prologue, unstall_streams.
  set (t0 := set_max_table_size (flush_qbuf (write_settings t))).
  assert (E : writable t0 = writable t /\
              stalled_by_transport t0 = stalled_by_transport t /\
              t_outgoing_window t0 = t_outgoing_window t).
  { subst t0. unfold set_max_table_size, flush_qbuf, write_settings.
    destruct (_ && _); cbn; auto. }
  destruct E as (E1 & E2 & E3). cbn zeta. rewrite E3.
  destruct (Z.ltb_spec 0 (t_outgoing_window t)); split; intros Hw;
    try lia.
  - split; [apply unstall_drains; lia|].
    intros i Hin. apply unstall_lists in Hin. rewrite E1, E2 in Hin.
    exact Hin.
  - auto.
Qed.

(** X9: a pass works on the streams of the writable list and, when the
    transport has window, on those it finds stalled: it frames nothing for
    any other stream, and leaves the stream and its place on the lists as
    they are. *)
Theorem pass_leaves_other_streams
    (t : grpc_chttp2_transport) (id : stream_id) :
  ~ In id (writable t) ->
  (~ In id (stalled_by_transport t) \/ t_outgoing_window t <= 0) ->
  exists fs,
    outbuf (begin_write_state t)
    = outbuf t ++ settings_frames t ++ qbuf t ++ fs
      ++ transport_window_update_frames t /\
    Forall (fun f => frame_stream f <> id) fs /\
    streams (begin_write_state t) id = streams t id /\
    (In id (writing (begin_write_state t)) <-> In id (writing t)) /\
    (In id (stalled_by_transport (begin_write_state t))
     <-> In id (stalled_by_transport t)).
Proof.
  intros Hw Hs.
  destruct (begin_write_ind
           (fun t1 fs =>
              ~ In id (writable t1) /\
              Forall (fun f => frame_stream f <> id) fs /\
              streams t1 id = streams t id /\
              (In id (writing t1) <-> In id (writing t)) /\
              (In id (stalled_by_transport t1)
               <-> In id (stalled_by_transport t))) t)
    as (fs & O & _ & H).
  - intros t1 fs j rest (N & F & S & L1 & L2) Hj.
    assert (Hne : id <> j).
    { intros ->. apply N. rewrite Hj. left. reflexivity. }
    destruct (write_stream_lists j (T.set_writable t1 rest))
      as (L & _).
    destruct (L id Hne) as (La & Lb & Lc). cbn in La, Lb, Lc.
    destruct (write_stream_account j (T.set_writable t1 rest))
      as (_ & _ & _ & _ & A & _).
    split.
    { rewrite La. intros Hin. apply N. rewrite Hj. right. exact Hin. }
    split.
    { apply Forall_app. split; [exact F|].
      eapply Forall_impl; [|apply stream_frames_own].
      cbn. intros f Hf. congruence. }
    split; [rewrite A by exact Hne; exact S|].
    split; [rewrite Lc; exact L1|rewrite Lb; exact L2].
  - intros t2 fs (N & F & S & L1 & L2).
    destruct (write_transport_window_update_effect t2)
      as (_ & _ & _ & U4 & _ & _ & _ & U8 & U9 & U10).
    cbn zeta in U4, U8, U9, U10. rewrite U4, U8, U9, U10. auto.
  - destruct (begin_write_prologue_effect t)
      as (_ & _ & _ & P4 & _ & _ & _ & P8 & _).
    destruct (begin_write_prologue_lists t) as [Q1 Q2].
    cbn zeta in Q1, Q2. rewrite P4, P8.
    destruct (Z.ltb_spec 0 (t_outgoing_window t)) as [Hpos|Hneg].
    + destruct (Q2 Hpos) as [Q3 Q4].
      destruct Hs as [Hs|Hs]; [|lia].
      split; [intros Hin; apply Q4 in Hin; tauto|].
      split; [constructor|]. split; [reflexivity|].
      split; [reflexivity|]. rewrite Q3. cbn. tauto.
    + destruct (Q1 Hneg) as [Q3 Q4]. rewrite Q3, Q4.
      split; [exact Hw|]. split; [constructor|].
      split; [reflexivity|]. split; reflexivity.
  - exists fs. auto.
Qed.

Lemma pass_leaves_other_streams_witness :
  streams (begin_write_state
             (scenario1 true {| md_elems := [] |} [x61; x62] None)) 2
  = idle_stream.
Proof.
  destruct (pass_leaves_other_streams
              (scenario1 true {| md_elems := [] |} [x61; x62] None) 2)
    as (fs & _ & _ & S & _).
  - cbn. intros [H|H]; [discriminate H|exact H].
  - left. cbn. auto.
  - exact S.
Defined.

(** ** A pass that reports nothing to write *)

Lemma write_initial_metadata_quiet id w :
  initial_metadata_frames id w = [] -> write_initial_metadata id w = w.
Proof.
  unfold initial_metadata_frames, write_initial_metadata.
  destruct (send_initial_metadata (it_s w));
    [destruct (negb (it_sent_initial_metadata w))|];
    [discriminate|reflexivity|reflexivity].
Qed.

Lemma write_window_update_quiet id w :
  window_update_frames id w = [] -> write_window_update id w = w.
Proof.
  unfold window_update_frames, write_window_update.
  destruct (0 <? announce_window (it_s w)); [discriminate|reflexivity].
Qed.

Lemma write_body_quiet id w :
  body_frames id w = [] -> it_s (write_body id w) = it_s w.
Proof.
  unfold body_frames, write_body.
  destruct (0 <? buffer_length (it_s w)); cbn [andb]; [|reflexivity].
  destruct (0 <? max_outgoing (it_t w) (it_s w)); [discriminate|].
  destruct (t_outgoing_window (it_t w) =? 0); reflexivity.
Qed.

Lemma write_trailing_metadata_quiet id w :
  trailing_metadata_frames id w = [] -> write_trailing_metadata id w = w.
Proof.
  unfold trailing_metadata_frames, write_trailing_metadata.
  destruct (send_trailing_metadata (it_s w)) as [md|]; [|reflexivity].
  destruct (is_null (fetching_send_message (it_s w))
            && (buffer_length (it_s w) =? 0)); [discriminate|reflexivity].
Qed.

Lemma write_stream_quiet id t :
  stream_frames id t = [] ->
  same_but_refs (streams t id) (streams (write_stream id t) id).
Proof.
  intros H. unfold write_stream.
  destruct (requeue_effect id (write_frames id t)) as (R & _).
  assert (E : it_s (write_frames id t) = streams t id);
    [|rewrite E in R; exact R].
  unfold stream_frames, write_frames in *.
  apply app_eq_nil in H. destruct H as [H1 H].
  apply app_eq_nil in H. destruct H as [H2 H].
  rewrite (write_initial_metadata_quiet id _ H1) in *.
  rewrite (write_window_update_quiet id _ H2) in *.
  destruct (it_sent_initial_metadata (enter id t)); [|reflexivity].
  apply app_eq_nil in H. destruct H as [H3 H4].
  rewrite (write_trailing_metadata_quiet id _ H4).
  rewrite (write_body_quiet id _ H3). reflexivity.
Qed.

Lemma same_but_refs_refl s : same_but_refs s s.
Proof. reflexivity. Qed.

Lemma same_but_refs_trans s1 s2 s3 :
  same_but_refs s1 s2 -> same_but_refs s2 s3 -> same_but_refs s1 s3.
Proof. unfold same_but_refs. congruence. Qed.

Lemma begin_write_announce_quiet t :
  transport_window_update_frames t = [] ->
  announce_incoming_window (begin_write_state t)
  = announce_incoming_window t.
Proof.
  intros H. unfold begin_write_state.
  set (t1 := begin_write_prologue t).
  destruct (begin_write_prologue_effect t)
    as (_ & _ & _ & _ & _ & _ & _ & _ & P9).
  fold t1 in P9.
  destruct (write_streams_account (write_fuel t1) t1)
    as (fs & _ & _ & _ & _ & _ & _ & _ & _ & K5).
  set (t2 := write_streams (write_fuel t1) t1) in *.
  cbn zeta in K5.
  unfold write_transport_window_update, transport_window_update_frames in *.
  rewrite K5, P9.
  destruct (0 <? announce_incoming_window t); [discriminate H|].
  congruence.
Qed.

(** X10: when [grpc_chttp2_begin_write] returns false it has framed nothing,
    and then it has changed no window and no stream, reference counts
    apart: what it may still have done is to move streams between the
    lists. *)
Theorem quiet_pass_changes_no_stream (t : grpc_chttp2_transport) :
  fst (grpc_chttp2_begin_write t) = false ->
  let t' := snd (grpc_chttp2_begin_write t) in
  outbuf t' = [] /\ qbuf t' = [] /\
  t_outgoing_window t' = t_outgoing_window t /\
  announce_incoming_window t' = announce_incoming_window t /\
  forall i, S.set_refs (streams t' i) 0 = S.set_refs (streams t i) 0.
Proof.
  unfold grpc_chttp2_begin_write. cbn [fst snd]. intros Hq.
  assert (Ho : outbuf (begin_write_state t) = []).
  { destruct (outbuf (begin_write_state t)); [reflexivity|discriminate]. }
  clear Hq.
  destruct (begin_write_account t) as (fs0 & _ & Hb & _).
  cbn zeta in Hb.
  destruct (begin_write_ind
           (fun t1 fs =>
              fs = [] ->
              t_outgoing_window t1 = t_outgoing_window t /\
              forall i, same_but_refs (streams t i) (streams t1 i)) t)
    as (fs & O & H).
  - intros t1 fs j rest H _ E.
    destruct (write_stream_account j (T.set_writable t1 rest))
      as (_ & A1 & _ & _ & A4 & _).
    cbn zeta in A1.
    apply app_eq_nil in E. destruct E as [E1 E2].
    destruct (H E1) as [Hw Hs].
    rewrite E2 in A1. change (data_bytes []) with 0 in A1.
    split; [rewrite A1; cbn; lia|].
    intros i. destruct (Z.eq_dec i j) as [->|Hne].
    + eapply same_but_refs_trans; [apply Hs|].
      apply (write_stream_quiet j (T.set_writable t1 rest) E2).
    + rewrite A4 by exact Hne. apply Hs.
  - intros t2 fs H E.
    destruct (write_transport_window_update_effect t2)
      as (_ & _ & U3 & U4 & _).
    cbn zeta in U3, U4. rewrite U3, U4. apply H. exact E.
  - intros _.
    destruct (begin_write_prologue_effect t) as (_ & _ & P3 & P4 & _).
    rewrite P3, P4. split; [reflexivity|].
    intros i. apply same_but_refs_refl.
  - rewrite Ho in O. symmetry in O.
    apply app_eq_nil in O. destruct O as [_ O].
    apply app_eq_nil in O. destruct O as [_ O].
    apply app_eq_nil in O. destruct O as [_ O].
    apply app_eq_nil in O. destruct O as [Of Ou].
    destruct (H Of) as [Hw Hs].
    split; [exact Ho|]. split; [exact Hb|]. split; [exact Hw|].
    split; [apply begin_write_announce_quiet; exact Ou|].
    intros i. apply Hs.
Qed.

Lemma quiet_pass_changes_no_stream_witness :
  let t := with_writable (fresh_transport true) 1 idle_stream in
  fst (grpc_chttp2_begin_write t) = false /\
  S.set_refs (streams (snd (grpc_chttp2_begin_write t)) 1) 0
  = S.set_refs idle_stream 0 /\
  refs (streams (snd (grpc_chttp2_begin_write t)) 1) = 0.
Proof.
  intros t.
  assert (Hq : fst (grpc_chttp2_begin_write t) = false) by reflexivity.
  destruct (quiet_pass_changes_no_stream t Hq) as (_ & _ & _ & _ & H).
  split; [exact Hq|]. split; [exact (H 1)|reflexivity].
Defined.

(** ** Nothing after the terminal frame *)

Lemma nothing_after_terminal_app id l1 :
  forall ended l2,
    nothing_after_terminal id ended (l1 ++ l2)
    = nothing_after_terminal id ended l1
      && nothing_after_terminal id
           (ended || existsb (is_terminal id) l1) l2.
Proof.
  induction l1 as [|f l1 IH]; intros ended l2; cbn.
  - rewrite orb_false_r. reflexivity.
  - rewrite IH, <- andb_assoc, orb_assoc. reflexivity.
Qed.

Lemma nothing_after_terminal_sound id l :
  forall ended,
    nothing_after_terminal id ended l = true ->
    forall pre f post,
      l = pre ++ f :: post -> is_terminal id f = true ->
      Forall (fun g => is_data id g = false /\ is_headers id g = false) post.
Proof.
  assert (G : forall l,
             nothing_after_terminal id true l = true ->
             Forall (fun g => is_data id g = false /\ is_headers id g = false)
               l).
  { induction l0 as [|g l0 IH]; cbn; intros H; [constructor|].
    apply andb_prop in H. destruct H as [H1 H2].
    apply negb_true_iff, orb_false_elim in H1.
    constructor; [exact H1|apply IH; exact H2]. }
  induction l as [|g l IH]; intros ended H pre f post E Hf.
  - destruct pre; discriminate E.
  - cbn in H. apply andb_prop in H. destruct H as [_ H].
    destruct pre as [|p pre]; cbn in E; inversion E; subst.
    + rewrite Hf, orb_true_r in H. apply G. exact H.
    + eapply IH; [exact H|reflexivity|exact Hf].
Qed.

Lemma nothing_after_terminal_quiet id l :
  Forall (quiet_for id) l ->
  forall ended,
    nothing_after_terminal id ended l = true /\
    existsb (is_terminal id) l = false.
Proof.
  intros H. induction H as [|f l (H1 & H2 & H3) _ IH]; intros ended;
    [cbn; auto|].
  cbn [nothing_after_terminal existsb].
  rewrite H1, H2, H3, !orb_false_r.
  destruct (IH ended) as [I1 I2]. rewrite I1, I2.
  destruct ended; auto.
Qed.

Lemma quiet_for_other id j l :
  j <> id -> Forall (fun f => frame_stream f = j) l ->
  Forall (quiet_for id) l.
Proof.
  intros Hne H. eapply Forall_impl; [|exact H].
  intros f Hf. unfold quiet_for.
  apply Z.eqb_neq in Hne.
  destruct f as [| i ? [|] ?| i ? [|] | |]; cbn in *; subst;
    rewrite ?Hne; auto.
Qed.

Lemma quiet_for_rst id t s : Forall (quiet_for id) (rst_frames id t s).
Proof.
  unfold rst_frames, quiet_for.
  destruct (_ && _); repeat constructor.
Qed.

Lemma quiet_for_window_update id w :
  Forall (quiet_for id) (window_update_frames id w).
Proof.
  unfold window_update_frames, quiet_for.
  destruct (0 <? _); repeat constructor.
Qed.

Lemma no_terminal_nothing_after id l :
  existsb (is_terminal id) l = false ->
  nothing_after_terminal id false l = true.
Proof.
  induction l as [|f l IH]; cbn; [reflexivity|].
  intros H. apply orb_false_elim in H. destruct H as [H1 H2].
  rewrite H1. apply IH. exact H2.
Qed.

Lemma write_initial_metadata_all_sent id w :
  all_sent_it w ->
  write_initial_metadata id w = w /\ initial_metadata_frames id w = [].
Proof.
  intros (H & _). unfold write_initial_metadata, initial_metadata_frames.
  rewrite H. destruct (send_initial_metadata (it_s w)); auto.
Qed.

Lemma write_window_update_all_sent id w :
  all_sent_it w -> all_sent_it (write_window_update id w).
Proof.
  unfold all_sent_it, all_sent, write_window_update.
  destruct (0 <? announce_window (it_s w)); auto.
Qed.

Lemma buffer_length_nil s :
  flow_controlled_buffer s = [] -> buffer_length s = 0.
Proof. unfold buffer_length. intros ->. reflexivity. Qed.

Lemma buffer_length_zero s :
  buffer_length s = 0 -> flow_controlled_buffer s = [].
Proof.
  unfold buffer_length. destruct (flow_controlled_buffer s); [auto|].
  cbn. lia.
Qed.

Lemma write_body_all_sent id w :
  all_sent_it w -> write_body id w = w /\ body_frames id w = [].
Proof.
  intros (_ & H & _). apply buffer_length_nil in H.
  unfold write_body, body_frames. rewrite H. auto.
Qed.

Lemma write_trailing_metadata_all_sent id w :
  all_sent_it w ->
  write_trailing_metadata id w = w /\ trailing_metadata_frames id w = [].
Proof.
  intros (_ & _ & _ & H & _).
  unfold write_trailing_metadata, trailing_metadata_frames.
  rewrite H. auto.
Qed.

(** The body part: no frame, a DATA frame that is not the last, or the
    last DATA frame with its reset, after which nothing is left. *)
Lemma write_body_final id w :
  let w' := write_body id w in
  it_sent_initial_metadata w' = it_sent_initial_metadata w /\
  sent_initial_metadata (it_s w') = sent_initial_metadata (it_s w) /\
  (existsb (is_terminal id) (body_frames id w) = false \/
   (exists p, body_frames id w
              = DATA id p true :: rst_frames id (it_t w) (it_s w)) /\
   flow_controlled_buffer (it_s w') = [] /\
   fetching_send_message (it_s w') = None /\
   send_trailing_metadata (it_s w') = None).
Proof.
  cbn zeta. destruct (write_body_sent id w) as [S1 _].
  split.
  { unfold write_body.
    repeat match goal with
           | |- context [if ?c then _ else _] => destruct c
           end; reflexivity. }
  split; [exact S1|].
  unfold write_body, body_frames.
  destruct (0 <? buffer_length (it_s w)) eqn:Hb; cbn [andb];
    [destruct (0 <? max_outgoing (it_t w) (it_s w)) eqn:Hm|];
    [|left; destruct (t_outgoing_window (it_t w) =? 0); reflexivity
     |left; reflexivity].
  destruct (is_last_frame (it_t w) (it_s w)) eqn:El.
  - right. split; [eexists; reflexivity|].
    pose proof El as El0.
    unfold is_last_frame, is_last_data_frame in El.
    apply andb_prop in El. destruct El as [El _].
    apply andb_prop in El. destruct El as [Ef El].
    apply Z.eqb_eq in El.
    assert (Hs : skipn (Z.to_nat (data_frame_size (it_t w) (it_s w)))
                   (flow_controlled_buffer (it_s w)) = []).
    { apply skipn_all2. rewrite El. unfold buffer_length. lia. }
    assert (Hf : fetching_send_message (it_s w) = None).
    { destruct (fetching_send_message (it_s w)); [discriminate Ef|].
      reflexivity. }
    unfold write_data_frame, grpc_chttp2_encode_data. cbn [fst snd].
    rewrite El0, rst_stream_after_last_eq.
    match goal with
    | |- context [if ?c then _ else _] => destruct c
    end; cbn; rewrite Hs; auto.
  - left. cbn. destruct (id =? id); reflexivity.
Qed.

(** The trailing part: no frame, or the terminal frame with its reset,
    after which nothing is left. *)
Lemma write_trailing_metadata_final id w :
  let w' := write_trailing_metadata id w in
  w' = w /\ trailing_metadata_frames id w = [] \/
  (exists x, is_terminal id x = true /\
             trailing_metadata_frames id w
             = x :: rst_frames id (it_t w) (it_s w)) /\
  it_sent_initial_metadata w' = it_sent_initial_metadata w /\
  sent_initial_metadata (it_s w') = sent_initial_metadata (it_s w) /\
  flow_controlled_buffer (it_s w') = [] /\
  fetching_send_message (it_s w') = None /\
  send_trailing_metadata (it_s w') = None.
Proof.
  cbn zeta.
  unfold write_trailing_metadata, trailing_metadata_frames,
    grpc_chttp2_encode_data.
  destruct (send_trailing_metadata (it_s w)) as [md|]; [|left; auto].
  destruct (is_null (fetching_send_message (it_s w))
            && (buffer_length (it_s w) =? 0)) eqn:E; [|left; auto].
  right. apply andb_prop in E. destruct E as [Ef Eb].
  apply Z.eqb_eq, buffer_length_zero in Eb.
  assert (Hf : fetching_send_message (it_s w) = None).
  { destruct (fetching_send_message (it_s w)); [discriminate Ef|].
    reflexivity. }
  split.
  { destruct (grpc_metadata_batch_is_empty md); eexists;
      (split; [|reflexivity]); cbn; apply Z.eqb_refl. }
  cbn [fst snd it_s it_sent_initial_metadata].
  destruct (grpc_metadata_batch_is_empty md); cbn; rewrite ?Eb; auto.
Qed.

Lemma enter_sent id t :
  it_sent_initial_metadata (enter id t)
  = sent_initial_metadata (it_s (enter id t)).
Proof. reflexivity. Qed.

(** One iteration, for the stream it works on. *)
Lemma stream_frames_final id t :
  let fs := stream_frames id t in
  let s' := streams (write_stream id t) id in
  nothing_after_terminal id false fs = true /\
  (existsb (is_terminal id) fs = true -> all_sent s') /\
  (all_sent (streams t id) ->
   all_sent s' /\ nothing_after_terminal id true fs = true).
Proof.
  cbn zeta.
  destruct (requeue_effect id (write_frames id t)) as (R1 & _).
  apply same_but_refs_fields in R1.
  destruct R1 as (R1 & _ & _ & R4 & _ & R6 & _ & _ & R9 & _).
  assert (RS : all_sent (it_s (write_frames id t)) ->
               all_sent (streams (write_stream id t) id)).
  { unfold all_sent, write_stream. rewrite R1, R4, R6, R9. auto. }
  clear R1 R4 R6 R9.
  unfold stream_frames, write_frames in *.
  set (w0 := enter id t) in *.
  set (w1 := write_initial_metadata id w0) in *.
  set (w2 := write_window_update id w1) in *.
  assert (Hall : all_sent (streams t id) ->
                 all_sent (streams (write_stream id t) id) /\
                 nothing_after_terminal id true
                   (initial_metadata_frames id w0 ++
                    window_update_frames id w1 ++
                    (if it_sent_initial_metadata w2
                     then body_frames id w2 ++
                          trailing_metadata_frames id (write_body id w2)
                     else [])) = true).
  { intros Ha.
    assert (A0 : all_sent_it w0).
    { split; [|exact Ha]. destruct Ha as (_ & _ & _ & Ha). exact Ha. }
    destruct (write_initial_metadata_all_sent id w0 A0) as [E1 F1].
    fold w1 in E1. rewrite F1.
    assert (A1 : all_sent_it w1) by (rewrite E1; exact A0).
    pose proof (write_window_update_all_sent id w1 A1) as A2.
    fold w2 in A2.
    destruct (write_body_all_sent id w2 A2) as [E3 F3].
    assert (A3 : all_sent_it (write_body id w2)) by (rewrite E3; exact A2).
    destruct (write_trailing_metadata_all_sent id _ A3) as [E4 F4].
    destruct A2 as [A2 A2'].
    rewrite A2, E4, E3 in RS. rewrite A2, F3, F4. cbn [app].
    split; [apply RS; exact A2'|].
    rewrite app_nil_r.
    apply nothing_after_terminal_quiet. apply quiet_for_window_update. }
  split; [|split; [|exact Hall]].
  - (* the order within the iteration *)
    destruct (write_initial_metadata_sent id w0) as (_ & _ & I3).
    destruct (nothing_after_terminal_quiet id _
                (quiet_for_window_update id w1) false) as [W1 W2].
    assert (I : existsb (is_terminal id) (initial_metadata_frames id w0)
                = false).
    { cbn zeta in I3. destruct I3 as [->|(md & mfs & ->)]; reflexivity. }
    rewrite nothing_after_terminal_app, I. cbn [orb].
    rewrite nothing_after_terminal_app, W2, W1. cbn [orb].
    rewrite (no_terminal_nothing_after id _ I). cbn [andb].
    destruct (it_sent_initial_metadata w2); [|reflexivity].
    rewrite nothing_after_terminal_app.
    destruct (write_body_final id w2) as (B1 & B2 & [B3|(B3 & B4 & B5 & B6)]).
    + rewrite B3, (no_terminal_nothing_after id _ B3). cbn [andb orb].
      destruct (write_trailing_metadata_final id (write_body id w2))
        as [[_ T]|((x & Tx & T) & _)]; rewrite T; [reflexivity|].
      cbn. rewrite Tx.
      apply nothing_after_terminal_quiet. apply quiet_for_rst.
    + destruct B3 as [p B3]. rewrite B3.
      assert (T : trailing_metadata_frames id (write_body id w2) = []).
      { unfold trailing_metadata_frames. rewrite B6. reflexivity. }
      rewrite T. cbn. rewrite Z.eqb_refl. cbn.
      destruct (nothing_after_terminal_quiet id _
                  (quiet_for_rst id (it_t w2) (it_s w2)) true) as [Q1 _].
      rewrite Q1. reflexivity.
  - (* a terminal frame leaves nothing to send *)
    intros Hex. apply RS.
    destruct (write_initial_metadata_sent id w0) as (I1 & I2 & I3).
    destruct (write_window_update_sent id w1) as (V1 & V2 & _).
    destruct (nothing_after_terminal_quiet id _
                (quiet_for_window_update id w1) false) as [_ W2].
    assert (I : existsb (is_terminal id) (initial_metadata_frames id w0)
                = false).
    { cbn zeta in I3. destruct I3 as [->|(md & mfs & ->)]; reflexivity. }
    fold w1 in I1, I2, V1, V2. fold w2 in V1, V2. cbn zeta in I1, I2.
    assert (Hs : it_sent_initial_metadata w2 = true ->
                 sent_initial_metadata (it_s w2) = true).
    { rewrite V1, V2, I1, I2.
      change (it_sent_initial_metadata w0)
        with (sent_initial_metadata (it_s w0)). auto. }
    rewrite !existsb_app, I, W2 in Hex. cbn [orb] in Hex.
    destruct (it_sent_initial_metadata w2) eqn:Ew; [|discriminate Hex].
    specialize (Hs eq_refl).
    rewrite existsb_app in Hex.
    destruct (write_body_final id w2) as (B1 & B2 & [B3|(B3 & B4 & B5 & B6)]).
    + rewrite B3 in Hex. cbn [orb] in Hex.
      destruct (write_trailing_metadata_final id (write_body id w2))
        as [[_ T]|(_ & T1 & T2 & T3 & T4 & T5)].
      * rewrite T in Hex. discriminate Hex.
      * unfold all_sent. rewrite T2, B2. auto.
    + assert (A3 : all_sent_it (write_body id w2)).
      { unfold all_sent_it, all_sent. rewrite B1, B2. auto. }
      destruct (write_trailing_metadata_all_sent id _ A3) as [E4 _].
      rewrite E4. apply A3.
Qed.

(** X11: the terminal frame of a stream is the last DATA or HEADERS frame that a
    pass frames for it, and it goes out only once nothing is left to send:
    the buffer is empty, no message is on its way into the buffer, and the
    initial metadata is out. *)
Theorem terminal_frame_is_final
    (t : grpc_chttp2_transport) (id : stream_id) :
  exists fs,
    outbuf (begin_write_state t)
    = outbuf t ++ settings_frames t ++ qbuf t ++ fs
      ++ transport_window_update_frames t /\
    (forall pre f post,
        fs = pre ++ f :: post -> is_terminal id f = true ->
        Forall (fun g => is_data id g = false /\ is_headers id g = false)
          post) /\
    (forall f,
        In f fs -> is_terminal id f = true ->
        all_sent (streams (begin_write_state t) id)).
Proof.
  destruct (begin_write_ind
           (fun t1 fs =>
              nothing_after_terminal id false fs = true /\
              (existsb (is_terminal id) fs = true ->
               all_sent (streams t1 id))) t)
    as (fs & O & H1 & H2).
  - intros t1 fs j rest (N & A) _.
    rewrite nothing_after_terminal_app, existsb_app, N. cbn [andb orb].
    change (streams t1 id)
      with (streams (T.set_writable t1 rest) id) in A.
    destruct (Z.eq_dec j id) as [->|Hne].
    + destruct (stream_frames_final id (T.set_writable t1 rest))
        as (F1 & F2 & F3).
      cbn zeta in F1, F2, F3.
      destruct (existsb (is_terminal id) fs).
      * destruct (F3 (A eq_refl)) as [F4 F5]. auto.
      * cbn [orb]. auto.
    + destruct (write_stream_account j (T.set_writable t1 rest))
        as (_ & _ & _ & _ & S & _).
      rewrite S by congruence.
      destruct (nothing_after_terminal_quiet id _
                  (quiet_for_other id j _ Hne
                     (stream_frames_own j (T.set_writable t1 rest)))
                  (existsb (is_terminal id) fs)) as [Q1 Q2].
      rewrite Q1, Q2, orb_false_r. auto.
  - intros t2 fs H. rewrite pass_streams_epilogue. exact H.
  - split; [reflexivity|]. cbn. discriminate.
  - exists fs. split; [exact O|]. split.
    + apply (nothing_after_terminal_sound id fs false H1).
    + intros f Hin Hf. apply H2. apply existsb_exists. eauto.
Qed.

Lemma terminal_frame_is_final_witness :
  let t := scenario1 true {| md_elems := [] |} [x61; x62]
             (Some {| md_elems := [] |}) in
  In (DATA 1 [x61; x62] true) (outbuf (begin_write_state t)) /\
  all_sent (streams (begin_write_state t) 1).
Proof.
  intros t.
  assert (E : outbuf (begin_write_state t)
              = [HEADERS 1 {| md_elems := [] |} false 16384;
                 DATA 1 [x61; x62] true]) by (vm_compute; reflexivity).
  destruct (terminal_frame_is_final t 1) as (fs & O & _ & H).
  assert (Hin : In (DATA 1 [x61; x62] true) fs).
  { rewrite E in O.
    change (outbuf t ++ settings_frames t ++ qbuf t ++ fs
            ++ transport_window_update_frames t) with (fs ++ []) in O.
    rewrite app_nil_r in O. subst fs. right. left. reflexivity. }
  split; [|exact (H _ Hin eq_refl)].
  rewrite E. right. left. reflexivity.
Defined.

(** ** The references an iteration holds *)

Lemma write_body_refs id w :
  let w' := write_body id w in
  refs (it_s w')
  = refs (it_s w)
    + (if (0 <? data_bytes (body_frames id w))
          && (0 <? buffer_length (it_s w'))
       then 1 else 0).
Proof.
  cbn zeta. rewrite data_bytes_body.
  unfold write_body.
  destruct (0 <? buffer_length (it_s w)) eqn:Hb; cbn [andb];
    [destruct (0 <? max_outgoing (it_t w) (it_s w)) eqn:Hm|].
  - apply Z.ltb_lt in Hb, Hm.
    pose proof (data_frame_size_pos _ _ Hm Hb) as Hp.
    apply Z.ltb_lt in Hp. rewrite Hp. cbn [andb].
    unfold write_data_frame, grpc_chttp2_encode_data. cbn [fst snd it_s].
    destruct (is_last_frame (it_t w) (it_s w));
      match goal with
      | |- context [if 0 <? buffer_length ?s then _ else _] =>
          destruct (0 <? buffer_length s) eqn:Ef
      end; unfold buffer_length in *; cbn in *; rewrite ?Ef; cbn; lia.
  - destruct (t_outgoing_window (it_t w) =? 0); cbn; lia.
  - cbn. lia.
Qed.

Lemma list_mem_add l id : list_mem id (snd (stream_list_add l id)) = true.
Proof.
  unfold stream_list_add. destruct (list_mem id l) eqn:E; cbn; [exact E|].
  unfold list_mem. rewrite existsb_app. cbn.
  rewrite Z.eqb_refl, orb_true_r. reflexivity.
Qed.

Lemma list_mem_remove l id : list_mem id (stream_list_remove l id) = false.
Proof.
  unfold list_mem, stream_list_remove.
  induction l as [|i l IH]; cbn; [reflexivity|].
  destruct (Z.eqb_spec i id) as [->|Hne]; cbn; [exact IH|].
  rewrite IH, orb_false_r. apply Z.eqb_neq. congruence.
Qed.

Lemma requeue_refs id w :
  refs (streams (requeue id w) id)
  = refs (it_s w)
    - (if negb (list_mem id (writing (it_t w)))
          && list_mem id (writing (requeue id w))
       then 0 else 1).
Proof.
  unfold requeue, grpc_chttp2_list_add_writing_stream,
    grpc_chttp2_leave_writing_lists.
  destruct (it_now_writing w).
  - cbn [fst snd].
    pose proof (list_mem_add (writing (it_t w)) id) as Ha.
    unfold stream_list_add in *.
    destruct (list_mem id (writing (it_t w))) eqn:E; cbn [fst snd] in *;
      cbn [streams set_stream T.set_streams T.set_writing writing refs
           GRPC_CHTTP2_STREAM_UNREF S.set_refs negb andb];
      rewrite Z.eqb_refl, ?Ha; unfold GRPC_CHTTP2_STREAM_UNREF;
      cbn [refs S.set_refs]; lia.
  - cbn [streams set_stream T.set_streams T.set_writing T.set_writable
         T.set_stalled_by_transport writing].
    rewrite Z.eqb_refl, list_mem_remove, andb_false_r.
    unfold GRPC_CHTTP2_STREAM_UNREF. cbn [refs S.set_refs]. lia.
Qed.

(** X12: the reference that a stream holds for its place on the writable list
    goes with it to the writing list when the iteration puts it there, and
    is dropped otherwise: when the stream is on the writing list already,
    and when it has nothing to write.  A stream that goes back to the
    writable list with bytes left takes one more. *)
Theorem write_stream_refs
    (id : stream_id) (t : grpc_chttp2_transport) :
  let t' := write_stream id t in
  let forks := (0 <? data_bytes (stream_frames id t))
               && (0 <? buffer_length (streams t' id)) in
  let joins := negb (list_mem id (writing t))
               && list_mem id (writing t') in
  refs (streams t' id)
  = refs (streams t id) + (if forks then 1 else 0)
    - (if joins then 0 else 1).
Proof.
  cbn zeta. unfold write_stream.
  pose proof (requeue_refs id (write_frames id t)) as R.
  destruct (requeue_effect id (write_frames id t)) as (Rs & _).
  apply same_but_refs_fields in Rs.
  destruct Rs as (_ & _ & _ & _ & _ & Rb & _).
  destruct (write_frames_account id t)
    as (_ & _ & _ & _ & _ & _ & _ & A8 & _).
  rewrite A8 in R. rewrite R. clear R.
  unfold buffer_length at 1. rewrite Rb.
  fold (buffer_length (it_s (write_frames id t))).
  match goal with
  | |- _ - ?x = _ - ?y => cut (forall a b : Z, a = b -> a - x = b - y);
                          [intros C; apply C; clear C|intros; lia]
  end.
  unfold write_frames, stream_frames.
  set (w0 := enter id t).
  set (w1 := write_initial_metadata id w0).
  set (w2 := write_window_update id w1).
  pose proof (write_initial_metadata_flow id w0) as F1.
  pose proof (write_window_update_flow id w1) as F2.
  fold w1 in F1. fold w2 in F2.
  destruct (same_flow_trans _ _ _ F1 F2) as (_ & _ & _ & Fr & _).
  change (it_s w0) with (streams t id) in *.
  rewrite !data_bytes_app, data_bytes_initial_metadata,
    data_bytes_window_update.
  destruct (it_sent_initial_metadata w2).
  - pose proof (write_body_refs id w2) as B. cbn zeta in B.
    pose proof (write_trailing_metadata_flow id (write_body id w2)) as F4.
    pose proof (same_flow_buffer_length _ _ F4) as F4b.
    destruct F4 as (_ & _ & _ & F4r & _).
    rewrite data_bytes_app, data_bytes_trailing_metadata.
    rewrite F4r, F4b, B, Fr, !Z.add_0_l, Z.add_0_r. reflexivity.
  - cbn. rewrite Fr. lia.
Qed.

(** ** [grpc_chttp2_end_write], stream by stream *)

Lemma complete_closure_step_spec t slot error :
  let r := grpc_chttp2_complete_closure_step t slot error in
  snd r = None /\
  completed (fst r) = completed t ++ closure_run error slot /\
  streams (fst r) = streams t /\ is_client (fst r) = is_client t /\
  writing (fst r) = writing t.
Proof. destruct slot; cbn; rewrite ?app_nil_r; auto. Qed.

Lemma to_int64_zero : C.to_int64 0 = 0.
Proof. reflexivity. Qed.

(** One iteration of the loop, for the stream it takes off the list. *)
Lemma finish_stream_fields id error t :
  let t' := finish_stream id error t in
  finished_as (is_client t) (streams t id) (streams t' id) /\
  completed t' = completed t ++ stream_completions error (streams t id).
Proof.
  unfold finish_stream, stream_completions.
  set (s := streams t id).
  set (r1 := if sent_initial_metadata s
             then grpc_chttp2_complete_closure_step t
                    (send_initial_metadata_finished s) error
             else (t, send_initial_metadata_finished s)).
  assert (F1 : snd r1 = (if sent_initial_metadata s then None
                         else send_initial_metadata_finished s) /\
               completed (fst r1)
               = completed t
                 ++ (if sent_initial_metadata s
                     then closure_run error (send_initial_metadata_finished s)
                     else []) /\
               is_client (fst r1) = is_client t).
  { subst r1. destruct (sent_initial_metadata s).
    - destruct (complete_closure_step_spec t
                  (send_initial_metadata_finished s) error)
        as (A & B & _ & C & _). auto.
    - cbn. rewrite app_nil_r. auto. }
  destruct F1 as (A1 & A2 & A3).
  set (t1 := fst r1) in *.
  set (s1 := S.set_send_initial_metadata_finished s (snd r1)).
  set (u := if negb (sending_bytes s1 =? 0)
            then update_list t1 s1 (C.to_int64 (sending_bytes s1))
                   (on_write_finished_cbs s1) error
            else (t1, s1, on_write_finished_cbs s1)).
  set (s2 := if negb (sending_bytes s1 =? 0)
             then S.set_sending_bytes
                    (S.set_on_write_finished_cbs (snd (fst u)) (snd u)) 0
             else s1).
  change (sending_bytes s1) with (sending_bytes s) in *.
  change (on_write_finished_cbs s1) with (on_write_finished_cbs s) in *.
  assert (F2 : completed (fst (fst u))
               = completed t1
                 ++ (if sending_bytes s =? 0 then []
                     else flat_map (run_closure error)
                            (filter
                               (due (flow_controlled_bytes_written s
                                     + C.to_int64 (sending_bytes s)))
                               (on_write_finished_cbs s))) /\
               is_client (fst (fst u)) = is_client t1 /\
               S.set_refs s2 0
               = S.set_refs
                   (S.set_sending_bytes
                      (S.set_on_write_finished_cbs
                         (S.set_flow_controlled_bytes_written s1
                            (flow_controlled_bytes_written s
                             + C.to_int64 (sending_bytes s)))
                         (if sending_bytes s =? 0
                          then on_write_finished_cbs s
                          else rev (filter
                                      (not_due
                                         (flow_controlled_bytes_written s
                                          + C.to_int64 (sending_bytes s)))
                                      (on_write_finished_cbs s))))
                      0) 0 /\
               refs s2 = refs s).
  { subst s2 u. destruct (sending_bytes s =? 0) eqn:E; cbn [negb].
    - cbn [fst snd]. rewrite app_nil_r.
      apply Z.eqb_eq in E.
      split; [reflexivity|]. split; [reflexivity|].
      split; [|reflexivity].
      subst s1. destruct s. cbn in *. subst.
      rewrite to_int64_zero, Z.add_0_r. reflexivity.
    - destruct (update_list_spec t1 s1 (C.to_int64 (sending_bytes s))
                  (on_write_finished_cbs s) error) as (U1 & U2 & _ & U4).
      cbn zeta in U1, U2, U4.
      change (flow_controlled_bytes_written s1)
        with (flow_controlled_bytes_written s) in *.
      destruct (update_list_loop_frame
                  (flow_controlled_bytes_written s
                   + C.to_int64 (sending_bytes s)) error
                  (on_write_finished_cbs s) t1 [])
        as (_ & _ & _ & _ & _ & _ & _ & L8).
      split; [exact U2|]. split; [exact L8|].
      rewrite U4. split; reflexivity. }
  destruct F2 as (B1 & B2 & B3 & B4).
  set (t2 := fst (fst u)) in *.
  assert (T2 : sent_trailing_metadata s2 = sent_trailing_metadata s).
  { change (sent_trailing_metadata s2)
      with (sent_trailing_metadata (S.set_refs s2 0)).
    rewrite B3. reflexivity. }
  set (r3 := if sent_trailing_metadata s2
             then grpc_chttp2_complete_closure_step t2
                    (send_trailing_metadata_finished s2) error
             else (t2, send_trailing_metadata_finished s2)).
  assert (S2 : send_trailing_metadata_finished s2
               = send_trailing_metadata_finished s).
  { change (send_trailing_metadata_finished s2)
      with (send_trailing_metadata_finished (S.set_refs s2 0)).
    rewrite B3. reflexivity. }
  assert (F3 : snd r3 = (if sent_trailing_metadata s then None
                         else send_trailing_metadata_finished s) /\
               completed (fst r3)
               = completed t2
                 ++ (if sent_trailing_metadata s
                     then closure_run error
                            (send_trailing_metadata_finished s)
                     else []) /\
               is_client (fst r3) = is_client t2).
  { subst r3. rewrite T2, S2. destruct (sent_trailing_metadata s).
    - destruct (complete_closure_step_spec t2
                  (send_trailing_metadata_finished s) error)
        as (A & B & _ & C & _). auto.
    - cbn. rewrite app_nil_r. auto. }
  destruct F3 as (C1 & C2 & C3).
  set (t3 := fst r3) in *.
  set (s3 := S.set_send_trailing_metadata_finished s2 (snd r3)).
  cbn zeta.
  split.
  - cbn [streams set_stream T.set_streams grpc_chttp2_leave_writing_lists
         T.set_writing T.set_writable T.set_stalled_by_transport].
    rewrite Z.eqb_refl, T2.
    unfold finished_as, same_send_state, GRPC_CHTTP2_STREAM_UNREF,
      grpc_chttp2_mark_stream_closed.
    rewrite C3, B2, A3.
    subst s3. clearbody s2 r3 t3 t2 u.
    destruct (sent_trailing_metadata s) eqn:ET; cbn;
      repeat match goal with
             | |- context [?p s2] =>
                 lazymatch p with
                 | refs => fail
                 | _ => change (p s2) with (p (S.set_refs s2 0)); rewrite B3
                 end
             end;
      subst s1; cbn; rewrite ?C1, ?A1, ?B4, ?ET, ?orb_false_r, ?orb_true_r;
      split_ands; try reflexivity; try lia.
  - cbn [completed set_stream T.set_streams grpc_chttp2_leave_writing_lists
         T.set_writing T.set_writable T.set_stalled_by_transport].
    rewrite C2, B1, A2, <- !app_assoc. reflexivity.
Qed.

Lemma finish_streams_each fuel error :
  forall t,
    (length (writing t) <= fuel)%nat ->
    forall id,
      (In id (writing t) ->
       finished_as (is_client t) (streams t id)
         (streams (finish_streams fuel error t) id)) /\
      (~ In id (writing t) ->
       streams (finish_streams fuel error t) id = streams t id).
Proof.
  induction fuel as [|fuel IH]; intros t Hl id.
  - destruct (writing t) as [|j rest] eqn:E; [|cbn in Hl; lia].
    split; [intros []|reflexivity].
  - cbn [finish_streams].
    destruct (grpc_chttp2_list_pop_writing_stream t) as [[j t1]|] eqn:E.
    + apply pop_writing_inv in E. destruct E as (rest & Hw & ->).
      set (t1 := finish_stream j error (T.set_writing t rest)).
      destruct (finish_stream_effect j error (T.set_writing t rest))
        as (_ & _ & F3 & _ & _ & _ & F7 & F8 & _).
      destruct (finish_stream_fields j error (T.set_writing t rest))
        as (G & _).
      fold t1 in F3, F7, F8, G. cbn zeta in F3, F7, F8, G.
      change (writing (T.set_writing t rest)) with rest in F8.
      change (streams (T.set_writing t rest)) with (streams t) in *.
      change (is_client (T.set_writing t rest)) with (is_client t) in *.
      assert (Hl1 : (length (writing t1) <= fuel)%nat).
      { rewrite F8. pose proof (stream_list_remove_length rest j).
        rewrite Hw in Hl. cbn in Hl. lia. }
      destruct (IH t1 Hl1 id) as [I1 I2].
      rewrite Hw. destruct (Z.eq_dec id j) as [->|Hne].
      * split; [|intros H; exfalso; apply H; left; reflexivity].
        intros _. rewrite I2; [exact G|].
        rewrite F8, stream_list_remove_In. tauto.
      * rewrite F8, stream_list_remove_In in I1, I2.
        rewrite F7 in I1. rewrite (F3 id Hne) in I1, I2.
        split.
        -- intros [H|H]; [congruence|]. apply I1. auto.
        -- intros H. apply I2. intros [H1 _]. apply H. right. exact H1.
    + unfold grpc_chttp2_list_pop_writing_stream in E.
      destruct (writing t); [|discriminate].
      split; [intros []|reflexivity].
Qed.

Lemma end_write_each t error id :
  (In id (writing t) ->
   finished_as (is_client t) (streams t id)
     (streams (grpc_chttp2_end_write t error) id)) /\
  (~ In id (writing t) ->
   streams (grpc_chttp2_end_write t error) id = streams t id).
Proof.
  unfold grpc_chttp2_end_write.
  apply (finish_streams_each (length (writing t)) error t). lia.
Qed.

(** X13: [grpc_chttp2_end_write] works on the streams of the writing list, on
    each of them once, and on no other stream.  For a stream of the list it
    adds the bytes of this write to the bytes written and clears
    [sending_bytes]; when the write carried bytes of the stream it keeps
    the callbacks that the new total does not reach, in reverse order, and
    when it carried none it leaves the callback list as it is, whatever
    the thresholds; it releases the reference of the list entry. *)
Theorem end_write_accounts_bytes
    (t : grpc_chttp2_transport) (error : grpc_error) (id : stream_id) :
  let s := streams t id in
  let s' := streams (grpc_chttp2_end_write t error) id in
  (In id (writing t) ->
   sending_bytes s' = 0 /\
   flow_controlled_bytes_written s'
   = flow_controlled_bytes_written s + C.to_int64 (sending_bytes s) /\
   on_write_finished_cbs s'
   = (if sending_bytes s =? 0 then on_write_finished_cbs s
      else rev (filter (not_due (flow_controlled_bytes_written s'))
                  (on_write_finished_cbs s))) /\
   refs s' = refs s - 1) /\
  (~ In id (writing t) -> s' = s).
Proof.
  cbn zeta. destruct (end_write_each t error id) as [H1 H2].
  split; [|exact H2].
  intros Hin. destruct (H1 Hin) as (R & B & W & C & _). auto.
Qed.

Lemma end_write_accounts_bytes_witness :
  let cb := {| call_at_byte := 3; closure := Some 7 |} in
  let s := S.set_on_write_finished_cbs idle_stream [cb] in
  let t := T.set_writing (set_stream (fresh_transport true) 1 s) [1] in
  on_write_finished_cbs (streams (grpc_chttp2_end_write t GRPC_ERROR_NONE) 1)
  = [cb] /\
  streams (grpc_chttp2_end_write t GRPC_ERROR_NONE) 2 = idle_stream.
Proof.
  intros cb s t.
  destruct (end_write_accounts_bytes t GRPC_ERROR_NONE 1) as [H _].
  destruct H as (_ & _ & C & _); [left; reflexivity|].
  destruct (end_write_accounts_bytes t GRPC_ERROR_NONE 2) as [_ H2].
  split; [exact C|].
  apply H2. cbn. intros [H|H]; [discriminate H|exact H].
Defined.

(** X14: for a stream of the writing list, [grpc_chttp2_end_write] empties the
    completion slot of the initial metadata once that metadata is sent, and
    the slot of the trailing metadata once that is sent; in the second case
    it closes the stream for writing, and for reading as well on a server.
    It leaves both slots and both flags alone otherwise. *)
Theorem end_write_closes_after_trailing_metadata
    (t : grpc_chttp2_transport) (error : grpc_error) (id : stream_id) :
  let s := streams t id in
  let s' := streams (grpc_chttp2_end_write t error) id in
  In id (writing t) ->
  send_initial_metadata_finished s'
  = (if sent_initial_metadata s then None
     else send_initial_metadata_finished s) /\
  send_trailing_metadata_finished s'
  = (if sent_trailing_metadata s then None
     else send_trailing_metadata_finished s) /\
  write_closed s' = write_closed s || sent_trailing_metadata s /\
  read_closed s'
  = read_closed s || (sent_trailing_metadata s && negb (is_client t)).
Proof.
  cbn zeta. intros Hin.
  destruct (end_write_each t error id) as [H1 _].
  destruct (H1 Hin) as (_ & _ & _ & _ & I & T & R & W & _). auto.
Qed.

Lemma end_write_closes_after_trailing_metadata_witness :
  let s := S.set_sent_trailing_metadata
             (S.set_send_trailing_metadata_finished idle_stream (Some 9))
             true in
  let client := T.set_writing (set_stream (fresh_transport true) 1 s) [1] in
  let server := T.set_writing (set_stream (fresh_transport false) 1 s) [1] in
  let c' := streams (grpc_chttp2_end_write client GRPC_ERROR_NONE) 1 in
  let s' := streams (grpc_chttp2_end_write server GRPC_ERROR_NONE) 1 in
  (write_closed c' = true /\ read_closed c' = false) /\
  (write_closed s' = true /\ read_closed s' = true) /\
  send_trailing_metadata_finished s' = None.
Proof.
  intros s client server c' s'.
  destruct (end_write_closes_after_trailing_metadata client
              GRPC_ERROR_NONE 1) as (_ & _ & W1 & R1);
    [left; reflexivity|].
  destruct (end_write_closes_after_trailing_metadata server
              GRPC_ERROR_NONE 1) as (_ & T2 & W2 & R2);
    [left; reflexivity|].
  split; [split; [exact W1|exact R1]|].
  split; [split; [exact W2|exact R2]|exact T2].
Defined.

(** ** The completions of [grpc_chttp2_end_write] *)

Lemma stream_list_remove_notin l id :
  ~ In id l -> stream_list_remove l id = l.
Proof.
  unfold stream_list_remove. induction l as [|i l IH]; cbn; [reflexivity|].
  intros H. destruct (Z.eqb_spec i id) as [->|Hne]; cbn.
  - exfalso. apply H. left. reflexivity.
  - rewrite IH; [reflexivity|]. intros Hin. apply H. right. exact Hin.
Qed.

Lemma flat_map_ext_in {A B} (f g : A -> list B) (l : list A) :
  (forall a, In a l -> f a = g a) -> flat_map f l = flat_map g l.
Proof.
  induction l as [|a l IH]; cbn; intros H; [reflexivity|].
  rewrite (H a) by (left; reflexivity).
  rewrite IH; [reflexivity|]. intros b Hb. apply H. right. exact Hb.
Qed.

Lemma finish_streams_completions fuel error :
  forall t,
    (length (writing t) <= fuel)%nat ->
    NoDup (writing t) ->
    completed (finish_streams fuel error t)
    = completed t
      ++ flat_map (fun id => stream_completions error (streams t id))
           (writing t).
Proof.
  induction fuel as [|fuel IH]; intros t Hl Hn.
  - destruct (writing t) as [|j rest] eqn:E; [|cbn in Hl; lia].
    cbn. rewrite app_nil_r. reflexivity.
  - cbn [finish_streams].
    destruct (grpc_chttp2_list_pop_writing_stream t) as [[j t1]|] eqn:E.
    + apply pop_writing_inv in E. destruct E as (rest & Hw & ->).
      set (t1 := finish_stream j error (T.set_writing t rest)).
      destruct (finish_stream_effect j error (T.set_writing t rest))
        as (_ & _ & F3 & _ & _ & _ & _ & F8 & _).
      destruct (finish_stream_fields j error (T.set_writing t rest))
        as (_ & G).
      fold t1 in F3, F8, G. cbn zeta in F3, F8, G.
      change (writing (T.set_writing t rest)) with rest in F8.
      change (streams (T.set_writing t rest)) with (streams t) in *.
      change (completed (T.set_writing t rest)) with (completed t) in *.
      rewrite Hw in Hn, Hl. inversion Hn as [|x l Hj Hr]; subst.
      rewrite (stream_list_remove_notin rest j Hj) in F8.
      rewrite IH; [|rewrite F8; cbn in Hl; lia|rewrite F8; exact Hr].
      rewrite F8, G, Hw. cbn [flat_map]. rewrite <- app_assoc.
      f_equal. f_equal. apply flat_map_ext_in.
      intros a Ha. rewrite F3; [reflexivity|].
      intros ->. exact (Hj Ha).
    + unfold grpc_chttp2_list_pop_writing_stream in E.
      destruct (writing t); [|discriminate].
      cbn. rewrite app_nil_r. reflexivity.
Qed.

(** X15: the closures that [grpc_chttp2_end_write] runs, in order: stream by
    stream as the writing list has them, and for each stream the
    completion of the initial metadata, then the write callbacks that the
    bytes of this write reach, then the completion of the trailing
    metadata; every one of them gets the outcome of the write. *)
Theorem end_write_completions_in_order
    (t : grpc_chttp2_transport) (error : grpc_error) :
  NoDup (writing t) ->
  let news := flat_map (fun id => stream_completions error (streams t id))
                (writing t) in
  completed (grpc_chttp2_end_write t error) = completed t ++ news /\
  Forall (fun c => snd c = error) news.
Proof.
  intros Hn news. split.
  - unfold grpc_chttp2_end_write. cbn [completed T.set_outbuf].
    apply finish_streams_completions; [lia|exact Hn].
  - subst news. apply Forall_flat_map. apply Forall_forall. intros id _.
    unfold stream_completions, closure_run.
    apply Forall_app. split; [|apply Forall_app; split].
    + destruct (sent_initial_metadata _); [|constructor].
      destruct (send_initial_metadata_finished _); repeat constructor.
    + destruct (_ =? 0); [constructor|].
      apply Forall_flat_map. apply Forall_forall. intros cb _.
      unfold run_closure. destruct (closure cb); repeat constructor.
    + destruct (sent_trailing_metadata _); [|constructor].
      destruct (send_trailing_metadata_finished _); repeat constructor.
Qed.

Lemma end_write_completions_in_order_witness :
  let cb := {| call_at_byte := 3; closure := Some 7 |} in
  let s := S.set_send_trailing_metadata_finished
             (S.set_send_initial_metadata_finished
                (S.set_sent_trailing_metadata
                   (S.set_sent_initial_metadata
                      (S.set_sending_bytes
                         (S.set_on_write_finished_cbs idle_stream [cb]) 5)
                      true) true) (Some 6)) (Some 8) in
  let t := T.set_writing (set_stream (fresh_transport true) 1 s) [1] in
  completed (grpc_chttp2_end_write t GRPC_ERROR_NONE)
  = [(6, GRPC_ERROR_NONE); (7, GRPC_ERROR_NONE); (8, GRPC_ERROR_NONE)].
Proof.
  intros cb s t.
  destruct (end_write_completions_in_order t GRPC_ERROR_NONE) as [H _].
  { repeat constructor. intros []. }
  exact H.
Defined.

(** ** Two calls of [grpc_chttp2_end_write] *)

(** X16: a second [grpc_chttp2_end_write] finds the writing list and the
    output buffer empty and changes nothing: no closure runs twice. *)
Theorem end_write_twice
    (t : grpc_chttp2_transport) (e1 e2 : grpc_error) :
  writing (grpc_chttp2_end_write t e1) = [] /\
  outbuf (grpc_chttp2_end_write t e1) = [] /\
  grpc_chttp2_end_write (grpc_chttp2_end_write t e1) e2
  = grpc_chttp2_end_write t e1.
Proof.
  destruct (end_write_drains t e1) as [W O].
  split; [exact W|]. split; [exact O|].
  unfold grpc_chttp2_end_write at 1. rewrite W. cbn [length finish_streams].
  unfold grpc_chttp2_end_write. reflexivity.
Qed.

(** X17: [grpc_chttp2_end_write] frames nothing and debits nothing: it leaves
    the windows, the queued frames and, in every stream, the buffer, the
    pending metadata and the sent flags as they are. *)
Theorem end_write_keeps_send_state
    (t : grpc_chttp2_transport) (error : grpc_error) :
  let t' := grpc_chttp2_end_write t error in
  t_outgoing_window t' = t_outgoing_window t /\
  qbuf t' = qbuf t /\
  forall i,
    outgoing_window (streams t' i) = outgoing_window (streams t i) /\
    announce_window (streams t' i) = announce_window (streams t i) /\
    flow_controlled_buffer (streams t' i)
    = flow_controlled_buffer (streams t i) /\
    send_initial_metadata (streams t' i)
    = send_initial_metadata (streams t i) /\
    send_trailing_metadata (streams t' i)
    = send_trailing_metadata (streams t i) /\
    sent_initial_metadata (streams t' i)
    = sent_initial_metadata (streams t i) /\
    sent_trailing_metadata (streams t' i)
    = sent_trailing_metadata (streams t i).
Proof.
  destruct (end_write_effect t error) as (I1 & _ & I3 & I4 & _).
  cbn zeta in *. split; [exact I4|]. split; [exact I3|].
  intros i. destruct (I1 i) as (A1 & A2 & A3 & A4 & A5 & A6 & A7 & _).
  auto 10.
Qed.

(** ** The bytes of a stream over a run *)

Lemma stream_payload_settings id t :
  stream_payload id (settings_frames t) = [].
Proof.
  unfold settings_frames. destruct (_ && _); reflexivity.
Qed.

Lemma stream_payload_transport_window_update id t :
  stream_payload id (transport_window_update_frames t) = [].
Proof.
  unfold transport_window_update_frames. destruct (0 <? _); reflexivity.
Qed.

Lemma step_payload id e c :
  let c' := step e c in
  stream_payload id (framed c')
  ++ flow_controlled_buffer (streams (fst c') id)
  = (stream_payload id (framed c)
     ++ flow_controlled_buffer (streams (fst c) id))
    ++ event_body id e.
Proof.
  destruct c as [t wire]. unfold framed.
  assert (M : forall i s body,
             flow_controlled_buffer s
             = flow_controlled_buffer (streams t i) ++ body ->
             stream_payload id (wire ++ outbuf (mark_writable t i s)
                                ++ qbuf (mark_writable t i s))
             ++ flow_controlled_buffer (streams (mark_writable t i s) id)
             = (stream_payload id (wire ++ outbuf t ++ qbuf t)
                ++ flow_controlled_buffer (streams t id))
               ++ (if i =? id then body else [])).
  { intros i s body Hs.
    destruct (mark_writable_effect t i s) as (M1 & M2 & M3 & M4 & _).
    apply same_but_refs_fields in M1.
    destruct M1 as (_ & _ & _ & _ & _ & M1 & _).
    cbn zeta in M1, M2, M3, M4. rewrite M3, M4.
    destruct (Z.eqb_spec i id) as [->|Hne].
    - rewrite M1, Hs, <- !app_assoc. reflexivity.
    - rewrite M2 by congruence. rewrite app_nil_r. reflexivity. }
  destruct e as [|error|i n|n|i md|i body|i md];
    cbn [step fst snd event_body].
  - (* BeginWrite *)
    destruct (begin_write_payload t) as (fs & O & P).
    destruct (begin_write_account t) as (fs0 & _ & Q & _).
    cbn zeta in Q. rewrite O, Q.
    rewrite !stream_payload_app, stream_payload_settings,
      stream_payload_transport_window_update, !app_nil_r.
    cbn [app]. rewrite <- !app_assoc. rewrite (P id). reflexivity.
  - (* EndWrite *)
    destruct (end_write_effect t error) as (I1 & I2 & I3 & _).
    destruct (I1 id) as (_ & _ & _ & _ & _ & B & _).
    cbn zeta in I2, I3. rewrite I2, I3, B.
    rewrite app_nil_r. cbn [app]. rewrite <- !app_assoc. reflexivity.
  - (* CreditStream *)
    rewrite app_nil_r. cbn.
    destruct (Z.eqb_spec id i) as [->|Hne]; reflexivity.
  - (* CreditTransport *)
    rewrite app_nil_r. reflexivity.
  - (* SendInitialMetadata *)
    destruct (is_null (send_initial_metadata (streams t i))
              && negb (sent_initial_metadata (streams t i)));
      cbn [fst snd]; [|rewrite app_nil_r; reflexivity].
    rewrite (M i _ []) by (cbn; rewrite app_nil_r; reflexivity).
    destruct (i =? id); reflexivity.
  - (* SendMessage *)
    apply M. reflexivity.
  - (* SendTrailingMetadata *)
    destruct (is_null (send_trailing_metadata (streams t i))
              && negb (sent_trailing_metadata (streams t i)));
      cbn [fst snd]; [|rewrite app_nil_r; reflexivity].
    rewrite (M i _ []) by (cbn; rewrite app_nil_r; reflexivity).
    destruct (i =? id); reflexivity.
Qed.

(** X18: over any run of passes, completions, credits and send requests, the
    bytes of a stream go out as the caller handed them in, none lost, none
    twice and none out of order: the payloads of the DATA frames produced
    for the stream, then what its buffer holds, are what they were before
    the run followed by the messages sent during the run. *)
Theorem payload_delivered_in_order
    (events : list event) (c : connection) (id : stream_id) :
  stream_payload id (framed (run events c))
  ++ flow_controlled_buffer (streams (fst (run events c)) id)
  = stream_payload id (framed c)
    ++ flow_controlled_buffer (streams (fst c) id)
    ++ sent_bodies id events.
Proof.
  unfold run, sent_bodies. revert c.
  induction events as [|e events IH]; intros c; cbn [fold_left flat_map].
  - rewrite app_nil_r. reflexivity.
  - rewrite IH. pose proof (step_payload id e c) as H. cbn zeta in H.
    rewrite app_assoc, H, <- !app_assoc. reflexivity.
Qed.

(** ** A write cycle: the bytes framed are the bytes written *)

Lemma stream_data_bytes_nonneg id l : 0 <= stream_data_bytes id l.
Proof. unfold stream_data_bytes. apply data_bytes_nonneg. Qed.

Lemma to_uint64_add_idemp a b :
  C.to_uint64 (C.to_uint64 a + b) = C.to_uint64 (a + b).
Proof. unfold C.to_uint64. apply Zplus_mod_idemp_l. Qed.

Lemma begin_write_sending_bytes (t : grpc_chttp2_transport) :
  exists fs,
    outbuf (begin_write_state t)
    = outbuf t ++ settings_frames t ++ qbuf t ++ fs
      ++ transport_window_update_frames t /\
    forall id,
      sending_bytes (streams (begin_write_state t) id)
      = (if 0 <? stream_data_bytes id fs
         then C.to_uint64 (sending_bytes (streams t id)
                           + stream_data_bytes id fs)
         else sending_bytes (streams t id)) /\
      buffer_length (streams (begin_write_state t) id)
      = buffer_length (streams t id) - stream_data_bytes id fs.
Proof.
  apply (begin_write_ind
           (fun t1 fs =>
              forall id,
                sending_bytes (streams t1 id)
                = (if 0 <? stream_data_bytes id fs
                   then C.to_uint64 (sending_bytes (streams t id)
                                     + stream_data_bytes id fs)
                   else sending_bytes (streams t id)) /\
                buffer_length (streams t1 id)
                = buffer_length (streams t id) - stream_data_bytes id fs)).
  - intros t1 fs j rest H _ id. destruct (H id) as [H1 H2].
    rewrite stream_data_bytes_app.
    pose proof (stream_data_bytes_nonneg id fs) as Hd.
    destruct (write_stream_account j (T.set_writable t1 rest))
      as (_ & _ & _ & A3 & A4 & _).
    change (streams (T.set_writable t1 rest)) with (streams t1) in *.
    destruct (Z.eq_dec id j) as [->|Hne].
    + destruct (write_stream_sending j (T.set_writable t1 rest))
        as (_ & B & _).
      cbn zeta in B, A3.
      change (streams (T.set_writable t1 rest)) with (streams t1) in *.
      rewrite (stream_data_bytes_own j _ (stream_frames_own j _)).
      pose proof (data_bytes_nonneg
                    (stream_frames j (T.set_writable t1 rest))) as Hn.
      split; [|lia].
      rewrite B, H1.
      destruct (Z.ltb_spec 0
                  (data_bytes (stream_frames j (T.set_writable t1 rest))))
        as [Hp|Hz].
      * destruct (Z.ltb_spec 0 (stream_data_bytes j fs));
          destruct (Z.ltb_spec 0
                      (stream_data_bytes j fs
                       + data_bytes
                           (stream_frames j (T.set_writable t1 rest))));
          try lia.
        -- rewrite to_uint64_add_idemp. f_equal. lia.
        -- f_equal. lia.
      * replace (data_bytes (stream_frames j (T.set_writable t1 rest)))
          with 0 by lia.
        rewrite Z.add_0_r. reflexivity.
    + rewrite A4 by exact Hne.
      rewrite (stream_data_bytes_other j id _ Hne (stream_frames_own j _)).
      rewrite Z.add_0_r. auto.
  - intros t2 fs H id. rewrite pass_streams_epilogue. apply H.
  - intros id. rewrite pass_streams_prologue. cbn. split; [reflexivity|lia].
Qed.

(** X19: [sending_bytes] counts, modulo 2^64, the bytes of the stream that the
    passes since the last [grpc_chttp2_end_write] framed: a pass adds to it
    the payload of the DATA frames it frames for the stream. *)
Theorem sending_bytes_count_framed_payload
    (t : grpc_chttp2_transport) :
  exists fs,
    outbuf (begin_write_state t)
    = outbuf t ++ settings_frames t ++ qbuf t ++ fs
      ++ transport_window_update_frames t /\
    forall id,
      0 <= sending_bytes (streams t id) < 2 ^ 64 ->
      sending_bytes (streams (begin_write_state t) id)
      = C.to_uint64 (sending_bytes (streams t id) + stream_data_bytes id fs).
Proof.
  destruct (begin_write_sending_bytes t) as (fs & O & H).
  exists fs. split; [exact O|]. intros id Hr.
  destruct (H id) as [H1 _]. rewrite H1.
  pose proof (stream_data_bytes_nonneg id fs) as Hd.
  destruct (Z.ltb_spec 0 (stream_data_bytes id fs)); [reflexivity|].
  replace (stream_data_bytes id fs) with 0 by lia.
  rewrite Z.add_0_r. unfold C.to_uint64. rewrite Z.mod_small; lia.
Qed.

Lemma sending_bytes_count_framed_payload_witness :
  sending_bytes (streams (begin_write_state large_body) 1) = 20000.
Proof.
  destruct (sending_bytes_count_framed_payload large_body)
    as (fs & O & H).
  assert (E : outbuf (begin_write_state large_body)
              = [HEADERS 1 {| md_elems := [] |} false 16384;
                 DATA 1 (repeat x61 (Z.to_nat 16384)) false;
                 DATA 1 (repeat x61 (Z.to_nat 3616)) false])
    by (vm_compute; reflexivity).
  rewrite E in O.
  change (outbuf large_body ++ settings_frames large_body
          ++ qbuf large_body ++ fs
          ++ transport_window_update_frames large_body)
    with (fs ++ []) in O.
  rewrite app_nil_r in O. subst fs.
  rewrite (H 1) by (cbn; lia).
  vm_compute. reflexivity.
Defined.

(** X20: a write cycle, [grpc_chttp2_begin_write] and then
    [grpc_chttp2_end_write], for a stream that the pass leaves on the
    writing list: the bytes written advance by the payload that the pass
    framed for the stream, and [sending_bytes] is back to zero. *)
Theorem write_cycle_advances_bytes_written
    (t : grpc_chttp2_transport) (error : grpc_error) (id : stream_id) :
  sending_bytes (streams t id) = 0 ->
  buffer_length (streams t id) < 2 ^ 63 ->
  In id (writing (begin_write_state t)) ->
  exists fs,
    outbuf (begin_write_state t)
    = outbuf t ++ settings_frames t ++ qbuf t ++ fs
      ++ transport_window_update_frames t /\
    let t' := grpc_chttp2_end_write (begin_write_state t) error in
    flow_controlled_bytes_written (streams t' id)
    = flow_controlled_bytes_written (streams t id)
      + stream_data_bytes id fs /\
    sending_bytes (streams t' id) = 0.
Proof.
  intros Hs Hb Hin.
  destruct (begin_write_sending_bytes t) as (fs & O & H).
  exists fs. split; [exact O|]. cbn zeta.
  destruct (H id) as [H1 H2].
  destruct (begin_write_completes_nothing_lemma t) as (_ & _ & K).
  destruct (K id) as (_ & _ & _ & K4 & _).
  destruct (end_write_each (begin_write_state t) error id) as [E _].
  destruct (E Hin) as (_ & E2 & E3 & _).
  split; [|exact E2].
  rewrite E3, K4, H1, Hs. f_equal.
  pose proof (stream_data_bytes_nonneg id fs) as Hd.
  pose proof (buffer_length_nonneg (streams (begin_write_state t) id)) as Hn.
  destruct (Z.ltb_spec 0 (stream_data_bytes id fs)).
  - rewrite Z.add_0_l. unfold C.to_uint64, C.to_int64.
    assert (P63 : 2 ^ 63 = 9223372036854775808) by reflexivity.
    assert (P64 : 2 ^ 64 = 18446744073709551616) by reflexivity.
    rewrite (Z.mod_small (stream_data_bytes id fs)) by lia.
    rewrite Z.mod_small by lia. lia.
  - rewrite to_int64_zero. lia.
Qed.

Lemma write_cycle_advances_bytes_written_witness :
  let t := scenario1 true {| md_elems := [] |} [x61; x62] None in
  let t' := grpc_chttp2_end_write (begin_write_state t) GRPC_ERROR_NONE in
  flow_controlled_bytes_written (streams t' 1) = 2 /\
  sending_bytes (streams t' 1) = 0.
Proof.
  intros t t'.
  assert (E : outbuf (begin_write_state t)
              = [HEADERS 1 {| md_elems := [] |} false 16384;
                 DATA 1 [x61; x62] false]) by (vm_compute; reflexivity).
  destruct (write_cycle_advances_bytes_written t GRPC_ERROR_NONE 1)
    as (fs & O & W & S).
  - reflexivity.
  - vm_compute. reflexivity.
  - vm_compute. left. reflexivity.
  - rewrite E in O.
    change (outbuf t ++ settings_frames t ++ qbuf t ++ fs
            ++ transport_window_update_frames t) with (fs ++ []) in O.
    rewrite app_nil_r in O. subst fs.
    split; [exact W|exact S].
Defined.

(** ** The initial metadata goes out once *)

Lemma initial_headers_frames_app id l1 l2 :
  initial_headers_frames id (l1 ++ l2)
  = (initial_headers_frames id l1 + initial_headers_frames id l2)%nat.
Proof.
  unfold initial_headers_frames. rewrite filter_app. apply length_app.
Qed.

Lemma initial_headers_frames_none id l :
  existsb (is_initial_headers id) l = false ->
  initial_headers_frames id l = 0%nat.
Proof.
  unfold initial_headers_frames.
  induction l as [|f l IH]; cbn; [reflexivity|].
  intros H. apply orb_false_elim in H. destruct H as [H1 H2].
  rewrite H1. apply IH. exact H2.
Qed.

Lemma initial_headers_frames_other id j l :
  j <> id -> Forall (fun f => frame_stream f = j) l ->
  initial_headers_frames id l = 0%nat.
Proof.
  intros Hne H. apply initial_headers_frames_none.
  destruct (headers_first_other id j l false Hne H) as (_ & E & _).
  exact E.
Qed.

Lemma stream_frames_initial_headers id t :
  initial_headers_frames id (stream_frames id t)
  = (if negb (sent_initial_metadata (streams t id))
        && negb (is_null (send_initial_metadata (streams t id)))
     then 1 else 0)%nat.
Proof.
  unfold stream_frames.
  set (w0 := enter id t).
  set (w1 := write_initial_metadata id w0).
  set (w2 := write_window_update id w1).
  destruct (write_window_update_sent id w1) as (_ & _ & _ & B4 & _).
  rewrite !initial_headers_frames_app.
  rewrite (initial_headers_frames_none id _ B4).
  assert (E : initial_headers_frames id
                (if it_sent_initial_metadata w2
                 then body_frames id w2
                      ++ trailing_metadata_frames id (write_body id w2)
                 else []) = 0%nat).
  { apply initial_headers_frames_none.
    destruct (it_sent_initial_metadata w2); [|reflexivity].
    destruct (write_body_sent id w2) as (_ & C2).
    destruct (write_trailing_metadata_sent id (write_body id w2))
      as (_ & _ & D3).
    rewrite existsb_app, C2, D3. reflexivity. }
  rewrite E, !Nat.add_0_r.
  unfold initial_metadata_frames, initial_headers_frames.
  change (it_sent_initial_metadata w0)
    with (sent_initial_metadata (streams t id)).
  change (it_s w0) with (streams t id).
  destruct (send_initial_metadata (streams t id));
    destruct (sent_initial_metadata (streams t id)); cbn;
    rewrite ?Z.eqb_refl; reflexivity.
Qed.

Lemma begin_write_initial_headers id t :
  exists fs,
    outbuf (begin_write_state t)
    = outbuf t ++ settings_frames t ++ qbuf t ++ fs
      ++ transport_window_update_frames t /\
    initial_headers_frames id fs
    = risen (sent_initial_metadata (streams t id))
        (sent_initial_metadata (streams (begin_write_state t) id)) /\
    (sent_initial_metadata (streams t id) = true ->
     sent_initial_metadata (streams (begin_write_state t) id) = true).
Proof.
  apply (begin_write_ind
           (fun t1 fs =>
              initial_headers_frames id fs
              = risen (sent_initial_metadata (streams t id))
                  (sent_initial_metadata (streams t1 id)) /\
              (sent_initial_metadata (streams t id) = true ->
               sent_initial_metadata (streams t1 id) = true))).
  - intros t1 fs j rest [H1 H2] _.
    rewrite initial_headers_frames_app, H1.
    change (streams t1 id) with (streams (T.set_writable t1 rest) id)
      in *.
    destruct (Z.eq_dec j id) as [->|Hne].
    + rewrite stream_frames_initial_headers, write_stream_sent_initial.
      unfold risen.
      destruct (sent_initial_metadata (streams t id));
        destruct (sent_initial_metadata
                    (streams (T.set_writable t1 rest) id));
        destruct (is_null (send_initial_metadata
                             (streams (T.set_writable t1 rest) id)));
        cbn; auto; specialize (H2 eq_refl); discriminate.
    + destruct (write_stream_account j (T.set_writable t1 rest))
        as (_ & _ & _ & _ & S & _).
      rewrite S by congruence.
      rewrite (initial_headers_frames_other id j _ Hne
                 (stream_frames_own j _)).
      rewrite Nat.add_0_r. auto.
  - intros t2 fs H. rewrite pass_streams_epilogue. exact H.
  - rewrite pass_streams_prologue. unfold risen.
    destruct (sent_initial_metadata (streams t id)); cbn; auto.
Qed.

Lemma step_initial_headers id e c :
  let c' := step e c in
  initial_headers_frames id (framed c')
  = (initial_headers_frames id (framed c)
     + risen (sent_initial_metadata (streams (fst c) id))
         (sent_initial_metadata (streams (fst c') id)))%nat /\
  (sent_initial_metadata (streams (fst c) id) = true ->
   sent_initial_metadata (streams (fst c') id) = true).
Proof.
  destruct c as [t wire].
  assert (Q : forall c' : connection,
             framed c' = framed (t, wire) ->
             sent_initial_metadata (streams (fst c') id)
             = sent_initial_metadata (streams t id) ->
             initial_headers_frames id (framed c')
             = (initial_headers_frames id (framed (t, wire))
                + risen (sent_initial_metadata (streams t id))
                    (sent_initial_metadata (streams (fst c') id)))%nat /\
             (sent_initial_metadata (streams t id) = true ->
              sent_initial_metadata (streams (fst c') id) = true)).
  { intros c' Hf Hs. rewrite Hf, Hs, risen_same. split; [lia|auto]. }
  assert (M : forall i s,
             sent_initial_metadata s
             = sent_initial_metadata (streams t i) ->
             framed (mark_writable t i s, wire) = framed (t, wire) /\
             sent_initial_metadata (streams (mark_writable t i s) id)
             = sent_initial_metadata (streams t id)).
  { intros i s Hs.
    destruct (mark_writable_effect t i s) as (M1 & M2 & M3 & M4 & _).
    apply same_but_refs_fields in M1. destruct M1 as (M1 & _).
    cbn zeta in M1, M2, M3, M4. unfold framed. cbn [fst snd].
    rewrite M3, M4. split; [reflexivity|].
    destruct (Z.eq_dec i id) as [->|Hne]; [congruence|].
    rewrite M2 by congruence. reflexivity. }
  destruct e as [|error|i n|n|i md|i body|i md]; cbn [step fst snd].
  - (* BeginWrite *)
    destruct (begin_write_initial_headers id t) as (fs & O & H1 & H2).
    destruct (begin_write_account t) as (fs0 & _ & Qb & _).
    cbn zeta in Qb. split; [|exact H2].
    unfold framed. cbn [fst snd]. rewrite O, Qb, <- H1.
    rewrite !initial_headers_frames_app.
    rewrite (initial_headers_frames_none id (settings_frames t))
      by apply (settings_frames_quiet id t false).
    rewrite (initial_headers_frames_none id
               (transport_window_update_frames t))
      by apply (transport_window_update_frames_quiet id t false).
    cbn. lia.
  - (* EndWrite *)
    destruct (end_write_effect t error) as (I1 & I2 & I3 & _).
    destruct (I1 id) as (E1 & _). cbn zeta in I2, I3.
    apply (Q (grpc_chttp2_end_write t error, wire ++ outbuf t));
      [|exact E1].
    unfold framed. cbn [fst snd]. rewrite I2, I3, <- app_assoc.
    reflexivity.
  - (* CreditStream *)
    apply (Q (set_stream t i
                (S.set_outgoing_window (streams t i)
                   (outgoing_window (streams t i) + n)), wire));
      [reflexivity|].
    cbn. destruct (Z.eqb_spec id i) as [->|Hne]; reflexivity.
  - (* CreditTransport *)
    apply (Q (T.set_t_outgoing_window t (t_outgoing_window t + n), wire));
      reflexivity.
  - (* SendInitialMetadata *)
    destruct (is_null (send_initial_metadata (streams t i))
              && negb (sent_initial_metadata (streams t i)));
      [|apply (Q (t, wire)); reflexivity].
    destruct (M i (S.set_send_initial_metadata (streams t i) (Some md))
                eq_refl) as [M1 M2].
    apply (Q (mark_writable t i _, wire)); assumption.
  - (* SendMessage *)
    destruct (M i (S.set_flow_controlled_buffer (streams t i)
                     (flow_controlled_buffer (streams t i) ++ body))
                eq_refl) as [M1 M2].
    apply (Q (mark_writable t i _, wire)); assumption.
  - (* SendTrailingMetadata *)
    destruct (is_null (send_trailing_metadata (streams t i))
              && negb (sent_trailing_metadata (streams t i)));
      [|apply (Q (t, wire)); reflexivity].
    destruct (M i (S.set_send_trailing_metadata (streams t i) (Some md))
                eq_refl) as [M1 M2].
    apply (Q (mark_writable t i _, wire)); assumption.
Qed.

(** X21: over any run of passes, completions, credits and send requests, the
    initial metadata of a stream is framed at most once: the frames
    produced gain one initial HEADERS frame of the stream if
    [sent_initial_metadata] goes up during the run, and none otherwise,
    and the flag never goes down. *)
Theorem initial_metadata_sent_once
    (events : list event) (c : connection) (id : stream_id) :
  let sent0 := sent_initial_metadata (streams (fst c) id) in
  let sent' := sent_initial_metadata (streams (fst (run events c)) id) in
  initial_headers_frames id (framed (run events c))
  = (initial_headers_frames id (framed c) + risen sent0 sent')%nat /\
  (risen sent0 sent' <= 1)%nat /\
  (sent0 = true -> sent' = true).
Proof.
  cbn zeta.
  assert (H : initial_headers_frames id (framed (run events c))
              = (initial_headers_frames id (framed c)
                 + risen (sent_initial_metadata (streams (fst c) id))
                     (sent_initial_metadata
                        (streams (fst (run events c)) id)))%nat /\
              (sent_initial_metadata (streams (fst c) id) = true ->
               sent_initial_metadata (streams (fst (run events c)) id)
               = true)).
  { unfold run. revert c.
    induction events as [|e events IH]; intros c; cbn [fold_left].
    - rewrite risen_same. split; [lia|auto].
    - destruct (step_initial_headers id e c) as [S1 S2].
      destruct (IH (step e c)) as [I1 I2]. cbn zeta in S1, S2.
      split; [|auto]. rewrite I1, S1. unfold risen.
      destruct (sent_initial_metadata (streams (fst c) id));
        destruct (sent_initial_metadata (streams (fst (step e c)) id));
        destruct (sent_initial_metadata
                    (streams
                       (fst (fold_left (fun c0 e0 => step e0 c0) events
                               (step e c))) id));
        cbn; try lia;
        try (specialize (S2 eq_refl); discriminate);
        try (specialize (I2 eq_refl); discriminate). }
  destruct H as [H1 H2]. split; [exact H1|].
  split; [apply risen_le|exact H2].
Qed.

Lemma initial_metadata_sent_once_witness :
  initial_headers_frames 1 (framed (run two_pass_events two_pass_connection))
  = 1%nat /\
  sent_initial_metadata
    (streams (fst (run two_pass_events two_pass_connection)) 1) = true.
Proof.
  destruct (initial_metadata_sent_once two_pass_events two_pass_connection 1)
    as (H & _ & _).
  split; [|vm_compute; reflexivity].
  rewrite H. vm_compute. reflexivity.
Defined.

(** ** The size of the DATA frame of an iteration *)

Lemma write_frames_local_sent id t :
  it_sent_initial_metadata
    (write_window_update id (write_initial_metadata id (enter id t)))
  = initial_metadata_ready (streams t id).
Proof.
  unfold write_window_update, write_initial_metadata, enter,
    initial_metadata_ready.
  cbn [it_s it_sent_initial_metadata].
  destruct (send_initial_metadata (streams t id));
    destruct (sent_initial_metadata (streams t id)); cbn;
    match goal with
    | |- context [if ?c then _ else _] => destruct c
    end; reflexivity.
Qed.

(** An iteration for a stream with bytes in its buffer and its initial
    metadata out or going out: one DATA frame with the head of the buffer,
    of the size that lines 141-147 compute. *)
Lemma stream_frames_data id t :
  let s := streams t id in
  initial_metadata_ready s = true ->
  0 < buffer_length s ->
  0 < max_outgoing t s ->
  data_bytes (stream_frames id t) = data_frame_size t s /\
  stream_payload id (stream_frames id t)
  = firstn (Z.to_nat (data_frame_size t s)) (flow_controlled_buffer s).
Proof.
  cbn zeta. intros Hr Hb Hm. unfold stream_frames.
  pose proof (write_frames_local_sent id t) as L.
  set (w0 := enter id t) in *.
  set (w1 := write_initial_metadata id w0) in *.
  set (w2 := write_window_update id w1) in *.
  destruct (write_initial_metadata_effect id w0) as [_ H1].
  destruct (write_window_update_effect id w1) as [_ H2].
  fold w1 in H1. fold w2 in H2.
  pose proof (write_initial_metadata_flow id w0) as F1.
  pose proof (write_window_update_flow id w1) as F2.
  fold w1 in F1. fold w2 in F2.
  pose proof (same_flow_trans _ _ _ F1 F2) as F.
  assert (Em : max_outgoing (it_t w2) (it_s w2)
               = max_outgoing t (streams t id)).
  { apply max_outgoing_ext.
    - apply same_but_outbuf_fields in H1, H2.
      destruct H1 as (_ & A2 & A3 & _). destruct H2 as (_ & B2 & B3 & _).
      change (it_t w0) with t in *. congruence.
    - apply same_but_outbuf_fields in H1, H2.
      destruct H1 as (_ & A2 & A3 & _). destruct H2 as (_ & B2 & B3 & _).
      change (it_t w0) with t in *. congruence.
    - destruct F as (Fw & _). exact Fw. }
  assert (Eb : flow_controlled_buffer (it_s w2)
               = flow_controlled_buffer (streams t id)).
  { destruct F as (_ & Fb & _). exact Fb. }
  assert (Ed : data_frame_size (it_t w2) (it_s w2)
               = data_frame_size t (streams t id)).
  { unfold data_frame_size, buffer_length. rewrite Em, Eb. reflexivity. }
  rewrite L, Hr.
  rewrite !data_bytes_app, !stream_payload_app, data_bytes_initial_metadata,
    data_bytes_window_update, data_bytes_trailing_metadata,
    stream_payload_initial_metadata, stream_payload_window_update,
    stream_payload_trailing_metadata, data_bytes_body.
  unfold body_frames.
  assert (Hb2 : (0 <? buffer_length (it_s w2)) = true).
  { apply Z.ltb_lt. unfold buffer_length in *. rewrite Eb. exact Hb. }
  assert (Hm2 : (0 <? max_outgoing (it_t w2) (it_s w2)) = true).
  { apply Z.ltb_lt. rewrite Em. exact Hm. }
  rewrite Hb2, Hm2, Ed, Eb. cbn [andb app].
  split; [lia|].
  pose proof (stream_payload_rst id (it_t w2) (it_s w2)) as Hr2.
  unfold stream_payload in *.
  destruct (is_last_frame (it_t w2) (it_s w2)); cbn;
    rewrite ?Hr2, Z.eqb_refl, !app_nil_r; reflexivity.
Qed.

Lemma write_stream_data id t n :
  let s := streams t id in
  let t' := write_stream id t in
  initial_metadata_ready s = true ->
  0 < buffer_length s ->
  0 < max_outgoing t s ->
  data_frame_size t s = n ->
  outbuf t' = outbuf t ++ stream_frames id t /\
  data_bytes (stream_frames id t) = n /\
  stream_payload id (stream_frames id t)
  = firstn (Z.to_nat n) (flow_controlled_buffer s) /\
  flow_controlled_buffer (streams t' id)
  = skipn (Z.to_nat n) (flow_controlled_buffer s) /\
  outgoing_window (streams t' id) = outgoing_window s - n /\
  t_outgoing_window t' = t_outgoing_window t - n.
Proof.
  cbn zeta. intros Hr Hb Hm Hn.
  destruct (stream_frames_data id t Hr Hb Hm) as [D P].
  destruct (write_stream_account id t) as (O & W & SW & _).
  destruct (write_stream_sending id t) as (B & _).
  cbn zeta in O, W, SW, B. rewrite Hn in D, P. rewrite D in W, SW.
  split; [exact O|]. split; [exact D|]. split; [exact P|].
  split; [|split; [exact SW|exact W]].
  rewrite P in B.
  rewrite <- (firstn_skipn (Z.to_nat n)
                (flow_controlled_buffer (streams t id))) in B at 2.
  apply app_inv_head in B. exact B.
Qed.

(** X22: an iteration for a stream that has bytes to send, its initial metadata
    out or going out, and room in both windows: it frames the head of the
    buffer in one DATA frame that is as large as the buffer, the frame size
    the peer acknowledged, the window of the stream and the window of the
    transport allow, and it debits both windows by that much. *)
Theorem data_frame_takes_minimum
    (id : stream_id) (t : grpc_chttp2_transport) :
  let s := streams t id in
  let t' := write_stream id t in
  let n := Z.min (buffer_length s)
             (Z.min (Z.of_N (acked_max_frame_size t))
                (Z.min (outgoing_window s) (t_outgoing_window t))) in
  initial_metadata_ready s = true ->
  0 < buffer_length s ->
  0 < outgoing_window s -> 0 < t_outgoing_window t ->
  (0 < acked_max_frame_size t < 2 ^ 32)%N ->
  outbuf t' = outbuf t ++ stream_frames id t /\
  data_bytes (stream_frames id t) = n /\
  stream_payload id (stream_frames id t)
  = firstn (Z.to_nat n) (flow_controlled_buffer s) /\
  flow_controlled_buffer (streams t' id)
  = skipn (Z.to_nat n) (flow_controlled_buffer s) /\
  outgoing_window (streams t' id) = outgoing_window s - n /\
  t_outgoing_window t' = t_outgoing_window t - n.
Proof.
  cbn zeta. intros Hr Hb Hs Ht Hf.
  assert (P32 : 2 ^ 32 = 4294967296) by reflexivity.
  assert (Hf' : 0 < Z.of_N (acked_max_frame_size t) < 4294967296).
  { change (2 ^ 32)%N with 4294967296%N in Hf. lia. }
  assert (Em : max_outgoing t (streams t id)
               = Z.min (Z.of_N (acked_max_frame_size t))
                   (Z.min (outgoing_window (streams t id))
                      (t_outgoing_window t))).
  { unfold max_outgoing. rewrite !GPR_MIN_spec.
    apply to_uint32_small. lia. }
  apply write_stream_data; try assumption.
  - rewrite Em. lia.
  - unfold data_frame_size. rewrite Em, GPR_MIN_spec.
    rewrite to_uint32_small by lia. lia.
Qed.

Lemma data_frame_takes_minimum_witness :
  data_bytes (stream_frames 1 (T.set_writable small_stream_window [])) = 4
  /\ t_outgoing_window
       (write_stream 1 (T.set_writable small_stream_window [])) = 65531.
Proof.
  destruct (data_frame_takes_minimum 1
              (T.set_writable small_stream_window []))
    as (_ & D & _ & _ & _ & W).
  - reflexivity.
  - vm_compute. reflexivity.
  - vm_compute. reflexivity.
  - vm_compute. reflexivity.
  - split; vm_compute; reflexivity.
  - split; [exact D|exact W].
Defined.

(** X23: a window below zero does not hold a stream back.  The smallest of the
    frame size, the window of the stream and the window of the transport
    is converted to 32 bits without sign, so that a negative one counts
    as [2^32] more: the iteration then frames the head of the buffer up to
    that size in one DATA frame, whatever the frame size of the peer, and
    takes the windows further down. *)
Theorem negative_window_does_not_block
    (id : stream_id) (t : grpc_chttp2_transport) :
  let s := streams t id in
  let t' := write_stream id t in
  let m := Z.min (Z.of_N (acked_max_frame_size t))
             (Z.min (outgoing_window s) (t_outgoing_window t)) in
  let n := Z.min (buffer_length s) (m + 2 ^ 32) in
  initial_metadata_ready s = true ->
  0 < buffer_length s ->
  - 2 ^ 32 < m < 0 ->
  outbuf t' = outbuf t ++ stream_frames id t /\
  data_bytes (stream_frames id t) = n /\
  stream_payload id (stream_frames id t)
  = firstn (Z.to_nat n) (flow_controlled_buffer s) /\
  outgoing_window (streams t' id) = outgoing_window s - n /\
  t_outgoing_window t' = t_outgoing_window t - n.
Proof.
  cbn zeta. intros Hr Hb Hm.
  assert (P32 : 2 ^ 32 = 4294967296) by reflexivity.
  rewrite P32 in *.
  assert (Em : max_outgoing t (streams t id)
               = Z.min (Z.of_N (acked_max_frame_size t))
                   (Z.min (outgoing_window (streams t id))
                      (t_outgoing_window t)) + 4294967296).
  { unfold max_outgoing, C.to_uint32. rewrite !GPR_MIN_spec, P32.
    symmetry. apply (Z.mod_unique _ _ (-1)); lia. }
  destruct (write_stream_data id t
              (Z.min (buffer_length (streams t id))
                 (Z.min (Z.of_N (acked_max_frame_size t))
                    (Z.min (outgoing_window (streams t id))
                       (t_outgoing_window t)) + 4294967296)))
    as (O & D & P & _ & SW & W); try assumption.
  - rewrite Em. lia.
  - unfold data_frame_size. rewrite Em, GPR_MIN_spec.
    rewrite to_uint32_small by (rewrite P32; lia). lia.
  - auto.
Qed.

Lemma negative_window_does_not_block_witness :
  let s := S.set_outgoing_window
             (S.set_flow_controlled_buffer
                (S.set_sent_initial_metadata idle_stream true)
                (repeat x61 (Z.to_nat 20000)))
             (-1) in
  let t := set_stream (fresh_transport true) 1 s in
  data_bytes (stream_frames 1 t) = 20000 /\
  outgoing_window (streams (write_stream 1 t) 1) = -20001.
Proof.
  intros s t.
  destruct (negative_window_does_not_block 1 t) as (_ & D & _ & W & _).
  - reflexivity.
  - vm_compute. reflexivity.
  - split; vm_compute; reflexivity.
  - split; [exact D|exact W].
Defined.
